(** * E-commerce dataset generator: a shallow embedding of
      [scripts/generate_dataset.py] and the properties of its generated data.

    The generator is sequential Python: it draws from the [random] module,
    from Faker, from [uuid.uuid4] and from the wall clock, builds dict
    records, and mutates product stock and user aggregates in place while it
    generates transactions.  The embedding keeps that shape:

    - Python [float] is IEEE binary64, i.e. Rocq's primitive [float];
      [round(x, n)] is CPython's correctly rounded decimal rounding;
    - Python [int] is [Z];
    - a raised exception is the [Raise] result of the monad [R];
    - every source of values outside the program (the Mersenne Twister stream
      behind [random], Faker's providers, [uuid4], [datetime.now]) is an
      oracle stream in the [World], read in program order;
    - [self.products] and [self.users] are lists whose positions are the
      identities of the dict objects: code that mutates a dict reached through
      a filtered or sampled list updates the list at that object's position. *)

From Stdlib Require Import ZArith Floats Lia Decimal DecimalString DecimalNat.
From Stdlib Require Import Ascii String.
From stdpp Require Import base tactics option list strings gmap.

Set Warnings "-inexact-float".

Close Scope float_scope.
Local Open Scope Z_scope.

(** ** Python numbers *)

Module Py.

(** [float(z)] for a Python int: the nearest binary64. *)
Definition float_of_Z (z : Z) : float :=
  SF2Prim (binary_normalize 53 1024 z 0 false).

(** The binary64 nearest to the rational [num/den], ties to even: the
    quotient is computed with at least 56 significant bits and a sticky bit,
    then rounded once. *)
Definition nearest_float (neg : bool) (num den : positive) :=
  let k := Z.max 0 (56 + Z.log2 (Z.pos den) - Z.log2 (Z.pos num)) in
  let a := Z.pos num * 2 ^ k in
  let q := a / Z.pos den in
  let sticky := if a mod Z.pos den =? 0 then 0 else 1 in
  match 2 * q + sticky with
  | Z.pos m => SF2Prim (binary_round 53 1024 neg m (- (k + 1)))
  | _ => SF2Prim (S754_zero neg)
  end.

(** Nearest integer to [a/b] for [b > 0], ties to even. *)
Definition round_half_even (a b : Z) : Z :=
  let q := a / b in
  let r := a mod b in
  match 2 * r ?= b with
  | Lt => q
  | Gt => q + 1
  | Eq => if Z.even q then q else q + 1
  end.

(** [round(x, ndigits)] on a float, for [ndigits >= 0]: CPython converts the
    exact binary value to the correctly rounded decimal with [ndigits]
    fractional digits (ties to even) and reads that decimal back as the
    nearest float.  Infinities and NaN are returned unchanged. *)
Definition round (x : float) (ndigits : nat) :=
  let p := 10 ^ Z.of_nat ndigits in
  match Prim2SF x with
  | S754_finite s m e =>
      let n := if 0 <=? e then Z.pos m * 2 ^ e * p
               else round_half_even (Z.pos m * p) (2 ^ (- e)) in
      match n with
      | Z.pos np => nearest_float s np (Z.to_pos p)
      | _ => SF2Prim (S754_zero s)
      end
  | _ => x
  end.

(** [sum(xs)] over floats: the start value is the int [0], and the items are
    added from left to right. *)
Definition sum (xs : list float) : float :=
  fold_left PrimFloat.add xs 0%float.

(** Exceptions the generator can raise; [ParseError] is Faker's own. *)
Inductive exn :=
  ValueError | IndexError | ZeroDivisionError | OverflowError | ParseError.

Inductive res (A : Type) :=
| Ok (a : A)
| Raise (e : exn).
Global Arguments Ok {A} a.
Global Arguments Raise {A} e.

(** [x / y] with a float dividend: division by zero raises. *)
Definition truediv (x y : float) : res float :=
  if PrimFloat.eqb y 0%float then Raise ZeroDivisionError
  else Ok (PrimFloat.div x y).

(** [a / b] on two ints: the correctly rounded quotient. *)
Definition truediv_int (a b : Z) : res float :=
  match a, b with
  | _, 0 => Raise ZeroDivisionError
  | 0, _ => Ok 0%float
  | Z.pos p, Z.pos q | Z.neg p, Z.neg q => Ok (nearest_float false p q)
  | Z.pos p, Z.neg q | Z.neg p, Z.pos q => Ok (nearest_float true p q)
  end.

(** [f"{n:0{width}d}"] for a non-negative int: decimal digits, padded with
    zeros on the left up to [width] characters, never truncated. *)
Fixpoint ulength (d : uint) : nat :=
  match d with
  | Nil => 0%nat
  | D0 d | D1 d | D2 d | D3 d | D4 d | D5 d | D6 d | D7 d | D8 d | D9 d =>
      S (ulength d)
  end.

Fixpoint zeros (k : nat) (d : uint) : uint :=
  match k with
  | O => d
  | S k' => D0 (zeros k' d)
  end.

Definition udigits (n : nat) : uint :=
  match Nat.to_uint n with
  | Nil => D0 Nil
  | d => d
  end.

Definition fmt_d (width n : nat) : string :=
  let d := udigits n in
  NilEmpty.string_of_uint (zeros (width - ulength d) d).

(** [str(z)] for an int. *)
Definition str_of_Z (z : Z) : string :=
  match z with
  | Z.neg p => String "-" (fmt_d 0 (Pos.to_nat p))
  | _ => fmt_d 0 (Z.to_nat z)
  end.

(** [s.upper()] and [s.lower()] on ASCII text. *)
Definition upper_ascii (c : ascii) : ascii :=
  let n := nat_of_ascii c in
  if ((97 <=? n) && (n <=? 122))%nat then ascii_of_nat (n - 32) else c.

Definition lower_ascii (c : ascii) : ascii :=
  let n := nat_of_ascii c in
  if ((65 <=? n) && (n <=? 90))%nat then ascii_of_nat (n + 32) else c.

Fixpoint smap (f : ascii -> ascii) (s : string) : string :=
  match s with
  | EmptyString => EmptyString
  | String c s' => String (f c) (smap f s')
  end.

Definition upper : string -> string := smap upper_ascii.
Definition lower : string -> string := smap lower_ascii.

(** [l[:n]] for a Python int [n]: a negative bound counts from the end. *)
Definition slice_to {A} (l : list A) (n : Z) : list A :=
  if 0 <=? n then take (Z.to_nat n) l
  else take (length l - Z.to_nat (- n)) l.

(** [range(n)] *)
Definition range (n : Z) : list nat := seq 0 (Z.to_nat n).

End Py.

Export Py.

(** ** The world outside the program, and the monad of generation code *)

(** What Faker hands out at one read: the text of a provider, a raw draw of
    Faker's own generator, and the wall clock as Faker reads it.  Each read
    uses the component of its kind.  [Faker.seed(42)] fixes the texts and the
    draws; no seed fixes the clock. *)
Module Fake.
Record t := mk {
  text : string;
  draw : Z;
  clock : Z
}.
End Fake.

(** [rnd] is the stream of raw draws (non-negative ints, reduced by each
    consumer) of the [random] module's global generator, fixed by
    [random.seed(42)]; where the library draws again until a draw is
    accepted, the stream holds the accepted draw.  [fake] is what Faker
    hands out, read after read; [uuid] is the stream of [uuid.uuid4().hex]
    values and [clock] the stream of the script's own
    [datetime.datetime.now()] readings, neither of which any seed controls.
    Instants are microseconds since the epoch; a field that the source fills
    with [d.isoformat()] holds the instant [d] itself, [isoformat] being
    one-to-one on naive datetimes. *)
Record World := mkWorld {
  rnd : nat -> Z;   rpos : nat;
  fake : nat -> Fake.t;   fpos : nat;
  uuid : nat -> string;   upos : nat;
  clock : nat -> Z;   cpos : nat
}.

Definition R (A : Type) : Type := World -> res (A * World).

Definition ret {A} (a : A) : R A := fun w => Ok (a, w).

Definition bind {A B} (m : R A) (k : A -> R B) : R B :=
  fun w => match m w with
           | Ok (a, w') => k a w'
           | Raise e => Raise e
           end.

Definition raise {A} (e : exn) : R A := fun _ => Raise e.

Definition lift {A} (r : res A) : R A :=
  fun w => match r with Ok a => Ok (a, w) | Raise e => Raise e end.

Notation "x <- m ;; k" := (bind m (fun x => k))
  (at level 100, m at next level, right associativity).

(** [for x in l: s = body(x, s)] *)
Fixpoint for_each {A S} (l : list A) (body : A -> S -> R S) (s : S) : R S :=
  match l with
  | [] => ret s
  | x :: l' => s' <- body x s ;; for_each l' body s'
  end.

(** [l[i]], raising [IndexError] out of range. *)
Definition index {A} (l : list A) (i : nat) : R A :=
  match l !! i with
  | Some x => ret x
  | None => raise IndexError
  end.

(** *** The [random] module *)

Module random.

Definition draw : R Z :=
  fun w => Ok (rnd w (rpos w),
               mkWorld (rnd w) (S (rpos w)) (fake w) (fpos w)
                       (uuid w) (upos w) (clock w) (cpos w)).

(** [_randbelow(n)] for [n > 0]: an int in [0, n). *)
Definition randbelow (n : nat) : R nat :=
  r <- draw ;; ret (Z.to_nat (r mod Z.of_nat n)).

(** [random.random()]: a multiple of 2^-53 in [0, 1). *)
Definition random : R float :=
  r <- draw ;;
  ret (PrimFloat.div (float_of_Z (r mod 2 ^ 53))
                     (float_of_Z (2 ^ 53))).

(** [random.uniform(a, b)] is [a + (b - a) * random()]. *)
Definition uniform (a b : float) : R float :=
  u <- random ;;
  ret (PrimFloat.add a (PrimFloat.mul (PrimFloat.sub b a) u)).

(** [random.randint(a, b)]: [ValueError] on an empty range. *)
Definition randint (a b : Z) : R Z :=
  if b <? a then raise ValueError
  else r <- randbelow (Z.to_nat (b - a + 1)) ;; ret (a + Z.of_nat r).

(** [random.choice(seq)]: [IndexError] on an empty sequence. *)
Definition choice {A} (l : list A) : R A :=
  match l with
  | [] => raise IndexError
  | _ => i <- randbelow (length l) ;; index l i
  end.

(** [itertools.accumulate(weights)] *)
Fixpoint accumulate_from (acc : float) (ws : list float) : list float :=
  match ws with
  | [] => []
  | w :: ws' => let a := PrimFloat.add acc w in a :: accumulate_from a ws'
  end.

Definition accumulate (ws : list float) : list float :=
  match ws with
  | [] => []
  | w :: ws' => w :: accumulate_from w ws'
  end.

(** [bisect(a, x, 0, hi)] on a non-decreasing list: the first position below
    [hi] whose entry exceeds [x], else [hi]. *)
Fixpoint bisect (a : list float) (x : float) (hi : nat) : nat :=
  match hi, a with
  | S hi', y :: a' => if PrimFloat.ltb x y then 0%nat else S (bisect a' x hi')
  | _, _ => 0%nat
  end.

(** [random.choices(population, weights=weights)[0]] *)
Definition choices {A} (population : list A) (weights : list float) : R A :=
  let cum_weights := accumulate weights in
  if negb (length cum_weights =? length population)%nat then raise ValueError
  else
    match last cum_weights with
    | None => raise IndexError
    | Some total =>
        if PrimFloat.leb total 0%float then raise ValueError
        else
          u <- random ;;
          index population
                (bisect cum_weights (PrimFloat.mul u total)
                        (length population - 1))
    end.

(** [random.sample(population, k)]: [ValueError] unless
    [0 <= k <= len(population)].  A population of at most [setsize] entries
    is copied to a pool: [k] picks from the pool, each pick replaced in the
    pool by the pool's last live entry. *)
Fixpoint sample_pool {A} (k : nat) (pool : list A) : R (list A) :=
  match k with
  | O => ret []
  | S k' =>
      let n := length pool in
      j <- randbelow n ;;
      x <- index pool j ;;
      y <- index pool (n - 1) ;;
      rest <- sample_pool k' (take (n - 1) (<[j := y]> pool)) ;;
      ret (x :: rest)
  end.

(** A larger population is left in place: the code keeps the set [selected]
    of the positions picked so far, and for each pick draws a position below
    [n] again and again until it is not in the set.  That loop is read as
    its outcome, the accepted draw: one entry of the stream selects one of
    the entries not selected yet ([unselected], in the population's order),
    which then joins the selected ones. *)
Fixpoint sample_set {A} (k : nat) (unselected : list A) : R (list A) :=
  match k with
  | O => ret []
  | S k' =>
      j <- randbelow (length unselected) ;;
      x <- index unselected j ;;
      rest <- sample_set k' (delete j unselected) ;;
      ret (x :: rest)
  end.

(** [setsize]: 21, plus [4 ** ceil(log(k * 3, 4))] when [k > 5]. *)
Definition setsize (k : Z) : Z :=
  if k <=? 5 then 21 else 21 + 4 ^ ((Z.log2_up (k * 3) + 1) / 2).

Definition sample {A} (population : list A) (k : Z) : R (list A) :=
  let n := Z.of_nat (length population) in
  if (k <? 0) || (n <? k) then raise ValueError
  else if n <=? setsize k then sample_pool (Z.to_nat k) population
  else sample_set (Z.to_nat k) population.

End random.

(** *** [datetime] *)

(** [datetime.min] and [datetime.max]: the first instant of year 1 and the
    last of year 9999. *)
Definition datetime_min : Z := -62135596800000000.
Definition datetime_max : Z := 253402300799999999.

(** [timedelta(days=d)] and [timedelta(seconds=s)] in microseconds. *)
Definition timedelta_days (d : Z) : Z := d * 86400000000.
Definition timedelta_seconds (s : Z) : Z := s * 1000000.

(** The [timedelta] constructor, on a duration in microseconds:
    [OverflowError] beyond 999999999 days either way. *)
Definition timedelta (us : Z) : res Z :=
  if (timedelta_days (-999999999) <=? us) && (us <? timedelta_days 1000000000)
  then Ok us else Raise OverflowError.

(** [d + delta] on a datetime: [OverflowError] outside years 1 to 9999. *)
Definition datetime_add (d delta : Z) : res Z :=
  let r := d + delta in
  if (datetime_min <=? r) && (r <=? datetime_max) then Ok r
  else Raise OverflowError.

(** *** Faker, uuid and the clock *)

Definition fake_next : R Fake.t :=
  fun w => Ok (fake w (fpos w),
               mkWorld (rnd w) (rpos w) (fake w) (S (fpos w))
                       (uuid w) (upos w) (clock w) (cpos w)).

(** A text provider of Faker ([email], [city], [text], ...). *)
Definition fake_text (provider : string) : R string :=
  v <- fake_next ;; ret (Fake.text v).

(** [datetime.now()] inside Faker: the wall clock stands between the epoch
    and the end of year 9999, and the raw reading is reduced to that
    range. *)
Definition fake_now : R Z :=
  v <- fake_next ;; ret (Fake.clock v mod (datetime_max + 1)).

(** A draw of Faker's generator. *)
Definition fake_draw : R Z :=
  v <- fake_next ;; ret (Fake.draw v).

(** An argument of [date_time_between]: a relative offset such as ["-2y"] or
    ["now"], or a datetime. *)
Inductive date_arg := Rel (s : string) | At (t : Z).

Definition is_digit (c : ascii) : bool :=
  let n := nat_of_ascii c in ((48 <=? n) && (n <=? 57))%nat.

(** The int written by the digits at the head of [s], after the digits
    [acc], and what follows them. *)
Fixpoint read_digits (s : string) (acc : Z) : Z * string :=
  match s with
  | String c s' =>
      if is_digit c
      then read_digits s' (10 * acc + Z.of_nat (nat_of_ascii c - 48))
      else (acc, s)
  | EmptyString => (acc, s)
  end.

(** One optional group of Faker's pattern, a sign, one or more digits and a
    unit symbol, matched at the head of [s]: it gives the signed int and the
    rest of the string; anything else matches nothing and leaves [s]. *)
Definition read_group (sym : ascii) (s : string) : option Z * string :=
  match s with
  | String sign (String d s') =>
      if (Ascii.eqb sign "+"%char || Ascii.eqb sign "-"%char) && is_digit d
      then
        let '(n, rest) := read_digits (String d s') 0 in
        match rest with
        | String c rest' =>
            if Ascii.eqb c sym
            then (Some (if Ascii.eqb sign "-"%char then - n else n), rest')
            else (None, s)
        | EmptyString => (None, s)
        end
      else (None, s)
  | _ => (None, s)
  end.

(** [_parse_date_string]: the groups for years, months, weeks, days, hours,
    minutes and seconds, in that order from the start of the string;
    [ParseError] when none is there.  The result is the duration they add up
    to, in microseconds, a year counting 365.24 days and a month 30.42. *)
Definition _parse_date_string (value : string) : res Z :=
  let '(years, s) := read_group "y"%char value in
  let '(months, s) := read_group "M"%char s in
  let '(weeks, s) := read_group "w"%char s in
  let '(days, s) := read_group "d"%char s in
  let '(hours, s) := read_group "h"%char s in
  let '(minutes, s) := read_group "m"%char s in
  let '(seconds, _) := read_group "s"%char s in
  match years, months, weeks, days, hours, minutes, seconds with
  | None, None, None, None, None, None, None => Raise ParseError
  | _, _, _, _, _, _, _ =>
      Ok (timedelta_seconds
            (default 0 years * 31556736 + default 0 months * 2628288
             + default 0 weeks * 604800 + default 0 days * 86400
             + default 0 hours * 3600 + default 0 minutes * 60
             + default 0 seconds))
  end.

(** [_parse_date_time]: the timestamp, in whole seconds, of a bound.  A
    datetime is converted as it is; a string is read against the clock,
    ["now"] after a second reading of it. *)
Definition _parse_date_time (value : date_arg) : R Z :=
  match value with
  | At d => ret (d / 1000000)
  | Rel s =>
      now <- fake_now ;;
      if String.eqb s "now"%string then
        now' <- fake_now ;; ret (now' / 1000000)
      else
        time_params <- lift (_parse_date_string s) ;;
        delta <- lift (timedelta time_params) ;;
        d <- lift (datetime_add now delta) ;;
        ret (d / 1000000)
  end.

(** The bound [f"-{days}d"]. *)
Definition span (days : Z) : date_arg :=
  Rel ("-" +:+ str_of_Z days +:+ "d").

(** [date_time_between]: both bounds parsed, then a draw between them, the
    start plus a fraction of a second when the bounds are at most a second
    apart; the draw is read at the resolution of a microsecond.  The result
    is the epoch plus that many seconds. *)
Definition fake_date_time_between (start_date end_date : date_arg) : R Z :=
  start_date <- _parse_date_time start_date ;;
  end_date <- _parse_date_time end_date ;;
  r <- fake_draw ;;
  let ts :=
    if end_date - start_date <=? 1
    then start_date * 1000000 + r mod 1000000
    else start_date * 1000000
         + r mod ((end_date - start_date) * 1000000 + 1) in
  delta <- lift (timedelta ts) ;;
  lift (datetime_add 0 delta).

(** [uuid.uuid4().hex] *)
Definition uuid4_hex : R string :=
  fun w => Ok (uuid w (upos w),
               mkWorld (rnd w) (rpos w) (fake w) (fpos w)
                       (uuid w) (S (upos w)) (clock w) (cpos w)).

(** [datetime.datetime.now()] *)
Definition now : R Z :=
  fun w => Ok (clock w (cpos w),
               mkWorld (rnd w) (rpos w) (fake w) (fpos w)
                       (uuid w) (upos w) (clock w) (S (cpos w))).

(** ** The data model: the dict records the generator builds *)

Local Open Scope string_scope.

Module Subcategory.
Record t := mk {
  subcategory_id : string;
  name : string;
  profit_margin : float;
  commission_rate : float;
  is_featured : bool
}.
End Subcategory.

Module Category.
Record t := mk {
  category_id : string;
  name : string;
  description : string;
  is_active : bool;
  created_date : Z;
  subcategories : list Subcategory.t
}.
End Category.

Module PriceEntry.
Record t := mk {
  price : float;
  date : Z;
  reason : string
}.
End PriceEntry.

Module Dimensions.
Record t := mk {
  length_cm : float;
  width_cm : float;
  height_cm : float
}.
End Dimensions.

Module Product.
Record t := mk {
  product_id : string;
  sku : string;
  name : string;
  description : string;
  category_id : string;
  subcategory_id : string;
  brand : string;
  base_price : float;
  cost : float;
  current_stock : Z;
  reorder_level : Z;
  weight_kg : float;
  dimensions : Dimensions.t;
  is_active : bool;
  rating : float;
  review_count : Z;
  price_history : list PriceEntry.t;
  creation_date : Z;
  last_updated : Z;
  tags : list string;
  seasonal : bool;
  featured : bool
}.

(** [product["current_stock"] = v] *)
Definition set_current_stock (p : t) (v : Z) : t :=
  {| product_id := product_id p; sku := sku p; name := name p;
     description := description p; category_id := category_id p;
     subcategory_id := subcategory_id p; brand := brand p;
     base_price := base_price p; cost := cost p; current_stock := v;
     reorder_level := reorder_level p; weight_kg := weight_kg p;
     dimensions := dimensions p; is_active := is_active p;
     rating := rating p; review_count := review_count p;
     price_history := price_history p; creation_date := creation_date p;
     last_updated := last_updated p; tags := tags p;
     seasonal := seasonal p; featured := featured p |}.
End Product.

Module Demographics.
Record t := mk {
  age : Z;
  gender : string;
  income_bracket : string;
  education : string;
  occupation : string;
  marital_status : string
}.
End Demographics.

Module GeoData.
Record t := mk {
  city : string;
  state : string;
  country : string;
  timezone : string;
  postal_code : string
}.
End GeoData.

Module Preferences.
Record t := mk {
  preferred_categories : list string;
  communication_email : bool;
  communication_sms : bool;
  marketing_consent : bool;
  language : string
}.
End Preferences.

Module User.
Record t := mk {
  user_id : string;
  email : string;
  first_name : string;
  last_name : string;
  demographics : Demographics.t;
  geo_data : GeoData.t;
  preferences : Preferences.t;
  registration_date : Z;
  last_active : Z;
  account_status : string;
  loyalty_tier : string;
  total_orders : Z;
  lifetime_value : float
}.

(** [user["total_orders"] = n; user["lifetime_value"] = v] *)
Definition set_metrics (u : t) (n : Z) (v : float) : t :=
  {| user_id := user_id u; email := email u; first_name := first_name u;
     last_name := last_name u; demographics := demographics u;
     geo_data := geo_data u; preferences := preferences u;
     registration_date := registration_date u; last_active := last_active u;
     account_status := account_status u; loyalty_tier := loyalty_tier u;
     total_orders := n; lifetime_value := v |}.
End User.

Module Item.
Record t := mk {
  product_id : string;
  quantity : Z;
  unit_price : float;
  subtotal : float
}.
End Item.

Module Transaction.
Record t := mk {
  transaction_id : string;
  user_id : string;
  timestamp : Z;
  items : list Item.t;
  subtotal : float;
  discount : float;
  tax : float;
  shipping : float;
  total : float;
  payment_method : string;
  status : string;
  billing_address : GeoData.t;
  shipping_address : GeoData.t
}.
End Transaction.

Module SessionGeo.
Record t := mk {
  base : GeoData.t;
  ip_address : string
}.
End SessionGeo.

Module Session.
Record t := mk {
  session_id : string;
  user_id : string;
  start_time : Z;
  duration_seconds : Z;
  device_type : string;
  browser : string;
  os : string;
  geo_data : SessionGeo.t;
  pages_viewed : Z;
  products_viewed : list string;
  conversion_status : string;
  referrer : string;
  end_time : Z
}.
End Session.

Module Config.
Record t := mk {
  NUM_USERS : Z;
  NUM_PRODUCTS : Z;
  NUM_CATEGORIES : Z;
  NUM_TRANSACTIONS : Z;
  NUM_SESSIONS : Z;
  TIMESPAN_DAYS : Z;
  CHUNK_SIZE : Z
}.
End Config.

(** [self]: the configuration and the five data containers. *)
Record Gen := mkGen {
  config : Config.t;
  categories : list Category.t;
  products : list Product.t;
  users : list User.t;
  sessions : list Session.t;
  transactions : list Transaction.t
}.

Definition default_config : Config.t :=
  {| Config.NUM_USERS := 10000; Config.NUM_PRODUCTS := 5000;
     Config.NUM_CATEGORIES := 25; Config.NUM_TRANSACTIONS := 50000;
     Config.NUM_SESSIONS := 200000; Config.TIMESPAN_DAYS := 90;
     Config.CHUNK_SIZE := 10000 |}.

(** [__init__], for a given configuration dict. *)
Definition init (cfg : Config.t) : Gen :=
  mkGen cfg [] [] [] [] [].

Definition set_categories (self : Gen) (v : list Category.t) : Gen :=
  mkGen (config self) v (products self) (users self) (sessions self)
        (transactions self).
Definition set_products (self : Gen) (v : list Product.t) : Gen :=
  mkGen (config self) (categories self) v (users self) (sessions self)
        (transactions self).
Definition set_users (self : Gen) (v : list User.t) : Gen :=
  mkGen (config self) (categories self) (products self) v (sessions self)
        (transactions self).
Definition set_sessions (self : Gen) (v : list Session.t) : Gen :=
  mkGen (config self) (categories self) (products self) (users self) v
        (transactions self).
Definition set_transactions (self : Gen) (v : list Transaction.t) : Gen :=
  mkGen (config self) (categories self) (products self) (users self)
        (sessions self) v.

(** [enumerate(l)] *)
Definition enumerate {A} (l : list A) : list (nat * A) :=
  zip (seq 0 (length l)) l.

(** ** The generator *)

Definition category_data : list (string * list string) :=
  [ ("Electronics", ["Smartphones"; "Laptops"; "Headphones"; "Cameras"; "Gaming"]);
    ("Clothing", ["Men's Wear"; "Women's Wear"; "Kids"; "Shoes"; "Accessories"]);
    ("Home & Garden", ["Furniture"; "Kitchen"; "Decor"; "Tools"; "Lighting"]);
    ("Sports", ["Fitness"; "Outdoor"; "Team Sports"; "Water Sports"; "Winter Sports"]);
    ("Books", ["Fiction"; "Non-Fiction"; "Educational"; "Children's"; "Comics"]);
    ("Health & Beauty", ["Skincare"; "Makeup"; "Supplements"; "Personal Care"; "Fragrances"]);
    ("Automotive", ["Parts"; "Accessories"; "Tools"; "Care Products"; "Electronics"]);
    ("Toys & Games", ["Educational"; "Action Figures"; "Board Games"; "Puzzles"; "Outdoor"]);
    ("Jewelry", ["Rings"; "Necklaces"; "Earrings"; "Watches"; "Bracelets"]);
    ("Food & Beverages", ["Snacks"; "Beverages"; "Organic"; "International"; "Gourmet"]) ].

Definition gen_subcategory (cat_id : nat) (sub : nat * string)
    (acc : list Subcategory.t) : R (list Subcategory.t) :=
  let '(sub_id, subcat_name) := sub in
  pm <- random.uniform 0.15 0.45 ;;
  cr <- random.uniform 0.03 0.12 ;;
  feat <- random.choice [true; false] ;;
  ret (acc ++
       [ {| Subcategory.subcategory_id :=
              "sub_" +:+ fmt_d 3 cat_id +:+ "_" +:+ fmt_d 2 sub_id;
            Subcategory.name := subcat_name;
            Subcategory.profit_margin := round pm 3;
            Subcategory.commission_rate := round cr 3;
            Subcategory.is_featured := feat |} ])%list.

Definition gen_category (entry : nat * (string * list string)) (self : Gen)
    : R Gen :=
  let '(cat_id, (main_cat, subcats)) := entry in
  active <- random.choices [true; false] [0.95; 0.05]%float ;;
  created <- fake_date_time_between (Rel "-2y") (Rel "-1y") ;;
  subs <- for_each (enumerate subcats) (gen_subcategory cat_id) [] ;;
  ret (set_categories self
         (categories self ++
          [ {| Category.category_id := "cat_" +:+ fmt_d 3 cat_id;
               Category.name := main_cat;
               Category.description :=
                 "Premium " +:+ lower main_cat +:+
                 " products for modern lifestyle";
               Category.is_active := active;
               Category.created_date := created;
               Category.subcategories := subs |} ])%list).

Definition generate_categories (self : Gen) : R Gen :=
  for_each
    (enumerate (slice_to category_data (Config.NUM_CATEGORIES (config self))))
    gen_category self.

(** [price_ranges.get(cat_name, (10, 100))]; the int bounds convert to
    floats exactly. *)
Definition price_ranges (cat_name : string) : float * float :=
  if String.eqb cat_name "Electronics" then (50, 2000)%float
  else if String.eqb cat_name "Clothing" then (15, 300)%float
  else if String.eqb cat_name "Home & Garden" then (25, 800)%float
  else if String.eqb cat_name "Sports" then (20, 500)%float
  else if String.eqb cat_name "Books" then (5, 50)%float
  else if String.eqb cat_name "Health & Beauty" then (10, 150)%float
  else if String.eqb cat_name "Automotive" then (15, 400)%float
  else if String.eqb cat_name "Toys & Games" then (8, 200)%float
  else if String.eqb cat_name "Jewelry" then (30, 1000)%float
  else if String.eqb cat_name "Food & Beverages" then (3, 80)%float
  else (10, 100)%float.

(** [brands_by_category.get(cat_name, [...])] *)
Definition brands_by_category (cat_name : string) : list string :=
  if String.eqb cat_name "Electronics"
  then ["TechCorp"; "InnovateTech"; "DigitalPro"; "SmartDevices"; "FutureTech"]
  else if String.eqb cat_name "Clothing"
  then ["StyleCo"; "FashionForward"; "UrbanWear"; "ClassicStyle"; "ModernFit"]
  else if String.eqb cat_name "Home & Garden"
  then ["HomeComfort"; "LivingStyle"; "GardenPro"; "DecorPlus"; "CozyHome"]
  else ["GenericBrand"; "QualityMaker"; "ReliableCorp"].

(** The loop state of [_generate_price_history]. *)
Record PriceLoop := mkPriceLoop {
  pl_price : float;
  pl_date : Z;
  pl_history : list PriceEntry.t
}.

Definition change_factor (change_type : string) : R float :=
  if String.eqb change_type "promotion" then random.uniform 0.7 0.9
  else if String.eqb change_type "clearance" then random.uniform 0.5 0.8
  else if String.eqb change_type "cost_increase" then random.uniform 1.05 1.25
  else random.uniform 0.9 1.1.

Definition price_change (_ : nat) (st : PriceLoop) : R PriceLoop :=
  days_forward <- random.randint 7 45 ;;
  current_date <- lift (datetime_add (pl_date st)
                          (timedelta_days days_forward)) ;;
  change_type <- random.choices
    ["promotion"; "market_adjustment"; "cost_increase"; "clearance"; "restock"]
    [0.3; 0.25; 0.2; 0.15; 0.1]%float ;;
  factor <- change_factor change_type ;;
  let current_price := round (PrimFloat.mul (pl_price st) factor) 2 in
  ret (mkPriceLoop current_price current_date
         (pl_history st ++
          [ {| PriceEntry.price := current_price;
               PriceEntry.date := current_date;
               PriceEntry.reason := change_type |} ])%list).

Definition _generate_price_history (base_price : float) (start_date : Z)
    : R (list PriceEntry.t) :=
  let price_history :=
    [ {| PriceEntry.price := base_price;
         PriceEntry.date := start_date;
         PriceEntry.reason := "initial_listing" |} ] in
  num_changes <- random.randint 0 4 ;;
  st <- for_each (range num_changes) price_change
          (mkPriceLoop base_price start_date price_history) ;;
  ret (pl_history st).

Definition _generate_product_name (category subcategory : string) : R string :=
  adjective <- random.choice
    ["Premium"; "Professional"; "Advanced"; "Deluxe"; "Essential"; "Classic";
     "Modern"; "Ultimate"] ;;
  descriptor <- random.choice
    ["Pro"; "Plus"; "Elite"; "Standard"; "Compact"; "Extended"; "Smart";
     "Enhanced"] ;;
  ret (adjective +:+ " " +:+ subcategory +:+ " " +:+ descriptor).

Definition all_tags : list string :=
  ["bestseller"; "new_arrival"; "eco_friendly"; "premium"; "budget";
   "limited_edition"; "trending"; "featured"; "sale"; "recommended";
   "organic"; "handmade"; "imported"; "local"; "certified"; "award_winning"].

Definition _generate_product_tags : R (list string) :=
  k <- random.randint 0 4 ;;
  random.sample all_tags k.

(** [l[-1]] and [l[0]] *)
Definition last_item {A} (l : list A) : R A :=
  match last l with
  | Some x => ret x
  | None => raise IndexError
  end.

Definition gen_product (product_creation_start : Z) (prod_id : nat)
    (self : Gen) : R Gen :=
  category <- random.choice (categories self) ;;
  subcategory <- random.choice (Category.subcategories category) ;;
  let cat_name := Category.name category in
  let '(min_price, max_price) := price_ranges cat_name in
  u <- random.uniform min_price max_price ;;
  let base_price := round u 2 in
  price_history <- _generate_price_history base_price product_creation_start ;;
  newest <- last_item price_history ;;
  let current_price := PriceEntry.price newest in
  let available_brands := brands_by_category cat_name in
  brand <- random.choice available_brands ;;
  sku_n <- random.randint 100000 999999 ;;
  name <- _generate_product_name (Category.name category)
            (Subcategory.name subcategory) ;;
  description <- fake_text "text" ;;
  stock <- random.randint 0 1000 ;;
  reorder <- random.randint 10 50 ;;
  weight <- random.uniform 0.1 25.0 ;;
  len <- random.uniform 5 120 ;;
  wid <- random.uniform 5 80 ;;
  hei <- random.uniform 2 40 ;;
  active <- random.choices [true; false] [0.92; 0.08]%float ;;
  rating <- random.uniform 1.0 5.0 ;;
  reviews <- random.randint 0 500 ;;
  oldest <- index price_history 0 ;;
  newest' <- last_item price_history ;;
  tags <- _generate_product_tags ;;
  seasonal <- random.choice [true; false] ;;
  featured <- random.choices [true; false] [0.1; 0.9]%float ;;
  ret (set_products self
         (products self ++
          [ {| Product.product_id := "prod_" +:+ fmt_d 5 prod_id;
               Product.sku :=
                 upper (String.substring 0 3 brand) +:+ "-" +:+ str_of_Z sku_n;
               Product.name := name;
               Product.description := description;
               Product.category_id := Category.category_id category;
               Product.subcategory_id := Subcategory.subcategory_id subcategory;
               Product.brand := brand;
               Product.base_price := current_price;
               Product.cost :=
                 round (PrimFloat.mul current_price
                          (PrimFloat.sub 1
                             (Subcategory.profit_margin subcategory))) 2;
               Product.current_stock := stock;
               Product.reorder_level := reorder;
               Product.weight_kg := round weight 2;
               Product.dimensions :=
                 {| Dimensions.length_cm := round len 1;
                    Dimensions.width_cm := round wid 1;
                    Dimensions.height_cm := round hei 1 |};
               Product.is_active := active;
               Product.rating := round rating 1;
               Product.review_count := reviews;
               Product.price_history := price_history;
               Product.creation_date := PriceEntry.date oldest;
               Product.last_updated := PriceEntry.date newest';
               Product.tags := tags;
               Product.seasonal := seasonal;
               Product.featured := featured |} ])%list).

Definition generate_products (self : Gen) : R Gen :=
  t <- now ;;
  delta <- lift (timedelta
                   (timedelta_days (Config.TIMESPAN_DAYS (config self) * 2))) ;;
  product_creation_start <- lift (datetime_add t (- delta)) ;;
  for_each (range (Config.NUM_PRODUCTS (config self)))
    (gen_product product_creation_start) self.

Definition age_groups : list (Z * Z) :=
  [(18, 25); (26, 35); (36, 45); (46, 55); (56, 70)].

(** [[cat["category_id"] for cat in self.categories if cat["is_active"]]] *)
Definition active_category_ids (cats : list Category.t) : list string :=
  map Category.category_id (List.filter Category.is_active cats).

Definition gen_user (user_id : nat) (self : Gen) : R Gen :=
  age_range <- random.choices age_groups [0.15; 0.30; 0.25; 0.20; 0.10]%float ;;
  age <- random.randint (fst age_range) (snd age_range) ;;
  income_bracket <- random.choices ["low"; "medium"; "high"; "premium"]
                      [0.25; 0.40; 0.25; 0.10]%float ;;
  let days := Config.TIMESPAN_DAYS (config self) in
  reg_date <- fake_date_time_between (span (days * 3)) (span days) ;;
  email <- fake_text "email" ;;
  first_name <- fake_text "first_name" ;;
  last_name <- fake_text "last_name" ;;
  gender <- random.choice ["M"; "F"; "Other"] ;;
  education <- random.choice
                 ["high_school"; "bachelor"; "master"; "phd"; "other"] ;;
  occupation <- fake_text "job" ;;
  marital_status <- random.choice
                      ["single"; "married"; "divorced"; "widowed"] ;;
  city <- fake_text "city" ;;
  state <- fake_text "state_abbr" ;;
  country <- random.choices ["US"; "CA"; "UK"; "DE"; "FR"]
               [0.6; 0.15; 0.1; 0.08; 0.07]%float ;;
  timezone <- fake_text "timezone" ;;
  postal_code <- fake_text "zipcode" ;;
  let population := active_category_ids (categories self) in
  k <- random.randint 1 5 ;;
  preferred_categories <- random.sample population k ;;
  communication_email <- random.choices [true; false] [0.8; 0.2]%float ;;
  communication_sms <- random.choices [true; false] [0.6; 0.4]%float ;;
  marketing_consent <- random.choices [true; false] [0.7; 0.3]%float ;;
  language <- random.choices ["en"; "es"; "fr"; "de"]
                [0.7; 0.15; 0.1; 0.05]%float ;;
  last_active <- fake_date_time_between (At reg_date) (Rel "now") ;;
  account_status <- random.choices ["active"; "inactive"; "suspended"]
                      [0.85; 0.14; 0.01]%float ;;
  loyalty_tier <- random.choices ["bronze"; "silver"; "gold"; "platinum"]
                    [0.6; 0.25; 0.12; 0.03]%float ;;
  ret (set_users self
         (users self ++
          [ {| User.user_id := "user_" +:+ fmt_d 6 user_id;
               User.email := email;
               User.first_name := first_name;
               User.last_name := last_name;
               User.demographics :=
                 {| Demographics.age := age;
                    Demographics.gender := gender;
                    Demographics.income_bracket := income_bracket;
                    Demographics.education := education;
                    Demographics.occupation := occupation;
                    Demographics.marital_status := marital_status |};
               User.geo_data :=
                 {| GeoData.city := city;
                    GeoData.state := state;
                    GeoData.country := country;
                    GeoData.timezone := timezone;
                    GeoData.postal_code := postal_code |};
               User.preferences :=
                 {| Preferences.preferred_categories := preferred_categories;
                    Preferences.communication_email := communication_email;
                    Preferences.communication_sms := communication_sms;
                    Preferences.marketing_consent := marketing_consent;
                    Preferences.language := language |};
               User.registration_date := reg_date;
               User.last_active := last_active;
               User.account_status := account_status;
               User.loyalty_tier := loyalty_tier;
               User.total_orders := 0;
               User.lifetime_value := 0 |} ])%list).

Definition generate_users (self : Gen) : R Gen :=
  for_each (range (Config.NUM_USERS (config self))) gen_user self.

(** The positions in [l] of the objects that pass the filter [p]: the list
    comprehension [[x for x in l if p(x)]] as a list of references. *)
Definition positions {A} (p : A -> bool) (l : list A) : list nat :=
  List.filter (fun i => match l !! i with Some x => p x | None => false end)
              (seq 0 (length l)).

Definition is_active_user (u : User.t) : bool :=
  String.eqb (User.account_status u) "active".

Definition is_available (p : Product.t) : bool :=
  Product.is_active p && (0 <? Product.current_stock p)%Z.

(** The state of the item loop of one transaction: the items so far, the
    running subtotal, and the products with their stock. *)
Record Cart := mkCart {
  cart_items : list Item.t;
  cart_subtotal : float;
  cart_products : list Product.t
}.

Definition purchase (pi : nat) (st : Cart) : R Cart :=
  product <- index (cart_products st) pi ;;
  quantity <- random.randint 1 (Z.min 3 (Product.current_stock product)) ;;
  let unit_price := Product.base_price product in
  let item_subtotal := PrimFloat.mul (float_of_Z quantity) unit_price in
  ret (mkCart
         (cart_items st ++
          [ {| Item.product_id := Product.product_id product;
               Item.quantity := quantity;
               Item.unit_price := unit_price;
               Item.subtotal := round item_subtotal 2 |} ])%list
         (PrimFloat.add (cart_subtotal st) item_subtotal)
         (<[pi := Product.set_current_stock product
                    (Product.current_stock product - quantity)]>
            (cart_products st))).

Definition draw_discount (subtotal : float) : R float :=
  r <- random.random ;;
  if PrimFloat.ltb r 0.25 then
    discount_rate <- random.choice [0.05; 0.10; 0.15; 0.20]%float ;;
    ret (round (PrimFloat.mul subtotal discount_rate) 2)
  else ret 0%float.

Definition gen_transaction (_ : nat) (self : Gen) : R Gen :=
  ui <- random.choice (positions is_active_user (users self)) ;;
  user <- index (users self) ui ;;
  num_items <- random.choices [1; 2; 3; 4; 5]
                 [0.4; 0.3; 0.15; 0.1; 0.05]%float ;;
  let available_products := positions is_available (products self) in
  if (Z.of_nat (length available_products) <? num_items)%Z then ret self
  else
    selected_products <- random.sample available_products num_items ;;
    cart <- for_each selected_products purchase
              (mkCart [] 0 (products self)) ;;
    let subtotal := cart_subtotal cart in
    discount <- draw_discount subtotal ;;
    let tax := round (PrimFloat.mul subtotal 0.08) 2 in
    let shipping := (if PrimFloat.ltb 50 subtotal then 0 else 9.99)%float in
    let total :=
      round (PrimFloat.add
               (PrimFloat.add (PrimFloat.sub subtotal discount) tax)
               shipping) 2 in
    hex <- uuid4_hex ;;
    timestamp <- fake_date_time_between
                   (span (Config.TIMESPAN_DAYS (config self))) (Rel "now") ;;
    payment_method <- random.choice
      ["credit_card"; "debit_card"; "paypal"; "apple_pay"; "google_pay";
       "bank_transfer"; "gift_card"] ;;
    status <- random.choices
      ["completed"; "processing"; "shipped"; "delivered"; "cancelled"]
      [0.7; 0.1; 0.1; 0.08; 0.02]%float ;;
    let transaction :=
      {| Transaction.transaction_id := "txn_" +:+ String.substring 0 12 hex;
         Transaction.user_id := User.user_id user;
         Transaction.timestamp := timestamp;
         Transaction.items := cart_items cart;
         Transaction.subtotal := round subtotal 2;
         Transaction.discount := discount;
         Transaction.tax := tax;
         Transaction.shipping := shipping;
         Transaction.total := total;
         Transaction.payment_method := payment_method;
         Transaction.status := status;
         Transaction.billing_address := User.geo_data user;
         Transaction.shipping_address := User.geo_data user |} in
    ret (mkGen (config self) (categories self) (cart_products cart)
           (<[ui := User.set_metrics user (User.total_orders user + 1)
                      (PrimFloat.add (User.lifetime_value user) total)]>
              (users self))
           (sessions self)
           (transactions self ++ [transaction])%list).

Definition _generate_simple_transactions (self : Gen) : R Gen :=
  for_each (range (Config.NUM_TRANSACTIONS (config self))) gen_transaction self.

Definition gen_session (_ : nat) (self : Gen) : R Gen :=
  user <- random.choice (users self) ;;
  hex <- uuid4_hex ;;
  start_time <- fake_date_time_between
                  (span (Config.TIMESPAN_DAYS (config self))) (Rel "now") ;;
  duration_seconds <- random.randint 30 3600 ;;
  device_type <- random.choice ["mobile"; "desktop"; "tablet"] ;;
  browser <- random.choice ["Chrome"; "Safari"; "Firefox"; "Edge"] ;;
  os <- random.choice ["iOS"; "Android"; "Windows"; "macOS"] ;;
  ip_address <- fake_text "ipv4" ;;
  pages_viewed <- random.randint 1 15 ;;
  let population := map Product.product_id (take 100 (products self)) in
  k <- random.randint 0 5 ;;
  products_viewed <- random.sample population k ;;
  conversion_status <- random.choices ["converted"; "abandoned"; "browsed"]
                         [0.03; 0.15; 0.82]%float ;;
  referrer <- random.choice
    ["direct"; "search_engine"; "social_media"; "email"; "affiliate"; "ads"] ;;
  end_time <- lift (datetime_add start_time
                      (timedelta_seconds duration_seconds)) ;;
  ret (set_sessions self
         (sessions self ++
          [ {| Session.session_id := "sess_" +:+ String.substring 0 10 hex;
               Session.user_id := User.user_id user;
               Session.start_time := start_time;
               Session.duration_seconds := duration_seconds;
               Session.device_type := device_type;
               Session.browser := browser;
               Session.os := os;
               Session.geo_data :=
                 {| SessionGeo.base := User.geo_data user;
                    SessionGeo.ip_address := ip_address |};
               Session.pages_viewed := pages_viewed;
               Session.products_viewed := products_viewed;
               Session.conversion_status := conversion_status;
               Session.referrer := referrer;
               Session.end_time := end_time |} ])%list).

Definition _generate_simple_sessions (self : Gen) : R Gen :=
  for_each (range (Config.NUM_SESSIONS (config self))) gen_session self.

(** *** Serialisation and the summary document *)

Module GenerationMetadata.
Record t := mk {
  timestamp : Z;
  generator_version : string;
  configuration : Config.t
}.
End GenerationMetadata.

Module DataVolumes.
Record t := mk {
  categories : Z;
  products : Z;
  users : Z;
  sessions : Z;
  transactions : Z;
  total_records : Z
}.
End DataVolumes.

Module BusinessMetrics.
Record t := mk {
  total_revenue : float;
  average_transaction_value : float;
  conversion_rate : float;
  active_products : Z;
  active_users : Z;
  average_product_rating : float;
  total_inventory_value : float
}.
End BusinessMetrics.

Module DataQuality.
Record t := mk {
  products_with_reviews : Z;
  users_with_preferences : Z;
  transactions_with_discounts : Z
}.
End DataQuality.

Module TimeRange.
Record t := mk {
  start_date : option Z;
  end_date : option Z
}.
End TimeRange.

Module Summary.
Record t := mk {
  generation_metadata : GenerationMetadata.t;
  data_volumes : DataVolumes.t;
  business_metrics : BusinessMetrics.t;
  data_quality : DataQuality.t;
  time_range : TimeRange.t
}.
End Summary.

(** [len(l)] as a Python int. *)
Definition len {A} (l : list A) : Z := Z.of_nat (length l).

(** [sum(1 for x in l if p(x))] *)
Definition count {A} (p : A -> bool) (l : list A) : Z := len (List.filter p l).

(** [min(l) if l else None] and [max(l) if l else None] *)
Definition min_or_none (l : list Z) : option Z :=
  match l with
  | [] => None
  | x :: l' => Some (fold_left Z.min l' x)
  end.

Definition max_or_none (l : list Z) : option Z :=
  match l with
  | [] => None
  | x :: l' => Some (fold_left Z.max l' x)
  end.

Definition is_nil {A} (l : list A) : bool :=
  match l with [] => true | _ => false end.

Definition _generate_summary (self : Gen) : R Summary.t :=
  let total_revenue := sum (map Transaction.total (transactions self)) in
  avg_transaction <-
    (if is_nil (transactions self) then ret 0%float
     else lift (truediv total_revenue
                        (float_of_Z (len (transactions self))))) ;;
  conversion_rate <-
    (if is_nil (sessions self) then ret 0%float
     else lift (truediv_int (len (transactions self)) (len (sessions self)))) ;;
  timestamp <- now ;;
  average_product_rating <-
    lift (truediv (sum (map Product.rating (products self)))
                  (float_of_Z (len (products self)))) ;;
  ret {| Summary.generation_metadata :=
           {| GenerationMetadata.timestamp := timestamp;
              GenerationMetadata.generator_version := "2.0";
              GenerationMetadata.configuration := config self |};
         Summary.data_volumes :=
           {| DataVolumes.categories := len (categories self);
              DataVolumes.products := len (products self);
              DataVolumes.users := len (users self);
              DataVolumes.sessions := len (sessions self);
              DataVolumes.transactions := len (transactions self);
              DataVolumes.total_records :=
                len (categories self) + len (products self)
                + len (users self) + len (sessions self)
                + len (transactions self) |};
         Summary.business_metrics :=
           {| BusinessMetrics.total_revenue := round total_revenue 2;
              BusinessMetrics.average_transaction_value :=
                round avg_transaction 2;
              BusinessMetrics.conversion_rate :=
                round (PrimFloat.mul conversion_rate 100) 2;
              BusinessMetrics.active_products :=
                count Product.is_active (products self);
              BusinessMetrics.active_users :=
                count is_active_user (users self);
              BusinessMetrics.average_product_rating :=
                round average_product_rating 2;
              BusinessMetrics.total_inventory_value :=
                sum (map (fun p =>
                            PrimFloat.mul (Product.base_price p)
                              (float_of_Z (Product.current_stock p)))
                         (products self)) |};
         Summary.data_quality :=
           {| DataQuality.products_with_reviews :=
                count (fun p => (0 <? Product.review_count p)%Z)
                      (products self);
              DataQuality.users_with_preferences :=
                count (fun u =>
                         negb (is_nil (Preferences.preferred_categories
                                         (User.preferences u))))
                      (users self);
              DataQuality.transactions_with_discounts :=
                count (fun t => PrimFloat.ltb 0 (Transaction.discount t))
                      (transactions self) |};
         Summary.time_range :=
           {| TimeRange.start_date :=
                min_or_none (map Session.start_time (sessions self));
              TimeRange.end_date :=
                max_or_none (map Session.end_time (sessions self)) |} |}.

(** [range(0, stop, step)] for [stop >= 0]: [ValueError] on a zero step. *)
Definition range_step (stop step : Z) : res (list Z) :=
  if (step =? 0)%Z then Raise ValueError
  else if (step <? 0)%Z then Ok []
  else Ok (map (fun j => Z.of_nat j * step)%Z
               (seq 0 (Z.to_nat ((stop + step - 1) / step)))).

(** What [save_data] writes under [data/raw]: each JSON file by its
    content. *)
Record Files := mkFiles {
  categories_json : list Category.t;
  products_json : list Product.t;
  users_json : list User.t;
  transactions_json : list Transaction.t;
  sessions_chunks : list (string * list Session.t);
  dataset_summary_json : Summary.t
}.

Definition session_chunk (self : Gen) (i : Z) : string * list Session.t :=
  let chunk_size := Config.CHUNK_SIZE (config self) in
  ("sessions_" +:+ fmt_d 3 (Z.to_nat (i / chunk_size)) +:+ ".json",
   take (Z.to_nat chunk_size) (drop (Z.to_nat i) (sessions self))).

Definition save_data (self : Gen) : R Files :=
  starts <- lift (range_step (len (sessions self))
                             (Config.CHUNK_SIZE (config self))) ;;
  summary <- _generate_summary self ;;
  ret (mkFiles (categories self) (products self) (users self)
         (transactions self) (map (session_chunk self) starts) summary).

(** [generate_all]: the stages in order; an exception of any stage is logged
    and raised again.  The result is the final state of [self] and the
    files written. *)
Definition generate_all (self : Gen) : R (Gen * Files) :=
  self <- generate_categories self ;;
  self <- generate_products self ;;
  self <- generate_users self ;;
  self <- _generate_simple_transactions self ;;
  self <- _generate_simple_sessions self ;;
  files <- save_data self ;;
  ret (self, files).

(** The script's entry point: a fresh generator with the given configuration,
    run in the given world. *)
Definition main (cfg : Config.t) (w : World) : res (Gen * Files) :=
  match generate_all (init cfg) w with
  | Ok (out, _) => Ok out
  | Raise e => Raise e
  end.

(** * Specification vocabulary *)

(** [choices] succeeds whenever the weights match the population and their
    total is positive, which holds at every call of the generator. *)
Definition good_weights {A} (population : list A) (weights : list float) : bool :=
  (length (random.accumulate weights) =? length population)%nat
  && match last (random.accumulate weights) with
     | Some total => negb (PrimFloat.leb total 0)
     | None => false
     end
  && negb (length population =? 0)%nat.


(** ** Price histories *)

(** Each entry is dated 7 to 45 days after the one before it. *)
Fixpoint spaced (h : list PriceEntry.t) : Prop :=
  match h with
  | a :: ((b :: _) as rest) =>
      (timedelta_days 7 <= PriceEntry.date b - PriceEntry.date a
       <= timedelta_days 45)%Z
      /\ spaced rest
  | _ => True
  end.

(** Dates never go back along the list. *)
Definition chronological (h : list PriceEntry.t) : Prop :=
  forall i j a b, (i <= j)%nat -> h !! i = Some a -> h !! j = Some b ->
    (PriceEntry.date a <= PriceEntry.date b)%Z.

Definition good_history (h : list PriceEntry.t) : Prop :=
  (exists e rest, h = e :: rest /\ PriceEntry.reason e = "initial_listing")
  /\ spaced h /\ chronological h.

(** The loop of [_generate_price_history] keeps the history well spaced, and
    [pl_date] is the date of its newest entry. *)
Definition price_loop_inv (st : PriceLoop) : Prop :=
  (exists e rest, pl_history st = e :: rest
                  /\ PriceEntry.reason e = "initial_listing")
  /\ spaced (pl_history st)
  /\ exists a, last (pl_history st) = Some a /\ PriceEntry.date a = pl_date st.

(** ** Generated products *)

(** What [generate_products] fixes about the product of loop index [i]. *)
Definition product_facts (i : nat) (p : Product.t) : Prop :=
  Product.product_id p = "prod_" +:+ fmt_d 5 i
  /\ good_history (Product.price_history p)
  /\ (0 <= Product.current_stock p <= 1000)%Z.

(** [p'] is [p] up to its stock: the only product field that transaction
    generation assigns. *)
Definition same_product (p p' : Product.t) : Prop :=
  p' = Product.set_current_stock p (Product.current_stock p').

(** [u'] is [u] up to its order count and lifetime value. *)
Definition same_user (u u' : User.t) : Prop :=
  u' = User.set_metrics u (User.total_orders u') (User.lifetime_value u').

(** ** What each stage leaves alone *)

Definition keeps_but_categories (s s' : Gen) : Prop :=
  config s' = config s /\ products s' = products s /\ users s' = users s
  /\ sessions s' = sessions s /\ transactions s' = transactions s.

Definition keeps_but_products (s s' : Gen) : Prop :=
  config s' = config s /\ categories s' = categories s /\ users s' = users s
  /\ sessions s' = sessions s /\ transactions s' = transactions s.

Definition keeps_but_users (s s' : Gen) : Prop :=
  config s' = config s /\ categories s' = categories s
  /\ products s' = products s /\ sessions s' = sessions s
  /\ transactions s' = transactions s.

Definition keeps_but_sessions (s s' : Gen) : Prop :=
  config s' = config s /\ categories s' = categories s
  /\ products s' = products s /\ users s' = users s
  /\ transactions s' = transactions s.

(** Transaction generation appends transactions and assigns stock and user
    aggregates; nothing else changes. *)
Definition keeps_but_transactions (s s' : Gen) : Prop :=
  config s' = config s /\ categories s' = categories s
  /\ sessions s' = sessions s
  /\ Forall2 same_product (products s) (products s')
  /\ Forall2 same_user (users s) (users s').

(** ** Generated users *)

(** What [generate_users] fixes about the user of loop index [i], given the
    categories it samples preferences from. *)
Definition user_facts (cats : list Category.t) (i : nat) (u : User.t) : Prop :=
  User.user_id u = "user_" +:+ fmt_d 6 i
  /\ User.total_orders u = 0%Z
  /\ User.lifetime_value u = 0%float
  /\ Preferences.preferred_categories (User.preferences u)
       ⊆+ active_category_ids cats
  /\ (1 <= length (Preferences.preferred_categories (User.preferences u)) <= 5)%nat.

(** ** Generated sessions *)

Definition session_facts (ps : list Product.t) (s : Session.t) : Prop :=
  Session.products_viewed s ⊆+ map Product.product_id (take 100 ps)
  /\ (length (Session.products_viewed s) <= 5)%nat.

(** ** Purchases *)

(** [quantity * unit_price] of an item, before any rounding. *)
Definition amount (it : Item.t) : float :=
  PrimFloat.mul (float_of_Z (Item.quantity it)) (Item.unit_price it).

(** The running subtotal of the item loop: the amounts added from left to
    right, starting from the int [0]. *)
Definition raw_subtotal (items : list Item.t) : float :=
  fold_left PrimFloat.add (map amount items) 0%float.

(** The item recorded when [q] units of product [p] are bought. *)
Definition item_of (p : Product.t) (q : Z) : Item.t :=
  {| Item.product_id := Product.product_id p;
     Item.quantity := q;
     Item.unit_price := Product.base_price p;
     Item.subtotal :=
       round (PrimFloat.mul (float_of_Z q) (Product.base_price p)) 2 |}.

(** [purchases ps items ps']: the items of one transaction, bought in order
    from the products [ps], leave the products [ps'].  Each item takes a
    product [p] that no earlier item of the transaction touched (it is the
    same in [ps] and in the current products), a quantity [q] between 1 and
    [min(3, current_stock)], and lowers that product's stock by [q]. *)
Inductive purchases (ps : list Product.t)
    : list Item.t -> list Product.t -> Prop :=
| purchases_nil : purchases ps [] ps
| purchases_snoc items ps1 pi p q :
    purchases ps items ps1 ->
    ps !! pi = Some p ->
    ps1 !! pi = Some p ->
    (1 <= q <= Z.min 3 (Product.current_stock p))%Z ->
    purchases ps (items ++ [item_of p q])%list
      (<[pi := Product.set_current_stock p (Product.current_stock p - q)]> ps1).

(** [stock_trace ps ts ps']: the transactions [ts], generated in order from
    the products [ps], leave the products [ps']. *)
Inductive stock_trace (ps : list Product.t)
    : list Transaction.t -> list Product.t -> Prop :=
| stock_trace_nil : stock_trace ps [] ps
| stock_trace_snoc ts ps1 t ps2 :
    stock_trace ps ts ps1 ->
    purchases ps1 (Transaction.items t) ps2 ->
    stock_trace ps (ts ++ [t])%list ps2.

(** [buys ps it ps']: the item [it] is bought from the products [ps] and
    leaves the products [ps'].  It names a product of [ps]; its quantity is
    between 1 and [min(3, current_stock)] of that product as it stands in
    [ps]; in [ps'] that product's stock is lower by exactly the quantity, and
    every other product is as it was. *)
Definition buys (ps : list Product.t) (it : Item.t) (ps' : list Product.t)
    : Prop :=
  exists pi p p',
    ps !! pi = Some p /\ ps' !! pi = Some p'
    /\ Item.product_id it = Product.product_id p
    /\ (1 <= Item.quantity it <= Z.min 3 (Product.current_stock p))%Z
    /\ Product.current_stock p'
       = (Product.current_stock p - Item.quantity it)%Z
    /\ Product.product_id p' = Product.product_id p
    /\ length ps' = length ps
    /\ forall j, j <> pi -> ps' !! j = ps !! j.

(** [bought ps items ps']: the items, bought one after the other from [ps],
    leave [ps']. *)
Inductive bought (ps : list Product.t)
    : list Item.t -> list Product.t -> Prop :=
| bought_nil : bought ps [] ps
| bought_cons it items ps1 ps2 :
    buys ps it ps1 -> bought ps1 items ps2 -> bought ps (it :: items) ps2.

(** The items of the transactions [ts], in generation order. *)
Definition items_of (ts : list Transaction.t) : list Item.t :=
  concat (map Transaction.items ts).

Definition stock_nonneg (ps : list Product.t) : Prop :=
  Forall (fun p => (0 <= Product.current_stock p)%Z) ps.

(** The invariant of the item loop over the products still to buy. *)
Definition cart_inv (ps : list Product.t) (todo : list nat) (st : Cart) : Prop :=
  purchases ps (cart_items st) (cart_products st)
  /\ cart_subtotal st = raw_subtotal (cart_items st)
  /\ Forall (fun it => Item.subtotal it = round (amount it) 2) (cart_items st)
  /\ forall pi, pi ∈ todo -> cart_products st !! pi = ps !! pi.

(** The weights of the item-count draw. *)
Definition num_items_weights : list float :=
  [0.4; 0.3; 0.15; 0.1; 0.05]%float.

(** ** Pricing *)

Definition discount_rates : list float := [0.05; 0.10; 0.15; 0.20]%float.

(** The money fields of a transaction as the code computes them from the
    unrounded running subtotal [raw]. *)
Definition pricing_ok (t : Transaction.t) : Prop :=
  let raw := raw_subtotal (Transaction.items t) in
  Forall (fun it => Item.subtotal it = round (amount it) 2) (Transaction.items t)
  /\ Transaction.subtotal t = round raw 2
  /\ (Transaction.discount t = 0%float
      \/ exists rate, rate ∈ discount_rates
           /\ Transaction.discount t = round (PrimFloat.mul raw rate) 2)
  /\ Transaction.tax t = round (PrimFloat.mul raw 0.08) 2
  /\ Transaction.shipping t = (if PrimFloat.ltb 50 raw then 0 else 9.99)%float
  /\ Transaction.total t =
       round (PrimFloat.add
                (PrimFloat.add
                   (PrimFloat.sub raw (Transaction.discount t))
                   (Transaction.tax t))
                (Transaction.shipping t)) 2.

(** The discount [d] on the running subtotal [raw] is the one drawn at some
    position of the [random] stream [stream]: the draw [random()] made there
    is below 0.25 and the next draw picks the rate of the discount among the
    four rates, or it is not and the discount is 0. *)
Definition discount_drawn (stream : nat -> Z) (raw d : float) : Prop :=
  exists w u w1,
    rnd w = stream /\ random.random w = Ok (u, w1)
    /\ ((PrimFloat.ltb u 0.25 = true
         /\ exists rate w2,
              random.choice discount_rates w1 = Ok (rate, w2)
              /\ d = round (PrimFloat.mul raw rate) 2)
        \/ (PrimFloat.ltb u 0.25 = false /\ d = 0%float)).

(** The money fields of a transaction generated in a run whose [random]
    stream is [stream]: as [pricing_ok], with the discount as it was
    drawn. *)
Definition priced (stream : nat -> Z) (t : Transaction.t) : Prop :=
  let raw := raw_subtotal (Transaction.items t) in
  Forall (fun it => Item.subtotal it = round (amount it) 2) (Transaction.items t)
  /\ Transaction.subtotal t = round raw 2
  /\ discount_drawn stream raw (Transaction.discount t)
  /\ Transaction.tax t = round (PrimFloat.mul raw 0.08) 2
  /\ Transaction.shipping t = (if PrimFloat.ltb 50 raw then 0 else 9.99)%float
  /\ Transaction.total t =
       round (PrimFloat.add
                (PrimFloat.add
                   (PrimFloat.sub raw (Transaction.discount t))
                   (Transaction.tax t))
                (Transaction.shipping t)) 2.

(** ** User aggregates *)

(** The transactions of the user with id [uid], in generation order. *)
Definition transactions_of (uid : string) (ts : list Transaction.t)
    : list Transaction.t :=
  List.filter (fun t => String.eqb (Transaction.user_id t) uid) ts.

Definition aggregates_ok (ts : list Transaction.t) (u : User.t) : Prop :=
  User.total_orders u = len (transactions_of (User.user_id u) ts)
  /\ User.lifetime_value u =
       sum (map Transaction.total (transactions_of (User.user_id u) ts)).

(** User ids are distinct and every user's aggregates match the
    transactions generated so far. *)
Definition aggregates_inv (s : Gen) : Prop :=
  NoDup (map User.user_id (users s))
  /\ Forall (aggregates_ok (transactions s)) (users s).

(** One step of transaction generation: a skipped attempt, or a transaction
    [t] of the active user at position [ui]. *)
Inductive txn_step (s : Gen) : Gen -> Prop :=
| txn_skip : txn_step s s
| txn_made ui user t ps' :
    users s !! ui = Some user ->
    is_active_user user = true ->
    Transaction.user_id t = User.user_id user ->
    purchases (products s) (Transaction.items t) ps' ->
    pricing_ok t ->
    txn_step s
      (mkGen (config s) (categories s) ps'
         (<[ui := User.set_metrics user (User.total_orders user + 1)
                    (PrimFloat.add (User.lifetime_value user)
                       (Transaction.total t))]> (users s))
         (sessions s)
         (transactions s ++ [t])%list).

(** ** A concrete run

    A small configuration and a world whose [random] stream is a linear
    congruential sequence, used to evaluate the generator. *)

Definition demo_config : Config.t :=
  {| Config.NUM_USERS := 3; Config.NUM_PRODUCTS := 6;
     Config.NUM_CATEGORIES := 10; Config.NUM_TRANSACTIONS := 5;
     Config.NUM_SESSIONS := 3; Config.TIMESPAN_DAYS := 30;
     Config.CHUNK_SIZE := 2 |}.

(** A stream given by its first entries, constant afterwards. *)
Definition stream_of {A} (d : A) (l : list A) : nat -> A :=
  fun i => nth i l d.

Definition demo_draws : list Z :=
  Eval vm_compute in
    map (fun i => (Z.of_nat i * 6364136223846793005 + 1442695040888963407)
                  mod 2 ^ 53)%Z
        (seq 0 512).

Definition demo_rnd : nat -> Z := stream_of 0%Z demo_draws.

Definition demo_fake : nat -> Fake.t :=
  stream_of (Fake.mk "faker" 0 1730000000000000)
    (map (fun i => Fake.mk ("faker" +:+ fmt_d 2 i)
                     (Z.of_nat i * 2654435761 mod 2 ^ 32 * 1000003)
                     (1730000000000000 + Z.of_nat i * 1000000))
         (seq 0 128)).

Definition demo_uuid : nat -> string :=
  stream_of "0123456789abcdef0123456789abcdef"
    ["00112233445566778899aabbccddeeff"; "ffeeddccbbaa99887766554433221100";
     "0f1e2d3c4b5a69788796a5b4c3d2e1f0"; "123456789abcdef0123456789abcdef0";
     "89abcdef0123456789abcdef01234567"].

Definition demo_clock : nat -> Z :=
  stream_of 1730000000000000%Z [1730000000000000; 1730000360000000]%Z.

(** The world after [r], [f], [u] and [c] reads of the four streams. *)
Definition demo_at (pos : nat * nat * nat * nat) : World :=
  let '(r, f, u, c) := pos in
  mkWorld demo_rnd r demo_fake f demo_uuid u demo_clock c.

Definition demo_world : World := demo_at (0, 0, 0, 0)%nat.

Definition stream_positions (w : World) : nat * nat * nat * nat :=
  (rpos w, fpos w, upos w, cpos w).

Definition snapshot {A} (d : A) (r : res (A * World))
    : A * (nat * nat * nat * nat) :=
  match r with
  | Ok (a, w) => (a, stream_positions w)
  | Raise _ => (d, (0, 0, 0, 0)%nat)
  end.

(** The generator's state after the category and product stages ... *)
Definition demo_catalogued : Gen * (nat * nat * nat * nat) :=
  Eval vm_compute in
    snapshot (init demo_config)
      ((s <- generate_categories (init demo_config) ;;
        generate_products s) demo_world).

(** ... after the user stage ... *)
Definition demo_generated : Gen * (nat * nat * nat * nat) :=
  Eval vm_compute in
    snapshot (init demo_config)
      ((s <- generate_categories (init demo_config) ;;
        s <- generate_products s ;;
        generate_users s) demo_world).

(** ... after transaction generation ... *)
Definition demo_sold : Gen * (nat * nat * nat * nat) :=
  Eval vm_compute in
    snapshot (init demo_config)
      (_generate_simple_transactions (fst demo_generated)
         (demo_at (snd demo_generated))).

(** ... and after session generation. *)
Definition demo_browsed : Gen * (nat * nat * nat * nat) :=
  Eval vm_compute in
    snapshot (init demo_config)
      (_generate_simple_sessions (fst demo_sold) (demo_at (snd demo_sold))).

(** The complete run: the final state and the files. *)
Definition no_files : Files :=
  mkFiles [] [] [] [] []
    {| Summary.generation_metadata :=
         {| GenerationMetadata.timestamp := 0;
            GenerationMetadata.generator_version := "";
            GenerationMetadata.configuration := demo_config |};
       Summary.data_volumes := DataVolumes.mk 0 0 0 0 0 0;
       Summary.business_metrics := BusinessMetrics.mk 0 0 0 0 0 0 0;
       Summary.data_quality := DataQuality.mk 0 0 0;
       Summary.time_range := TimeRange.mk None None |}.

Definition demo_done : (Gen * Files) * (nat * nat * nat * nat) :=
  Eval vm_compute in
    snapshot (init demo_config, no_files)
      (generate_all (init demo_config) demo_world).

(** ** A run with a single category

    One category, one user, and a [random] stream whose every raw draw is 1:
    [random()] is then 2^-53, so each weighted choice takes its first option
    and the one category is active, and [randint(1, 5)] is 2. *)

Definition one_category_config : Config.t :=
  {| Config.NUM_USERS := 1; Config.NUM_PRODUCTS := 0;
     Config.NUM_CATEGORIES := 1; Config.NUM_TRANSACTIONS := 0;
     Config.NUM_SESSIONS := 0; Config.TIMESPAN_DAYS := 30;
     Config.CHUNK_SIZE := 10 |}.

Definition ones_at (pos : nat * nat * nat * nat) : World :=
  let '(r, f, u, c) := pos in
  mkWorld (stream_of 1%Z []) r (stream_of (Fake.mk "" 0 0) []) f
          (stream_of "" []) u (stream_of 0%Z []) c.

Definition ones_world : World := ones_at (0, 0, 0, 0)%nat.

Definition one_category_catalogued : Gen * (nat * nat * nat * nat) :=
  Eval vm_compute in
    snapshot (init one_category_config)
      ((s <- generate_categories (init one_category_config) ;;
        generate_products s) ones_world).

(** The generated state of the concrete run with every product removed: no
    product is available to any transaction attempt. *)
Definition demo_sold_out : Gen := set_products (fst demo_generated) [].

(** ** A purchase on a rounding boundary

    One active user, one active product priced 3.05 with three units in
    stock, one transaction to generate, and a [random] stream that makes the
    attempt draw one item, the quantity 3, a discount ([random()] is 0) and
    the second of the four rates, 0.10. *)

Definition two_item_user : User.t :=
  {| User.user_id := "user_000000"; User.email := "a@example.com";
     User.first_name := "A"; User.last_name := "B";
     User.demographics := Demographics.mk 30 "F" "medium" "master" "job"
                            "single";
     User.geo_data := GeoData.mk "city" "ST" "US" "UTC" "00000";
     User.preferences := Preferences.mk ["cat_000"] true true true "en";
     User.registration_date := 0; User.last_active := 0;
     User.account_status := "active"; User.loyalty_tier := "bronze";
     User.total_orders := 0; User.lifetime_value := 0 |}.

Definition two_item_product (i : nat) (price : float) : Product.t :=
  {| Product.product_id := "prod_" +:+ fmt_d 5 i; Product.sku := "GEN-100000";
     Product.name := "Premium Snacks Pro"; Product.description := "text";
     Product.category_id := "cat_009"; Product.subcategory_id := "sub_009_00";
     Product.brand := "GenericBrand"; Product.base_price := price;
     Product.cost := price; Product.current_stock := 1;
     Product.reorder_level := 10; Product.weight_kg := 1;
     Product.dimensions := Dimensions.mk 5 5 2; Product.is_active := true;
     Product.rating := 4; Product.review_count := 0;
     Product.price_history := [PriceEntry.mk price 0 "initial_listing"];
     Product.creation_date := 0; Product.last_updated := 0;
     Product.tags := []; Product.seasonal := false;
     Product.featured := false |}.

Definition boundary_config : Config.t :=
  {| Config.NUM_USERS := 1; Config.NUM_PRODUCTS := 1;
     Config.NUM_CATEGORIES := 1; Config.NUM_TRANSACTIONS := 1;
     Config.NUM_SESSIONS := 0; Config.TIMESPAN_DAYS := 30;
     Config.CHUNK_SIZE := 10 |}.

Definition boundary_self : Gen :=
  mkGen boundary_config []
    [Product.set_current_stock (two_item_product 0 3.05) 3] [two_item_user]
    [] [].

Definition boundary_world : World :=
  mkWorld (stream_of 0%Z [0; 0; 0; 2; 0; 1]%Z) 0
          (stream_of (Fake.mk "" 0 0) []) 0
          (stream_of "0123456789abcdef0123456789abcdef" []) 0
          (stream_of 0%Z []) 0.

Definition boundary_sold : Gen :=
  Eval vm_compute in
    fst (snapshot boundary_self
           (_generate_simple_transactions boundary_self boundary_world)).

(** ** What the seeds determine

    [random.seed(42)] fixes the [rnd] stream and [Faker.seed(42)] the texts
    and the draws of Faker; nothing fixes the clock, which the script and
    Faker's date providers read, nor [uuid4], which reads the operating
    system's entropy.  The [seeded_*] functions blank, in each record, the
    dates and the ids cut from [uuid4], and keep every other field. *)

Definition seeded_category (c : Category.t) : Category.t :=
  {| Category.category_id := Category.category_id c;
     Category.name := Category.name c;
     Category.description := Category.description c;
     Category.is_active := Category.is_active c;
     Category.created_date := 0;
     Category.subcategories := Category.subcategories c |}.

Definition seeded_entry (e : PriceEntry.t) : PriceEntry.t :=
  {| PriceEntry.price := PriceEntry.price e;
     PriceEntry.date := 0;
     PriceEntry.reason := PriceEntry.reason e |}.

Definition seeded_product (p : Product.t) : Product.t :=
  {| Product.product_id := Product.product_id p;
     Product.sku := Product.sku p;
     Product.name := Product.name p;
     Product.description := Product.description p;
     Product.category_id := Product.category_id p;
     Product.subcategory_id := Product.subcategory_id p;
     Product.brand := Product.brand p;
     Product.base_price := Product.base_price p;
     Product.cost := Product.cost p;
     Product.current_stock := Product.current_stock p;
     Product.reorder_level := Product.reorder_level p;
     Product.weight_kg := Product.weight_kg p;
     Product.dimensions := Product.dimensions p;
     Product.is_active := Product.is_active p;
     Product.rating := Product.rating p;
     Product.review_count := Product.review_count p;
     Product.price_history := map seeded_entry (Product.price_history p);
     Product.creation_date := 0;
     Product.last_updated := 0;
     Product.tags := Product.tags p;
     Product.seasonal := Product.seasonal p;
     Product.featured := Product.featured p |}.

Definition seeded_user (u : User.t) : User.t :=
  {| User.user_id := User.user_id u;
     User.email := User.email u;
     User.first_name := User.first_name u;
     User.last_name := User.last_name u;
     User.demographics := User.demographics u;
     User.geo_data := User.geo_data u;
     User.preferences := User.preferences u;
     User.registration_date := 0;
     User.last_active := 0;
     User.account_status := User.account_status u;
     User.loyalty_tier := User.loyalty_tier u;
     User.total_orders := User.total_orders u;
     User.lifetime_value := User.lifetime_value u |}.

Definition seeded_transaction (t : Transaction.t) : Transaction.t :=
  {| Transaction.transaction_id := "";
     Transaction.user_id := Transaction.user_id t;
     Transaction.timestamp := 0;
     Transaction.items := Transaction.items t;
     Transaction.subtotal := Transaction.subtotal t;
     Transaction.discount := Transaction.discount t;
     Transaction.tax := Transaction.tax t;
     Transaction.shipping := Transaction.shipping t;
     Transaction.total := Transaction.total t;
     Transaction.payment_method := Transaction.payment_method t;
     Transaction.status := Transaction.status t;
     Transaction.billing_address := Transaction.billing_address t;
     Transaction.shipping_address := Transaction.shipping_address t |}.

Definition seeded_session (s : Session.t) : Session.t :=
  {| Session.session_id := "";
     Session.user_id := Session.user_id s;
     Session.start_time := 0;
     Session.duration_seconds := Session.duration_seconds s;
     Session.device_type := Session.device_type s;
     Session.browser := Session.browser s;
     Session.os := Session.os s;
     Session.geo_data := Session.geo_data s;
     Session.pages_viewed := Session.pages_viewed s;
     Session.products_viewed := Session.products_viewed s;
     Session.conversion_status := Session.conversion_status s;
     Session.referrer := Session.referrer s;
     Session.end_time := 0 |}.

Definition seeded_gen (g : Gen) : Gen :=
  mkGen (config g)
    (map seeded_category (categories g))
    (map seeded_product (products g))
    (map seeded_user (users g))
    (map seeded_session (sessions g))
    (map seeded_transaction (transactions g)).

(** An instant that may be absent, blanked. *)
Definition seeded_instant (t : option Z) : option Z :=
  match t with Some _ => Some 0%Z | None => None end.

Definition seeded_summary (sm : Summary.t) : Summary.t :=
  {| Summary.generation_metadata :=
       {| GenerationMetadata.timestamp := 0;
          GenerationMetadata.generator_version :=
            GenerationMetadata.generator_version
              (Summary.generation_metadata sm);
          GenerationMetadata.configuration :=
            GenerationMetadata.configuration
              (Summary.generation_metadata sm) |};
     Summary.data_volumes := Summary.data_volumes sm;
     Summary.business_metrics := Summary.business_metrics sm;
     Summary.data_quality := Summary.data_quality sm;
     Summary.time_range :=
       {| TimeRange.start_date :=
            seeded_instant (TimeRange.start_date (Summary.time_range sm));
          TimeRange.end_date :=
            seeded_instant (TimeRange.end_date (Summary.time_range sm)) |} |}.

Definition seeded_chunk (c : string * list Session.t)
    : string * list Session.t :=
  (fst c, map seeded_session (snd c)).

Definition seeded_files (f : Files) : Files :=
  mkFiles (map seeded_category (categories_json f))
    (map seeded_product (products_json f))
    (map seeded_user (users_json f))
    (map seeded_transaction (transactions_json f))
    (map seeded_chunk (sessions_chunks f))
    (seeded_summary (dataset_summary_json f)).

(** Two worlds with the same seeds: the same [random] stream and the same
    texts and draws of Faker, both read up to the same position. *)
Definition same_seed (w1 w2 : World) : Prop :=
  (forall i, rnd w1 i = rnd w2 i) /\ rpos w1 = rpos w2
  /\ (forall i, Fake.text (fake w1 i) = Fake.text (fake w2 i)
                /\ Fake.draw (fake w1 i) = Fake.draw (fake w2 i))
  /\ fpos w1 = fpos w2.

(** A run stopped by an [OverflowError]: a date it computes from the clock
    leaves the range of [datetime]. *)
Definition overflows {A} (r : res A) : Prop := r = Raise OverflowError.

(** Two computations that, run in worlds with the same seeds, raise the same
    exception or return values related by [RA], leaving both streams at the
    same positions, unless the clock of one of them makes it overflow. *)
Definition sim {A B} (RA : A -> B -> Prop) (m1 : R A) (m2 : R B) : Prop :=
  forall w1 w2, same_seed w1 w2 ->
    overflows (m1 w1) \/ overflows (m2 w2)
    \/ match m1 w1, m2 w2 with
       | Ok (a1, w1'), Ok (a2, w2') => RA a1 a2 /\ same_seed w1' w2'
       | Raise e1, Raise e2 => e1 = e2
       | _, _ => False
       end.

(** Two generator states that agree on what the seeds determine. *)
Definition same_seeded (g1 g2 : Gen) : Prop := seeded_gen g1 = seeded_gen g2.

(** The concrete run repeated an hour later, and repeated with other
    [uuid4] values: the same seeds, another clock, other entropy. *)
Definition demo_world_later : World :=
  mkWorld demo_rnd 0
          (fun i => Fake.mk (Fake.text (demo_fake i)) (Fake.draw (demo_fake i))
                      (Fake.clock (demo_fake i) + 3600000000)) 0
          demo_uuid 0
          (stream_of 1730003600000000%Z
             [1730003600000000; 1730003960000000]%Z) 0.

Definition demo_world_other_uuid : World :=
  mkWorld demo_rnd 0 demo_fake 0
          (stream_of "fedcba9876543210fedcba9876543210"
             ["a0b1c2d3e4f5061728394a5b6c7d8e9f";
              "5f4e3d2c1b0a99887766554433221100";
              "c001d00dfeedfacecafebeef00112233";
              "7766554433221100ffeeddccbbaa9988";
              "0badcafe0badcafe0badcafe0badcafe"]) 0 demo_clock 0.

Definition demo_done_later : Gen * Files :=
  Eval vm_compute in
    fst (snapshot (init demo_config, no_files)
           (generate_all (init demo_config) demo_world_later)).

Definition demo_done_other_uuid : Gen * Files :=
  Eval vm_compute in
    fst (snapshot (init demo_config, no_files)
           (generate_all (init demo_config) demo_world_other_uuid)).

(** The concrete configuration with a time span of a million days, and the
    concrete world with its clocks in the year 9000: the same seeds again. *)
Definition long_span_config : Config.t :=
  {| Config.NUM_USERS := 3; Config.NUM_PRODUCTS := 6;
     Config.NUM_CATEGORIES := 10; Config.NUM_TRANSACTIONS := 5;
     Config.NUM_SESSIONS := 3; Config.TIMESPAN_DAYS := 1000000;
     Config.CHUNK_SIZE := 2 |}.

Definition demo_world_9000 : World :=
  mkWorld demo_rnd 0
          (fun i => Fake.mk (Fake.text (demo_fake i)) (Fake.draw (demo_fake i))
                      221845392000000000) 0
          demo_uuid 0 (stream_of 221845392000000000%Z []) 0.

Definition long_span_done : Gen * Files :=
  Eval vm_compute in
    fst (snapshot (init long_span_config, no_files)
           (generate_all (init long_span_config) demo_world_9000)).

(** ** Clocks and time spans that fit

    The dates of a run stay inside the range of [datetime] when the time
    span is between 0 and 239720 days (three times as many days before the
    epoch are still in year 1) and every reading of the clock, by the script
    or by Faker, is between the epoch and 180 days before the end of year
    9999. *)
Definition timespan_fits (cfg : Config.t) : Prop :=
  (0 <= Config.TIMESPAN_DAYS cfg <= 239720)%Z.

Definition reading_fits (t : Z) : Prop :=
  (0 <= t <= datetime_max - timedelta_days 180)%Z.

Definition clock_fits (w : World) : Prop :=
  (forall i, reading_fits (clock w i))
  /\ (forall i, reading_fits (Fake.clock (fake w i))).

(** A configuration with no user to generate, and one whose time span is
    negative. *)
Definition no_user_config : Config.t :=
  {| Config.NUM_USERS := 0; Config.NUM_PRODUCTS := 6;
     Config.NUM_CATEGORIES := 10; Config.NUM_TRANSACTIONS := 5;
     Config.NUM_SESSIONS := 3; Config.TIMESPAN_DAYS := 30;
     Config.CHUNK_SIZE := 2 |}.

Definition negative_span_config : Config.t :=
  {| Config.NUM_USERS := 3; Config.NUM_PRODUCTS := 6;
     Config.NUM_CATEGORIES := 10; Config.NUM_TRANSACTIONS := 5;
     Config.NUM_SESSIONS := 3; Config.TIMESPAN_DAYS := -1;
     Config.CHUNK_SIZE := 2 |}.

(** ** The streams of a world *)

(** Between [w] and [w'] the streams were read, not changed. *)
Definition same_streams (w w' : World) : Prop :=
  rnd w' = rnd w /\ fake w' = fake w /\ uuid w' = uuid w
  /\ clock w' = clock w.

Definition keeps_streams {A} (m : R A) : Prop :=
  forall w a w', m w = Ok (a, w') -> same_streams w w'.

(** ** Bounds of [date_time_between] *)

(** A bound that Faker accepts whatever its clock reads: a datetime,
    ["now"], or a string that parses to an offset of at most 719162 days
    into the past, the days from the first of year 1 to the epoch. *)
Definition date_arg_ok (a : date_arg) : Prop :=
  match a with
  | At t => (datetime_min <= t <= datetime_max)%Z
  | Rel s =>
      s = "now"
      \/ exists us, _parse_date_string s = Ok us
                    /\ (- timedelta_days 719162 <= us <= 0)%Z
  end.

(** Two bounds of the same kind: the same string, or two datetimes. *)
Definition alike (a1 a2 : date_arg) : Prop :=
  match a1, a2 with
  | Rel s1, Rel s2 => s1 = s2
  | At _, At _ => True
  | _, _ => False
  end.

(** A result that fails with [OverflowError] only. *)
Definition only_overflows {A} (r : res A) : Prop :=
  forall e, r = Raise e -> e = OverflowError.

(** * The inventory manager

    [InventoryManager] holds a dict from product id to product object.  The
    objects are those of the list it was built from, shared with that list:
    as for [self.products] of the generator, an object is named by its
    position in the list, and the product objects themselves form the [heap]
    that the methods read and update.  A method has no result ([None]) when a
    reference of the dict names no object of the heap, which happens in no
    Python state.  The reentrant lock only orders concurrent callers; each
    method body runs as one step. *)

Module InventoryManager.

Record t := mk { products : gmap string nat }.

(** [{p["product_id"]: p for p in products}]: of two products with the same
    id the later one is kept. *)
Definition __init__ (ps : list Product.t) : t :=
  mk (fold_left (fun d ip => <[Product.product_id (snd ip) := fst ip]> d)
                (enumerate ps) ∅).

Definition update_stock (self : t) (product_id : string) (quantity : Z)
    (heap : list Product.t) : option (bool * list Product.t) :=
  match products self !! product_id with
  | None => Some (false, heap)
  | Some r =>
      match heap !! r with
      | Some p =>
          if (quantity <=? Product.current_stock p)%Z
          then Some (true,
                     <[r := Product.set_current_stock p
                              (Product.current_stock p - quantity)]> heap)
          else Some (false, heap)
      | None => None
      end
  end.

(** [self.products.get(product_id, {})]: the product, or [Missing] for the
    empty dict. *)
Inductive found := Missing | Found (p : Product.t).

Definition get_product (self : t) (product_id : string)
    (heap : list Product.t) : option found :=
  match products self !! product_id with
  | None => Some Missing
  | Some r =>
      match heap !! r with
      | Some p => Some (Found p)
      | None => None
      end
  end.

End InventoryManager.

(** * More specification vocabulary *)

(** The product objects [heap] are those of the list [ps], with whatever
    stock they hold now. *)
Definition same_objects (ps heap : list Product.t) : Prop :=
  Forall2 same_product ps heap.

Definition has_id (pid : string) (p : Product.t) : bool :=
  String.eqb (Product.product_id p) pid.

(** The units all products hold together. *)
Definition total_stock (ps : list Product.t) : Z :=
  fold_right Z.add 0%Z (map Product.current_stock ps).

(** ** Categories *)

(** The number of entries of the category table that
    [category_data[:NUM_CATEGORIES]] keeps. *)
Definition category_count (n : Z) : Z :=
  if (0 <=? n)%Z then Z.min n 10 else Z.max 0 (10 + n).

Definition subcategory_ids (cats : list Category.t) : list string :=
  concat (map (fun c => map Subcategory.subcategory_id
                          (Category.subcategories c)) cats).

(** What [generate_categories] fixes about the category of loop index [i],
    made from the table entry [entry]. *)
Definition category_facts (i : nat) (entry : string * list string)
    (c : Category.t) : Prop :=
  Category.category_id c = "cat_" +:+ fmt_d 3 i
  /\ Category.name c = fst entry
  /\ Category.description c
     = "Premium " +:+ lower (fst entry) +:+ " products for modern lifestyle"
  /\ map Subcategory.name (Category.subcategories c) = snd entry
  /\ map Subcategory.subcategory_id (Category.subcategories c)
     = map (fun j => "sub_" +:+ fmt_d 3 i +:+ "_" +:+ fmt_d 2 j)
           (seq 0 (length (snd entry))).

(** ** Products *)

Definition adjectives : list string :=
  ["Premium"; "Professional"; "Advanced"; "Deluxe"; "Essential"; "Classic";
   "Modern"; "Ultimate"].

Definition descriptors : list string :=
  ["Pro"; "Plus"; "Elite"; "Standard"; "Compact"; "Extended"; "Smart";
   "Enhanced"].

(** The product refers to a category of [cats] and to one of its
    subcategories, carries one of the category's brands, and its cost is its
    price less the subcategory's margin. *)
Definition product_refs (cats : list Category.t) (p : Product.t) : Prop :=
  exists c sub,
    c ∈ cats /\ sub ∈ Category.subcategories c
    /\ Product.category_id p = Category.category_id c
    /\ Product.subcategory_id p = Subcategory.subcategory_id sub
    /\ Product.brand p ∈ brands_by_category (Category.name c)
    /\ (exists adjective descriptor,
          adjective ∈ adjectives /\ descriptor ∈ descriptors
          /\ Product.name p
             = adjective +:+ " " +:+ Subcategory.name sub +:+ " "
               +:+ descriptor)
    /\ Product.cost p
       = round (PrimFloat.mul (Product.base_price p)
                  (PrimFloat.sub 1 (Subcategory.profit_margin sub))) 2.

(** The product's dates and price are those of its price history, which
    starts at [start] and holds at most four changes. *)
Definition product_dated (start : Z) (p : Product.t) : Prop :=
  exists oldest newest,
    Product.price_history p !! 0%nat = Some oldest
    /\ last (Product.price_history p) = Some newest
    /\ PriceEntry.date oldest = start
    /\ Product.creation_date p = start
    /\ Product.last_updated p = PriceEntry.date newest
    /\ Product.base_price p = PriceEntry.price newest
    /\ (1 <= length (Product.price_history p) <= 5)%nat
    /\ (start <= Product.last_updated p <= start + timedelta_days 180)%Z.

Definition product_ranges (p : Product.t) : Prop :=
  (0 <= Product.current_stock p <= 1000)%Z
  /\ (10 <= Product.reorder_level p <= 50)%Z
  /\ (0 <= Product.review_count p <= 500)%Z
  /\ exists n, (100000 <= n <= 999999)%Z
       /\ Product.sku p
          = upper (String.substring 0 3 (Product.brand p)) +:+ "-"
            +:+ str_of_Z n.

Definition product_tagged (p : Product.t) : Prop :=
  Product.tags p ⊆+ all_tags /\ (length (Product.tags p) <= 4)%nat.

(** Everything [generate_products] fixes about the product of loop index
    [i]. *)
Definition product_made (cats : list Category.t) (start : Z) (i : nat)
    (p : Product.t) : Prop :=
  Product.product_id p = "prod_" +:+ fmt_d 5 i
  /\ product_refs cats p /\ product_dated start p /\ product_ranges p
  /\ product_tagged p.

(** ** Users *)

Definition user_made (cats : list Category.t) (i : nat) (u : User.t) : Prop :=
  User.user_id u = "user_" +:+ fmt_d 6 i
  /\ (18 <= Demographics.age (User.demographics u) <= 70)%Z
  /\ Preferences.preferred_categories (User.preferences u)
       ⊆+ active_category_ids cats
  /\ User.account_status u ∈ ["active"; "inactive"; "suspended"]
  /\ User.total_orders u = 0%Z
  /\ User.lifetime_value u = 0%float.

(** ** Transactions *)

(** The item [it] was bought from the product at position [pi] of [ps]. *)
Definition item_from (ps : list Product.t) (pi : nat) (it : Item.t) : Prop :=
  exists p, ps !! pi = Some p
    /\ is_available p = true
    /\ Item.product_id it = Product.product_id p
    /\ Item.unit_price it = Product.base_price p.

(** The transaction [t] was made for an active user of [us] with items from
    distinct available products of [ps]. *)
Definition txn_made_from (ps : list Product.t) (us : list User.t)
    (t : Transaction.t) : Prop :=
  (exists ui user,
     us !! ui = Some user /\ is_active_user user = true
     /\ Transaction.user_id t = User.user_id user
     /\ Transaction.billing_address t = User.geo_data user
     /\ Transaction.shipping_address t = User.geo_data user)
  /\ (exists selected,
        NoDup selected /\ (1 <= length selected <= 5)%nat
        /\ Forall2 (item_from ps) selected (Transaction.items t))
  /\ Transaction.payment_method t
       ∈ ["credit_card"; "debit_card"; "paypal"; "apple_pay"; "google_pay";
          "bank_transfer"; "gift_card"]
  /\ Transaction.status t
       ∈ ["completed"; "processing"; "shipped"; "delivered"; "cancelled"].

(** The same, of a product or user that may since have been updated: ids,
    flags, prices and addresses are never assigned again. *)
Definition item_of_active (ps : list Product.t) (pi : nat) (it : Item.t)
    : Prop :=
  exists p, ps !! pi = Some p
    /\ Product.is_active p = true
    /\ Item.product_id it = Product.product_id p
    /\ Item.unit_price it = Product.base_price p.

Definition txn_valid (ps : list Product.t) (us : list User.t)
    (t : Transaction.t) : Prop :=
  (exists ui user,
     us !! ui = Some user /\ is_active_user user = true
     /\ Transaction.user_id t = User.user_id user
     /\ Transaction.billing_address t = User.geo_data user
     /\ Transaction.shipping_address t = User.geo_data user)
  /\ (exists selected,
        NoDup selected /\ (1 <= length selected <= 5)%nat
        /\ Forall2 (item_of_active ps) selected (Transaction.items t)).

(** The units of the product [pid] that the items, and the transactions,
    hold. *)
Definition units (pid : string) (items : list Item.t) : Z :=
  fold_right Z.add 0%Z
    (map Item.quantity
       (List.filter (fun it => String.eqb (Item.product_id it) pid) items)).

Definition units_sold (pid : string) (ts : list Transaction.t) : Z :=
  fold_right Z.add 0%Z (map (fun t => units pid (Transaction.items t)) ts).

(** ** Sessions *)

Definition session_made (us : list User.t) (s : Session.t) : Prop :=
  (exists user, user ∈ us
     /\ Session.user_id s = User.user_id user
     /\ SessionGeo.base (Session.geo_data s) = User.geo_data user)
  /\ (30 <= Session.duration_seconds s <= 3600)%Z
  /\ Session.end_time s
     = (Session.start_time s + Session.duration_seconds s * 1000000)%Z
  /\ (1 <= Session.pages_viewed s <= 15)%Z.

(** ** The clock *)

(** The clock has not been read between [w] and [w']. *)
Definition same_clock (w w' : World) : Prop :=
  clock w' = clock w /\ cpos w' = cpos w.

(** ** Session files *)

(** [sessions_000.json], [sessions_001.json], ... *)
Definition chunk_name (i : nat) : string :=
  "sessions_" +:+ fmt_d 3 i +:+ ".json".

(** The number of chunks of [size] that [n] sessions fill, the last one
    possibly in part. *)
Definition chunk_count (n size : Z) : nat := Z.to_nat ((n + size - 1) / size).

(** ** More concrete inputs *)

(** A configuration whose chunk size is zero, and one whose chunk size is
    negative. *)
Definition zero_chunk_config : Config.t :=
  {| Config.NUM_USERS := 3; Config.NUM_PRODUCTS := 6;
     Config.NUM_CATEGORIES := 10; Config.NUM_TRANSACTIONS := 5;
     Config.NUM_SESSIONS := 3; Config.TIMESPAN_DAYS := 30;
     Config.CHUNK_SIZE := 0 |}.

Definition negative_chunk_config : Config.t :=
  {| Config.NUM_USERS := 3; Config.NUM_PRODUCTS := 6;
     Config.NUM_CATEGORIES := 10; Config.NUM_TRANSACTIONS := 5;
     Config.NUM_SESSIONS := 3; Config.TIMESPAN_DAYS := 30;
     Config.CHUNK_SIZE := -2 |}.

Definition with_config (cfg : Config.t) (self : Gen) : Gen :=
  mkGen cfg (categories self) (products self) (users self) (sessions self)
        (transactions self).

(** A configuration that keeps no category. *)
Definition no_category_config : Config.t :=
  {| Config.NUM_USERS := 3; Config.NUM_PRODUCTS := 6;
     Config.NUM_CATEGORIES := 0; Config.NUM_TRANSACTIONS := 5;
     Config.NUM_SESSIONS := 3; Config.TIMESPAN_DAYS := 30;
     Config.CHUNK_SIZE := 2 |}.

(** The inventory of the concrete run. *)
Definition demo_inventory : InventoryManager.t :=
  InventoryManager.__init__ (products_json (snd (fst demo_done))).

(** Two product objects with the same id. *)
Definition twin_products : list Product.t :=
  [two_item_product 0 1.1; two_item_product 1 2.2; two_item_product 0 3.3].

(** * Reasoning about generation code *)

Local Close Scope string_scope.

Section Monad.
Context {A B : Type}.

Lemma bind_ok (m : R A) (k : A -> R B) w b w' :
  bind m k w = Ok (b, w') <->
  exists a w1, m w = Ok (a, w1) /\ k a w1 = Ok (b, w').
Proof.
  unfold bind. split.
  - destruct (m w) as [[a w1]|e]; [eauto|discriminate].
  - intros (a & w1 & -> & Hk). exact Hk.
Qed.

Lemma bind_raise (m : R A) (k : A -> R B) w e :
  bind m k w = Raise e <->
  m w = Raise e \/ exists a w1, m w = Ok (a, w1) /\ k a w1 = Raise e.
Proof.
  unfold bind. split.
  - destruct (m w) as [[a w1]|e']; [eauto|]. intros [= ->]. now left.
  - intros [-> | (a & w1 & -> & Hk)]; [reflexivity | exact Hk].
Qed.

Lemma bind_step (m : R A) (k : A -> R B) w a w1 :
  m w = Ok (a, w1) -> bind m k w = k a w1.
Proof. unfold bind. now intros ->. Qed.

Lemma ret_ok (a a' : A) w w' : ret a w = Ok (a', w') <-> a = a' /\ w = w'.
Proof. unfold ret. split; [now intros [= -> ->] | now intros [-> ->]]. Qed.

End Monad.

(** Splits a hypothesis [x <- m ;; k = Ok _] into the steps of the chain. *)
Ltac bind_inv H :=
  cbv beta in H;
  lazymatch type of H with
  | bind _ _ _ = Ok _ =>
      let a := fresh "a" in
      let w := fresh "w" in
      let Hm := fresh "Hm" in
      apply bind_ok in H; destruct H as (a & w & Hm & H); bind_inv H
  | ret _ _ = Ok _ => apply ret_ok in H; destruct H as [H ?]
  | _ => idtac
  end.

(** *** Loops *)

Section Loops.
Context {A S : Type}.
Implicit Types (l : list A) (body : A -> S -> R S).

Lemma for_each_nil body s w : for_each [] body s w = Ok (s, w).
Proof. reflexivity. Qed.

Lemma for_each_cons x l body s w :
  for_each (x :: l) body s w =
  bind (body x s) (fun s' => for_each l body s') w.
Proof. reflexivity. Qed.

(** A property kept by every successful iteration is kept by the loop. *)
Lemma for_each_inv (I : S -> Prop) l body :
  (forall x s w s' w', x ∈ l -> I s -> body x s w = Ok (s', w') -> I s') ->
  forall s w s' w', I s -> for_each l body s w = Ok (s', w') -> I s'.
Proof.
  induction l as [|x l IH]; intros Hbody s w s' w' Hs Hrun.
  - apply ret_ok in Hrun as [<- _]. exact Hs.
  - rewrite for_each_cons in Hrun. apply bind_ok in Hrun as (s1 & w1 & H1 & Hrun).
    eapply IH; [| |exact Hrun].
    + intros y t v t' v' Hy. apply Hbody. now right.
    + eapply Hbody; [left|exact Hs|exact H1].
Qed.

(** When every iteration succeeds from a state satisfying [I] and keeps [I],
    the whole loop succeeds. *)
Lemma for_each_total (I : S -> Prop) l body :
  (forall x s w, x ∈ l -> I s -> exists s' w', body x s w = Ok (s', w') /\ I s') ->
  forall s w, I s -> exists s' w', for_each l body s w = Ok (s', w') /\ I s'.
Proof.
  induction l as [|x l IH]; intros Hbody s w Hs.
  - exists s, w. now split.
  - destruct (Hbody x s w) as (s1 & w1 & H1 & Hs1); [left|exact Hs|].
    destruct (IH (fun y t v Hy => Hbody y t v (list_elem_of_further _ _ _ Hy)) s1 w1 Hs1)
      as (s' & w' & Hrun & Hs').
    exists s', w'. split; [|exact Hs'].
    rewrite for_each_cons. now rewrite (bind_step _ _ _ _ _ H1).
Qed.

(** A loop whose every iteration returns, keeping [I], or raises an
    exception of [E], returns or raises an exception of [E]. *)
Lemma for_each_raises (I : S -> Prop) (E : exn -> Prop) l body :
  (forall x s w, I s ->
     (exists s' w', body x s w = Ok (s', w') /\ I s')
     \/ exists e, body x s w = Raise e /\ E e) ->
  forall s w, I s ->
    (exists s' w', for_each l body s w = Ok (s', w') /\ I s')
    \/ exists e, for_each l body s w = Raise e /\ E e.
Proof.
  intros Hbody. induction l as [|x l IH]; intros s w Hs.
  - left. exists s, w. now split.
  - rewrite for_each_cons.
    destruct (Hbody x s w Hs) as [(s1 & w1 & H1 & Hs1)|(e & Hraise & He)].
    + rewrite (bind_step _ _ _ _ _ H1). apply IH, Hs1.
    + right. exists e. split; [|exact He]. unfold bind. now rewrite Hraise.
Qed.

(** The same, for a property of the state and the world. *)
Lemma for_each_raises_world (I : S -> World -> Prop) (E : exn -> Prop) l body :
  (forall x s w, I s w ->
     (exists s' w', body x s w = Ok (s', w') /\ I s' w')
     \/ exists e, body x s w = Raise e /\ E e) ->
  forall s w, I s w ->
    (exists s' w', for_each l body s w = Ok (s', w') /\ I s' w')
    \/ exists e, for_each l body s w = Raise e /\ E e.
Proof.
  intros Hbody. induction l as [|x l IH]; intros s w Hs.
  - left. exists s, w. now split.
  - rewrite for_each_cons.
    destruct (Hbody x s w Hs) as [(s1 & w1 & H1 & Hs1)|(e & Hraise & He)].
    + rewrite (bind_step _ _ _ _ _ H1). apply IH, Hs1.
    + right. exists e. split; [|exact He]. unfold bind. now rewrite Hraise.
Qed.

Lemma for_each_total_world (I : S -> World -> Prop) l body :
  (forall x s w, I s w ->
     exists s' w', body x s w = Ok (s', w') /\ I s' w') ->
  forall s w, I s w ->
    exists s' w', for_each l body s w = Ok (s', w') /\ I s' w'.
Proof.
  intros Hbody s w Hs.
  destruct (for_each_raises_world I (fun _ => False) l body) with (s := s)
    (w := w) as [H|(e & _ & [])]; [|exact Hs|exact H].
  intros x t v Ht. left. now apply Hbody.
Qed.

Lemma for_each_app l1 l2 body s w :
  for_each (l1 ++ l2) body s w =
  bind (for_each l1 body s) (fun s' => for_each l2 body s') w.
Proof.
  revert s w. induction l1 as [|x l1 IH]; intros s w; simpl.
  - reflexivity.
  - unfold bind in *. destruct (body x s w) as [[s1 w1]|e]; [|reflexivity].
    apply IH.
Qed.

End Loops.

(** *** The primitives *)

Lemma index_ok {A} (l : list A) i w x w' :
  index l i w = Ok (x, w') <-> l !! i = Some x /\ w' = w.
Proof.
  unfold index. destruct (l !! i) as [y|]; unfold ret, raise; split.
  - now intros [= -> ->].
  - now intros [[= ->] ->].
  - discriminate.
  - now intros [? _].
Qed.

Lemma index_some {A} (l : list A) i x w :
  l !! i = Some x -> index l i w = Ok (x, w).
Proof. intros H. apply index_ok. now split. Qed.

Module random_facts.
Import random.

Lemma draw_ok w : exists r w', draw w = Ok (r, w').
Proof. unfold draw. eauto. Qed.

Lemma randbelow_total n w : exists r w', randbelow n w = Ok (r, w').
Proof. unfold randbelow, bind, draw, ret. eauto. Qed.

Lemma randbelow_lt n w r w' :
  (0 < n)%nat -> randbelow n w = Ok (r, w') -> (r < n)%nat.
Proof.
  intros Hn H. unfold randbelow in H. bind_inv H. subst r.
  pose proof (Z.mod_pos_bound a (Z.of_nat n)). lia.
Qed.

Lemma random_total w : exists u w', random w = Ok (u, w').
Proof. unfold random, bind, draw, ret. eauto. Qed.

Lemma uniform_total a b w : exists u w', uniform a b w = Ok (u, w').
Proof. unfold uniform, random, bind, draw, ret. eauto. Qed.

Lemma randint_range a b w z w' :
  randint a b w = Ok (z, w') -> (a <= z <= b)%Z.
Proof.
  unfold randint. destruct (Z.ltb_spec b a) as [Hlt|Hle]; [discriminate|].
  intros H. bind_inv H. subst z.
  apply randbelow_lt in Hm; lia.
Qed.

Lemma randint_total a b w :
  (a <= b)%Z -> exists z w', randint a b w = Ok (z, w').
Proof.
  intros Hab. unfold randint.
  destruct (Z.ltb_spec b a) as [Hlt|Hle]; [lia|].
  unfold bind, randbelow, bind, draw, ret. eauto.
Qed.

Lemma randint_empty a b w : (b < a)%Z -> randint a b w = Raise ValueError.
Proof.
  intros Hab. unfold randint. destruct (Z.ltb_spec b a); [reflexivity|lia].
Qed.

Lemma choice_elem {A} (l : list A) w x w' :
  choice l w = Ok (x, w') -> x ∈ l.
Proof.
  unfold choice. destruct l as [|y l]; [discriminate|].
  intros H. bind_inv H. apply index_ok in H as [H _].
  eapply list_elem_of_lookup_2, H.
Qed.

Lemma choice_total {A} (l : list A) w :
  l <> [] -> exists x w', choice l w = Ok (x, w') /\ x ∈ l.
Proof.
  intros Hl. destruct l as [|y l]; [done|].
  destruct (randbelow_total (length (y :: l)) w) as (r & w1 & Hr).
  assert (Hlt : (r < length (y :: l))%nat).
  { eapply randbelow_lt; [|exact Hr]. simpl. lia. }
  destruct (lookup_lt_is_Some_2 (y :: l) r Hlt) as [x Hx].
  exists x, w1. split; [|eapply list_elem_of_lookup_2, Hx].
  unfold choice. rewrite (bind_step _ _ _ _ _ Hr). now apply index_some.
Qed.

Lemma choice_empty {A} w : choice (@nil A) w = Raise IndexError.
Proof. reflexivity. Qed.

Lemma bisect_le a x hi : (bisect a x hi <= hi)%nat.
Proof.
  revert a. induction hi as [|hi IH]; intros [|y a]; simpl; try lia.
  destruct (PrimFloat.ltb x y); [lia|]. specialize (IH a). lia.
Qed.

Lemma choices_elem {A} (population : list A) weights w x w' :
  choices population weights w = Ok (x, w') -> x ∈ population.
Proof.
  unfold choices.
  destruct (negb _); [discriminate|].
  destruct (last _) as [total|]; [|discriminate].
  destruct (PrimFloat.leb total 0); [discriminate|].
  intros H. bind_inv H. apply index_ok in H as [H _].
  eapply list_elem_of_lookup_2, H.
Qed.

Lemma choices_total {A} (population : list A) weights w :
  good_weights population weights = true ->
  exists x w', choices population weights w = Ok (x, w') /\ x ∈ population.
Proof.
  unfold good_weights. intros Hg.
  apply andb_prop in Hg as [Hg Hne]. apply andb_prop in Hg as [Hlen Htot].
  unfold choices. rewrite Hlen. cbn [negb].
  destruct (last (accumulate weights)) as [total|]; [|discriminate].
  apply negb_true_iff in Htot. rewrite Htot.
  destruct (random_total w) as (u & w1 & Hu).
  rewrite (bind_step _ _ _ _ _ Hu).
  set (i := bisect _ _ _).
  assert (Hi : (i < length population)%nat).
  { pose proof (bisect_le (accumulate weights) (PrimFloat.mul u total)
                  (length population - 1)).
    apply negb_true_iff, Nat.eqb_neq in Hne. subst i. lia. }
  destruct (lookup_lt_is_Some_2 population i Hi) as [x Hx].
  exists x, w1. split; [now apply index_some | eapply list_elem_of_lookup_2, Hx].
Qed.

End random_facts.

Module sample_facts.
Import random.

(** One pick of the pool algorithm removes exactly the picked entry. *)
Lemma swap_remove_perm {A} (pool : list A) j x y :
  pool !! j = Some x -> pool !! (length pool - 1)%nat = Some y ->
  x :: take (length pool - 1) (<[j:=y]> pool) ≡ₚ pool.
Proof.
  intros Hj Hlast.
  pose proof (lookup_lt_Some _ _ _ Hj) as Hlt.
  set (n := (length pool - 1)%nat) in *.
  assert (Hpool : pool = take n pool ++ [y]).
  { rewrite <- (take_drop n pool) at 1. f_equal.
    rewrite (drop_S _ _ _ Hlast). rewrite drop_ge; [reflexivity|subst n; lia]. }
  destruct (decide (j = n)) as [->|Hne].
  - assert (x = y) by congruence. subst y.
    rewrite list_insert_id by exact Hj.
    rewrite Hpool at 2. apply Permutation_cons_append.
  - rewrite take_insert_lt by (subst n; lia).
    assert (Hinit : take n pool !! j = Some x).
    { rewrite lookup_take_lt by (subst n; lia). exact Hj. }
    rewrite insert_take_drop
      by (rewrite length_take; subst n; lia).
    rewrite Hpool at 3.
    rewrite <- (take_drop_middle _ _ _ Hinit) at 3.
    rewrite <- !app_assoc. simpl.
    rewrite Permutation_middle. apply Permutation_app_head.
    rewrite (Permutation_cons_append (drop (S j) (take n pool)) y).
    reflexivity.
Qed.

Lemma sample_pool_sub {A} k (pool : list A) w l w' :
  sample_pool k pool w = Ok (l, w') -> l ⊆+ pool /\ length l = k.
Proof.
  revert pool w l w'. induction k as [|k IH]; intros pool w l w' H; simpl in H.
  - apply ret_ok in H as [<- _]. split; [apply submseteq_nil_l|reflexivity].
  - bind_inv H. subst l.
    apply index_ok in Hm0 as [Hx ->]. apply index_ok in Hm1 as [Hy ->].
    apply IH in Hm2 as [Hsub Hlen]. split; [|simpl; now rewrite Hlen].
    rewrite <- (swap_remove_perm pool a a0 a1 Hx Hy).
    now apply submseteq_skip.
Qed.

Lemma sample_pool_total {A} k (pool : list A) w :
  (k <= length pool)%nat -> exists l w', sample_pool k pool w = Ok (l, w').
Proof.
  revert pool w. induction k as [|k IH]; intros pool w Hk; simpl.
  - unfold ret. eauto.
  - destruct (random_facts.randbelow_total (length pool) w) as (j & w1 & Hj).
    assert (Hlt : (j < length pool)%nat).
    { eapply random_facts.randbelow_lt; [lia|exact Hj]. }
    destruct (lookup_lt_is_Some_2 pool j Hlt) as [x Hx].
    destruct (lookup_lt_is_Some_2 pool (length pool - 1)) as [y Hy]; [lia|].
    destruct (IH (take (length pool - 1) (<[j:=y]> pool)) w1) as (l & w' & Hl).
    { rewrite length_take, length_insert. lia. }
    exists (x :: l), w'.
    rewrite (bind_step _ _ _ _ _ Hj).
    rewrite (bind_step _ _ _ _ _ (index_some _ _ _ _ Hx)).
    rewrite (bind_step _ _ _ _ _ (index_some _ _ _ _ Hy)).
    now rewrite (bind_step _ _ _ _ _ Hl).
Qed.

Lemma sample_set_sub {A} k (unselected : list A) w l w' :
  sample_set k unselected w = Ok (l, w') -> l ⊆+ unselected /\ length l = k.
Proof.
  revert unselected w l w'.
  induction k as [|k IH]; intros unselected w l w' H; simpl in H.
  - apply ret_ok in H as [<- _]. split; [apply submseteq_nil_l|reflexivity].
  - bind_inv H. subst l. apply index_ok in Hm0 as [Hx ->].
    apply IH in Hm1 as [Hsub Hlen]. split; [|simpl; now rewrite Hlen].
    rewrite (delete_Permutation unselected a a0 Hx).
    now apply submseteq_skip.
Qed.

Lemma sample_set_total {A} k (unselected : list A) w :
  (k <= length unselected)%nat ->
  exists l w', sample_set k unselected w = Ok (l, w').
Proof.
  revert unselected w. induction k as [|k IH]; intros unselected w Hk; simpl.
  - unfold ret. eauto.
  - destruct (random_facts.randbelow_total (length unselected) w)
      as (j & w1 & Hj).
    assert (Hlt : (j < length unselected)%nat).
    { eapply random_facts.randbelow_lt; [lia|exact Hj]. }
    destruct (lookup_lt_is_Some_2 unselected j Hlt) as [x Hx].
    destruct (IH (delete j unselected) w1) as (l & w' & Hl).
    { rewrite length_delete by eauto. lia. }
    exists (x :: l), w'.
    rewrite (bind_step _ _ _ _ _ Hj).
    rewrite (bind_step _ _ _ _ _ (index_some _ _ _ _ Hx)).
    now rewrite (bind_step _ _ _ _ _ Hl).
Qed.

(** A successful [random.sample] returns [k] entries of the population, each
    position used at most once. *)
Lemma sample_sub {A} (population : list A) k w l w' :
  sample population k w = Ok (l, w') ->
  l ⊆+ population /\ Z.of_nat (length l) = k
  /\ (0 <= k <= Z.of_nat (length population))%Z.
Proof.
  unfold sample.
  destruct (Z.ltb_spec k 0) as [?|Hk0]; [discriminate|].
  destruct (Z.ltb_spec (Z.of_nat (length population)) k) as [?|Hkn];
    [discriminate|].
  simpl. destruct (_ <=? setsize k); intros H.
  - apply sample_pool_sub in H as [Hsub Hlen]. split; [exact Hsub|]. split; lia.
  - apply sample_set_sub in H as [Hsub Hlen]. split; [exact Hsub|]. split; lia.
Qed.

Lemma sample_total {A} (population : list A) k w :
  (0 <= k <= Z.of_nat (length population))%Z ->
  exists l w', sample population k w = Ok (l, w').
Proof.
  intros Hk. unfold sample.
  destruct (Z.ltb_spec k 0) as [?|Hk0]; [lia|].
  destruct (Z.ltb_spec (Z.of_nat (length population)) k) as [?|Hkn]; [lia|].
  simpl. destruct (_ <=? setsize k).
  - apply sample_pool_total. lia.
  - apply sample_set_total. lia.
Qed.

(** Asking for more than the population holds raises [ValueError]. *)
Lemma sample_too_large {A} (population : list A) k w :
  (Z.of_nat (length population) < k)%Z ->
  sample population k w = Raise ValueError.
Proof.
  intros Hk. unfold sample.
  destruct (Z.ltb_spec (Z.of_nat (length population)) k) as [?|?]; [|lia].
  now rewrite orb_true_r.
Qed.

End sample_facts.

(** Faker, uuid and the clock always answer. *)
Lemma fake_text_total provider w : exists s w', fake_text provider w = Ok (s, w').
Proof. unfold fake_text, bind, fake_next, ret. eauto. Qed.

Lemma uuid4_hex_total w : exists s w', uuid4_hex w = Ok (s, w').
Proof. unfold uuid4_hex. eauto. Qed.

Lemma now_total w : exists t w', now w = Ok (t, w').
Proof. unfold now. eauto. Qed.

(** *** The streams are read, never changed *)

Lemma same_streams_refl w : same_streams w w.
Proof. repeat split. Qed.

Lemma same_streams_trans w1 w2 w3 :
  same_streams w1 w2 -> same_streams w2 w3 -> same_streams w1 w3.
Proof.
  intros (Hr & Hf & Hu & Hc) (Hr' & Hf' & Hu' & Hc').
  repeat split; congruence.
Qed.

Lemma keeps_ret {A} (a : A) : keeps_streams (ret a).
Proof. intros w a' w' [<- <-]%ret_ok. apply same_streams_refl. Qed.

Lemma keeps_raise {A} e : keeps_streams (@raise A e).
Proof. intros w a w' H. discriminate. Qed.

Lemma keeps_lift {A} (r : res A) : keeps_streams (lift r).
Proof.
  intros w a w' H. unfold lift in H. destruct r; [|discriminate].
  injection H as _ <-. apply same_streams_refl.
Qed.


Lemma keeps_bind {A B} (m : R A) (k : A -> R B) :
  keeps_streams m -> (forall a, keeps_streams (k a)) ->
  keeps_streams (bind m k).
Proof.
  intros Hm Hk w b w' H. apply bind_ok in H as (a & w1 & H1 & H2).
  eapply same_streams_trans; [eapply Hm, H1|eapply Hk, H2].
Qed.

Lemma keeps_for_each {A B} (l : list A) (body : A -> B -> R B) :
  (forall x s, keeps_streams (body x s)) ->
  forall s, keeps_streams (for_each l body s).
Proof.
  intros Hbody. induction l as [|x l IH]; intros s.
  - apply keeps_ret.
  - simpl. apply keeps_bind; [apply Hbody|exact IH].
Qed.

Lemma keeps_index {A} (l : list A) i : keeps_streams (index l i).
Proof.
  unfold index. destruct (l !! i); [apply keeps_ret|apply keeps_raise].
Qed.

Lemma keeps_last_item {A} (l : list A) : keeps_streams (last_item l).
Proof.
  unfold last_item. destruct (last l); [apply keeps_ret|apply keeps_raise].
Qed.

Lemma keeps_draw : keeps_streams random.draw.
Proof. intros w a w' [= _ <-]. repeat split. Qed.

Lemma keeps_fake_next : keeps_streams fake_next.
Proof. intros w a w' [= _ <-]. repeat split. Qed.

Lemma keeps_uuid4_hex : keeps_streams uuid4_hex.
Proof. intros w a w' [= _ <-]. repeat split. Qed.

Lemma keeps_now : keeps_streams now.
Proof. intros w a w' [= _ <-]. repeat split. Qed.

Create HintDb keeps.
#[local] Hint Resolve keeps_draw keeps_fake_next keeps_uuid4_hex keeps_now
  : keeps.

(** Walks down a chain of binds, loops and branches. *)
Ltac keeps :=
  repeat (cbv beta zeta;
    first
    [ apply keeps_ret
    | apply keeps_raise
    | apply keeps_lift
    | apply keeps_index
    | apply keeps_last_item
    | solve [auto with keeps]
    | lazymatch goal with
      | |- keeps_streams (bind _ _) => apply keeps_bind; [|intros ?]
      | |- keeps_streams (for_each _ _ _) => apply keeps_for_each; intros ? ?
      | |- keeps_streams (if ?b then _ else _) => destruct b
      | |- keeps_streams (match ?x with _ => _ end) => destruct x
      end ]).

Lemma keeps_randbelow n : keeps_streams (random.randbelow n).
Proof. unfold random.randbelow. keeps. Qed.

Lemma keeps_random : keeps_streams random.random.
Proof. unfold random.random. keeps. Qed.

#[local] Hint Resolve keeps_randbelow keeps_random : keeps.

Lemma keeps_uniform a b : keeps_streams (random.uniform a b).
Proof. unfold random.uniform. keeps. Qed.

Lemma keeps_randint a b : keeps_streams (random.randint a b).
Proof. unfold random.randint. keeps. Qed.

Lemma keeps_choice {A} (l : list A) : keeps_streams (random.choice l).
Proof. unfold random.choice. keeps. Qed.

Lemma keeps_choices {A} (population : list A) weights :
  keeps_streams (random.choices population weights).
Proof. unfold random.choices. keeps. Qed.

Lemma keeps_sample_pool {A} k : forall pool : list A,
  keeps_streams (random.sample_pool k pool).
Proof. induction k as [|k IH]; intros pool; simpl; keeps. Qed.

Lemma keeps_sample_set {A} k : forall unselected : list A,
  keeps_streams (random.sample_set k unselected).
Proof. induction k as [|k IH]; intros pool; simpl; keeps. Qed.

Lemma keeps_sample {A} (population : list A) k :
  keeps_streams (random.sample population k).
Proof.
  unfold random.sample. keeps;
    [apply keeps_sample_pool|apply keeps_sample_set].
Qed.

Lemma keeps_fake_text provider : keeps_streams (fake_text provider).
Proof. unfold fake_text. keeps. Qed.

Lemma keeps_fake_now : keeps_streams fake_now.
Proof. unfold fake_now. keeps. Qed.

Lemma keeps_fake_draw : keeps_streams fake_draw.
Proof. unfold fake_draw. keeps. Qed.

#[local] Hint Resolve keeps_uniform keeps_randint keeps_choice keeps_choices
  keeps_sample keeps_fake_text keeps_fake_now keeps_fake_draw : keeps.

Lemma keeps_parse_date_time a : keeps_streams (_parse_date_time a).
Proof. unfold _parse_date_time. keeps. Qed.

#[local] Hint Resolve keeps_parse_date_time : keeps.

Lemma keeps_fake_date_time_between a b :
  keeps_streams (fake_date_time_between a b).
Proof. unfold fake_date_time_between. keeps. Qed.

#[local] Hint Resolve keeps_fake_date_time_between : keeps.

Lemma keeps_gen_subcategory cat_id sub acc :
  keeps_streams (gen_subcategory cat_id sub acc).
Proof. unfold gen_subcategory. destruct sub. keeps. Qed.

Lemma keeps_generate_categories s : keeps_streams (generate_categories s).
Proof.
  unfold generate_categories. keeps. unfold gen_category.
  repeat match goal with p : (_ * _)%type |- _ => destruct p end.
  keeps; apply keeps_gen_subcategory.
Qed.

Lemma keeps_change_factor c : keeps_streams (change_factor c).
Proof. unfold change_factor. keeps. Qed.

#[local] Hint Resolve keeps_change_factor : keeps.

Lemma keeps_generate_price_history base start :
  keeps_streams (_generate_price_history base start).
Proof.
  unfold _generate_price_history. keeps. unfold price_change. keeps.
Qed.

Lemma keeps_generate_product_name c s :
  keeps_streams (_generate_product_name c s).
Proof. unfold _generate_product_name. keeps. Qed.

Lemma keeps_generate_product_tags : keeps_streams _generate_product_tags.
Proof. unfold _generate_product_tags. keeps. Qed.

#[local] Hint Resolve keeps_generate_price_history
  keeps_generate_product_name keeps_generate_product_tags : keeps.

Lemma keeps_gen_product start i s : keeps_streams (gen_product start i s).
Proof.
  unfold gen_product. keeps.
Qed.

Lemma keeps_generate_products s : keeps_streams (generate_products s).
Proof. unfold generate_products. keeps; apply keeps_gen_product. Qed.

Lemma keeps_gen_user i s : keeps_streams (gen_user i s).
Proof. unfold gen_user. keeps. Qed.

Lemma keeps_generate_users s : keeps_streams (generate_users s).
Proof. unfold generate_users. keeps; apply keeps_gen_user. Qed.

Lemma keeps_purchase pi st : keeps_streams (purchase pi st).
Proof. unfold purchase. keeps. Qed.

Lemma keeps_draw_discount subtotal : keeps_streams (draw_discount subtotal).
Proof. unfold draw_discount. keeps. Qed.

#[local] Hint Resolve keeps_purchase keeps_draw_discount : keeps.

Lemma keeps_gen_transaction n s : keeps_streams (gen_transaction n s).
Proof. unfold gen_transaction. keeps. Qed.

Lemma keeps_generate_transactions s :
  keeps_streams (_generate_simple_transactions s).
Proof.
  unfold _generate_simple_transactions. keeps; apply keeps_gen_transaction.
Qed.

Lemma keeps_gen_session n s : keeps_streams (gen_session n s).
Proof. unfold gen_session. keeps. Qed.

Lemma keeps_generate_sessions s : keeps_streams (_generate_simple_sessions s).
Proof. unfold _generate_simple_sessions. keeps; apply keeps_gen_session. Qed.

Lemma clock_fits_kept w w' : same_streams w w' -> clock_fits w -> clock_fits w'.
Proof. intros (_ & Hf & _ & Hc) [H1 H2]. split; intros i; now rewrite ?Hf, ?Hc. Qed.

(** *** Dates *)

Lemma timedelta_ok us :
  - timedelta_days 999999999 <= us < timedelta_days 1000000000 ->
  timedelta us = Ok us.
Proof.
  intros H. unfold timedelta.
  destruct (Z.leb_spec (timedelta_days (-999999999)) us) as [_|Hlt];
    [|unfold timedelta_days in *; lia].
  destruct (Z.ltb_spec us (timedelta_days 1000000000)) as [_|Hge];
    [reflexivity|lia].
Qed.

Lemma timedelta_inv us t : timedelta us = Ok t -> t = us.
Proof. unfold timedelta. destruct (_ && _); [now intros [= <-]|discriminate]. Qed.

Lemma timedelta_only_overflows us : only_overflows (timedelta us).
Proof.
  intros e. unfold timedelta. destruct (_ && _); [discriminate|now intros [= <-]].
Qed.

Lemma datetime_add_ok d delta :
  datetime_min <= d + delta <= datetime_max ->
  datetime_add d delta = Ok (d + delta).
Proof.
  intros H. unfold datetime_add. cbv zeta.
  destruct (Z.leb_spec datetime_min (d + delta)) as [_|?]; [|lia].
  destruct (Z.leb_spec (d + delta) datetime_max) as [_|?]; [reflexivity|lia].
Qed.

Lemma datetime_add_inv d delta t :
  datetime_add d delta = Ok t ->
  t = d + delta /\ datetime_min <= t <= datetime_max.
Proof.
  unfold datetime_add. cbv zeta.
  destruct (Z.leb_spec datetime_min (d + delta)) as [?|?]; [|discriminate].
  destruct (Z.leb_spec (d + delta) datetime_max) as [?|?]; [|discriminate].
  intros [= <-]. lia.
Qed.

Lemma datetime_add_only_overflows d delta : only_overflows (datetime_add d delta).
Proof.
  intros e. unfold datetime_add. cbv zeta.
  destruct (_ && _); [discriminate|now intros [= <-]].
Qed.

Lemma lift_ok {A} (r : res A) w a w' :
  lift r w = Ok (a, w') <-> r = Ok a /\ w' = w.
Proof.
  unfold lift. destruct r as [x|e]; split.
  - now intros [= -> ->].
  - now intros [[= ->] ->].
  - discriminate.
  - now intros [? _].
Qed.

Lemma lift_some {A} (r : res A) a w : r = Ok a -> lift r w = Ok (a, w).
Proof. intros ->. reflexivity. Qed.

Lemma lift_raise {A} (r : res A) e w : r = Raise e -> lift r w = Raise e.
Proof. intros ->. reflexivity. Qed.

(** Faker's clock reads between the epoch and the end of year 9999. *)
Lemma fake_now_total w :
  exists t w', fake_now w = Ok (t, w') /\ 0 <= t <= datetime_max
    /\ t = Fake.clock (fake w (fpos w)) mod (datetime_max + 1).
Proof.
  unfold fake_now, bind, fake_next, ret. do 2 eexists.
  split; [reflexivity|]. split; [|reflexivity].
  pose proof (Z.mod_pos_bound (Fake.clock (fake w (fpos w))) (datetime_max + 1)
                ltac:(reflexivity)).
  lia.
Qed.

Lemma fake_now_range w t w' :
  fake_now w = Ok (t, w') ->
  0 <= t <= datetime_max
  /\ t = Fake.clock (fake w (fpos w)) mod (datetime_max + 1).
Proof.
  intros H. destruct (fake_now_total w) as (t0 & w0 & H0 & Hr & Ht).
  rewrite H in H0. injection H0 as <- <-. now split.
Qed.

Lemma fake_draw_total w : exists r w', fake_draw w = Ok (r, w').
Proof. unfold fake_draw, bind, fake_next, ret. eauto. Qed.

(** A world whose clocks are streams of readings that fit. *)
Lemma stream_of_Forall {A} (P : A -> Prop) d l :
  P d -> Forall P l -> forall i, P (stream_of d l i).
Proof.
  intros Hd Hl i. unfold stream_of. revert i.
  induction Hl as [|x l Hx Hl IH]; intros [|i]; simpl; auto.
Qed.

Lemma reading_fits_check t :
  (0 <=? t) && (t <=? datetime_max - timedelta_days 180) = true ->
  reading_fits t.
Proof. intros [H1 H2]%andb_prop. unfold reading_fits. lia. Qed.

Lemma clock_fits_demo pos : clock_fits (demo_at pos).
Proof.
  destruct pos as [[[r f] u] c].
  split; intros i; cbn [demo_at clock fake]; unfold demo_clock, demo_fake.
  - apply stream_of_Forall; [now apply reading_fits_check|].
    repeat constructor; now apply reading_fits_check.
  - apply (stream_of_Forall (fun v => reading_fits (Fake.clock v)));
      [now apply reading_fits_check|].
    apply Forall_forall. intros v Hv.
    apply list_elem_of_fmap in Hv as (j & -> & Hj). apply elem_of_seq in Hj.
    cbn [Fake.clock]. unfold reading_fits, datetime_max, timedelta_days. lia.
Qed.

Lemma timespan_fits_check cfg :
  (0 <=? Config.TIMESPAN_DAYS cfg) && (Config.TIMESPAN_DAYS cfg <=? 239720)
  = true ->
  timespan_fits cfg.
Proof. intros [H1 H2]%andb_prop. unfold timespan_fits. lia. Qed.

(** *** Reading a time span *)

Lemma append_String c s r : String c s +:+ r = String c (s +:+ r).
Proof. reflexivity. Qed.

Lemma read_digits_uint d : forall acc rest,
  0 <= acc ->
  match rest with
  | String c _ => is_digit c = false
  | EmptyString => True
  end ->
  read_digits (NilEmpty.string_of_uint d +:+ rest) acc
  = (Z.of_nat (Nat.of_uint_acc d (Z.to_nat acc)), rest).
Proof.
  induction d as [|d IH|d IH|d IH|d IH|d IH|d IH|d IH|d IH|d IH|d IH];
    intros acc rest Hacc Hrest;
    [ cbn [NilEmpty.string_of_uint Nat.of_uint_acc];
      change ("" +:+ rest)%string with rest;
      rewrite Z2Nat.id by exact Hacc;
      destruct rest as [|c rest]; simpl; [reflexivity|now rewrite Hrest]
    | cbn [NilEmpty.string_of_uint Nat.of_uint_acc];
      rewrite append_String; cbn [read_digits];
      change (is_digit _) with true; cbv iota;
      rewrite IH by (try exact Hrest; lia);
      f_equal; f_equal; f_equal; rewrite Nat.tail_mul_spec;
      match goal with
      | |- Z.to_nat (10 * acc + ?k) = _ =>
          let v := eval vm_compute in k in change k with v
      end; lia .. ].
Qed.

Lemma udigits_not_nil n : udigits n <> Nil.
Proof.
  unfold udigits. destruct (Nat.to_uint n) eqn:E; discriminate.
Qed.

Lemma str_of_Z_nonneg n :
  0 <= n -> str_of_Z n = NilEmpty.string_of_uint (udigits (Z.to_nat n)).
Proof. intros Hn. destruct n; [reflexivity|reflexivity|lia]. Qed.

Lemma of_uint_udigits n : Nat.of_uint (udigits n) = n.
Proof.
  unfold udigits. pose proof (DecimalNat.Unsigned.of_to n) as H.
  destruct (Nat.to_uint n); exact H.
Qed.

Lemma string_of_uint_head u :
  u <> Nil ->
  exists c s, NilEmpty.string_of_uint u = String c s /\ is_digit c = true.
Proof.
  intros Hu. destruct u; [contradiction|..]; simpl; do 2 eexists;
    (split; [reflexivity|reflexivity]).
Qed.

(** A group on a signed number followed by the unit [c]. *)
Lemma read_group_minus sym u c rest :
  u <> Nil -> is_digit c = false ->
  read_group sym (String "-" (NilEmpty.string_of_uint u +:+ String c rest))
  = if Ascii.eqb c sym
    then (Some (- Z.of_nat (Nat.of_uint u)), rest)
    else (None,
          String "-" (NilEmpty.string_of_uint u +:+ String c rest)).
Proof.
  intros Hu Hc.
  pose proof (read_digits_uint u 0 (String c rest) ltac:(lia) Hc) as Hread.
  destruct (string_of_uint_head u Hu) as (d & s & Hs & Hd).
  rewrite Hs in *. rewrite append_String in *.
  unfold read_group. rewrite Hd. cbn [Ascii.eqb Bool.eqb orb andb].
  rewrite Hread. reflexivity.
Qed.

Lemma parse_span n :
  0 <= n ->
  _parse_date_string ("-" +:+ str_of_Z n +:+ "d") = Ok (- timedelta_days n).
Proof.
  intros Hn. rewrite (str_of_Z_nonneg n Hn).
  change ("-" +:+ ?s +:+ "d")%string with (String "-" (s +:+ String "d" "")).
  unfold _parse_date_string.
  assert (Hd : is_digit "d" = false) by reflexivity.
  do 4 (rewrite (read_group_minus _ _ _ _ (udigits_not_nil _) Hd);
        cbn [Ascii.eqb Bool.eqb andb]).
  cbn [read_group].
  rewrite of_uint_udigits, Z2Nat.id by exact Hn.
  cbn [default id]. f_equal. unfold timedelta_seconds, timedelta_days. lia.
Qed.

Lemma parse_negative_span n :
  n < 0 ->
  _parse_date_string ("-" +:+ str_of_Z n +:+ "d") = Raise ParseError.
Proof. intros Hn. destruct n; [lia|lia|reflexivity]. Qed.

Lemma span_not_now n : String.eqb ("-" +:+ str_of_Z n +:+ "d") "now" = false.
Proof. reflexivity. Qed.

Lemma date_arg_ok_now : date_arg_ok (Rel "now").
Proof. now left. Qed.

Lemma date_arg_ok_span n : 0 <= n <= 719162 -> date_arg_ok (span n).
Proof.
  intros Hn. right. exists (- timedelta_days n). split.
  - apply parse_span. lia.
  - unfold timedelta_days. lia.
Qed.

Lemma date_arg_ok_years :
  date_arg_ok (Rel "-2y") /\ date_arg_ok (Rel "-1y").
Proof.
  split; right; eexists; (split; [reflexivity|]); vm_compute;
    split; discriminate.
Qed.

(** ** What [date_time_between] returns *)

(** The timestamp of a bound, in whole seconds, is inside the range of
    [datetime], and at most [hi] when Faker's clock and the bound are. *)
Lemma _parse_date_time_total a hi w :
  date_arg_ok a ->
  (forall i, Fake.clock (fake w i) mod (datetime_max + 1) <= hi) ->
  match a with At t => t <= hi | Rel _ => True end ->
  exists p w',
    _parse_date_time a w = Ok (p, w')
    /\ datetime_min <= p * 1000000 <= datetime_max - 999999
    /\ p * 1000000 <= hi.
Proof.
  intros Ha Hclock Hhi.
  assert (Hfloor : forall t, datetime_min <= t <= datetime_max -> t <= hi ->
            datetime_min <= t / 1000000 * 1000000 <= datetime_max - 999999
            /\ t / 1000000 * 1000000 <= hi).
  { intros t Ht Hle. pose proof (Z.div_mod t 1000000 ltac:(lia)) as Hdm.
    pose proof (Z.mod_pos_bound t 1000000 ltac:(lia)) as Hmod.
    unfold datetime_min, datetime_max in *.
    assert (Hlo : -62135596800 <= t / 1000000)
      by (apply Z.div_le_lower_bound; lia).
    assert (Hup : t / 1000000 <= 253402300799).
    { apply Z.lt_succ_r, Z.div_lt_upper_bound; lia. }
    lia. }
  destruct a as [s|t]; simpl in Ha.
  - unfold _parse_date_time.
    destruct (fake_now_total w) as (t1 & w1 & H1 & Hr1 & Ht1).
    rewrite (bind_step _ _ _ _ _ H1).
    assert (Hk1 : fake w1 = fake w) by (apply keeps_fake_now in H1; apply H1).
    destruct (String.eqb_spec s "now") as [->|Hne].
    + destruct (fake_now_total w1) as (t2 & w2 & H2 & Hr2 & Ht2).
      rewrite (bind_step _ _ _ _ _ H2). unfold ret. do 2 eexists.
      split; [reflexivity|]. apply Hfloor.
      * unfold datetime_min. lia.
      * rewrite Ht2, Hk1. apply Hclock.
    + destruct Ha as [->|(us & Hus & Hrange)]; [contradiction|].
      rewrite (bind_step _ _ _ _ _ (lift_some _ _ _ Hus)).
      rewrite (bind_step _ _ _ _ _ (lift_some _ _ _ (timedelta_ok us
                 ltac:(unfold timedelta_days in *; lia)))).
      assert (Hsum : datetime_min <= t1 + us <= datetime_max)
        by (unfold datetime_min, timedelta_days in *; lia).
      rewrite (bind_step _ _ _ _ _ (lift_some _ _ _ (datetime_add_ok _ _ Hsum))).
      unfold ret. do 2 eexists. split; [reflexivity|]. apply Hfloor.
      * exact Hsum.
      * specialize (Hclock (fpos w)). lia.
  - unfold _parse_date_time, ret. do 2 eexists. split; [reflexivity|].
    now apply Hfloor.
Qed.

Lemma fake_date_time_between_bounded a b hi w :
  date_arg_ok a -> date_arg_ok b ->
  (forall i, Fake.clock (fake w i) mod (datetime_max + 1) <= hi) ->
  match a with At t => t <= hi | Rel _ => True end ->
  match b with At t => t <= hi | Rel _ => True end ->
  exists t w',
    fake_date_time_between a b w = Ok (t, w')
    /\ datetime_min <= t <= datetime_max /\ t <= hi + 999999.
Proof.
  intros Ha Hb Hclock Hahi Hbhi. unfold fake_date_time_between.
  destruct (_parse_date_time_total a hi w Ha Hclock Hahi)
    as (p & w1 & Hp & Hpr & Hph).
  rewrite (bind_step _ _ _ _ _ Hp).
  assert (Hk1 : fake w1 = fake w)
    by (apply keeps_parse_date_time in Hp; apply Hp).
  destruct (_parse_date_time_total b hi w1 Hb) as (q & w2 & Hq & Hqr & Hqh);
    [intros i; rewrite Hk1; apply Hclock|exact Hbhi|].
  rewrite (bind_step _ _ _ _ _ Hq).
  destruct (fake_draw_total w2) as (r & w3 & Hr).
  rewrite (bind_step _ _ _ _ _ Hr). cbv zeta.
  set (ts := if q - p <=? 1 then _ else _).
  assert (Hts : datetime_min <= ts <= datetime_max /\ ts <= hi + 999999).
  { subst ts. destruct (Z.leb_spec (q - p) 1) as [Hle|Hgt].
    - pose proof (Z.mod_pos_bound r 1000000 ltac:(lia)). lia.
    - pose proof (Z.mod_pos_bound r ((q - p) * 1000000 + 1) ltac:(lia)).
      lia. }
  rewrite (bind_step _ _ _ _ _ (lift_some _ _ _ (timedelta_ok ts
             ltac:(unfold datetime_min, datetime_max, timedelta_days in *; lia)))).
  rewrite (lift_some _ _ _ (datetime_add_ok 0 ts ltac:(simpl; lia))).
  do 2 eexists. split; [reflexivity|]. simpl. exact Hts.
Qed.

(** With bounds that Faker accepts, [date_time_between] returns a datetime,
    whatever the clock. *)
Lemma fake_date_time_between_total a b w :
  date_arg_ok a -> date_arg_ok b ->
  exists t w',
    fake_date_time_between a b w = Ok (t, w')
    /\ datetime_min <= t <= datetime_max.
Proof.
  intros Ha Hb.
  destruct (fake_date_time_between_bounded a b datetime_max w Ha Hb)
    as (t & w' & H & Hr & _).
  - intros i. pose proof (Z.mod_pos_bound (Fake.clock (fake w i))
                            (datetime_max + 1) ltac:(reflexivity)). lia.
  - destruct a; [exact I|simpl in Ha; lia].
  - destruct b; [exact I|simpl in Hb; lia].
  - eauto.
Qed.

(** A readable clock keeps the result at least 179 days before the end of
    year 9999. *)
Lemma fake_date_time_between_fits a b w :
  date_arg_ok a -> date_arg_ok b -> clock_fits w ->
  match a with At t => reading_fits t | Rel _ => True end ->
  match b with At t => reading_fits t | Rel _ => True end ->
  exists t w',
    fake_date_time_between a b w = Ok (t, w')
    /\ datetime_min <= t <= datetime_max - timedelta_days 179.
Proof.
  intros Ha Hb [_ Hf] Hahi Hbhi.
  destruct (fake_date_time_between_bounded a b
              (datetime_max - timedelta_days 180) w Ha Hb)
    as (t & w' & H & Hr & Hle).
  - intros i. destruct (Hf i) as [H0 Hh].
    rewrite Z.mod_small; [exact Hh|].
    unfold datetime_max, timedelta_days in *. lia.
  - destruct a; [exact I|apply Hahi].
  - destruct b; [exact I|apply Hbhi].
  - exists t, w'. split; [exact H|]. unfold timedelta_days in *. lia.
Qed.

(** A negative time span makes a bound that Faker cannot parse. *)
Lemma fake_date_time_between_negative n b w :
  n < 0 -> fake_date_time_between (span n) b w = Raise ParseError.
Proof.
  intros Hn. unfold fake_date_time_between, span, _parse_date_time.
  destruct (fake_now_total w) as (t1 & w1 & H1 & _).
  unfold bind at 1. unfold bind at 1. rewrite H1. rewrite span_not_now.
  unfold bind at 1. rewrite (lift_raise _ _ _ (parse_negative_span n Hn)).
  reflexivity.
Qed.

(** With bounds that parse, [date_time_between] fails by overflow only. *)
Lemma fake_date_time_between_raise a b w e :
  match a with
  | Rel s => s = "now" \/ exists us, _parse_date_string s = Ok us
  | At _ => True
  end ->
  match b with
  | Rel s => s = "now" \/ exists us, _parse_date_string s = Ok us
  | At _ => True
  end ->
  fake_date_time_between a b w = Raise e -> e = OverflowError.
Proof.
  assert (Hlift : forall {X} (r : res X) v e0,
            only_overflows r -> lift r v = Raise e0 -> e0 = OverflowError).
  { intros X r v e0 Hr H. unfold lift in H. destruct r; [discriminate|].
    injection H as <-. now apply Hr. }
  assert (Hparse : forall c v e0,
            match c with
            | Rel s => s = "now" \/ exists us, _parse_date_string s = Ok us
            | At _ => True
            end ->
            _parse_date_time c v = Raise e0 -> e0 = OverflowError).
  { intros [s|t] v e0 Hc H; [|discriminate].
    unfold _parse_date_time in H.
    apply bind_raise in H as [H|(t1 & v1 & _ & H)]; [discriminate|].
    destruct (String.eqb_spec s "now") as [->|Hne].
    - apply bind_raise in H as [H|(t2 & v2 & _ & H)]; discriminate.
    - destruct Hc as [->|(us & Hus)]; [contradiction|].
      rewrite (bind_step _ _ _ _ _ (lift_some _ _ _ Hus)) in H.
      apply bind_raise in H as [H|(d & v2 & Hd & H)].
      { eapply Hlift; [apply timedelta_only_overflows|exact H]. }
      apply bind_raise in H as [H|(d' & v3 & _ & H)]; [|discriminate].
      eapply Hlift; [apply datetime_add_only_overflows|exact H]. }
  intros Ha Hb H. unfold fake_date_time_between in H.
  apply bind_raise in H as [H|(p & w1 & _ & H)]; [exact (Hparse a w e Ha H)|].
  apply bind_raise in H as [H|(q & w2 & _ & H)]; [exact (Hparse b w1 e Hb H)|].
  apply bind_raise in H as [H|(r & w3 & _ & H)]; [discriminate|].
  cbv zeta in H.
  apply bind_raise in H as [H|(d & w4 & _ & H)].
  - eapply Hlift; [apply timedelta_only_overflows|exact H].
  - eapply Hlift; [apply datetime_add_only_overflows|exact H].
Qed.

(** [date_time_between] from a time span to now: it returns for a span of 0
    to 719162 days, raises [ParseError] for a negative span, and can fail
    in no other way than by overflow for a longer one. *)
Lemma span_date_outcome n w :
  (exists t w', fake_date_time_between (span n) (Rel "now") w = Ok (t, w')
                /\ datetime_min <= t <= datetime_max)
  \/ (fake_date_time_between (span n) (Rel "now") w = Raise ParseError
      /\ n < 0)
  \/ (fake_date_time_between (span n) (Rel "now") w = Raise OverflowError
      /\ 719162 < n).
Proof.
  destruct (Z_lt_le_dec n 0) as [Hneg|Hpos].
  { right. left. split; [now apply fake_date_time_between_negative|exact Hneg]. }
  destruct (Z_le_gt_dec n 719162) as [Hle|Hgt].
  { left. apply fake_date_time_between_total;
      [apply date_arg_ok_span; lia|apply date_arg_ok_now]. }
  destruct (fake_date_time_between (span n) (Rel "now") w)
    as [[t w']|e] eqn:E.
  - left. exists t, w'. split; [reflexivity|].
    unfold fake_date_time_between in E. bind_inv E.
    apply lift_ok in E as [E _]. apply datetime_add_inv in E. lia.
  - right. right. split; [|lia]. f_equal.
    eapply fake_date_time_between_raise; [| |exact E].
    + right. eexists. apply parse_span. exact Hpos.
    + now left.
Qed.

(** *** Counted loops *)

Lemma for_range_inv_from {S} (I : nat -> S -> Prop) body a n :
  (forall i s w s' w', (a <= i < a + n)%nat -> I i s ->
     body i s w = Ok (s', w') -> I (Datatypes.S i) s') ->
  forall (s : S) w s' w', I a s -> for_each (seq a n) body s w = Ok (s', w') ->
    I (a + n)%nat s'.
Proof.
  revert a. induction n as [|n IH]; intros a Hbody s w s' w' Hs Hrun.
  - apply ret_ok in Hrun as [<- _]. now rewrite Nat.add_0_r.
  - simpl in Hrun. apply bind_ok in Hrun as (s1 & w1 & H1 & Hrun).
    replace (a + Datatypes.S n)%nat with (Datatypes.S a + n)%nat by lia.
    eapply (IH (Datatypes.S a)); [| |exact Hrun].
    + intros i t v t' v' Hi. apply Hbody. lia.
    + eapply Hbody; [|exact Hs|exact H1]. lia.
Qed.

Lemma for_range_inv {S} (I : nat -> S -> Prop) body n :
  (forall i s w s' w', (i < Z.to_nat n)%nat -> I i s ->
     body i s w = Ok (s', w') -> I (Datatypes.S i) s') ->
  forall (s : S) w s' w', I 0%nat s ->
    for_each (range n) body s w = Ok (s', w') -> I (Z.to_nat n) s'.
Proof.
  intros Hbody s w s' w' Hs Hrun.
  apply (for_range_inv_from I body 0 (Z.to_nat n)) with (s := s) (w := w) (w' := w');
    [|exact Hs|exact Hrun].
  intros i t v t' v' Hi. apply Hbody. lia.
Qed.

Lemma for_range_total_from {S} (I : nat -> S -> Prop) body a n :
  (forall i s w, (a <= i < a + n)%nat -> I i s ->
     exists s' w', body i s w = Ok (s', w') /\ I (Datatypes.S i) s') ->
  forall (s : S) w, I a s ->
    exists s' w', for_each (seq a n) body s w = Ok (s', w') /\ I (a + n)%nat s'.
Proof.
  revert a. induction n as [|n IH]; intros a Hbody s w Hs.
  - exists s, w. split; [reflexivity|]. now rewrite Nat.add_0_r.
  - destruct (Hbody a s w ltac:(lia) Hs) as (s1 & w1 & H1 & Hs1).
    destruct (IH (Datatypes.S a)) with (s := s1) (w := w1)
      as (s' & w' & Hrun & Hs'); [|exact Hs1|].
    + intros i t v Hi. apply Hbody. lia.
    + exists s', w'. simpl. rewrite (bind_step _ _ _ _ _ H1).
      split; [exact Hrun|].
      now replace (a + Datatypes.S n)%nat with (Datatypes.S a + n)%nat by lia.
Qed.

Lemma for_range_total {S} (I : nat -> S -> Prop) body n :
  (forall i s w, (i < Z.to_nat n)%nat -> I i s ->
     exists s' w', body i s w = Ok (s', w') /\ I (Datatypes.S i) s') ->
  forall (s : S) w, I 0%nat s ->
    exists s' w', for_each (range n) body s w = Ok (s', w')
                  /\ I (Z.to_nat n) s'.
Proof.
  intros Hbody s w Hs.
  apply (for_range_total_from I body 0 (Z.to_nat n)); [|exact Hs].
  intros i t v Hi. apply Hbody. lia.
Qed.

(** *** Price histories *)

Lemma spaced_snoc h a b :
  spaced h -> last h = Some a ->
  (timedelta_days 7 <= PriceEntry.date b - PriceEntry.date a
   <= timedelta_days 45)%Z ->
  spaced (h ++ [b]).
Proof.
  induction h as [|x [|y h] IH]; intros Hsp Hlast Hb.
  - discriminate.
  - simpl in Hlast. injection Hlast as ->. simpl. auto.
  - destruct Hsp as [Hxy Hsp]. split; [exact Hxy|].
    apply IH; [exact Hsp|exact Hlast|exact Hb].
Qed.

Lemma spaced_chronological h : spaced h -> chronological h.
Proof.
  induction h as [|x h IH]; intros Hsp i j a b Hij Hi Hj.
  - discriminate.
  - assert (Hh : chronological h).
    { apply IH. destruct h; [exact I|apply Hsp]. }
    destruct i as [|i], j as [|j]; simpl in Hi, Hj.
    + assert (a = b) by congruence. subst. lia.
    + injection Hi as <-.
      destruct h as [|y h]; [discriminate|]. destruct Hsp as [Hxy _].
      assert (PriceEntry.date y <= PriceEntry.date b)%Z.
      { apply (Hh 0%nat j y b); [lia|reflexivity|exact Hj]. }
      unfold timedelta_days in Hxy. lia.
    + lia.
    + apply (Hh i j a b); [lia|exact Hi|exact Hj].
Qed.


Lemma price_change_inv i st w st' w' :
  price_loop_inv st -> price_change i st w = Ok (st', w') -> price_loop_inv st'.
Proof.
  intros ((e & rest & He & Hr) & Hsp & a & Hlast & Hdate) H.
  unfold price_change in H. bind_inv H. subst st'.
  unfold price_loop_inv. cbn [pl_history pl_date pl_price].
  apply random_facts.randint_range in Hm.
  apply lift_ok in Hm0 as [Hadd _]. apply datetime_add_inv in Hadd as [-> _].
  split; [|split].
  - eexists e, _. rewrite He. split; [reflexivity|exact Hr].
  - eapply spaced_snoc; [exact Hsp|exact Hlast|].
    simpl. rewrite Hdate. unfold timedelta_days. lia.
  - eexists. rewrite last_snoc. split; reflexivity.
Qed.

Lemma _generate_price_history_good base_price start_date w h w' :
  _generate_price_history base_price start_date w = Ok (h, w') ->
  good_history h /\ exists e, h !! 0%nat = Some e /\ PriceEntry.date e = start_date.
Proof.
  intros H. unfold _generate_price_history in H. bind_inv H. subst h.
  assert (Hinv : price_loop_inv a0).
  { eapply (for_each_inv price_loop_inv); [| |exact Hm0].
    - intros x s v s' v' _. apply price_change_inv.
    - split; [|split]; simpl; eauto. }
  assert (Hhead : exists e, pl_history a0 !! 0%nat = Some e
                            /\ PriceEntry.date e = start_date).
  { eapply (for_each_inv (fun st => exists e, pl_history st !! 0%nat = Some e
                                    /\ PriceEntry.date e = start_date));
      [| |exact Hm0].
    - intros x s v s' v' _ (e & He & Hd) Hstep.
      unfold price_change in Hstep. bind_inv Hstep. subst s'. simpl.
      exists e. split; [|exact Hd]. now apply lookup_app_l_Some.
    - simpl. eauto. }
  destruct Hinv as (Hfirst & Hsp & _).
  split; [|exact Hhead].
  split; [exact Hfirst|]. split; [exact Hsp|now apply spaced_chronological].
Qed.

(** [_generate_price_history] does not raise when the 180 days after the
    start are inside the range of [datetime]. *)
Lemma _generate_price_history_total base_price start_date w :
  datetime_min <= start_date ->
  start_date + timedelta_days 180 <= datetime_max ->
  exists h w', _generate_price_history base_price start_date w = Ok (h, w').
Proof.
  intros Hlo Hhi. unfold _generate_price_history.
  destruct (random_facts.randint_total 0 4 w ltac:(lia)) as (n & w1 & Hn).
  rewrite (bind_step _ _ _ _ _ Hn).
  apply random_facts.randint_range in Hn.
  destruct (for_range_total
              (fun i st => datetime_min <= pl_date st
                           <= start_date + timedelta_days (45 * Z.of_nat i))
              price_change n) with
    (s := mkPriceLoop base_price start_date
            [ {| PriceEntry.price := base_price; PriceEntry.date := start_date;
                 PriceEntry.reason := "initial_listing"%string |} ])
    (w := w1) as (st & w2 & Hst & _).
  - intros i st v Hi Hdate. unfold price_change.
    destruct (random_facts.randint_total 7 45 v ltac:(lia)) as (d & v1 & Hd).
    rewrite (bind_step _ _ _ _ _ Hd).
    apply random_facts.randint_range in Hd.
    rewrite (bind_step _ _ _ _ _
               (lift_some _ _ _ (datetime_add_ok (pl_date st) (timedelta_days d)
                  ltac:(unfold timedelta_days in *; lia)))).
    destruct (random_facts.choices_total
                ["promotion"; "market_adjustment"; "cost_increase"; "clearance";
                 "restock"]%string
                [0.3; 0.25; 0.2; 0.15; 0.1]%float v1 eq_refl)
      as (c & v2 & Hc & _).
    rewrite (bind_step _ _ _ _ _ Hc).
    assert (Hf : exists f v3, change_factor c v2 = Ok (f, v3)).
    { unfold change_factor.
      repeat (destruct (String.eqb _ _)); apply random_facts.uniform_total. }
    destruct Hf as (f & v3 & Hf).
    rewrite (bind_step _ _ _ _ _ Hf). unfold ret. do 2 eexists.
    split; [reflexivity|]. cbn [pl_date]. unfold timedelta_days in *. lia.
  - cbn [pl_date]. unfold timedelta_days in *. lia.
  - rewrite (bind_step _ _ _ _ _ Hst). unfold ret. eauto.
Qed.

(** *** Loops that append one record per iteration *)

Lemma append_loop {S X} (get : S -> list X) (F : S -> Prop)
    (P : nat -> X -> Prop) body n (s0 : S) :
  (forall i s w s' w', F s -> body i s w = Ok (s', w') ->
     F s' /\ exists x, get s' = get s ++ [x] /\ P i x) ->
  forall w s' w', F s0 -> for_each (range n) body s0 w = Ok (s', w') ->
    F s' /\ exists new, get s' = get s0 ++ new /\ length new = Z.to_nat n
                        /\ forall j x, new !! j = Some x -> P j x.
Proof.
  intros Hbody w s' w' HF Hrun.
  apply (for_range_inv
           (fun i s => F s /\ exists new, get s = get s0 ++ new /\ length new = i
                                 /\ forall j x, new !! j = Some x -> P j x)
           body n) with (s := s0) (w := w) (w' := w'); [| |exact Hrun].
  - intros i s v t v' _ (HFs & new & Hget & Hlen & Hnew) Hstep.
    destruct (Hbody i s v t v' HFs Hstep) as (HFt & x & Hx & HP).
    split; [exact HFt|]. exists (new ++ [x]). split; [|split].
    + rewrite Hx, Hget. now rewrite app_assoc.
    + rewrite length_app. simpl. lia.
    + intros j y Hj. apply lookup_app_Some in Hj as [Hj|[Hge Hj]].
      * eapply Hnew, Hj.
      * rewrite Hlen in Hge, Hj.
        destruct (j - i)%nat as [|d] eqn:Hd; [|destruct d; discriminate].
        simpl in Hj. injection Hj as <-.
        assert (j = i) by lia. now subst j.
  - split; [exact HF|]. exists []. split; [now rewrite app_nil_r|].
    split; [reflexivity|]. intros j x Hj. discriminate.
Qed.

(** *** Products *)

Lemma gen_product_facts start i s w s' w' :
  gen_product start i s w = Ok (s', w') ->
  keeps_but_products s s'
  /\ exists p, products s' = products s ++ [p] /\ product_facts i p.
Proof.
  intros H. unfold gen_product in H. bind_inv H.
  destruct (price_ranges (Category.name a)) as [min_price max_price].
  bind_inv H. subst s'.
  split; [repeat split|].
  eexists. split; [reflexivity|].
  apply _generate_price_history_good in Hm2 as [Hgood _].
  apply random_facts.randint_range in Hm8.
  split; [reflexivity|]. split; [exact Hgood|exact Hm8].
Qed.

Lemma generate_products_facts s w s' w' :
  generate_products s w = Ok (s', w') ->
  keeps_but_products s s'
  /\ exists new, products s' = products s ++ new
                 /\ length new = Z.to_nat (Config.NUM_PRODUCTS (config s))
                 /\ forall j p, new !! j = Some p -> product_facts j p.
Proof.
  intros H. unfold generate_products in H. bind_inv H.
  apply (append_loop products (keeps_but_products s) product_facts) in H.
  - exact H.
  - intros i t v t' v' (Hc & Hcat & Hu & Hse & Htr) Hstep.
    apply gen_product_facts in Hstep as ((Hc' & Hcat' & Hu' & Hse' & Htr') & Hp).
    split; [|exact Hp]. repeat split; congruence.
  - repeat split.
Qed.

(** *** Filtered positions *)

Lemma elem_of_filter_bool {A} (f : A -> bool) (l : list A) x :
  x ∈ List.filter f l <-> x ∈ l /\ f x = true.
Proof. rewrite !list_elem_of_In. apply filter_In. Qed.

Lemma positions_spec {A} (p : A -> bool) (l : list A) i :
  i ∈ positions p l <-> exists x, l !! i = Some x /\ p x = true.
Proof.
  unfold positions. rewrite elem_of_filter_bool, elem_of_seq. split.
  - intros [_ H]. destruct (l !! i) as [x|]; [eauto|discriminate].
  - intros (x & Hx & Hp). rewrite Hx. split; [|exact Hp].
    apply lookup_lt_Some in Hx. lia.
Qed.

Lemma positions_NoDup {A} (p : A -> bool) (l : list A) : NoDup (positions p l).
Proof.
  unfold positions. apply NoDup_ListNoDup, List.NoDup_filter, NoDup_ListNoDup.
  apply NoDup_seq.
Qed.

Lemma positions_nil_iff {A} (p : A -> bool) (l : list A) :
  positions p l = [] <-> forall x, x ∈ l -> p x = false.
Proof.
  split.
  - intros Hnil x Hx. apply list_elem_of_lookup in Hx as [i Hi].
    destruct (p x) eqn:Hp; [|reflexivity].
    assert (Hin : i ∈ positions p l) by (apply positions_spec; eauto).
    rewrite Hnil in Hin. inversion Hin.
  - intros Hall. destruct (positions p l) as [|i rest] eqn:Hpos; [reflexivity|].
    assert (Hin : i ∈ positions p l) by (rewrite Hpos; left).
    apply positions_spec in Hin as (x & Hx & Hp).
    rewrite (Hall x) in Hp; [discriminate|]. eapply list_elem_of_lookup_2, Hx.
Qed.

Lemma submseteq_NoDup {A} (l k : list A) : l ⊆+ k -> NoDup k -> NoDup l.
Proof.
  intros Hsub Hk. apply submseteq_Permutation in Hsub as [rest Hperm].
  rewrite Hperm in Hk. now apply NoDup_app in Hk as [Hl _].
Qed.

(** *** Stock-only and aggregate-only updates *)

Lemma same_product_refl p : same_product p p.
Proof. unfold same_product. now destruct p. Qed.

Lemma same_product_set p v : same_product p (Product.set_current_stock p v).
Proof. reflexivity. Qed.

Lemma same_product_trans p1 p2 p3 :
  same_product p1 p2 -> same_product p2 p3 -> same_product p1 p3.
Proof. unfold same_product. intros -> ->. reflexivity. Qed.

Lemma same_user_refl u : same_user u u.
Proof. unfold same_user. now destruct u. Qed.

Lemma same_user_trans u1 u2 u3 :
  same_user u1 u2 -> same_user u2 u3 -> same_user u1 u3.
Proof. unfold same_user. intros -> ->. reflexivity. Qed.

Lemma Forall2_same_refl {A} (R : A -> A -> Prop) (l : list A) :
  (forall x, R x x) -> Forall2 R l l.
Proof. intros HR. induction l; constructor; auto. Qed.

Lemma Forall2_same_insert {A} (R : A -> A -> Prop) (l : list A) i x y :
  (forall x, R x x) -> l !! i = Some x -> R x y -> Forall2 R l (<[i:=y]> l).
Proof.
  intros HR. revert i. induction l as [|z l IH]; intros i Hi Hxy.
  - discriminate.
  - destruct i as [|i]; simpl in *.
    + injection Hi as ->. constructor; [exact Hxy|now apply Forall2_same_refl].
    + constructor; [apply HR|]. now apply IH.
Qed.

Lemma Forall2_same_trans {A} (R : A -> A -> Prop) (l1 l2 l3 : list A) :
  (forall x y z, R x y -> R y z -> R x z) ->
  Forall2 R l1 l2 -> Forall2 R l2 l3 -> Forall2 R l1 l3.
Proof.
  intros HR H12. revert l3. induction H12; intros l3 H23; inversion H23; subst.
  - constructor.
  - constructor; eauto.
Qed.

(** *** The item loop *)

Lemma purchase_inv pi st w st' w' :
  purchase pi st w = Ok (st', w') ->
  exists p q,
    cart_products st !! pi = Some p
    /\ (1 <= q <= Z.min 3 (Product.current_stock p))%Z
    /\ st' = mkCart (cart_items st ++ [item_of p q])
               (PrimFloat.add (cart_subtotal st)
                  (PrimFloat.mul (float_of_Z q) (Product.base_price p)))
               (<[pi := Product.set_current_stock p
                          (Product.current_stock p - q)]> (cart_products st)).
Proof.
  intros H. unfold purchase in H. bind_inv H.
  apply index_ok in Hm as [Hp _].
  apply random_facts.randint_range in Hm0.
  exists a, a0. split; [exact Hp|]. split; [exact Hm0|]. now subst st'.
Qed.

Lemma raw_subtotal_snoc items it :
  raw_subtotal (items ++ [it]) = PrimFloat.add (raw_subtotal items) (amount it).
Proof. unfold raw_subtotal. rewrite map_app, fold_left_app. reflexivity. Qed.


Lemma cart_loop ps todo st w st' w' :
  NoDup todo -> cart_inv ps todo st ->
  for_each todo purchase st w = Ok (st', w') -> cart_inv ps [] st'.
Proof.
  revert st w. induction todo as [|pi rest IH]; intros st w Hnd Hinv Hrun.
  - apply ret_ok in Hrun as [<- _]. exact Hinv.
  - rewrite for_each_cons in Hrun.
    apply bind_ok in Hrun as (st1 & w1 & Hstep & Hrun).
    apply NoDup_cons in Hnd as [Hnotin Hnd].
    apply (IH st1 w1 Hnd); [|exact Hrun].
    apply purchase_inv in Hstep as (p & q & Hp & Hq & ->).
    destruct Hinv as (Hpur & Hsub & Hitems & Htodo).
    assert (Hps : ps !! pi = Some p) by (rewrite <- Htodo; [exact Hp|left]).
    split; [|split; [|split]]; cbn [cart_items cart_subtotal cart_products].
    + now apply purchases_snoc.
    + rewrite raw_subtotal_snoc, Hsub. reflexivity.
    + apply Forall_app. split; [exact Hitems|]. constructor; [reflexivity|constructor].
    + intros pj Hpj. rewrite list_lookup_insert_ne.
      * apply Htodo. now right.
      * intros ->. contradiction.
Qed.

Lemma draw_discount_inv subtotal w d w' :
  draw_discount subtotal w = Ok (d, w') ->
  d = 0%float
  \/ exists rate, rate ∈ discount_rates
                  /\ d = round (PrimFloat.mul subtotal rate) 2.
Proof.
  intros H. unfold draw_discount in H. bind_inv H.
  destruct (PrimFloat.ltb a 0.25).
  - bind_inv H. right. exists a0. split; [|now subst d].
    eapply random_facts.choice_elem, Hm0.
  - apply ret_ok in H as [<- _]. now left.
Qed.

(** Every successful attempt is a skip or one well-formed transaction. *)
Lemma gen_transaction_inv n s w s' w' :
  gen_transaction n s w = Ok (s', w') -> txn_step s s'.
Proof.
  intros H. unfold gen_transaction in H. bind_inv H.
  destruct (Z.of_nat (length (positions is_available (products s))) <? a1)%Z.
  { apply ret_ok in H as [<- _]. constructor. }
  bind_inv H. subst s'.
  apply random_facts.choice_elem, positions_spec in Hm as (user & Hu & Hact).
  apply index_ok in Hm0 as [Hu' _].
  assert (a0 = user) by congruence. subst a0.
  apply sample_facts.sample_sub in Hm2 as (Hsub & _ & _).
  assert (Hnd : NoDup a2).
  { eapply submseteq_NoDup; [exact Hsub|apply positions_NoDup]. }
  apply (cart_loop (products s)) in Hm3; [|exact Hnd|].
  2:{ split; [constructor|]. split; [reflexivity|]. split; [constructor|]. reflexivity. }
  destruct Hm3 as (Hpur & Hraw & Hitems & _).
  apply draw_discount_inv in Hm4.
  match goal with
  | |- txn_step _ (mkGen _ _ _ _ _ (_ ++ [?t])) =>
      apply (txn_made s a user t (cart_products a3))
  end; try assumption; try reflexivity.
  unfold pricing_ok. cbn [Transaction.items Transaction.subtotal
    Transaction.discount Transaction.tax Transaction.shipping Transaction.total].
  rewrite <- Hraw. repeat split; try assumption.
Qed.

(** *** Consequences of a purchase *)

Lemma purchases_same ps items ps' :
  purchases ps items ps' -> Forall2 same_product ps ps'.
Proof.
  induction 1 as [|items ps1 pi p q Hpur IH Hps Hps1 Hq].
  - apply Forall2_same_refl, same_product_refl.
  - eapply Forall2_same_trans; [apply same_product_trans|exact IH|].
    eapply Forall2_same_insert; [apply same_product_refl|exact Hps1|].
    apply same_product_set.
Qed.

Lemma stock_nonneg_insert ps pi p :
  stock_nonneg ps -> (0 <= Product.current_stock p)%Z ->
  stock_nonneg (<[pi := p]> ps).
Proof. intros Hps Hp. now apply Forall_insert. Qed.

Lemma stock_nonneg_check ps :
  forallb (fun p => 0 <=? Product.current_stock p)%Z ps = true ->
  stock_nonneg ps.
Proof.
  intros H. apply Forall_forall. intros p Hp.
  rewrite forallb_forall in H. apply Z.leb_le, H. now apply list_elem_of_In.
Qed.

Lemma purchases_nonneg ps items ps' :
  purchases ps items ps' -> stock_nonneg ps -> stock_nonneg ps'.
Proof.
  induction 1 as [|items ps1 pi p q Hpur IH Hps Hps1 Hq]; intros Hnn.
  - exact Hnn.
  - apply stock_nonneg_insert; [now apply IH|]. simpl. lia.
Qed.

(** Every item of a purchase holds between 1 and 3 units. *)
Lemma purchases_quantities ps items ps' :
  purchases ps items ps' ->
  Forall (fun it => (1 <= Item.quantity it <= 3)%Z) items.
Proof.
  induction 1 as [|items ps1 pi p q Hpur IH Hps Hps1 Hq].
  - constructor.
  - apply Forall_app. split; [exact IH|]. constructor; [simpl; lia|constructor].
Qed.

Lemma stock_trace_nonneg ps ts ps' :
  stock_trace ps ts ps' -> stock_nonneg ps -> stock_nonneg ps'.
Proof.
  induction 1 as [|ts ps1 t ps2 Htr IH Hpur]; intros Hnn.
  - exact Hnn.
  - eapply purchases_nonneg; [exact Hpur|now apply IH].
Qed.

(** *** The transaction loop *)

Lemma transactions_inv (I : Gen -> Prop) :
  (forall s s', I s -> txn_step s s' -> I s') ->
  forall s w s' w', I s -> _generate_simple_transactions s w = Ok (s', w') ->
    I s'.
Proof.
  intros Hstep s w s' w' Hs Hrun. unfold _generate_simple_transactions in Hrun.
  eapply (for_each_inv I); [|exact Hs|exact Hrun].
  intros n t v t' v' _ Ht Hbody. eapply Hstep; [exact Ht|].
  eapply gen_transaction_inv, Hbody.
Qed.

Lemma txn_step_keeps s s' : txn_step s s' -> keeps_but_transactions s s'.
Proof.
  intros [|ui user t ps' Hu Hact Hid Hpur Hprice].
  - repeat split; try apply Forall2_same_refl;
      auto using same_product_refl, same_user_refl.
  - repeat split; cbn [products users].
    + eapply purchases_same, Hpur.
    + eapply Forall2_same_insert; [apply same_user_refl|exact Hu|reflexivity].
Qed.

Lemma keeps_but_transactions_trans s1 s2 s3 :
  keeps_but_transactions s1 s2 -> keeps_but_transactions s2 s3 ->
  keeps_but_transactions s1 s3.
Proof.
  intros (Hc & Hcat & Hse & Hp & Hu) (Hc' & Hcat' & Hse' & Hp' & Hu').
  repeat split; try congruence.
  - eapply Forall2_same_trans; [apply same_product_trans|exact Hp|exact Hp'].
  - eapply Forall2_same_trans; [apply same_user_trans|exact Hu|exact Hu'].
Qed.

Lemma keeps_but_transactions_refl s : keeps_but_transactions s s.
Proof. apply txn_step_keeps. constructor. Qed.

Lemma transactions_keep s w s' w' :
  _generate_simple_transactions s w = Ok (s', w') ->
  keeps_but_transactions s s'.
Proof.
  apply (transactions_inv (keeps_but_transactions s)).
  - intros t t' Ht Hstep. eapply keeps_but_transactions_trans; [exact Ht|].
    now apply txn_step_keeps.
  - apply keeps_but_transactions_refl.
Qed.

(** The run appends transactions; each is priced by the code's formulas and
    its items are purchases from the products as they stand at that
    moment. *)
Lemma transactions_trace s w s' w' :
  _generate_simple_transactions s w = Ok (s', w') ->
  exists new, transactions s' = transactions s ++ new
              /\ stock_trace (products s) new (products s')
              /\ Forall pricing_ok new.
Proof.
  apply (transactions_inv
           (fun t => exists new, transactions t = transactions s ++ new
                       /\ stock_trace (products s) new (products t)
                       /\ Forall pricing_ok new)).
  - intros t t' (new & Hnew & Htr & Hpr) [|ui user tx ps' Hu Hact Hid Hpur Hprice].
    + exists new. auto.
    + exists (new ++ [tx]). cbn [transactions products]. split; [|split].
      * rewrite Hnew. now rewrite app_assoc.
      * eapply stock_trace_snoc; [exact Htr|exact Hpur].
      * apply Forall_app. split; [exact Hpr|]. constructor; [exact Hprice|constructor].
  - exists []. split; [now rewrite app_nil_r|]. split; constructor.
Qed.

(** *** Categories, users and sessions *)

Lemma gen_category_keeps entry s w s' w' :
  gen_category entry s w = Ok (s', w') -> keeps_but_categories s s'.
Proof.
  intros H. unfold gen_category in H.
  destruct entry as [cat_id [main_cat subcats]]. bind_inv H. subst s'.
  repeat split.
Qed.

Lemma generate_categories_keeps s w s' w' :
  generate_categories s w = Ok (s', w') -> keeps_but_categories s s'.
Proof.
  intros H. unfold generate_categories in H.
  eapply (for_each_inv (keeps_but_categories s)); [| |exact H].
  - intros entry t v t' v' _ (Hc & Hp & Hu & Hse & Htr) Hstep.
    apply gen_category_keeps in Hstep as (Hc' & Hp' & Hu' & Hse' & Htr').
    repeat split; congruence.
  - repeat split.
Qed.

Lemma gen_user_facts i s w s' w' :
  gen_user i s w = Ok (s', w') ->
  keeps_but_users s s'
  /\ exists u, users s' = users s ++ [u] /\ user_facts (categories s) i u.
Proof.
  intros H. unfold gen_user in H. bind_inv H. subst s'.
  split; [repeat split|].
  eexists. split; [reflexivity|].
  apply random_facts.randint_range in Hm15.
  apply sample_facts.sample_sub in Hm16 as (Hsub & Hlen & _).
  unfold user_facts. cbn [User.user_id User.total_orders User.lifetime_value
    User.preferences Preferences.preferred_categories].
  repeat split; try assumption; lia.
Qed.

Lemma generate_users_facts s w s' w' :
  generate_users s w = Ok (s', w') ->
  keeps_but_users s s'
  /\ exists new, users s' = users s ++ new
                 /\ length new = Z.to_nat (Config.NUM_USERS (config s))
                 /\ forall j u, new !! j = Some u -> user_facts (categories s) j u.
Proof.
  intros H. unfold generate_users in H.
  apply (append_loop users (keeps_but_users s) (user_facts (categories s))) in H.
  - exact H.
  - intros i t v t' v' (Hc & Hcat & Hp & Hse & Htr) Hstep.
    apply gen_user_facts in Hstep as ((Hc' & Hcat' & Hp' & Hse' & Htr') & Hu).
    split; [repeat split; congruence|]. now rewrite <- Hcat.
  - repeat split.
Qed.

Lemma gen_session_facts i s w s' w' :
  gen_session i s w = Ok (s', w') ->
  keeps_but_sessions s s'
  /\ exists x, sessions s' = sessions s ++ [x] /\ session_facts (products s) x.
Proof.
  intros H. unfold gen_session in H. bind_inv H. subst s'.
  split; [repeat split|].
  eexists. split; [reflexivity|].
  apply random_facts.randint_range in Hm8.
  apply sample_facts.sample_sub in Hm9 as (Hsub & Hlen & _).
  unfold session_facts. cbn [Session.products_viewed].
  split; [exact Hsub|lia].
Qed.

Lemma generate_sessions_facts s w s' w' :
  _generate_simple_sessions s w = Ok (s', w') ->
  keeps_but_sessions s s'
  /\ exists new, sessions s' = sessions s ++ new
                 /\ length new = Z.to_nat (Config.NUM_SESSIONS (config s))
                 /\ Forall (session_facts (products s)) new.
Proof.
  intros H. unfold _generate_simple_sessions in H.
  apply (append_loop sessions (keeps_but_sessions s)
           (fun _ => session_facts (products s))) in H.
  - destruct H as (Hk & new & Hnew & Hlen & Hall).
    split; [exact Hk|]. exists new. split; [exact Hnew|]. split; [exact Hlen|].
    apply Forall_lookup. intros j x Hx. eapply Hall, Hx.
  - intros i t v t' v' (Hc & Hcat & Hp & Hu & Htr) Hstep.
    apply gen_session_facts in Hstep as ((Hc' & Hcat' & Hp' & Hu' & Htr') & Hx).
    split; [repeat split; congruence|]. now rewrite <- Hp.
  - repeat split.
Qed.

Lemma save_data_files s w files w' :
  save_data s w = Ok (files, w') ->
  categories_json files = categories s /\ products_json files = products s
  /\ users_json files = users s /\ transactions_json files = transactions s
  /\ exists w0 w1, _generate_summary s w0 = Ok (dataset_summary_json files, w1).
Proof.
  intros H. unfold save_data in H. bind_inv H. subst files.
  repeat split. eauto.
Qed.

(** *** The whole run *)

Lemma generate_all_stages s0 w g files w' :
  generate_all s0 w = Ok ((g, files), w') ->
  exists s1 s2 s3 s4 w1 w2 w3 w4 w5,
    generate_categories s0 w = Ok (s1, w1)
    /\ generate_products s1 w1 = Ok (s2, w2)
    /\ generate_users s2 w2 = Ok (s3, w3)
    /\ _generate_simple_transactions s3 w3 = Ok (s4, w4)
    /\ _generate_simple_sessions s4 w4 = Ok (g, w5)
    /\ save_data g w5 = Ok (files, w').
Proof.
  intros H. unfold generate_all in H. bind_inv H.
  injection H as <- <-. subst.
  exists a, a0, a1, a2, w0, w1, w2, w3, w4. repeat split; assumption.
Qed.

(** What a complete run from a fresh generator establishes: the products and
    users as first generated ([ps0], [us0]), the transaction stage run from
    them, and the sessions. *)
Lemma generate_all_facts cfg w g files w' :
  generate_all (init cfg) w = Ok ((g, files), w') ->
  exists ps0 us0 w3 w4 w5,
    config g = cfg
    /\ length ps0 = Z.to_nat (Config.NUM_PRODUCTS cfg)
    /\ (forall j p, ps0 !! j = Some p -> product_facts j p)
    /\ length us0 = Z.to_nat (Config.NUM_USERS cfg)
    /\ (forall j u, us0 !! j = Some u -> user_facts (categories g) j u)
    /\ _generate_simple_transactions (mkGen cfg (categories g) ps0 us0 [] []) w3
       = Ok (mkGen cfg (categories g) (products g) (users g) []
               (transactions g), w4)
    /\ Forall (session_facts (products g)) (sessions g)
    /\ length (sessions g) = Z.to_nat (Config.NUM_SESSIONS cfg)
    /\ save_data g w5 = Ok (files, w').
Proof.
  intros H.
  apply generate_all_stages in H
    as (s1 & s2 & s3 & s4 & w1 & w2 & w3 & w4 & w5 & H1 & H2 & H3 & H4 & H5 & H6).
  apply generate_categories_keeps in H1 as (Hc1 & Hp1 & Hu1 & Hse1 & Htr1).
  apply generate_products_facts in H2
    as ((Hc2 & Hcat2 & Hu2 & Hse2 & Htr2) & ps0 & Hps0 & Hlen2 & Hfacts2).
  apply generate_users_facts in H3
    as ((Hc3 & Hcat3 & Hp3 & Hse3 & Htr3) & us0 & Hus0 & Hlen3 & Hfacts3).
  pose proof (transactions_keep _ _ _ _ H4) as (Hc4 & Hcat4 & Hse4 & _ & _).
  apply generate_sessions_facts in H5
    as ((Hc5 & Hcat5 & Hp5 & Hu5 & Htr5) & ss & Hss & Hlen5 & Hfacts5).
  simpl in Hc1, Hp1, Hu1, Hse1, Htr1.
  rewrite Hp1 in Hps0. rewrite Hu2, Hu1 in Hus0. simpl in Hps0, Hus0.
  assert (Hcfg3 : config s3 = cfg) by congruence.
  assert (Hcfg4 : config s4 = cfg) by congruence.
  assert (Hs3 : s3 = mkGen cfg (categories g) ps0 us0 [] []).
  { destruct s3 as [c3 cats3 ps3 us3 ss3 ts3]. simpl in *. f_equal; congruence. }
  assert (Hs4 : s4 = mkGen cfg (categories g) (products g) (users g) []
                      (transactions g)).
  { destruct s4 as [c4 cats4 ps4 us4 ss4 ts4]. simpl in *. f_equal; congruence. }
  exists ps0, us0, w3, w4, w5.
  split; [congruence|]. split; [congruence|]. split; [exact Hfacts2|].
  split; [congruence|]. split.
  { intros j u Hj. replace (categories g) with (categories s2) by congruence.
    eapply Hfacts3, Hj. }
  split; [now rewrite <- Hs3, <- Hs4|].
  split; [|split].
  - rewrite Hss, Hse4, Hse3, Hse2, Hse1. simpl. now rewrite Hp5.
  - rewrite Hss, Hse4, Hse3, Hse2, Hse1. simpl. congruence.
  - exact H6.
Qed.

(** In a complete run, the product at position [j] is the one generated at
    loop index [j], up to its stock. *)
Lemma generated_product cfg w g files w' j p :
  generate_all (init cfg) w = Ok ((g, files), w') ->
  products g !! j = Some p ->
  (Z.of_nat j < Config.NUM_PRODUCTS cfg)%Z
  /\ Product.product_id p = ("prod_" +:+ fmt_d 5 j)%string
  /\ good_history (Product.price_history p).
Proof.
  intros H Hj.
  apply generate_all_facts in H
    as (ps0 & us0 & w3 & w4 & w5 & _ & Hlen & Hfacts & _ & _ & Hrun & _).
  apply transactions_keep in Hrun as (_ & _ & _ & Hsame & _).
  cbn [products] in Hsame.
  destruct (Forall2_lookup_r _ _ _ _ _ Hsame Hj) as (p0 & Hp0 & Hpp).
  destruct (Hfacts j p0 Hp0) as (Hid & Hgood & _).
  apply lookup_lt_Some in Hp0. rewrite Hlen in Hp0.
  unfold same_product in Hpp. rewrite Hpp. cbn.
  split; [lia|]. split; assumption.
Qed.

(** *** Running a chain forwards

    [fwd E] advances an equation [E : r = (x <- m ;; k) w] over every leading
    step [m] that cannot raise, naming the value and the world it yields. *)

(** The bounds of the generator's calls of [date_time_between] are ones
    that Faker accepts when the time span fits. *)
Ltac date_ok :=
  first [ exact date_arg_ok_now
        | exact (proj1 date_arg_ok_years)
        | exact (proj2 date_arg_ok_years)
        | apply date_arg_ok_span; unfold timespan_fits in *; lia
        | simpl; assumption ].

Ltac fwd_one E tac :=
  let x := fresh "x" in
  let v := fresh "v" in
  let Hx := fresh "Hx" in
  tac x v Hx; rewrite (bind_step _ _ _ _ _ Hx) in E; cbv beta zeta in E.

Ltac fwd_step E :=
  cbv beta zeta in E;
  lazymatch type of E with
  | _ = bind (random.choices ?p ?ws) _ ?w =>
      fwd_one E ltac:(fun x v Hx =>
        let Hin := fresh "Hin" in
        destruct (random_facts.choices_total p ws w eq_refl)
          as (x & v & Hx & Hin))
  | _ = bind (random.choice ?l) _ ?w =>
      fwd_one E ltac:(fun x v Hx =>
        let Hin := fresh "Hin" in
        destruct (random_facts.choice_total l w ltac:(discriminate))
          as (x & v & Hx & Hin))
  | _ = bind (random.randint ?a ?b) _ ?w =>
      fwd_one E ltac:(fun x v Hx =>
        destruct (random_facts.randint_total a b w ltac:(lia)) as (x & v & Hx))
  | _ = bind (random.uniform ?a ?b) _ ?w =>
      fwd_one E ltac:(fun x v Hx =>
        destruct (random_facts.uniform_total a b w) as (x & v & Hx))
  | _ = bind random.random _ ?w =>
      fwd_one E ltac:(fun x v Hx =>
        destruct (random_facts.random_total w) as (x & v & Hx))
  | _ = bind (fake_text ?p) _ ?w =>
      fwd_one E ltac:(fun x v Hx =>
        destruct (fake_text_total p w) as (x & v & Hx))
  | _ = bind (fake_date_time_between ?a ?b) _ ?w =>
      fwd_one E ltac:(fun x v Hx =>
        let Hdate := fresh "Hdate" in
        destruct (fake_date_time_between_total a b w
                    ltac:(date_ok) ltac:(date_ok)) as (x & v & Hx & Hdate))
  | _ = bind uuid4_hex _ ?w =>
      fwd_one E ltac:(fun x v Hx =>
        destruct (uuid4_hex_total w) as (x & v & Hx))
  | _ = bind now _ ?w =>
      fwd_one E ltac:(fun x v Hx =>
        destruct (now_total w) as (x & v & Hx))
  end.

Ltac fwd E := repeat fwd_step E.

Lemma age_groups_ordered r : r ∈ age_groups -> (fst r <= snd r)%Z.
Proof.
  assert (H : Forall (fun r => (fst r <= snd r)%Z) age_groups).
  { repeat constructor; simpl; lia. }
  rewrite Forall_forall in H. apply H.
Qed.

(** Each user draws a sample size [k] between 1 and 5; the user is produced
    with exactly [k] preferred categories when that many active categories
    exist, and [random.sample] raises [ValueError] otherwise. *)
Lemma gen_user_outcome i self w :
  timespan_fits (config self) ->
  exists k, (1 <= k <= 5)%Z
    /\ (((k <= len (active_category_ids (categories self)))%Z
         /\ (exists self' w' u,
               gen_user i self w = Ok (self', w')
               /\ users self' = users self ++ [u]
               /\ len (Preferences.preferred_categories (User.preferences u))
                  = k))
        \/ ((len (active_category_ids (categories self)) < k)%Z
            /\ gen_user i self w = Raise ValueError)).
Proof.
  intros Hspan.
  remember (gen_user i self w) as r eqn:E. unfold gen_user in E.
  fwd_step E. pose proof (age_groups_ordered _ Hin) as Hage.
  fwd E.
  lazymatch type of E with
  | _ = bind (random.sample ?pop ?k) _ ?v =>
      match goal with
      | Hk : random.randint 1 5 _ = Ok (k, v) |- _ =>
          pose proof (random_facts.randint_range _ _ _ _ _ Hk) as Hrange;
          exists k; split; [exact Hrange|];
          destruct (Z_le_gt_dec k (len pop)) as [Hle|Hgt]
      end
  end.
  - left. split; [exact Hle|].
    lazymatch type of E with
    | _ = bind (random.sample ?pop ?k) _ ?v =>
        destruct (sample_facts.sample_total pop k v ltac:(unfold len in Hle; lia))
          as (prefs & vs & Hs)
    end.
    rewrite (bind_step _ _ _ _ _ Hs) in E. cbv beta in E.
    apply sample_facts.sample_sub in Hs as (_ & Hlen & _).
    fwd E. unfold ret in E.
    do 3 eexists. split; [exact E|]. split; [reflexivity|]. exact Hlen.
  - right. split; [lia|].
    rewrite E. unfold bind at 1.
    rewrite sample_facts.sample_too_large; [reflexivity|].
    unfold len in Hgt. lia.
Qed.

(** *** Formatted ids are distinct *)

Lemma of_uint_zeros k d : Nat.of_uint (zeros k d) = Nat.of_uint d.
Proof. induction k as [|k IH]; [reflexivity|]. simpl. exact IH. Qed.

Lemma fmt_d_inj width n m : fmt_d width n = fmt_d width m -> n = m.
Proof.
  unfold fmt_d. intros H.
  apply (f_equal NilEmpty.uint_of_string) in H.
  rewrite !NilEmpty.usu in H. injection H as H.
  apply (f_equal Nat.of_uint) in H.
  now rewrite !of_uint_zeros, !of_uint_udigits in H.
Qed.

Lemma user_facts_NoDup cats (us : list User.t) :
  (forall j u, us !! j = Some u -> user_facts cats j u) ->
  NoDup (map User.user_id us).
Proof.
  intros Hfacts. apply NoDup_alt. intros i j id Hi Hj.
  rewrite list_lookup_fmap in Hi, Hj.
  destruct (us !! i) as [u|] eqn:Hu; [|discriminate].
  destruct (us !! j) as [u'|] eqn:Hu'; [|discriminate].
  simpl in Hi, Hj. injection Hi as Hi. injection Hj as Hj.
  destruct (Hfacts i u Hu) as (Hid & _). destruct (Hfacts j u' Hu') as (Hid' & _).
  rewrite Hid in Hi. rewrite Hid' in Hj. rewrite <- Hj in Hi.
  simpl in Hi. injection Hi as Hi. eapply fmt_d_inj, Hi.
Qed.

(** *** Aggregates *)

Lemma transactions_of_snoc uid ts t :
  transactions_of uid (ts ++ [t]) =
  transactions_of uid ts
  ++ (if String.eqb (Transaction.user_id t) uid then [t] else []).
Proof. unfold transactions_of. now rewrite List.filter_app. Qed.

Lemma sum_snoc xs x : sum (xs ++ [x]) = PrimFloat.add (sum xs) x.
Proof. unfold sum. now rewrite fold_left_app. Qed.


Lemma txn_step_aggregates s s' :
  aggregates_inv s -> txn_step s s' -> aggregates_inv s'.
Proof.
  intros [Hnd Hagg] [|ui user t ps' Hu Hact Hid Hpur Hprice]; [now split|].
  unfold aggregates_inv. cbn [users transactions].
  split.
  - rewrite list_fmap_insert. cbn [User.set_metrics User.user_id].
    rewrite list_insert_id; [exact Hnd|].
    rewrite list_lookup_fmap, Hu. reflexivity.
  - apply Forall_lookup. intros j u Hj.
    rewrite Forall_lookup in Hagg.
    apply list_lookup_insert_Some in Hj as [(-> & <- & _)|[Hne Hj]].
    + destruct (Hagg j user Hu) as [Hn Hv].
      unfold aggregates_ok.
      cbn [User.set_metrics User.user_id User.total_orders User.lifetime_value].
      rewrite transactions_of_snoc, Hid, String.eqb_refl.
      split.
      * rewrite Hn. unfold len. rewrite length_app. simpl. lia.
      * rewrite map_app.
        change (map Transaction.total [t]) with [Transaction.total t].
        rewrite sum_snoc, Hv. reflexivity.
    + destruct (Hagg j u Hj) as [Hn Hv].
      assert (Hdiff : String.eqb (Transaction.user_id t) (User.user_id u) = false).
      { apply String.eqb_neq. rewrite Hid. intros Heq. apply Hne.
        eapply (NoDup_lookup _ ui j (User.user_id u) Hnd);
          rewrite list_lookup_fmap.
        - rewrite Hu. simpl. now rewrite Heq.
        - now rewrite Hj. }
      unfold aggregates_ok. rewrite transactions_of_snoc, Hdiff, app_nil_r.
      now split.
Qed.

Lemma transactions_aggregates s w s' w' :
  aggregates_inv s -> _generate_simple_transactions s w = Ok (s', w') ->
  aggregates_inv s'.
Proof. apply (transactions_inv aggregates_inv). apply txn_step_aggregates. Qed.

(** *** Transaction attempts never fail while an active user exists *)

Lemma cart_loop_total todo st w :
  NoDup todo ->
  (forall pi, pi ∈ todo ->
     exists p, cart_products st !! pi = Some p
               /\ (0 < Product.current_stock p)%Z) ->
  exists st' w', for_each todo purchase st w = Ok (st', w').
Proof.
  revert st w. induction todo as [|pi rest IH]; intros st w Hnd Hstock.
  - exists st, w. reflexivity.
  - apply NoDup_cons in Hnd as [Hnotin Hnd].
    destruct (Hstock pi) as (p & Hp & Hpos); [left|].
    destruct (random_facts.randint_total 1 (Z.min 3 (Product.current_stock p)) w)
      as (q & w1 & Hq); [lia|].
    assert (Hstep : exists st1, purchase pi st w = Ok (st1, w1)
              /\ cart_products st1
                 = <[pi := Product.set_current_stock p
                             (Product.current_stock p - q)]> (cart_products st)).
    { unfold purchase.
      rewrite (bind_step _ _ _ _ _ (index_some _ _ _ _ Hp)).
      rewrite (bind_step _ _ _ _ _ Hq). unfold ret. eauto. }
    destruct Hstep as (st1 & Hstep & Hps1).
    rewrite for_each_cons, (bind_step _ _ _ _ _ Hstep).
    apply IH; [exact Hnd|]. rewrite Hps1.
    intros pj Hpj.
    rewrite list_lookup_insert_ne.
    + apply Hstock. now right.
    + intros ->. contradiction.
Qed.

Lemma draw_discount_total subtotal w :
  exists d w', draw_discount subtotal w = Ok (d, w').
Proof.
  remember (draw_discount subtotal w) as r eqn:E. unfold draw_discount in E.
  fwd E. destruct (PrimFloat.ltb x 0.25).
  - fwd E. unfold ret in E. eauto.
  - unfold ret in E. eauto.
Qed.

Lemma is_available_stock p :
  is_available p = true -> (0 < Product.current_stock p)%Z.
Proof.
  unfold is_available. intros H. apply andb_prop in H as [_ H].
  now apply Z.ltb_lt.
Qed.

(** An attempt that finds fewer available products than the items it drew
    returns the state as it was. *)
Lemma gen_transaction_skip n self w ui w1 num_items w2 :
  random.choice (positions is_active_user (users self)) w = Ok (ui, w1) ->
  random.choices [1; 2; 3; 4; 5]%Z num_items_weights w1 = Ok (num_items, w2) ->
  (len (positions is_available (products self)) < num_items)%Z ->
  gen_transaction n self w = Ok (self, w2).
Proof.
  intros Hui Hn Hfew. unfold gen_transaction.
  rewrite (bind_step _ _ _ _ _ Hui).
  apply random_facts.choice_elem, positions_spec in Hui as (user & Hu & _).
  rewrite (bind_step _ _ _ _ _ (index_some _ _ _ _ Hu)).
  unfold num_items_weights in Hn. rewrite (bind_step _ _ _ _ _ Hn).
  unfold len in Hfew. apply Z.ltb_lt in Hfew. rewrite Hfew. reflexivity.
Qed.

(** One attempt with an active user to pick: it returns, or stops at the
    timestamp, with [ParseError] for a negative time span, or by overflow
    for one of more than 719162 days. *)
Lemma gen_transaction_outcome n s w :
  positions is_active_user (users s) <> [] ->
  (exists s' w', gen_transaction n s w = Ok (s', w')
                 /\ positions is_active_user (users s') <> []
                 /\ config s' = config s)
  \/ (gen_transaction n s w = Raise ParseError
      /\ Config.TIMESPAN_DAYS (config s) < 0)
  \/ (gen_transaction n s w = Raise OverflowError
      /\ 719162 < Config.TIMESPAN_DAYS (config s)).
Proof.
  intros Hact.
  remember (gen_transaction n s w) as r eqn:E. unfold gen_transaction in E.
  destruct (random_facts.choice_total _ w Hact) as (ui & w1 & Hui & Hin).
  rewrite (bind_step _ _ _ _ _ Hui) in E.
  apply positions_spec in Hin as (user & Hu & Huact).
  rewrite (bind_step _ _ _ _ _ (index_some _ _ _ _ Hu)) in E.
  fwd_step E.
  destruct (Z.of_nat (length (positions is_available (products s))) <? x)%Z
    eqn:Hfew.
  { unfold ret in E. left. exists s, v. split; [exact E|]. now split. }
  apply Z.ltb_ge in Hfew.
  assert (Hrange : (1 <= x <= 5)%Z).
  { repeat (apply elem_of_cons in Hin as [->|Hin]; [lia|]). inversion Hin. }
  lazymatch type of E with
  | _ = bind (random.sample ?pop x) _ ?v0 =>
      destruct (sample_facts.sample_total pop x v0 ltac:(lia))
        as (selected & v1 & Hs)
  end.
  rewrite (bind_step _ _ _ _ _ Hs) in E. cbv beta in E.
  apply sample_facts.sample_sub in Hs as (Hsub & _ & _).
  destruct (cart_loop_total selected (mkCart [] 0 (products s)) v1)
    as (cart & v2 & Hcart).
  { eapply submseteq_NoDup; [exact Hsub|apply positions_NoDup]. }
  { intros pi Hpi. eapply elem_of_submseteq in Hpi; [|exact Hsub].
    apply positions_spec in Hpi as (p & Hp & Hav).
    exists p. split; [exact Hp|now apply is_available_stock]. }
  rewrite (bind_step _ _ _ _ _ Hcart) in E. cbv beta zeta in E.
  destruct (draw_discount_total (cart_subtotal cart) v2) as (d & v3 & Hd).
  rewrite (bind_step _ _ _ _ _ Hd) in E.
  fwd_step E.
  lazymatch type of E with
  | _ = bind (fake_date_time_between (span ?days) _) _ ?u =>
      destruct (span_date_outcome days u)
        as [(t & v4 & Ht & _)|[[Hraise Hspan]|[Hraise Hspan]]]
  end.
  - rewrite (bind_step _ _ _ _ _ Ht) in E.
    fwd E. unfold ret in E.
    left. do 2 eexists. split; [exact E|]. split; [|reflexivity].
    cbn [users]. intros Hnil.
    assert (Hin' : ui ∈ @nil nat).
    { rewrite <- Hnil. apply positions_spec. eexists. split.
      - apply list_lookup_insert_eq. eapply lookup_lt_Some, Hu.
      - exact Huact. }
    inversion Hin'.
  - right. left. split; [|exact Hspan].
    rewrite E. unfold bind at 1. now rewrite Hraise.
  - right. right. split; [|exact Hspan].
    rewrite E. unfold bind at 1. now rewrite Hraise.
Qed.

Lemma gen_transaction_total n s w :
  0 <= Config.TIMESPAN_DAYS (config s) <= 719162 ->
  positions is_active_user (users s) <> [] ->
  exists s' w', gen_transaction n s w = Ok (s', w')
                /\ positions is_active_user (users s') <> []
                /\ config s' = config s.
Proof.
  intros Hspan Hact.
  destruct (gen_transaction_outcome n s w Hact) as [H|[[_ H]|[_ H]]];
    [exact H|lia|lia].
Qed.

Lemma transactions_count s w s' w' :
  _generate_simple_transactions s w = Ok (s', w') ->
  exists new, transactions s' = transactions s ++ new
              /\ (length new <= Z.to_nat (Config.NUM_TRANSACTIONS (config s)))%nat.
Proof.
  intros Hrun. unfold _generate_simple_transactions in Hrun.
  apply (for_range_inv
           (fun i t => exists new, transactions t = transactions s ++ new
                                   /\ (length new <= i)%nat)
           gen_transaction _) with (s := s) (w := w) (w' := w');
    [| |exact Hrun].
  - intros i t v t' v' _ (new & Hnew & Hlen) Hstep.
    apply gen_transaction_inv in Hstep
      as [|ui user tx ps' Hu Hact Hid Hpur Hprice].
    + exists new. split; [exact Hnew|lia].
    + exists (new ++ [tx]). cbn [transactions]. split.
      * rewrite Hnew. now rewrite app_assoc.
      * rewrite length_app. simpl. lia.
  - exists []. split; [now rewrite app_nil_r|simpl; lia].
Qed.

(** The run returns, unless no user is active, when the first attempt
    raises [IndexError], or the time span is negative or beyond 719162
    days, when an attempt can stop at its timestamp. *)
Lemma transactions_outcome s w :
  (exists s' w' new,
     _generate_simple_transactions s w = Ok (s', w')
     /\ transactions s' = transactions s ++ new
     /\ (length new <= Z.to_nat (Config.NUM_TRANSACTIONS (config s)))%nat)
  \/ (_generate_simple_transactions s w = Raise IndexError
      /\ positions is_active_user (users s) = []
      /\ (0 < Config.NUM_TRANSACTIONS (config s))%Z)
  \/ (_generate_simple_transactions s w = Raise ParseError
      /\ Config.TIMESPAN_DAYS (config s) < 0)
  \/ (_generate_simple_transactions s w = Raise OverflowError
      /\ 719162 < Config.TIMESPAN_DAYS (config s)).
Proof.
  destruct (positions is_active_user (users s)) as [|ui rest] eqn:Hact.
  - destruct (Z.to_nat (Config.NUM_TRANSACTIONS (config s))) as [|n] eqn:Hn.
    + left. exists s, w, []. unfold _generate_simple_transactions, range.
      rewrite Hn. split; [reflexivity|]. split; [now rewrite app_nil_r|simpl; lia].
    + right. left. split; [|split; [reflexivity|lia]].
      unfold _generate_simple_transactions, range. rewrite Hn. simpl seq.
      rewrite for_each_cons. unfold gen_transaction at 1. rewrite Hact.
      reflexivity.
  - destruct (for_each_raises
                (fun t => positions is_active_user (users t) <> []
                          /\ config t = config s)
                (fun e => (e = ParseError
                           /\ Config.TIMESPAN_DAYS (config s) < 0)
                          \/ (e = OverflowError
                              /\ 719162 < Config.TIMESPAN_DAYS (config s)))
                (range (Config.NUM_TRANSACTIONS (config s))) gen_transaction)
      with (s := s) (w := w)
      as [(s' & w' & Hrun & _)|(e & Hraise & [[-> He]|[-> He]])].
    + intros n t v [Ht Hcfg].
      destruct (gen_transaction_outcome n t v Ht)
        as [(t' & v' & Hstep & Ht' & Hcfg')|[[Hr Hs]|[Hr Hs]]].
      * left. exists t', v'. split; [exact Hstep|]. split; [exact Ht'|congruence].
      * right. exists ParseError. split; [exact Hr|]. left. rewrite <- Hcfg. auto.
      * right. exists OverflowError. split; [exact Hr|]. right.
        rewrite <- Hcfg. auto.
    + split; [|reflexivity]. rewrite Hact. discriminate.
    + left. destruct (transactions_count s w s' w' Hrun) as (new & Hnew & Hlen).
      exists s', w', new. auto.
    + right. right. left. now split.
    + right. right. right. now split.
Qed.

(** *** The summary *)

Lemma truediv_int_ok a b : b <> 0%Z -> exists q, truediv_int a b = Ok q.
Proof. intros Hb. destruct a, b; simpl; eauto; contradiction. Qed.

Lemma is_nil_true {A} (l : list A) : is_nil l = true <-> l = [].
Proof. destruct l; simpl; split; congruence. Qed.

Lemma len_nonzero {A} (l : list A) : l <> [] -> len l <> 0%Z.
Proof. destruct l; [contradiction|]. unfold len. simpl. lia. Qed.

Lemma summary_conversion_rate self w sm w' :
  _generate_summary self w = Ok (sm, w') ->
  (sessions self = [] ->
     BusinessMetrics.conversion_rate (Summary.business_metrics sm) = 0%float)
  /\ (sessions self <> [] ->
        exists q,
          truediv_int (len (transactions self)) (len (sessions self)) = Ok q
          /\ BusinessMetrics.conversion_rate (Summary.business_metrics sm)
             = round (PrimFloat.mul q 100) 2).
Proof.
  intros H. unfold _generate_summary in H. bind_inv H. subst sm.
  cbn [Summary.business_metrics BusinessMetrics.conversion_rate].
  destruct (sessions self) as [|x ss] eqn:Hss; simpl in Hm0.
  - apply ret_ok in Hm0 as [<- _]. split; [|contradiction].
    intros _. vm_compute. reflexivity.
  - apply lift_ok in Hm0 as [Hq _]. split; [discriminate|].
    intros _. exists a0. split; [exact Hq|reflexivity].
Qed.

(** *** Floats: converting a positive int *)

Module float_facts.

(** [digits2_pos p] is the number of binary digits of [p]. *)
Lemma digits_bounds p :
  2 ^ (Z.pos (digits2_pos p) - 1) <= Z.pos p < 2 ^ Z.pos (digits2_pos p).
Proof.
  assert (Hsize : digits2_pos p = Pos.size p).
  { induction p; simpl; congruence. }
  rewrite Hsize. split.
  - pose proof (Pos.size_le p) as H.
    assert (H' : 2 ^ Z.pos (Pos.size p) <= 2 * Z.pos p).
    { rewrite <- Pos2Z.inj_pow. exact H. }
    replace (Z.pos (Pos.size p)) with (Z.pos (Pos.size p) - 1 + 1) in H' by lia.
    rewrite Z.pow_add_r in H' by lia. lia.
  - rewrite <- Pos2Z.inj_pow. apply (Pos.size_gt p).
Qed.

Lemma digits_unique q x :
  2 ^ (x - 1) <= Z.pos q < 2 ^ x -> Z.pos (digits2_pos q) = x.
Proof.
  intros [Hlo Hhi]. pose proof (digits_bounds q) as [Hlo' Hhi'].
  assert (Hx : 0 < x).
  { destruct (Z_lt_le_dec 0 x) as [?|Hle]; [assumption|].
    assert (2 ^ x <= 2 ^ 0) by (apply Z.pow_le_mono_r; lia).
    simpl in *. lia. }
  set (d := Z.pos (digits2_pos q)) in *.
  assert (Hd : 0 < d) by (subst d; lia).
  destruct (Z.lt_trichotomy d x) as [Hlt|[Heq|Hgt]]; [|exact Heq|].
  - assert (2 ^ d <= 2 ^ (x - 1)) by (apply Z.pow_le_mono_r; lia). lia.
  - assert (2 ^ x <= 2 ^ (d - 1)) by (apply Z.pow_le_mono_r; lia). lia.
Qed.

Lemma shr_1_m mrs : 0 <= shr_m mrs -> shr_m (shr_1 mrs) = shr_m mrs / 2.
Proof.
  destruct mrs as [m r s]. cbn [shr_m]. intros Hm.
  destruct m as [|[p|p|]|p]; cbn [shr_1 shr_m]; try reflexivity; try lia.
  - rewrite Pos2Z.inj_xI. apply Z.div_unique with (r := 1); lia.
  - rewrite Pos2Z.inj_xO. apply Z.div_unique with (r := 0); lia.
Qed.

Lemma iter_shr_m n : forall mrs,
  0 <= shr_m mrs ->
  shr_m (@SpecFloat.iter_pos _ shr_1 n mrs) = shr_m mrs / 2 ^ Z.pos n.
Proof.
  assert (Hnn : forall m k, 0 <= m -> 0 <= m / 2 ^ Z.pos k).
  { intros m k Hm. apply Z.div_pos; [exact Hm|]. apply Z.pow_pos_nonneg; lia. }
  induction n as [n IH|n IH|]; intros mrs Hm; cbn [SpecFloat.iter_pos].
  - assert (Hp : 2 ^ Z.pos n~1 = 2 * (2 ^ Z.pos n * 2 ^ Z.pos n)).
    { rewrite Pos2Z.inj_xI, <- Z.pow_add_r, <- Z.pow_succ_r by lia.
      f_equal. lia. }
    assert (H1 : 0 <= shr_m (shr_1 mrs)).
    { rewrite shr_1_m by exact Hm. apply Z.div_pos; lia. }
    assert (H2 : 0 <= shr_m (@SpecFloat.iter_pos _ shr_1 n (shr_1 mrs))).
    { rewrite IH by exact H1. now apply Hnn. }
    rewrite IH by exact H2. rewrite IH by exact H1. rewrite shr_1_m by exact Hm.
    assert (0 < 2 ^ Z.pos n) by (apply Z.pow_pos_nonneg; lia).
    rewrite !Z.div_div by lia. now rewrite Hp.
  - assert (Hp : 2 ^ Z.pos n~0 = 2 ^ Z.pos n * 2 ^ Z.pos n).
    { rewrite Pos2Z.inj_xO, <- Z.pow_add_r by lia. f_equal. lia. }
    assert (H2 : 0 <= shr_m (@SpecFloat.iter_pos _ shr_1 n mrs)).
    { rewrite IH by exact Hm. now apply Hnn. }
    rewrite IH by exact H2. rewrite IH by exact Hm.
    assert (0 < 2 ^ Z.pos n) by (apply Z.pow_pos_nonneg; lia).
    rewrite Z.div_div by lia. now rewrite Hp.
  - now apply shr_1_m.
Qed.

Lemma shr_record_of_loc_m m l : shr_m (shr_record_of_loc m l) = m.
Proof. destruct l as [|[| |]]; reflexivity. Qed.

(** Shifting a mantissa of [d >= 53] digits to its canonical exponent drops
    its [d - 53] low bits. *)
Lemma shr_fexp_m q e l :
  let d := Z.pos (digits2_pos q) in
  53 <= d -> -1074 <= d + e - 53 ->
  shr_m (fst (shr_fexp 53 1024 (Z.pos q) e l)) = Z.pos q / 2 ^ (d - 53)
  /\ snd (shr_fexp 53 1024 (Z.pos q) e l) = e + (d - 53).
Proof.
  intros d Hd He. unfold shr_fexp, shr, fexp, emin. simpl Zdigits2. fold d.
  rewrite Z.max_l by lia.
  replace (d + e - 53 - e) with (d - 53) by lia.
  destruct (d - 53) as [|n|n] eqn:Hn; try lia; simpl fst; simpl snd.
  - rewrite shr_record_of_loc_m. rewrite Z.div_1_r. split; [reflexivity|lia].
  - rewrite iter_shr_m by (rewrite shr_record_of_loc_m; lia).
    rewrite shr_record_of_loc_m. split; reflexivity.
Qed.

Lemma round_nearest_even_bounds m l :
  m <= round_nearest_even m l <= m + 1.
Proof.
  destruct l as [|[| |]]; simpl; try lia. destruct (Z.even m); lia.
Qed.

Lemma iter_xO p k : Z.pos (Pos.iter xO p k) = Z.pos p * 2 ^ Z.pos k.
Proof.
  induction k as [|k IH] using Pos.peano_ind.
  - simpl. lia.
  - rewrite Pos.iter_succ, Pos2Z.inj_xO, IH, Pos2Z.inj_succ, Z.pow_succ_r by lia.
    lia.
Qed.

(** Rounding a mantissa of at least 53 digits yields a valid finite float or
    an infinity, never zero. *)
Lemma binary_round_aux_nonzero q e l :
  let d := Z.pos (digits2_pos q) in
  53 <= d -> -1074 <= d + e - 53 ->
  (exists m e', binary_round_aux 53 1024 false (Z.pos q) e l = S754_finite false m e'
                /\ SpecFloat.valid_binary 53 1024 (S754_finite false m e') = true)
  \/ binary_round_aux 53 1024 false (Z.pos q) e l = S754_infinity false.
Proof.
  intros d Hd He. unfold binary_round_aux.
  destruct (shr_fexp_m q e l Hd He) as [Hm1 He1].
  destruct (shr_fexp 53 1024 (Z.pos q) e l) as [mrs1 e1].
  cbn [fst snd] in Hm1, He1. fold d in Hm1, He1.
  pose proof (digits_bounds q) as [Hlo Hhi]. fold d in Hlo, Hhi.
  assert (Hpow : 2 ^ (d - 1) = 2 ^ 52 * 2 ^ (d - 53)).
  { rewrite <- Z.pow_add_r by lia. f_equal. lia. }
  assert (Hpow' : 2 ^ d = 2 ^ 53 * 2 ^ (d - 53)).
  { rewrite <- Z.pow_add_r by lia. f_equal. lia. }
  assert (Hpos : 0 < 2 ^ (d - 53)) by (apply Z.pow_pos_nonneg; lia).
  assert (Hm1b : 2 ^ 52 <= shr_m mrs1 < 2 ^ 53).
  { rewrite Hm1. split.
    - apply Z.div_le_lower_bound; [exact Hpos|].
      rewrite Z.mul_comm, <- Hpow. exact Hlo.
    - apply Z.div_lt_upper_bound; [exact Hpos|].
      rewrite Z.mul_comm, <- Hpow'. exact Hhi. }
  assert (E52 : 2 ^ 52 = 4503599627370496) by reflexivity.
  assert (E53 : 2 ^ 53 = 9007199254740992) by reflexivity.
  assert (E54 : 2 ^ 54 = 18014398509481984) by reflexivity.
  rewrite E52, E53 in Hm1b.
  pose proof (round_nearest_even_bounds (shr_m mrs1) (loc_of_shr_record mrs1))
    as Hr.
  destruct (round_nearest_even (shr_m mrs1) (loc_of_shr_record mrs1))
    as [|q1|q1] eqn:Hq1; try lia.
  set (d1 := Z.pos (digits2_pos q1)).
  assert (Hd1 : d1 = 53 \/ (d1 = 54 /\ Z.pos q1 = 2 ^ 53)).
  { destruct (Z_lt_le_dec (Z.pos q1) (2 ^ 53)) as [Hlt|Hge].
    - left. apply digits_unique. change (53 - 1) with 52. rewrite E52. lia.
    - right. split; [|lia]. apply digits_unique. change (54 - 1) with 53.
      rewrite E54. lia. }
  assert (Hd1' : 53 <= d1) by lia.
  assert (He1' : -1074 <= d1 + e1 - 53) by lia.
  destruct (shr_fexp_m q1 e1 loc_Exact Hd1' He1') as [Hm2 He2].
  destruct (shr_fexp 53 1024 (Z.pos q1) e1 loc_Exact) as [mrs2 e2].
  cbn [fst snd] in Hm2, He2. fold d1 in Hm2, He2.
  assert (Hm2b : 2 ^ 52 <= shr_m mrs2 < 2 ^ 53).
  { rewrite Hm2. destruct Hd1 as [Hd53|[Hd54 Hq]].
    - rewrite Hd53. change (2 ^ (53 - 53)) with 1. rewrite Z.div_1_r.
      pose proof (digits_bounds q1) as [Hb1 Hb2]. fold d1 in Hb1, Hb2.
      rewrite Hd53 in Hb1, Hb2. change (53 - 1) with 52 in Hb1. lia.
    - rewrite Hq, Hd54. change (2 ^ 53 / 2 ^ (54 - 53)) with (2 ^ 52). lia. }
  destruct (shr_m mrs2) as [|q2|q2] eqn:Hq2; try lia.
  destruct (Z.leb_spec e2 (1024 - 53)) as [Hle|Hgt]; [left|now right].
  exists q2, e2. split; [reflexivity|].
  cbn [SpecFloat.valid_binary]. unfold bounded, canonical_mantissa, fexp, emin.
  rewrite (digits_unique q2 53) by (change (53 - 1) with 52; lia).
  apply andb_true_intro. split.
  - apply Z.eqb_eq. lia.
  - apply Z.leb_le. lia.
Qed.

Lemma binary_round_nonzero p :
  (exists m e, binary_round 53 1024 false p 0 = S754_finite false m e
               /\ SpecFloat.valid_binary 53 1024 (S754_finite false m e) = true)
  \/ binary_round 53 1024 false p 0 = S754_infinity false.
Proof.
  unfold binary_round, shl_align, fexp, emin.
  set (d := Z.pos (digits2_pos p)).
  assert (Hd : 1 <= d) by (subst d; lia).
  rewrite Z.max_l by lia.
  replace (d + 0 - 53 - 0) with (d - 53) by lia.
  pose proof (digits_bounds p) as [Hlo Hhi]. fold d in Hlo, Hhi.
  destruct (d - 53) as [|k|k] eqn:Hk.
  - apply binary_round_aux_nonzero; fold d; lia.
  - apply binary_round_aux_nonzero; fold d; lia.
  - assert (Hdz : Z.pos (digits2_pos (Pos.iter xO p k)) = 53).
    { apply digits_unique. rewrite iter_xO. change (53 - 1) with 52.
      assert (Hk' : Z.pos k = 53 - d) by lia. rewrite Hk'.
      assert (H52 : 2 ^ 52 = 2 ^ (d - 1) * 2 ^ (53 - d)).
      { rewrite <- Z.pow_add_r by lia. f_equal. lia. }
      assert (H53 : 2 ^ 53 = 2 ^ d * 2 ^ (53 - d)).
      { rewrite <- Z.pow_add_r by lia. f_equal. lia. }
      assert (0 < 2 ^ (53 - d)) by (apply Z.pow_pos_nonneg; lia).
      rewrite H52, H53. split; nia. }
    apply binary_round_aux_nonzero; rewrite Hdz; lia.
Qed.


(** Converting a positive int to a float never gives zero, so dividing by
    the length of a non-empty list never raises. *)
Lemma float_of_Z_nonzero n :
  0 < n -> PrimFloat.eqb (float_of_Z n) 0 = false.
Proof.
  intros Hn. destruct n as [|p|p]; try lia.
  unfold float_of_Z. cbn [binary_normalize].
  rewrite FloatAxioms.eqb_spec.
  destruct (binary_round_nonzero p) as [(m & e & -> & Hvalid)| ->].
  - rewrite Prim2SF_SF2Prim by exact Hvalid. reflexivity.
  - rewrite Prim2SF_SF2Prim by reflexivity. reflexivity.
Qed.

End float_facts.

Lemma truediv_by_len {A} (x : float) (l : list A) :
  l <> [] ->
  truediv x (float_of_Z (len l)) = Ok (PrimFloat.div x (float_of_Z (len l))).
Proof.
  intros Hl. unfold truediv.
  rewrite float_facts.float_of_Z_nonzero; [reflexivity|].
  destruct l; [contradiction|]. unfold len. simpl. lia.
Qed.

(** The two guarded averages of the summary never raise, and are 0 on an
    empty list. *)
Lemma guarded_average total (ts : list Transaction.t) w :
  exists a,
    (if is_nil ts then ret 0%float
     else lift (truediv total (float_of_Z (len ts)))) w = Ok (a, w)
    /\ (ts = [] -> a = 0%float).
Proof.
  destruct ts as [|t ts]; simpl is_nil; cbv iota.
  - exists 0%float. split; [reflexivity|reflexivity].
  - rewrite truediv_by_len by discriminate. unfold lift.
    eexists. split; [reflexivity|discriminate].
Qed.

Lemma guarded_rate (ts : list Transaction.t) (ss : list Session.t) w :
  exists c,
    (if is_nil ss then ret 0%float
     else lift (truediv_int (len ts) (len ss))) w = Ok (c, w)
    /\ (ss = [] -> c = 0%float).
Proof.
  destruct ss as [|s ss]; simpl is_nil; cbv iota.
  - exists 0%float. split; reflexivity.
  - destruct (truediv_int_ok (len ts) (len (s :: ss))) as [q Hq].
    { apply len_nonzero. discriminate. }
    rewrite Hq. unfold lift. exists q. split; [reflexivity|discriminate].
Qed.

(** *** Runs with the same seed *)

Lemma same_seed_refl w : same_seed w w.
Proof. repeat split. Qed.

Lemma overflows_bind {A B} (m : R A) (k : A -> R B) w :
  overflows (m w) -> overflows (bind m k w).
Proof. unfold overflows, bind. now intros ->. Qed.

Section Sim.
Context {A1 A2 B1 B2 : Type}.

Lemma sim_ret (RA : A1 -> A2 -> Prop) a1 a2 :
  RA a1 a2 -> sim RA (ret a1) (ret a2).
Proof. intros Ha w1 w2 Hw. right. right. unfold ret. now split. Qed.

Lemma sim_raise (RA : A1 -> A2 -> Prop) e : sim RA (raise e) (raise e).
Proof. intros w1 w2 Hw. right. right. reflexivity. Qed.

Lemma sim_bind (RA : A1 -> A2 -> Prop) (RB : B1 -> B2 -> Prop)
    (m1 : R A1) (m2 : R A2) (k1 : A1 -> R B1) (k2 : A2 -> R B2) :
  sim RA m1 m2 ->
  (forall a1 a2, RA a1 a2 -> sim RB (k1 a1) (k2 a2)) ->
  sim RB (bind m1 k1) (bind m2 k2).
Proof.
  intros Hm Hk w1 w2 Hw.
  destruct (Hm w1 w2 Hw) as [Ho|[Ho|Hm']].
  - left. now apply overflows_bind.
  - right. left. now apply overflows_bind.
  - unfold bind.
    destruct (m1 w1) as [[a1 w1']|e1], (m2 w2) as [[a2 w2']|e2];
      try contradiction.
    + destruct Hm' as [Ha Hw']. now apply Hk.
    + right. right. exact Hm'.
Qed.

Lemma sim_weaken (RA RA' : A1 -> A2 -> Prop) (m1 : R A1) (m2 : R A2) :
  (forall a1 a2, RA a1 a2 -> RA' a1 a2) -> sim RA m1 m2 -> sim RA' m1 m2.
Proof.
  intros HR Hm w1 w2 Hw.
  destruct (Hm w1 w2 Hw) as [Ho|[Ho|Hm']]; [now left|now right; left|].
  right. right.
  destruct (m1 w1) as [[a1 w1']|e1], (m2 w2) as [[a2 w2']|e2];
    try contradiction; [|exact Hm'].
  destruct Hm' as [Ha Hw']. split; [now apply HR|exact Hw'].
Qed.

End Sim.

Lemma sim_lift {A} (r : res A) : sim eq (lift r) (lift r).
Proof.
  intros w1 w2 Hw. right. right. unfold lift.
  destruct r; [now split|reflexivity].
Qed.

(** Two results computed from the clock, which fail by overflow only. *)
Lemma sim_lift_overflow {A B} (r1 : res A) (r2 : res B) :
  only_overflows r1 -> only_overflows r2 ->
  sim (fun _ _ => True) (lift r1) (lift r2).
Proof.
  intros H1 H2 w1 w2 Hw. unfold lift, overflows.
  destruct r1 as [a1|e1].
  - destruct r2 as [a2|e2].
    + right. right. now split.
    + right. left. now rewrite (H2 e2 eq_refl).
  - left. now rewrite (H1 e1 eq_refl).
Qed.

Lemma sim_for_each {X S1 S2} (RS : S1 -> S2 -> Prop) (l : list X)
    (body1 : X -> S1 -> R S1) (body2 : X -> S2 -> R S2) :
  (forall x s1 s2, RS s1 s2 -> sim RS (body1 x s1) (body2 x s2)) ->
  forall s1 s2, RS s1 s2 -> sim RS (for_each l body1 s1) (for_each l body2 s2).
Proof.
  intros Hbody. induction l as [|x l IH]; intros s1 s2 Hs.
  - now apply sim_ret.
  - simpl. eapply sim_bind; [now apply Hbody|]. intros t1 t2 Ht. now apply IH.
Qed.

Lemma sim_index_on {A B} (f : A -> B) (l1 l2 : list A) i :
  map f l1 = map f l2 ->
  sim (fun x y => f x = f y) (index l1 i) (index l2 i).
Proof.
  intros Hl w1 w2 Hw. unfold index.
  assert (Hi : f <$> (l1 !! i) = f <$> (l2 !! i)).
  { assert (Hl' : f <$> l1 = f <$> l2) by exact Hl.
    rewrite <- !list_lookup_fmap. now rewrite Hl'. }
  destruct (l1 !! i) as [x|], (l2 !! i) as [y|]; simpl in Hi; try discriminate.
  - right. right. unfold ret. split; [congruence|exact Hw].
  - right. right. reflexivity.
Qed.

Lemma sim_index {A} (l : list A) i : sim eq (index l i) (index l i).
Proof.
  intros w1 w2 Hw. right. right. unfold index.
  destruct (l !! i); [now split|reflexivity].
Qed.

Lemma sim_last_item_on {A B} (f : A -> B) (l1 l2 : list A) :
  map f l1 = map f l2 ->
  sim (fun x y => f x = f y) (last_item l1) (last_item l2).
Proof.
  intros Hl w1 w2 Hw. unfold last_item.
  assert (Hlast : f <$> last l1 = f <$> last l2).
  { assert (Hl' : f <$> l1 = f <$> l2) by exact Hl.
    rewrite <- !fmap_last. now rewrite Hl'. }
  destruct (last l1) as [x|], (last l2) as [y|]; simpl in Hlast;
    try discriminate.
  - right. right. unfold ret. split; [congruence|exact Hw].
  - right. right. reflexivity.
Qed.

Module seeded_random.
Import random.

Lemma sim_draw : sim eq draw draw.
Proof.
  intros w1 w2 (Hrnd & Hpos & Hfake & Hfpos). right. right. unfold draw. split.
  - now rewrite Hrnd, Hpos.
  - repeat split; simpl; try apply Hfake; congruence.
Qed.

Lemma sim_randbelow n : sim eq (randbelow n) (randbelow n).
Proof.
  unfold randbelow. eapply sim_bind; [apply sim_draw|].
  intros r ? <-. now apply sim_ret.
Qed.

Lemma sim_random : sim eq random random.
Proof.
  unfold random. eapply sim_bind; [apply sim_draw|].
  intros r ? <-. now apply sim_ret.
Qed.

Lemma sim_uniform a b : sim eq (uniform a b) (uniform a b).
Proof.
  unfold uniform. eapply sim_bind; [apply sim_random|].
  intros r ? <-. now apply sim_ret.
Qed.

Lemma sim_randint a b : sim eq (randint a b) (randint a b).
Proof.
  unfold randint. destruct (b <? a); [apply sim_raise|].
  eapply sim_bind; [apply sim_randbelow|]. intros r ? <-. now apply sim_ret.
Qed.

Lemma sim_choice_on {A B} (f : A -> B) (l1 l2 : list A) :
  map f l1 = map f l2 ->
  sim (fun x y => f x = f y) (choice l1) (choice l2).
Proof.
  intros Hl. unfold choice.
  assert (Hlen : length l1 = length l2).
  { rewrite <- (length_map f l1), <- (length_map f l2). now rewrite Hl. }
  destruct l1 as [|x1 l1], l2 as [|x2 l2]; try discriminate.
  - apply sim_raise.
  - rewrite Hlen. eapply sim_bind; [apply sim_randbelow|].
    intros i ? <-. now apply sim_index_on.
Qed.

Lemma sim_choice {A} (l : list A) : sim eq (choice l) (choice l).
Proof.
  unfold choice. destruct l as [|x l]; [apply sim_raise|].
  eapply sim_bind; [apply sim_randbelow|]. intros i ? <-. apply sim_index.
Qed.

Lemma sim_choices {A} (population : list A) weights :
  sim eq (choices population weights) (choices population weights).
Proof.
  unfold choices. destruct (negb _); [apply sim_raise|].
  destruct (last _) as [total|]; [|apply sim_raise].
  destruct (PrimFloat.leb total 0); [apply sim_raise|].
  eapply sim_bind; [apply sim_random|]. intros u ? <-. apply sim_index.
Qed.

Lemma sim_sample_pool {A} k : forall pool : list A,
  sim eq (sample_pool k pool) (sample_pool k pool).
Proof.
  induction k as [|k IH]; intros pool; simpl.
  - now apply sim_ret.
  - eapply sim_bind; [apply sim_randbelow|]. intros j ? <-.
    eapply sim_bind; [apply sim_index|]. intros x ? <-.
    eapply sim_bind; [apply sim_index|]. intros y ? <-.
    eapply sim_bind; [apply IH|]. intros rest ? <-. now apply sim_ret.
Qed.

Lemma sim_sample_set {A} k : forall unselected : list A,
  sim eq (sample_set k unselected) (sample_set k unselected).
Proof.
  induction k as [|k IH]; intros unselected; simpl.
  - now apply sim_ret.
  - eapply sim_bind; [apply sim_randbelow|]. intros j ? <-.
    eapply sim_bind; [apply sim_index|]. intros x ? <-.
    eapply sim_bind; [apply IH|]. intros rest ? <-. now apply sim_ret.
Qed.

Lemma sim_sample {A} (population : list A) k :
  sim eq (sample population k) (sample population k).
Proof.
  unfold sample. destruct (_ || _); [apply sim_raise|].
  destruct (_ <=? setsize k); [apply sim_sample_pool|apply sim_sample_set].
Qed.

End seeded_random.

(** Faker's texts and draws are the same in both runs; its clock, [uuid4]
    and the script's clock return unrelated values.  All leave both streams
    at the same positions. *)
Lemma sim_fake_next :
  sim (fun v1 v2 => Fake.text v1 = Fake.text v2 /\ Fake.draw v1 = Fake.draw v2)
      fake_next fake_next.
Proof.
  intros w1 w2 (Hrnd & Hpos & Hfake & Hfpos). right. right.
  unfold fake_next. split.
  - rewrite Hfpos. apply Hfake.
  - repeat split; simpl; try apply Hfake; congruence.
Qed.

Lemma sim_fake_text provider : sim eq (fake_text provider) (fake_text provider).
Proof.
  unfold fake_text. eapply sim_bind; [apply sim_fake_next|].
  intros v1 v2 [Ht _]. now apply sim_ret.
Qed.

Lemma sim_fake_draw : sim eq fake_draw fake_draw.
Proof.
  unfold fake_draw. eapply sim_bind; [apply sim_fake_next|].
  intros v1 v2 [_ Hd]. now apply sim_ret.
Qed.

Lemma sim_fake_now : sim (fun _ _ => True) fake_now fake_now.
Proof.
  unfold fake_now. eapply sim_bind; [apply sim_fake_next|].
  intros v1 v2 _. now apply sim_ret.
Qed.

Lemma alike_refl a : alike a a.
Proof. now destruct a. Qed.

Lemma sim_parse_date_time a1 a2 :
  alike a1 a2 ->
  sim (fun _ _ => True) (_parse_date_time a1) (_parse_date_time a2).
Proof.
  intros Ha. destruct a1 as [s|t1], a2 as [s2|t2]; try contradiction.
  - simpl in Ha. subst s2. unfold _parse_date_time.
    eapply sim_bind; [apply sim_fake_now|]. intros n1 n2 _.
    destruct (String.eqb s "now").
    + eapply sim_bind; [apply sim_fake_now|]. intros m1 m2 _.
      now apply sim_ret.
    + eapply sim_bind; [apply sim_lift|]. intros params ? <-.
      eapply sim_bind; [apply sim_lift|]. intros delta ? <-.
      eapply sim_bind.
      { apply sim_lift_overflow; apply datetime_add_only_overflows. }
      intros d1 d2 _. now apply sim_ret.
  - now apply sim_ret.
Qed.

Lemma sim_fake_date a1 a2 b :
  alike a1 a2 ->
  sim (fun _ _ => True) (fake_date_time_between a1 b)
      (fake_date_time_between a2 b).
Proof.
  intros Ha. unfold fake_date_time_between.
  eapply sim_bind; [now apply sim_parse_date_time|]. intros p1 p2 _.
  eapply sim_bind; [apply sim_parse_date_time, alike_refl|]. intros q1 q2 _.
  eapply sim_bind; [apply sim_fake_draw|]. intros r ? <-. cbv zeta.
  eapply sim_bind.
  { apply sim_lift_overflow; apply timedelta_only_overflows. }
  intros d1 d2 _.
  apply sim_lift_overflow; apply datetime_add_only_overflows.
Qed.

Lemma sim_fake_date_same a b :
  sim (fun _ _ => True) (fake_date_time_between a b)
      (fake_date_time_between a b).
Proof. apply sim_fake_date, alike_refl. Qed.

Lemma sim_fake_date_at t1 t2 b :
  sim (fun _ _ => True) (fake_date_time_between (At t1) b)
      (fake_date_time_between (At t2) b).
Proof. now apply sim_fake_date. Qed.

Lemma sim_datetime_add d1 d2 delta1 delta2 :
  sim (fun _ _ => True) (lift (datetime_add d1 delta1))
      (lift (datetime_add d2 delta2)).
Proof. apply sim_lift_overflow; apply datetime_add_only_overflows. Qed.

Lemma sim_uuid4_hex : sim (fun _ _ => True) uuid4_hex uuid4_hex.
Proof.
  intros w1 w2 (Hrnd & Hpos & Hfake & Hfpos). right. right.
  unfold uuid4_hex. now split.
Qed.

Lemma sim_now : sim (fun _ _ => True) now now.
Proof.
  intros w1 w2 (Hrnd & Hpos & Hfake & Hfpos). right. right.
  unfold now. now split.
Qed.

Create HintDb sim.
#[local] Hint Resolve
  seeded_random.sim_randint seeded_random.sim_uniform seeded_random.sim_random
  seeded_random.sim_choice seeded_random.sim_choices seeded_random.sim_sample
  sim_fake_text sim_fake_date_same sim_fake_date_at sim_datetime_add
  sim_uuid4_hex sim_now sim_index : sim.

(** One step of a pair of chains: related first computations, then the
    continuations on related values (equal values are identified). *)
Ltac sim_step :=
  lazymatch goal with
  | |- sim _ (ret _) (ret _) => apply sim_ret
  | |- sim _ (bind _ _) (bind _ _) =>
      eapply sim_bind;
      [ solve [eauto with sim]
      | let x := fresh "x" in
        let y := fresh "y" in
        let Hxy := fresh "Hxy" in
        intros x y Hxy; cbv beta;
        try (match type of Hxy with _ = _ => subst y end) ]
  end.

Lemma sim_for_each_eq {X S} (l : list X) (body : X -> S -> R S) :
  (forall x s, sim eq (body x s) (body x s)) ->
  forall s, sim eq (for_each l body s) (for_each l body s).
Proof.
  intros Hbody s. apply sim_for_each; [|reflexivity].
  intros x s1 s2 <-. apply Hbody.
Qed.

Lemma map_agree {A B C} (e : A -> B) (f : A -> C) (f' : B -> C) l1 l2 :
  (forall x, f x = f' (e x)) -> map e l1 = map e l2 -> map f l1 = map f l2.
Proof.
  intros Hf Hl.
  assert (Hmap : forall l, map f l = map f' (map e l)).
  { intros l. rewrite map_map. apply map_ext. exact Hf. }
  now rewrite !Hmap, Hl.
Qed.

Lemma same_seeded_inv g1 g2 :
  same_seeded g1 g2 <->
  config g1 = config g2
  /\ map seeded_category (categories g1) = map seeded_category (categories g2)
  /\ map seeded_product (products g1) = map seeded_product (products g2)
  /\ map seeded_user (users g1) = map seeded_user (users g2)
  /\ map seeded_session (sessions g1) = map seeded_session (sessions g2)
  /\ map seeded_transaction (transactions g1)
     = map seeded_transaction (transactions g2).
Proof.
  unfold same_seeded, seeded_gen. split.
  - intros [= ? ? ? ? ? ?]. auto 10.
  - intros (-> & -> & -> & -> & -> & ->). reflexivity.
Qed.

Lemma sim_gen_subcategory cat_id sub acc :
  sim eq (gen_subcategory cat_id sub acc) (gen_subcategory cat_id sub acc).
Proof.
  unfold gen_subcategory. destruct sub as [sub_id subcat_name].
  repeat sim_step. reflexivity.
Qed.

Lemma sim_gen_category entry g1 g2 :
  same_seeded g1 g2 ->
  sim same_seeded (gen_category entry g1) (gen_category entry g2).
Proof.
  intros Hg. apply same_seeded_inv in Hg as (Hc & Hcat & Hp & Hu & Hs & Ht).
  unfold gen_category. destruct entry as [cat_id [main_cat subcats]].
  sim_step. sim_step.
  eapply sim_bind.
  { apply sim_for_each_eq. intros sub acc. apply sim_gen_subcategory. }
  intros subs ? <-. apply sim_ret. apply same_seeded_inv. cbn.
  repeat split; try assumption.
  rewrite !map_app, Hcat. reflexivity.
Qed.

Lemma sim_generate_categories g1 g2 :
  same_seeded g1 g2 ->
  sim same_seeded (generate_categories g1) (generate_categories g2).
Proof.
  intros Hg. unfold generate_categories.
  pose proof (proj1 (same_seeded_inv g1 g2) Hg) as (Hc & _). rewrite Hc.
  apply sim_for_each; [|exact Hg].
  intros entry s1 s2. apply sim_gen_category.
Qed.

Lemma sim_change_factor c : sim eq (change_factor c) (change_factor c).
Proof.
  unfold change_factor.
  repeat (destruct (String.eqb _ _)); apply seeded_random.sim_uniform.
Qed.

Lemma sim_price_change i st1 st2 :
  pl_price st1 = pl_price st2 ->
  map seeded_entry (pl_history st1) = map seeded_entry (pl_history st2) ->
  sim (fun t1 t2 =>
         pl_price t1 = pl_price t2
         /\ map seeded_entry (pl_history t1) = map seeded_entry (pl_history t2))
      (price_change i st1) (price_change i st2).
Proof.
  intros Hprice Hhist. unfold price_change.
  sim_step. sim_step. sim_step.
  eapply sim_bind; [apply sim_change_factor|]. intros f ? <-.
  apply sim_ret. cbn [pl_price pl_history]. rewrite Hprice. split; [reflexivity|].
  rewrite !map_app, Hhist. reflexivity.
Qed.

Lemma sim_generate_price_history base start1 start2 :
  sim (fun h1 h2 => map seeded_entry h1 = map seeded_entry h2)
      (_generate_price_history base start1)
      (_generate_price_history base start2).
Proof.
  unfold _generate_price_history. sim_step.
  eapply sim_bind.
  { apply (sim_for_each
             (fun t1 t2 =>
                pl_price t1 = pl_price t2
                /\ map seeded_entry (pl_history t1)
                   = map seeded_entry (pl_history t2))).
    - intros i t1 t2 [Hp Hh]. now apply sim_price_change.
    - split; reflexivity. }
  intros t1 t2 [_ Hh]. now apply sim_ret.
Qed.

Lemma sim_generate_product_name c s :
  sim eq (_generate_product_name c s) (_generate_product_name c s).
Proof. unfold _generate_product_name. repeat sim_step. reflexivity. Qed.

Lemma sim_generate_product_tags :
  sim eq _generate_product_tags _generate_product_tags.
Proof.
  unfold _generate_product_tags. sim_step. apply seeded_random.sim_sample.
Qed.

Lemma sim_gen_product start1 start2 i g1 g2 :
  same_seeded g1 g2 ->
  sim same_seeded (gen_product start1 i g1) (gen_product start2 i g2).
Proof.
  intros Hg. apply same_seeded_inv in Hg as (Hc & Hcat & Hp & Hu & Hs & Ht).
  unfold gen_product.
  eapply sim_bind; [apply (seeded_random.sim_choice_on _ _ _ Hcat)|].
  intros c1 c2 Hcc. cbv beta.
  assert (Hsubs : Category.subcategories c1 = Category.subcategories c2)
    by exact (f_equal Category.subcategories Hcc).
  assert (Hname : Category.name c1 = Category.name c2)
    by exact (f_equal Category.name Hcc).
  assert (Hid : Category.category_id c1 = Category.category_id c2)
    by exact (f_equal Category.category_id Hcc).
  rewrite Hsubs, Hname, Hid.
  sim_step.
  destruct (price_ranges (Category.name c2)) as [min_price max_price].
  sim_step.
  eapply sim_bind; [apply sim_generate_price_history|].
  intros h1 h2 Hh. cbv beta.
  eapply sim_bind; [apply (sim_last_item_on _ _ _ Hh)|].
  intros n1 n2 Hn. cbv beta.
  assert (Hnp : PriceEntry.price n1 = PriceEntry.price n2)
    by exact (f_equal PriceEntry.price Hn).
  rewrite Hnp.
  sim_step. sim_step.
  eapply sim_bind; [apply sim_generate_product_name|]. intros name ? <-.
  repeat sim_step.
  eapply sim_bind; [apply (sim_index_on _ _ _ 0%nat Hh)|].
  intros o1 o2 Ho. cbv beta.
  eapply sim_bind; [apply (sim_last_item_on _ _ _ Hh)|].
  intros m1 m2 Hm. cbv beta.
  eapply sim_bind; [apply sim_generate_product_tags|]. intros tags ? <-.
  repeat sim_step.
  apply same_seeded_inv. cbn. repeat split; try assumption.
  rewrite !map_app, Hp. cbn [map]. unfold seeded_product. cbn.
  now rewrite Hh.
Qed.

Lemma sim_generate_products g1 g2 :
  same_seeded g1 g2 ->
  sim same_seeded (generate_products g1) (generate_products g2).
Proof.
  intros Hg. unfold generate_products.
  pose proof (proj1 (same_seeded_inv g1 g2) Hg) as (Hc & _). rewrite Hc.
  eapply sim_bind; [apply sim_now|]. intros t1 t2 _. cbv beta zeta.
  eapply sim_bind; [apply sim_lift|]. intros delta ? <-.
  eapply sim_bind; [apply sim_datetime_add|]. intros start1 start2 _.
  apply sim_for_each; [|exact Hg].
  intros i s1 s2. apply sim_gen_product.
Qed.

(** *** Reading only seeded fields *)

Lemma positions_agree {A B} (e : A -> B) (p : A -> bool) (p' : B -> bool)
    (l1 l2 : list A) :
  (forall x, p x = p' (e x)) -> map e l1 = map e l2 ->
  positions p l1 = positions p l2.
Proof.
  intros Hp Hl.
  assert (Hpos : forall l, positions p l = positions p' (map e l)).
  { intros l. unfold positions. rewrite length_map. apply List.filter_ext.
    intros i. change (map e l) with (e <$> l). rewrite list_lookup_fmap.
    destruct (l !! i); simpl; [apply Hp|reflexivity]. }
  now rewrite !Hpos, Hl.
Qed.

Lemma count_agree {A B} (e : A -> B) (p : A -> bool) (p' : B -> bool)
    (l1 l2 : list A) :
  (forall x, p x = p' (e x)) -> map e l1 = map e l2 -> count p l1 = count p l2.
Proof.
  intros Hp Hl.
  assert (Hcount : forall l, count p l = count p' (map e l)).
  { intros l. unfold count, len. f_equal.
    induction l as [|x l IH]; [reflexivity|].
    cbn [map List.filter]. rewrite <- Hp.
    destruct (p x); cbn [length]; [f_equal|]; exact IH. }
  now rewrite !Hcount, Hl.
Qed.

Lemma len_agree {A B} (e : A -> B) (l1 l2 : list A) :
  map e l1 = map e l2 -> len l1 = len l2.
Proof.
  intros Hl. unfold len.
  rewrite <- (length_map e l1), <- (length_map e l2). now rewrite Hl.
Qed.

Lemma is_nil_agree {A B} (e : A -> B) (l1 l2 : list A) :
  map e l1 = map e l2 -> is_nil l1 = is_nil l2.
Proof. intros Hl. destruct l1, l2; try discriminate; reflexivity. Qed.

Lemma map_insert {A B} (f : A -> B) (l : list A) i x :
  map f (<[i:=x]> l) = <[i:=f x]> (map f l).
Proof. apply list_fmap_insert. Qed.

Lemma active_category_ids_agree cats1 cats2 :
  map seeded_category cats1 = map seeded_category cats2 ->
  active_category_ids cats1 = active_category_ids cats2.
Proof.
  intros Hl.
  assert (Hids : forall cats,
            active_category_ids cats
            = active_category_ids (map seeded_category cats)).
  { intros cats. unfold active_category_ids.
    induction cats as [|c cats IH]; [reflexivity|].
    cbn [map List.filter].
    change (Category.is_active (seeded_category c))
      with (Category.is_active c).
    destruct (Category.is_active c); cbn [map]; [f_equal|]; exact IH. }
  rewrite (Hids cats1), (Hids cats2), Hl. reflexivity.
Qed.

(** *** Users *)

Lemma sim_gen_user i g1 g2 :
  same_seeded g1 g2 -> sim same_seeded (gen_user i g1) (gen_user i g2).
Proof.
  intros Hg. apply same_seeded_inv in Hg as (Hc & Hcat & Hp & Hu & Hs & Ht).
  unfold gen_user.
  rewrite (active_category_ids_agree _ _ Hcat), Hc.
  repeat sim_step.
  apply same_seeded_inv. cbn. repeat split; try assumption.
  rewrite !map_app, Hu. reflexivity.
Qed.

Lemma sim_generate_users g1 g2 :
  same_seeded g1 g2 -> sim same_seeded (generate_users g1) (generate_users g2).
Proof.
  intros Hg. unfold generate_users.
  pose proof (proj1 (same_seeded_inv g1 g2) Hg) as (Hc & _). rewrite Hc.
  apply sim_for_each; [|exact Hg].
  intros i s1 s2. apply sim_gen_user.
Qed.

(** *** Transactions *)

Lemma sim_purchase pi c1 c2 :
  cart_items c1 = cart_items c2 ->
  cart_subtotal c1 = cart_subtotal c2 ->
  map seeded_product (cart_products c1) = map seeded_product (cart_products c2) ->
  sim (fun d1 d2 =>
         cart_items d1 = cart_items d2
         /\ cart_subtotal d1 = cart_subtotal d2
         /\ map seeded_product (cart_products d1)
            = map seeded_product (cart_products d2))
      (purchase pi c1) (purchase pi c2).
Proof.
  intros Hitems Hsub Hps. unfold purchase.
  eapply sim_bind; [apply (sim_index_on _ _ _ pi Hps)|].
  intros p1 p2 Hp. cbv beta.
  assert (Hstock : Product.current_stock p1 = Product.current_stock p2)
    by exact (f_equal Product.current_stock Hp).
  assert (Hprice : Product.base_price p1 = Product.base_price p2)
    by exact (f_equal Product.base_price Hp).
  assert (Hid : Product.product_id p1 = Product.product_id p2)
    by exact (f_equal Product.product_id Hp).
  rewrite Hstock, Hprice, Hid, Hitems, Hsub.
  sim_step. apply sim_ret. cbn [cart_items cart_subtotal cart_products].
  split; [reflexivity|]. split; [reflexivity|].
  rewrite !map_insert, Hps. f_equal.
  change (Product.set_current_stock (seeded_product p1)
            (Product.current_stock p2 - x)
          = Product.set_current_stock (seeded_product p2)
              (Product.current_stock p2 - x)).
  now rewrite Hp.
Qed.

Lemma sim_draw_discount subtotal :
  sim eq (draw_discount subtotal) (draw_discount subtotal).
Proof.
  unfold draw_discount. sim_step.
  destruct (PrimFloat.ltb x 0.25); [|now apply sim_ret].
  sim_step. now apply sim_ret.
Qed.

Lemma sim_gen_transaction n g1 g2 :
  same_seeded g1 g2 ->
  sim same_seeded (gen_transaction n g1) (gen_transaction n g2).
Proof.
  intros Hg.
  pose proof (proj1 (same_seeded_inv g1 g2) Hg) as (Hc & Hcat & Hp & Hu & Hs & Ht).
  unfold gen_transaction.
  rewrite (positions_agree seeded_user is_active_user is_active_user
             (users g1) (users g2) (fun u => eq_refl) Hu).
  rewrite (positions_agree seeded_product is_available is_available
             (products g1) (products g2) (fun p => eq_refl) Hp).
  rewrite Hc.
  sim_step.
  eapply sim_bind; [apply (sim_index_on _ _ _ x Hu)|].
  intros u1 u2 Huu. cbv beta.
  assert (Hid : User.user_id u1 = User.user_id u2)
    by exact (f_equal User.user_id Huu).
  assert (Hgeo : User.geo_data u1 = User.geo_data u2)
    by exact (f_equal User.geo_data Huu).
  assert (Hn : User.total_orders u1 = User.total_orders u2)
    by exact (f_equal User.total_orders Huu).
  assert (Hv : User.lifetime_value u1 = User.lifetime_value u2)
    by exact (f_equal User.lifetime_value Huu).
  sim_step.
  destruct (Z.of_nat (length (positions is_available (products g2))) <? x0)%Z.
  { now apply sim_ret. }
  sim_step.
  eapply sim_bind.
  { apply (sim_for_each
             (fun d1 d2 =>
                cart_items d1 = cart_items d2
                /\ cart_subtotal d1 = cart_subtotal d2
                /\ map seeded_product (cart_products d1)
                   = map seeded_product (cart_products d2))).
    - intros pi d1 d2 (Hi & Hsb & Hps). now apply sim_purchase.
    - cbn [cart_items cart_subtotal cart_products]. auto. }
  intros d1 d2 (Hi & Hsb & Hps). cbv beta zeta.
  rewrite Hi, Hsb.
  eapply sim_bind; [apply sim_draw_discount|]. intros disc ? <-.
  repeat sim_step.
  apply same_seeded_inv. cbn [config categories products users sessions
                               transactions].
  repeat split; try assumption.
  - rewrite !map_insert, Hu. f_equal.
    change (User.set_metrics (seeded_user u1) (User.total_orders u1 + 1)
              (User.lifetime_value u1 +
               round (cart_subtotal d2 - disc
                      + round (cart_subtotal d2 * 0.08) 2
                      + (if (50 <? cart_subtotal d2)%float then 0 else 9.99))
                     2)%float
            = User.set_metrics (seeded_user u2) (User.total_orders u2 + 1)
                (User.lifetime_value u2 +
                 round (cart_subtotal d2 - disc
                        + round (cart_subtotal d2 * 0.08) 2
                        + (if (50 <? cart_subtotal d2)%float then 0 else 9.99))
                       2)%float).
    now rewrite Huu, Hn, Hv.
  - rewrite !map_app, Ht. f_equal. cbn [map]. f_equal.
    unfold seeded_transaction. cbn. now rewrite Hid, Hgeo.
Qed.

Lemma sim_generate_transactions g1 g2 :
  same_seeded g1 g2 ->
  sim same_seeded (_generate_simple_transactions g1)
      (_generate_simple_transactions g2).
Proof.
  intros Hg. unfold _generate_simple_transactions.
  pose proof (proj1 (same_seeded_inv g1 g2) Hg) as (Hc & _). rewrite Hc.
  apply sim_for_each; [|exact Hg].
  intros i s1 s2. apply sim_gen_transaction.
Qed.

(** *** Sessions *)

Lemma viewable_agree ps1 ps2 :
  map seeded_product ps1 = map seeded_product ps2 ->
  map Product.product_id (take 100 ps1) = map Product.product_id (take 100 ps2).
Proof.
  intros Hps.
  apply (map_agree seeded_product Product.product_id Product.product_id);
    [reflexivity|].
  change (seeded_product <$> take 100 ps1 = seeded_product <$> take 100 ps2).
  rewrite !fmap_take. f_equal. exact Hps.
Qed.

Lemma sim_gen_session n g1 g2 :
  same_seeded g1 g2 -> sim same_seeded (gen_session n g1) (gen_session n g2).
Proof.
  intros Hg.
  pose proof (proj1 (same_seeded_inv g1 g2) Hg) as (Hc & Hcat & Hp & Hu & Hs & Ht).
  unfold gen_session. rewrite (viewable_agree _ _ Hp), Hc.
  eapply sim_bind; [apply (seeded_random.sim_choice_on _ _ _ Hu)|].
  intros u1 u2 Huu. cbv beta.
  assert (Hid : User.user_id u1 = User.user_id u2)
    by exact (f_equal User.user_id Huu).
  assert (Hgeo : User.geo_data u1 = User.geo_data u2)
    by exact (f_equal User.geo_data Huu).
  repeat sim_step.
  apply same_seeded_inv. cbn [config categories products users sessions
                               transactions set_sessions].
  repeat split; try assumption.
  rewrite !map_app, Hs. f_equal. cbn [map]. f_equal.
  unfold seeded_session. cbn. now rewrite Hid, Hgeo.
Qed.

Lemma sim_generate_sessions g1 g2 :
  same_seeded g1 g2 ->
  sim same_seeded (_generate_simple_sessions g1) (_generate_simple_sessions g2).
Proof.
  intros Hg. unfold _generate_simple_sessions.
  pose proof (proj1 (same_seeded_inv g1 g2) Hg) as (Hc & _). rewrite Hc.
  apply sim_for_each; [|exact Hg].
  intros i s1 s2. apply sim_gen_session.
Qed.

(** *** The summary and the files *)

Lemma seeded_instant_min l :
  seeded_instant (min_or_none l) = if is_nil l then None else Some 0.
Proof. destruct l; reflexivity. Qed.

Lemma seeded_instant_max l :
  seeded_instant (max_or_none l) = if is_nil l then None else Some 0.
Proof. destruct l; reflexivity. Qed.

Lemma is_nil_map {A B} (f : A -> B) l : is_nil (map f l) = is_nil l.
Proof. destruct l; reflexivity. Qed.

Lemma sim_generate_summary g1 g2 :
  same_seeded g1 g2 ->
  sim (fun s1 s2 => seeded_summary s1 = seeded_summary s2)
      (_generate_summary g1) (_generate_summary g2).
Proof.
  intros Hg.
  pose proof (proj1 (same_seeded_inv g1 g2) Hg) as (Hc & Hcat & Hp & Hu & Hs & Ht).
  unfold _generate_summary.
  rewrite (map_agree seeded_transaction Transaction.total Transaction.total
             _ _ (fun t => eq_refl) Ht).
  rewrite (is_nil_agree _ _ _ Ht), (is_nil_agree _ _ _ Hs).
  rewrite (len_agree _ _ _ Ht), (len_agree _ _ _ Hs), (len_agree _ _ _ Hp),
    (len_agree _ _ _ Hu), (len_agree _ _ _ Hcat).
  rewrite (map_agree seeded_product Product.rating Product.rating
             _ _ (fun p => eq_refl) Hp).
  rewrite (map_agree seeded_product
             (fun p => PrimFloat.mul (Product.base_price p)
                         (float_of_Z (Product.current_stock p)))
             (fun p => PrimFloat.mul (Product.base_price p)
                         (float_of_Z (Product.current_stock p)))
             _ _ (fun p => eq_refl) Hp).
  rewrite (count_agree seeded_product Product.is_active Product.is_active
             _ _ (fun p => eq_refl) Hp).
  rewrite (count_agree seeded_user is_active_user is_active_user
             _ _ (fun u => eq_refl) Hu).
  rewrite (count_agree seeded_product
             (fun p => (0 <? Product.review_count p)%Z)
             (fun p => (0 <? Product.review_count p)%Z)
             _ _ (fun p => eq_refl) Hp).
  rewrite (count_agree seeded_user
             (fun u => negb (is_nil (Preferences.preferred_categories
                                       (User.preferences u))))
             (fun u => negb (is_nil (Preferences.preferred_categories
                                       (User.preferences u))))
             _ _ (fun u => eq_refl) Hu).
  rewrite (count_agree seeded_transaction
             (fun t => PrimFloat.ltb 0 (Transaction.discount t))
             (fun t => PrimFloat.ltb 0 (Transaction.discount t))
             _ _ (fun t => eq_refl) Ht).
  rewrite Hc.
  eapply (sim_bind eq).
  { destruct (is_nil (transactions g2)); [now apply sim_ret|apply sim_lift]. }
  intros avg ? <-.
  eapply (sim_bind eq).
  { destruct (is_nil (sessions g2)); [now apply sim_ret|apply sim_lift]. }
  intros rate ? <-.
  sim_step.
  eapply sim_bind; [apply sim_lift|]. intros rating ? <-.
  apply sim_ret. unfold seeded_summary.
  cbn [Summary.generation_metadata Summary.data_volumes
       Summary.business_metrics Summary.data_quality Summary.time_range
       GenerationMetadata.generator_version GenerationMetadata.configuration
       TimeRange.start_date TimeRange.end_date].
  rewrite !seeded_instant_min, !seeded_instant_max, !is_nil_map.
  now rewrite (is_nil_agree _ _ _ Hs).
Qed.

Lemma seeded_session_chunk g i :
  seeded_chunk (session_chunk g i)
  = (fst (session_chunk g i),
     take (Z.to_nat (Config.CHUNK_SIZE (config g)))
          (drop (Z.to_nat i) (map seeded_session (sessions g)))).
Proof.
  unfold seeded_chunk, session_chunk. cbn [fst snd]. f_equal.
  change (seeded_session <$>
            take (Z.to_nat (Config.CHUNK_SIZE (config g)))
                 (drop (Z.to_nat i) (sessions g))
          = take (Z.to_nat (Config.CHUNK_SIZE (config g)))
                 (drop (Z.to_nat i) (seeded_session <$> sessions g))).
  now rewrite fmap_take, fmap_drop.
Qed.

Lemma sim_save_data g1 g2 :
  same_seeded g1 g2 ->
  sim (fun f1 f2 => seeded_files f1 = seeded_files f2)
      (save_data g1) (save_data g2).
Proof.
  intros Hg.
  pose proof (proj1 (same_seeded_inv g1 g2) Hg) as (Hc & Hcat & Hp & Hu & Hs & Ht).
  unfold save_data. rewrite (len_agree _ _ _ Hs), Hc.
  eapply sim_bind; [apply sim_lift|]. intros starts ? <-.
  eapply sim_bind; [now apply sim_generate_summary|]. intros s1 s2 Hsum.
  apply sim_ret. unfold seeded_files.
  cbn [categories_json products_json users_json transactions_json
       sessions_chunks dataset_summary_json].
  rewrite Hcat, Hp, Hu, Ht, Hsum. f_equal.
  rewrite !map_map. apply map_ext. intros i.
  rewrite !seeded_session_chunk. unfold session_chunk. cbn [fst].
  now rewrite Hc, Hs.
Qed.

Lemma sim_generate_all g1 g2 :
  same_seeded g1 g2 ->
  sim (fun r1 r2 => same_seeded (fst r1) (fst r2)
                    /\ seeded_files (snd r1) = seeded_files (snd r2))
      (generate_all g1) (generate_all g2).
Proof.
  intros Hg. unfold generate_all.
  eapply sim_bind; [now apply sim_generate_categories|]. intros a1 a2 Ha.
  eapply sim_bind; [now apply sim_generate_products|]. intros b1 b2 Hb.
  eapply sim_bind; [now apply sim_generate_users|]. intros c1 c2 Hcu.
  eapply sim_bind; [now apply sim_generate_transactions|]. intros d1 d2 Hd.
  eapply sim_bind; [now apply sim_generate_sessions|]. intros e1 e2 He.
  eapply sim_bind; [now apply sim_save_data|]. intros f1 f2 Hf.
  apply sim_ret. now split.
Qed.

(** *** Purchases, item by item *)

Lemma bought_app ps items1 ps1 items2 ps2 :
  bought ps items1 ps1 -> bought ps1 items2 ps2 ->
  bought ps (items1 ++ items2) ps2.
Proof.
  induction 1 as [ps|ps it items qs1 qs2 Hbuy Hrest IH]; intros H2.
  - exact H2.
  - simpl. eapply bought_cons; [exact Hbuy|]. now apply IH.
Qed.

Lemma purchases_bought ps items ps' :
  purchases ps items ps' -> bought ps items ps'.
Proof.
  induction 1 as [|items ps1 pi p q Hpur IH Hps Hps1 Hq].
  - constructor.
  - eapply bought_app; [exact IH|].
    eapply bought_cons; [|constructor].
    pose proof (lookup_lt_Some _ _ _ Hps1) as Hlt.
    exists pi, p, (Product.set_current_stock p (Product.current_stock p - q)).
    split; [exact Hps1|]. split; [now apply list_lookup_insert_eq|].
    split; [reflexivity|]. split; [exact Hq|]. split; [reflexivity|].
    split; [reflexivity|]. split; [apply length_insert|].
    intros j Hj. now apply list_lookup_insert_ne.
Qed.

Lemma stock_trace_bought ps ts ps' :
  stock_trace ps ts ps' -> bought ps (items_of ts) ps'.
Proof.
  induction 1 as [|ts ps1 t ps2 Htr IH Hpur].
  - constructor.
  - unfold items_of. rewrite map_app, concat_app. simpl.
    rewrite app_nil_r. eapply bought_app; [exact IH|].
    now apply purchases_bought.
Qed.

(** *** The discount, as drawn *)

Lemma for_each_inv_world {A S} (I : S -> World -> Prop) (l : list A)
    (body : A -> S -> R S) :
  (forall x s w s' w', I s w -> body x s w = Ok (s', w') -> I s' w') ->
  forall s w s' w', I s w -> for_each l body s w = Ok (s', w') -> I s' w'.
Proof.
  intros Hbody. induction l as [|x l IH]; intros s w s' w' Hs Hrun.
  - apply ret_ok in Hrun as [<- <-]. exact Hs.
  - rewrite for_each_cons in Hrun.
    apply bind_ok in Hrun as (s1 & w1 & H1 & Hrun).
    eapply IH; [|exact Hrun]. eapply Hbody; [exact Hs|exact H1].
Qed.

Lemma draw_discount_drawn raw w d w' :
  draw_discount raw w = Ok (d, w') -> discount_drawn (rnd w) raw d.
Proof.
  intros H. unfold draw_discount in H.
  apply bind_ok in H as (u & w1 & Hu & H).
  exists w, u, w1. split; [reflexivity|]. split; [exact Hu|].
  destruct (PrimFloat.ltb u 0.25).
  - left. split; [reflexivity|].
    apply bind_ok in H as (rate & w2 & Hrate & H).
    apply ret_ok in H as [<- _]. now exists rate, w2.
  - right. apply ret_ok in H as [<- _]. now split.
Qed.

(** A successful attempt is a skip, or appends a transaction whose discount
    was drawn from the stream of the run. *)
Lemma gen_transaction_discount n s w s' w' :
  gen_transaction n s w = Ok (s', w') ->
  transactions s' = transactions s
  \/ exists t, transactions s' = transactions s ++ [t]
       /\ discount_drawn (rnd w) (raw_subtotal (Transaction.items t))
            (Transaction.discount t).
Proof.
  intros H. unfold gen_transaction in H.
  apply bind_ok in H as (ui & w1 & Hui & H).
  apply bind_ok in H as (user & w2 & Huser & H).
  apply bind_ok in H as (num_items & w3 & Hnum & H). cbv beta zeta in H.
  destruct (Z.of_nat (length (positions is_available (products s)))
            <? num_items)%Z.
  { apply ret_ok in H as [<- _]. now left. }
  apply bind_ok in H as (selected & w4 & Hsel & H).
  apply bind_ok in H as (cart & w5 & Hcart & H). cbv beta zeta in H.
  apply bind_ok in H as (d & w6 & Hd & H).
  bind_inv H. subst s'. right. eexists. split; [reflexivity|].
  cbn [Transaction.items Transaction.discount].
  pose proof (sample_facts.sample_sub _ _ _ _ _ Hsel) as (Hsub & _ & _).
  assert (Hnd : NoDup selected).
  { eapply submseteq_NoDup; [exact Hsub|apply positions_NoDup]. }
  pose proof Hcart as Hinv.
  apply (cart_loop (products s)) in Hinv; [|exact Hnd|].
  2:{ split; [constructor|]. split; [reflexivity|]. split; [constructor|].
      reflexivity. }
  destruct Hinv as (_ & Hraw & _). rewrite <- Hraw.
  apply draw_discount_drawn in Hd.
  replace (rnd w) with (rnd w5); [exact Hd|].
  apply keeps_choice in Hui as [Hr1 _].
  apply keeps_index in Huser as [Hr2 _].
  apply keeps_choices in Hnum as [Hr3 _].
  apply keeps_sample in Hsel as [Hr4 _].
  apply (keeps_for_each _ _ (fun x st => keeps_purchase x st)) in Hcart
    as [Hr5 _].
  congruence.
Qed.

Lemma transactions_discounts s w s' w' :
  _generate_simple_transactions s w = Ok (s', w') ->
  exists new,
    transactions s' = transactions s ++ new
    /\ Forall (fun t => discount_drawn (rnd w)
                          (raw_subtotal (Transaction.items t))
                          (Transaction.discount t)) new.
Proof.
  intros Hrun. unfold _generate_simple_transactions in Hrun.
  apply (for_each_inv_world
           (fun t v => rnd v = rnd w
                       /\ exists new,
                            transactions t = transactions s ++ new
                            /\ Forall (fun t => discount_drawn (rnd w)
                                          (raw_subtotal (Transaction.items t))
                                          (Transaction.discount t)) new))
    in Hrun.
  - apply Hrun.
  - intros n t v t' v' (Hrnd & new & Hnew & Hall) Hstep. split.
    + apply keeps_gen_transaction in Hstep as [Hr _]. congruence.
    + apply gen_transaction_discount in Hstep as [Hsame|(tx & Htx & Hd)].
      * exists new. split; [congruence|exact Hall].
      * exists (new ++ [tx]). split.
        -- rewrite Htx, Hnew. now rewrite app_assoc.
        -- apply Forall_app. split; [exact Hall|].
           constructor; [|constructor]. now rewrite <- Hrnd.
  - split; [reflexivity|]. exists []. split; [now rewrite app_nil_r|constructor].
Qed.

(** A negative time span stops every user at the registration date. *)
Lemma gen_user_negative_span i self w :
  Config.TIMESPAN_DAYS (config self) < 0 ->
  gen_user i self w = Raise ParseError.
Proof.
  intros Hneg.
  remember (gen_user i self w) as r eqn:E. unfold gen_user in E.
  fwd_step E. pose proof (age_groups_ordered _ Hin) as Hage.
  fwd_step E. fwd_step E. cbv zeta in E.
  rewrite E. unfold bind at 1.
  rewrite fake_date_time_between_negative; [reflexivity|lia].
Qed.

(** * The claims *)

(** ** Stock *)

(** C1. Transaction generation only appends transactions; the items of the
    new transactions, taken in generation order, are bought one after the
    other from the products: each item names a product, its quantity is
    between 1 and [min(3, current_stock)] of that product as it stands just
    before the item, the product's [current_stock] just after it is the
    stock before less exactly the quantity, and no other product changes;
    stock that starts non-negative ends non-negative. *)
Theorem C1_stock_decrement self w self' w' :
  stock_nonneg (products self) ->
  _generate_simple_transactions self w = Ok (self', w') ->
  exists new,
    transactions self' = transactions self ++ new
    /\ bought (products self) (items_of new) (products self')
    /\ stock_trace (products self) new (products self')
    /\ Forall (fun t => Forall (fun it => (1 <= Item.quantity it <= 3)%Z)
                          (Transaction.items t)) new
    /\ stock_nonneg (products self').
Proof.
  intros Hnn Hrun.
  destruct (transactions_trace _ _ _ _ Hrun) as (new & Hnew & Htrace & _).
  exists new. split; [exact Hnew|].
  split; [now apply stock_trace_bought|]. split; [exact Htrace|]. split.
  - clear Hnew Hrun Hnn. induction Htrace as [|ts ps1 t ps2 Htr IH Hpur].
    + constructor.
    + apply Forall_app. split; [exact IH|].
      constructor; [|constructor]. eapply purchases_quantities, Hpur.
  - eapply stock_trace_nonneg; [exact Htrace|exact Hnn].
Qed.

Lemma C1_stock_decrement_witness :
  exists new,
    transactions (fst demo_sold) = transactions (fst demo_generated) ++ new
    /\ bought (products (fst demo_generated)) (items_of new)
         (products (fst demo_sold))
    /\ stock_trace (products (fst demo_generated)) new (products (fst demo_sold))
    /\ Forall (fun t => Forall (fun it => (1 <= Item.quantity it <= 3)%Z)
                          (Transaction.items t)) new
    /\ stock_nonneg (products (fst demo_sold)).
Proof.
  apply (C1_stock_decrement (fst demo_generated) (demo_at (snd demo_generated))
           (fst demo_sold) (demo_at (snd demo_sold))).
  - apply stock_nonneg_check. vm_compute. reflexivity.
  - vm_compute. reflexivity.
Defined.

(** ** Price histories *)

(** C8. In every complete run, each product written to [products.json] has a
    price history that is non-empty, starts with the entry of reason
    ["initial_listing"], and whose entries are each dated 7 to 45 days after
    the previous one, hence in non-decreasing date order. *)
Theorem C8_price_history cfg w g files w' :
  generate_all (init cfg) w = Ok ((g, files), w') ->
  Forall (fun p =>
            (exists e rest, Product.price_history p = e :: rest
                            /\ PriceEntry.reason e = "initial_listing"%string)
            /\ spaced (Product.price_history p)
            /\ chronological (Product.price_history p))
         (products_json files).
Proof.
  intros H. apply Forall_forall. intros p Hp.
  pose proof (generate_all_facts _ _ _ _ _ H)
    as (_ & _ & _ & _ & w5 & _ & _ & _ & _ & _ & _ & _ & _ & Hsave).
  apply save_data_files in Hsave as (_ & Hps & _).
  rewrite Hps in Hp. apply list_elem_of_lookup in Hp as [j Hj].
  destruct (generated_product _ _ _ _ _ _ _ H Hj) as (_ & _ & Hgood).
  exact Hgood.
Qed.

Lemma C8_price_history_witness :
  Forall (fun p =>
            (exists e rest, Product.price_history p = e :: rest
                            /\ PriceEntry.reason e = "initial_listing"%string)
            /\ spaced (Product.price_history p)
            /\ chronological (Product.price_history p))
         (products_json (snd (fst demo_done))).
Proof.
  apply (C8_price_history demo_config demo_world (fst (fst demo_done))
           (snd (fst demo_done)) (demo_at (snd demo_done))).
  vm_compute. reflexivity.
Defined.

(** ** Sessions *)

(** C9. In every complete run, the products a session viewed are at most 5
    ids sampled (each position at most once) from the ids of the first 100
    products: every viewed id is the id of the product generated at some loop
    index below both 100 and [NUM_PRODUCTS]. *)
Theorem C9_viewed_products cfg w g files w' :
  generate_all (init cfg) w = Ok ((g, files), w') ->
  Forall (fun s =>
            Session.products_viewed s
              ⊆+ map Product.product_id (take 100 (products g))
            /\ (length (Session.products_viewed s) <= 5)%nat
            /\ forall id, id ∈ Session.products_viewed s ->
                 exists j, (j < 100)%nat
                           /\ (Z.of_nat j < Config.NUM_PRODUCTS cfg)%Z
                           /\ id = ("prod_" +:+ fmt_d 5 j)%string)
         (sessions g).
Proof.
  intros H. apply Forall_forall. intros s Hs.
  pose proof (generate_all_facts _ _ _ _ _ H)
    as (_ & _ & _ & _ & _ & _ & _ & _ & _ & _ & _ & Hsess & _).
  rewrite Forall_forall in Hsess. destruct (Hsess s Hs) as [Hsub Hlen].
  split; [exact Hsub|]. split; [exact Hlen|].
  intros id Hid.
  eapply elem_of_submseteq in Hid; [|exact Hsub].
  apply list_elem_of_fmap in Hid as (p & -> & Hp).
  apply list_elem_of_lookup in Hp as [j Hj].
  apply lookup_take_Some in Hj as [Hj Hlt].
  destruct (generated_product _ _ _ _ _ _ _ H Hj) as (Hn & Hpid & _).
  exists j. split; [exact Hlt|]. split; [exact Hn|exact Hpid].
Qed.

Lemma C9_viewed_products_witness :
  Forall (fun s =>
            Session.products_viewed s
              ⊆+ map Product.product_id
                   (take 100 (products (fst (fst demo_done))))
            /\ (length (Session.products_viewed s) <= 5)%nat
            /\ forall id, id ∈ Session.products_viewed s ->
                 exists j, (j < 100)%nat
                           /\ (Z.of_nat j < Config.NUM_PRODUCTS demo_config)%Z
                           /\ id = ("prod_" +:+ fmt_d 5 j)%string)
         (sessions (fst (fst demo_done))).
Proof.
  apply (C9_viewed_products demo_config demo_world (fst (fst demo_done))
           (snd (fst demo_done)) (demo_at (snd demo_done))).
  vm_compute. reflexivity.
Defined.

(** ** Preferred categories *)




(** ** User aggregates *)

(** C4. In every complete run, each user written to [users.json] has
    [total_orders] equal to the number of transactions in
    [transactions.json] that carry the user's id, and [lifetime_value] equal
    to the sum of their totals, added in generation order from 0; every
    transaction counts, whatever its status. *)
Theorem C4_user_aggregates cfg w g files w' :
  generate_all (init cfg) w = Ok ((g, files), w') ->
  Forall (fun u =>
            User.total_orders u
            = len (transactions_of (User.user_id u) (transactions_json files))
            /\ User.lifetime_value u
               = sum (map Transaction.total
                        (transactions_of (User.user_id u)
                           (transactions_json files))))
         (users_json files).
Proof.
  intros H.
  apply generate_all_facts in H
    as (ps0 & us0 & w3 & w4 & w5 & _ & _ & _ & _ & Hfacts & Hrun & _ & _ & Hsave).
  apply save_data_files in Hsave as (_ & _ & -> & -> & _).
  apply transactions_aggregates in Hrun.
  - destruct Hrun as [_ Hagg]. exact Hagg.
  - split; cbn [users transactions].
    + eapply user_facts_NoDup, Hfacts.
    + apply Forall_lookup. intros j u Hj.
      destruct (Hfacts j u Hj) as (_ & Hn & Hv & _).
      split; [exact Hn|exact Hv].
Qed.

Lemma C4_user_aggregates_witness :
  Forall (fun u =>
            User.total_orders u
            = len (transactions_of (User.user_id u)
                     (transactions_json (snd (fst demo_done))))
            /\ User.lifetime_value u
               = sum (map Transaction.total
                        (transactions_of (User.user_id u)
                           (transactions_json (snd (fst demo_done))))))
         (users_json (snd (fst demo_done))).
Proof.
  apply (C4_user_aggregates demo_config demo_world (fst (fst demo_done))
           (snd (fst demo_done)) (demo_at (snd demo_done))).
  vm_compute. reflexivity.
Defined.

(** ** Skipped attempts *)




(** ** Pricing *)




(** ** The summary *)

(** C7, as the spec states it, fails: the concrete run has 5 transactions
    and 3 sessions, 5/3 rounded to 2 decimals is 1.67, and the
    [conversion_rate] written to [dataset_summary.json] is 166.67. *)
Lemma C7_counterexample :
  generate_all (init demo_config) demo_world
  = Ok (fst demo_done, demo_at (snd demo_done))
  /\ len (transactions_json (snd (fst demo_done))) = 5%Z
  /\ len (sessions (fst (fst demo_done))) = 3%Z
  /\ exists q,
       truediv_int 5 3 = Ok q
       /\ round q 2 = 1.67%float
       /\ BusinessMetrics.conversion_rate
            (Summary.business_metrics
               (dataset_summary_json (snd (fst demo_done))))
          = 166.67%float
       /\ PrimFloat.eqb
            (BusinessMetrics.conversion_rate
               (Summary.business_metrics
                  (dataset_summary_json (snd (fst demo_done)))))
            (round q 2) = false.
Proof.
  split; [vm_compute; reflexivity|].
  split; [vm_compute; reflexivity|]. split; [vm_compute; reflexivity|].
  eexists. split; [vm_compute; reflexivity|].
  repeat split; vm_compute; reflexivity.
Qed.

(** C7, amended. The [conversion_rate] written to [dataset_summary.json] is
    a percentage: 100 times the quotient of the number of generated
    transactions by the number of generated sessions, rounded to 2 decimals;
    with no session it is 0 and nothing is divided. *)
Theorem C7_conversion_rate cfg w g files w' :
  generate_all (init cfg) w = Ok ((g, files), w') ->
  let rate :=
    BusinessMetrics.conversion_rate
      (Summary.business_metrics (dataset_summary_json files)) in
  (sessions g = [] -> rate = 0%float)
  /\ (sessions g <> [] ->
        exists q,
          truediv_int (len (transactions_json files)) (len (sessions g)) = Ok q
          /\ rate = round (PrimFloat.mul q 100) 2).
Proof.
  intros H rate. subst rate.
  apply generate_all_facts in H
    as (_ & _ & _ & _ & w5 & _ & _ & _ & _ & _ & _ & _ & _ & Hsave).
  apply save_data_files in Hsave as (_ & _ & _ & -> & w0 & w1 & Hsum).
  eapply summary_conversion_rate, Hsum.
Qed.

Lemma C7_conversion_rate_witness :
  exists q,
    truediv_int (len (transactions_json (snd (fst demo_done))))
                (len (sessions (fst (fst demo_done)))) = Ok q
    /\ BusinessMetrics.conversion_rate
         (Summary.business_metrics (dataset_summary_json (snd (fst demo_done))))
       = round (PrimFloat.mul q 100) 2.
Proof.
  apply (C7_conversion_rate demo_config demo_world (fst (fst demo_done))
           (snd (fst demo_done)) (demo_at (snd demo_done))).
  - vm_compute. reflexivity.
  - vm_compute. discriminate.
Defined.

(** C10. Summary generation raises [ZeroDivisionError] exactly when there is
    no product: the average rating divides by the number of products with no
    guard.  With at least one product it returns, the average rating being
    the rounded quotient, and the two guarded metrics are 0 when there is no
    transaction, respectively no session. *)
Theorem C10_summary_needs_products self w :
  (products self = [] -> _generate_summary self w = Raise ZeroDivisionError)
  /\ (products self <> [] ->
        exists sm w',
          _generate_summary self w = Ok (sm, w')
          /\ BusinessMetrics.average_product_rating (Summary.business_metrics sm)
             = round (PrimFloat.div
                        (sum (map Product.rating (products self)))
                        (float_of_Z (len (products self)))) 2
          /\ (transactions self = [] ->
                BusinessMetrics.average_transaction_value
                  (Summary.business_metrics sm) = 0%float)
          /\ (sessions self = [] ->
                BusinessMetrics.conversion_rate (Summary.business_metrics sm)
                = 0%float)).
Proof.
  destruct (guarded_average (sum (map Transaction.total (transactions self)))
              (transactions self) w) as (a & Ha & Ha0).
  destruct (guarded_rate (transactions self) (sessions self) w) as (c & Hc & Hc0).
  destruct (now_total w) as (t & w1 & Ht).
  split.
  - intros Hnil. unfold _generate_summary.
    rewrite (bind_step _ _ _ _ _ Ha), (bind_step _ _ _ _ _ Hc),
      (bind_step _ _ _ _ _ Ht).
    rewrite Hnil. reflexivity.
  - intros Hne. unfold _generate_summary.
    rewrite (bind_step _ _ _ _ _ Ha), (bind_step _ _ _ _ _ Hc),
      (bind_step _ _ _ _ _ Ht).
    unfold bind at 1. rewrite (truediv_by_len _ _ Hne). unfold lift, ret.
    do 2 eexists. split; [reflexivity|].
    cbn [Summary.business_metrics BusinessMetrics.average_product_rating
         BusinessMetrics.average_transaction_value
         BusinessMetrics.conversion_rate].
    split; [reflexivity|]. split.
    + intros Hts. rewrite (Ha0 Hts). vm_compute. reflexivity.
    + intros Hss. rewrite (Hc0 Hss). vm_compute. reflexivity.
Qed.

Lemma C10_summary_needs_products_witness :
  exists sm w',
    _generate_summary (fst demo_browsed) (demo_at (snd demo_browsed))
    = Ok (sm, w')
    /\ BusinessMetrics.average_product_rating (Summary.business_metrics sm)
       = round (PrimFloat.div
                  (sum (map Product.rating (products (fst demo_browsed))))
                  (float_of_Z (len (products (fst demo_browsed))))) 2
    /\ (transactions (fst demo_browsed) = [] ->
          BusinessMetrics.average_transaction_value
            (Summary.business_metrics sm) = 0%float)
    /\ (sessions (fst demo_browsed) = [] ->
          BusinessMetrics.conversion_rate (Summary.business_metrics sm)
          = 0%float).
Proof.
  apply (proj2 (C10_summary_needs_products (fst demo_browsed)
                  (demo_at (snd demo_browsed)))).
  vm_compute. discriminate.
Defined.


(** * Further properties of the generator and of the inventory manager *)

(** ** Loops over [enumerate] *)

Lemma last_item_ok {A} (l : list A) w x w' :
  last_item l w = Ok (x, w') <-> last l = Some x /\ w' = w.
Proof.
  unfold last_item. destruct (last l) as [y|]; unfold ret, raise; split.
  - now intros [= -> ->].
  - now intros [[= ->] ->].
  - discriminate.
  - now intros [? _].
Qed.

(** A loop over [enumerate l] whose body always succeeds and appends one
    record succeeds, and appends one record per entry, in order. *)
Lemma enumerate_loop {X S Y} (get : S -> list Y) (F : S -> Prop)
    (P : nat -> X -> Y -> Prop) (body : nat * X -> S -> R S) :
  (forall i x s w, F s ->
     exists s' w' y, body (i, x) s w = Ok (s', w')
                     /\ F s' /\ get s' = get s ++ [y] /\ P i x y) ->
  forall (l : list X) a s w, F s ->
    exists s' w' new,
      for_each (zip (seq a (length l)) l) body s w = Ok (s', w')
      /\ F s' /\ get s' = get s ++ new
      /\ length new = length l
      /\ forall j y, new !! j = Some y ->
           exists x, l !! j = Some x /\ P (a + j)%nat x y.
Proof.
  intros Hbody l. induction l as [|x l IH]; intros a s w HF.
  - exists s, w, []. split; [reflexivity|]. split; [exact HF|].
    split; [now rewrite app_nil_r|]. split; [reflexivity|].
    intros j y Hj. discriminate.
  - destruct (Hbody a x s w HF) as (s1 & w1 & y & Hstep & HF1 & Hget1 & HP).
    destruct (IH (Datatypes.S a) s1 w1 HF1)
      as (s' & w' & new & Hrun & HF' & Hget & Hlen & Hnew).
    exists s', w', (y :: new). cbn [length seq zip zip_with].
    rewrite for_each_cons, (bind_step _ _ _ _ _ Hstep).
    split; [exact Hrun|]. split; [exact HF'|].
    split; [rewrite Hget, Hget1, <- app_assoc; reflexivity|].
    split; [simpl; now rewrite Hlen|].
    intros [|j] z Hz; simpl in Hz.
    + injection Hz as <-. exists x. split; [reflexivity|].
      now rewrite Nat.add_0_r.
    + destruct (Hnew j z Hz) as (x' & Hx' & HP').
      exists x'. split; [exact Hx'|].
      now replace (a + Datatypes.S j)%nat with (Datatypes.S a + j)%nat by lia.
Qed.

(** ** Categories *)

Lemma gen_subcategory_step cat_id sub_id subcat_name acc w :
  exists subs w' sub,
    gen_subcategory cat_id (sub_id, subcat_name) acc w = Ok (subs, w')
    /\ True /\ subs = acc ++ [sub]
    /\ (Subcategory.name sub = subcat_name
        /\ Subcategory.subcategory_id sub
           = ("sub_" +:+ fmt_d 3 cat_id +:+ "_" +:+ fmt_d 2 sub_id)%string).
Proof.
  remember (gen_subcategory cat_id (sub_id, subcat_name) acc w) as r eqn:E.
  unfold gen_subcategory in E. fwd E. unfold ret in E.
  do 3 eexists. split; [exact E|]. split; [exact I|].
  split; [reflexivity|]. split; reflexivity.
Qed.

Lemma gen_category_step i entry s w :
  exists s' w' c,
    gen_category (i, entry) s w = Ok (s', w')
    /\ keeps_but_categories s s'
    /\ categories s' = categories s ++ [c]
    /\ category_facts i entry c.
Proof.
  destruct entry as [main_cat subcats].
  remember (gen_category (i, (main_cat, subcats)) s w) as r eqn:E.
  unfold gen_category in E. fwd E.
  destruct (enumerate_loop (fun subs : list Subcategory.t => subs)
              (fun _ => True)
              (fun j name sub =>
                 Subcategory.name sub = name
                 /\ Subcategory.subcategory_id sub
                    = ("sub_" +:+ fmt_d 3 i +:+ "_" +:+ fmt_d 2 j)%string)
              (gen_subcategory i)
              (fun j name acc v _ => gen_subcategory_step i j name acc v)
              subcats 0%nat [] v0 I)
    as (subs & v1 & new & Hrun & _ & Hsubs & Hlen & Hnew).
  simpl in Hsubs. subst new.
  unfold enumerate in E. rewrite (bind_step _ _ _ _ _ Hrun) in E.
  unfold ret in E.
  do 3 eexists. split; [exact E|]. split; [repeat split|].
  split; [reflexivity|].
  unfold category_facts.
  cbn [Category.category_id Category.name Category.description
       Category.subcategories fst snd].
  split; [reflexivity|]. split; [reflexivity|]. split; [reflexivity|].
  split.
  - apply list_eq. intros j. rewrite list_lookup_fmap.
    destruct (subs !! j) as [sub|] eqn:Hj.
    + destruct (Hnew j sub Hj) as (name & Hname & Hn & _).
      simpl. now rewrite Hname, Hn.
    + apply lookup_ge_None in Hj. symmetry. apply lookup_ge_None. lia.
  - apply list_eq. intros j. rewrite !list_lookup_fmap.
    destruct (subs !! j) as [sub|] eqn:Hj.
    + destruct (Hnew j sub Hj) as (name & Hname & _ & Hid).
      rewrite lookup_seq_lt by (apply lookup_lt_Some in Hname; lia).
      simpl. now rewrite Hid.
    + apply lookup_ge_None in Hj.
      rewrite lookup_seq_ge by lia. reflexivity.
Qed.

(** [category_data[:n]] is a prefix of the table, of [category_count n]
    entries. *)
Lemma slice_category_data n :
  slice_to category_data n
  = take (Z.to_nat (category_count n)) category_data.
Proof.
  unfold slice_to, category_count.
  destruct (Z.leb_spec 0 n) as [Hn|Hn].
  - destruct (Z.le_gt_cases n 10) as [Hle|Hgt].
    + now rewrite Z.min_l by lia.
    + rewrite Z.min_r by lia.
      rewrite !take_ge
        by (change (length category_data) with 10%nat; lia).
      reflexivity.
  - change (length category_data) with 10%nat.
    replace (10 - Z.to_nat (- n))%nat with (Z.to_nat (Z.max 0 (10 + n)))
      by lia.
    reflexivity.
Qed.

Lemma category_count_range n : 0 <= category_count n <= 10.
Proof. unfold category_count. destruct (Z.leb_spec 0 n); lia. Qed.

(** [generate_categories] never raises; it appends one category per entry
    of the table's prefix. *)
Lemma generate_categories_run s w :
  exists s' w' new,
    generate_categories s w = Ok (s', w')
    /\ keeps_but_categories s s'
    /\ categories s' = categories s ++ new
    /\ length new = Z.to_nat (category_count (Config.NUM_CATEGORIES (config s)))
    /\ forall j c, new !! j = Some c ->
         exists entry, category_data !! j = Some entry
                       /\ category_facts j entry c.
Proof.
  unfold generate_categories, enumerate.
  rewrite slice_category_data.
  set (k := Z.to_nat (category_count (Config.NUM_CATEGORIES (config s)))).
  destruct (enumerate_loop categories (keeps_but_categories s)
              category_facts gen_category) with
    (l := take k category_data) (a := 0%nat) (s := s) (w := w)
    as (s' & w' & new & Hrun & HF & Hget & Hlen & Hnew).
  - intros i entry t v (Hc & Hp & Hu & Hse & Htr).
    destruct (gen_category_step i entry t v)
      as (t' & v' & c & Hstep & (Hc' & Hp' & Hu' & Hse' & Htr') & Hcat & Hf).
    exists t', v', c. split; [exact Hstep|]. split; [|now split].
    repeat split; congruence.
  - repeat split.
  - exists s', w', new. split; [exact Hrun|]. split; [exact HF|].
    split; [exact Hget|]. split.
    + rewrite Hlen, length_take. change (length category_data) with 10%nat.
      pose proof (category_count_range (Config.NUM_CATEGORIES (config s))).
      lia.
    + intros j c Hj. destruct (Hnew j c Hj) as (entry & He & Hf).
      exists entry. split; [|exact Hf].
      apply lookup_take_Some in He. apply He.
Qed.

(** X1. [generate_categories] never raises.  From a fresh generator it
    produces the first [NUM_CATEGORIES] entries of the fixed table of ten
    categories, in order: ten for any [NUM_CATEGORIES] of 10 or more, the 25
    of the default configuration included, and, for a negative
    [NUM_CATEGORIES], the table less that many entries at its end.  Category
    [i] has the id [cat_] followed by [i] on three digits, the name and the
    subcategory names of the table entry, and the subcategory ids [sub_]
    followed by [i] on three digits and the subcategory's rank on two. *)
Theorem X1_generate_categories cfg w :
  exists s' w',
    generate_categories (init cfg) w = Ok (s', w')
    /\ len (categories s') = category_count (Config.NUM_CATEGORIES cfg)
    /\ (forall j c, categories s' !! j = Some c ->
          exists entry, category_data !! j = Some entry
                        /\ category_facts j entry c
                        /\ length (Category.subcategories c) = 5%nat)
    /\ category_count (Config.NUM_CATEGORIES default_config) = 10.
Proof.
  destruct (generate_categories_run (init cfg) w)
    as (s' & w' & new & Hrun & _ & Hget & Hlen & Hnew).
  simpl in Hget, Hlen. subst new.
  exists s', w'. split; [exact Hrun|]. split; [|split; [|reflexivity]].
  - unfold len. rewrite Hlen.
    pose proof (category_count_range (Config.NUM_CATEGORIES cfg)). lia.
  - intros j c Hj. destruct (Hnew j c Hj) as (entry & He & Hf).
    exists entry. split; [exact He|]. split; [exact Hf|].
    destruct Hf as (_ & _ & _ & Hnames & _).
    apply (f_equal length) in Hnames. rewrite length_map in Hnames.
    rewrite Hnames.
    assert (Hall : Forall (fun e : string * list string =>
                             length (snd e) = 5%nat) category_data).
    { repeat constructor. }
    rewrite Forall_forall in Hall. eapply Hall, list_elem_of_lookup_2, He.
Qed.

(** ** Products *)

(** The history holds the initial entry and one entry per change, at most
    four, each 7 to 45 days after the one before. *)
Lemma _generate_price_history_span base_price start_date w h w' :
  _generate_price_history base_price start_date w = Ok (h, w') ->
  (1 <= length h <= 5)%nat
  /\ exists newest, last h = Some newest
       /\ start_date <= PriceEntry.date newest
          <= start_date + timedelta_days 180.
Proof.
  intros H. unfold _generate_price_history in H. bind_inv H. subst h.
  apply random_facts.randint_range in Hm.
  apply (for_range_inv
           (fun i st =>
              length (pl_history st) = Datatypes.S i
              /\ start_date <= pl_date st
                 <= start_date + timedelta_days (45 * Z.of_nat i)
              /\ exists e, last (pl_history st) = Some e
                           /\ PriceEntry.date e = pl_date st)) in Hm0.
  - destruct Hm0 as (Hlen & Hdate & e & He & Hd).
    split; [lia|]. exists e. split; [exact He|].
    rewrite Hd. unfold timedelta_days in *. lia.
  - intros i st v st' v' Hi (Hlen & Hdate & e & He & Hd) Hstep.
    unfold price_change in Hstep. bind_inv Hstep. subst st'.
    apply random_facts.randint_range in Hm1.
    apply lift_ok in Hm2 as [Hadd _]. apply datetime_add_inv in Hadd as [-> _].
    cbn [pl_history pl_date]. split; [|split].
    + rewrite length_app. simpl. lia.
    + unfold timedelta_days in *. lia.
    + eexists. rewrite last_snoc. split; reflexivity.
  - cbn [pl_history pl_date]. split; [reflexivity|]. split.
    + unfold timedelta_days. lia.
    + eexists. split; reflexivity.
Qed.

Lemma _generate_product_name_inv category subcategory w name w' :
  _generate_product_name category subcategory w = Ok (name, w') ->
  exists adjective descriptor,
    adjective ∈ adjectives /\ descriptor ∈ descriptors
    /\ name = (adjective +:+ " " +:+ subcategory +:+ " " +:+ descriptor)%string.
Proof.
  intros H. unfold _generate_product_name in H. bind_inv H.
  apply random_facts.choice_elem in Hm, Hm0.
  exists a, a0. split; [exact Hm|]. split; [exact Hm0|now subst name].
Qed.

Lemma _generate_product_tags_inv w tags w' :
  _generate_product_tags w = Ok (tags, w') ->
  tags ⊆+ all_tags /\ (length tags <= 4)%nat.
Proof.
  intros H. unfold _generate_product_tags in H. bind_inv H.
  apply random_facts.randint_range in Hm.
  apply sample_facts.sample_sub in H as (Hsub & Hlen & _).
  split; [exact Hsub|lia].
Qed.

Lemma gen_product_made start i s w s' w' :
  gen_product start i s w = Ok (s', w') ->
  keeps_but_products s s'
  /\ exists p, products s' = products s ++ [p]
               /\ product_made (categories s) start i p.
Proof.
  intros H. unfold gen_product in H. bind_inv H.
  destruct (price_ranges (Category.name a)) as [min_price max_price].
  bind_inv H. subst s'.
  split; [repeat split|].
  eexists. split; [reflexivity|].
  apply random_facts.choice_elem in Hm, Hm0, Hm4.
  pose proof (_generate_price_history_span _ _ _ _ _ Hm2)
    as (Hlen & newest & Hnewest & Hspan).
  apply _generate_price_history_good in Hm2 as (_ & oldest & Holdest & Hstart).
  apply last_item_ok in Hm3 as [Hlast _].
  apply last_item_ok in Hm18 as [Hlast' _].
  apply index_ok in Hm17 as [Hfirst _].
  assert (a3 = newest) by congruence. assert (a18 = newest) by congruence.
  assert (a17 = oldest) by congruence. subst a3 a18 a17.
  apply random_facts.randint_range in Hm5, Hm8, Hm9, Hm16.
  apply _generate_product_name_inv in Hm6 as (adj & desc & Hadj & Hdesc & Hname).
  apply _generate_product_tags_inv in Hm19 as (Hsub & Htags).
  unfold product_made. split; [reflexivity|]. split; [|split; [|split]].
  - exists a, a0.
    cbn [Product.category_id Product.subcategory_id Product.brand
         Product.name Product.cost Product.base_price].
    split; [exact Hm|]. split; [exact Hm0|]. split; [reflexivity|].
    split; [reflexivity|]. split; [exact Hm4|]. split; [|reflexivity].
    exists adj, desc. split; [exact Hadj|]. split; [exact Hdesc|exact Hname].
  - exists oldest, newest.
    cbn [Product.price_history Product.creation_date Product.last_updated
         Product.base_price].
    repeat split; try assumption; try lia.
  - unfold product_ranges.
    cbn [Product.current_stock Product.reorder_level Product.review_count
         Product.sku Product.brand].
    split; [exact Hm8|]. split; [exact Hm9|]. split; [exact Hm16|].
    exists a5. split; [exact Hm5|reflexivity].
  - unfold product_tagged. cbn [Product.tags]. split; [exact Hsub|exact Htags].
Qed.

Lemma generate_products_made s w s' w' :
  generate_products s w = Ok (s', w') ->
  keeps_but_products s s'
  /\ exists start new,
       start = clock w (cpos w)
               - timedelta_days (Config.TIMESPAN_DAYS (config s) * 2)
       /\ products s' = products s ++ new
       /\ length new = Z.to_nat (Config.NUM_PRODUCTS (config s))
       /\ forall j p, new !! j = Some p ->
            product_made (categories s) start j p.
Proof.
  intros H. unfold generate_products in H. bind_inv H.
  assert (Ha : a = clock w (cpos w)).
  { unfold now in Hm. now injection Hm as <- _. }
  subst a.
  apply lift_ok in Hm0 as [Hdelta _]. apply timedelta_inv in Hdelta. subst a0.
  apply lift_ok in Hm1 as [Hadd _]. apply datetime_add_inv in Hadd as [-> _].
  rewrite Z.add_opp_r in H.
  apply (append_loop products (keeps_but_products s)
           (product_made (categories s)
              (clock w (cpos w)
               - timedelta_days (Config.TIMESPAN_DAYS (config s) * 2)))) in H.
  - destruct H as (Hk & new & Hnew & Hlen & Hall).
    split; [exact Hk|]. eexists _, new. split; [reflexivity|].
    split; [exact Hnew|]. split; [exact Hlen|exact Hall].
  - intros i t v t' v' (Hc & Hcat & Hu & Hse & Htr) Hstep.
    apply gen_product_made in Hstep
      as ((Hc' & Hcat' & Hu' & Hse' & Htr') & p & Hp & Hmade).
    split; [repeat split; congruence|].
    exists p. split; [exact Hp|]. now rewrite <- Hcat.
  - repeat split.
Qed.

(** ** Users *)

Lemma gen_user_made i s w s' w' :
  gen_user i s w = Ok (s', w') ->
  exists u, users s' = users s ++ [u] /\ user_made (categories s) i u.
Proof.
  intros H. unfold gen_user in H. bind_inv H. subst s'.
  eexists. split; [reflexivity|].
  apply random_facts.choices_elem in Hm, Hm22.
  apply random_facts.randint_range in Hm0.
  apply sample_facts.sample_sub in Hm16 as (Hsub & _ & _).
  unfold user_made.
  cbn [User.user_id User.demographics Demographics.age User.preferences
       Preferences.preferred_categories User.account_status
       User.total_orders User.lifetime_value].
  split; [reflexivity|]. split; [|repeat split; assumption].
  assert (Hall : Forall (fun r : Z * Z => 18 <= fst r /\ snd r <= 70) age_groups).
  { repeat constructor; simpl; lia. }
  rewrite Forall_forall in Hall. destruct (Hall _ Hm). lia.
Qed.

Lemma generate_users_made s w s' w' :
  generate_users s w = Ok (s', w') ->
  exists new, users s' = users s ++ new
    /\ forall j u, new !! j = Some u -> user_made (categories s) j u.
Proof.
  intros H. unfold generate_users in H.
  apply (append_loop users (keeps_but_users s) (user_made (categories s))) in H.
  - destruct H as (_ & new & Hnew & _ & Hall). exists new. now split.
  - intros i t v t' v' (Hc & Hcat & Hp & Hse & Htr) Hstep.
    pose proof (gen_user_made _ _ _ _ _ Hstep) as (u & Hu & Hmade).
    apply gen_user_facts in Hstep as ((Hc' & Hcat' & Hp' & Hse' & Htr') & _).
    split; [repeat split; congruence|].
    exists u. split; [exact Hu|]. now rewrite <- Hcat.
  - repeat split.
Qed.

(** ** Sessions *)

Lemma gen_session_made i s w s' w' :
  gen_session i s w = Ok (s', w') ->
  exists x, sessions s' = sessions s ++ [x] /\ session_made (users s) x.
Proof.
  intros H. unfold gen_session in H. bind_inv H. subst s'.
  eexists. split; [reflexivity|].
  apply random_facts.choice_elem in Hm.
  apply random_facts.randint_range in Hm2, Hm7.
  apply lift_ok in Hm12 as [Hadd _]. apply datetime_add_inv in Hadd as [-> _].
  unfold session_made.
  cbn [Session.user_id Session.geo_data SessionGeo.base
       Session.duration_seconds Session.end_time Session.start_time
       Session.pages_viewed].
  split; [exists a; now repeat split|].
  split; [exact Hm2|]. split; [reflexivity|exact Hm7].
Qed.

Lemma generate_sessions_made s w s' w' :
  _generate_simple_sessions s w = Ok (s', w') ->
  exists new, sessions s' = sessions s ++ new
    /\ Forall (session_made (users s)) new.
Proof.
  intros H. unfold _generate_simple_sessions in H.
  apply (append_loop sessions (keeps_but_sessions s)
           (fun _ => session_made (users s))) in H.
  - destruct H as (_ & new & Hnew & _ & Hall). exists new.
    split; [exact Hnew|]. apply Forall_lookup. intros j x Hx. eapply Hall, Hx.
  - intros i t v t' v' (Hc & Hcat & Hp & Hu & Htr) Hstep.
    pose proof (gen_session_made _ _ _ _ _ Hstep) as (x & Hx & Hmade).
    apply gen_session_facts in Hstep as ((Hc' & Hcat' & Hp' & Hu' & Htr') & _).
    split; [repeat split; congruence|].
    exists x. split; [exact Hx|]. now rewrite <- Hu.
  - repeat split.
Qed.

(** ** Transactions *)

(** The item loop records one item per selected product, in order, and
    leaves every other product as it was. *)
Lemma cart_selected (ps : list Product.t) (todo : list nat) : forall st w st' w',
  NoDup todo ->
  (forall pi, pi ∈ todo -> cart_products st !! pi = ps !! pi) ->
  for_each todo purchase st w = Ok (st', w') ->
  (exists new, cart_items st' = cart_items st ++ new
     /\ Forall2 (fun pi it => exists p, ps !! pi = Some p
                    /\ Item.product_id it = Product.product_id p
                    /\ Item.unit_price it = Product.base_price p) todo new)
  /\ (forall j, j ∉ todo -> cart_products st' !! j = cart_products st !! j).
Proof.
  induction todo as [|pi rest IH]; intros st w st' w' Hnd Hsame Hrun.
  - apply ret_ok in Hrun as [<- _]. split; [|reflexivity].
    exists []. split; [now rewrite app_nil_r|constructor].
  - rewrite for_each_cons in Hrun.
    apply bind_ok in Hrun as (st1 & w1 & Hstep & Hrun).
    apply NoDup_cons in Hnd as [Hnotin Hnd].
    apply purchase_inv in Hstep as (p & q & Hp & Hq & ->).
    apply IH in Hrun as ((new & Hnew & Hall) & Hframe); [|exact Hnd|].
    + cbn [cart_items cart_products] in Hnew, Hframe. split.
      * exists (item_of p q :: new). split.
        -- rewrite Hnew, <- app_assoc. reflexivity.
        -- constructor; [|exact Hall]. exists p.
           split; [rewrite <- Hsame; [exact Hp|left]|]. split; reflexivity.
      * intros j Hj. rewrite Hframe by (intros Hin; apply Hj; now right).
        apply list_lookup_insert_ne. intros ->. apply Hj. left.
    + cbn [cart_products]. intros pj Hpj.
      rewrite list_lookup_insert_ne; [apply Hsame; now right|].
      intros ->. contradiction.
Qed.

(** A successful attempt is a skip, or one transaction made for an active
    user from distinct available products; no other product changes. *)
Lemma gen_transaction_made n s w s' w' :
  gen_transaction n s w = Ok (s', w') ->
  s' = s
  \/ exists t (selected : list nat),
       transactions s' = transactions s ++ [t]
       /\ txn_made_from (products s) (users s) t
       /\ (forall pi, pi ∈ selected ->
             exists p, products s !! pi = Some p /\ is_available p = true)
       /\ (forall j, j ∉ selected -> products s' !! j = products s !! j).
Proof.
  intros H. unfold gen_transaction in H. bind_inv H.
  destruct (Z.of_nat (length (positions is_available (products s))) <? a1)%Z.
  { apply ret_ok in H as [<- _]. now left. }
  bind_inv H. subst s'. right.
  apply random_facts.choice_elem, positions_spec in Hm as (user & Hu & Hact).
  apply index_ok in Hm0 as [Hu' _].
  assert (a0 = user) by congruence. subst a0.
  apply random_facts.choices_elem in Hm1.
  assert (Hrange : 1 <= a1 <= 5).
  { repeat (apply elem_of_cons in Hm1 as [->|Hm1]; [lia|]). inversion Hm1. }
  apply sample_facts.sample_sub in Hm2 as (Hsub & Hlen & _).
  assert (Hnd : NoDup a2).
  { eapply submseteq_NoDup; [exact Hsub|apply positions_NoDup]. }
  assert (Hav : forall pi, pi ∈ a2 ->
            exists p, products s !! pi = Some p /\ is_available p = true).
  { intros pi Hpi. eapply elem_of_submseteq in Hpi; [|exact Hsub].
    now apply positions_spec in Hpi. }
  apply (cart_selected (products s)) in Hm3 as ((new & Hnew & Hall) & Hframe);
    [|exact Hnd|reflexivity].
  cbn [cart_items cart_products] in Hnew, Hframe. simpl in Hnew.
  apply random_facts.choice_elem in Hm7.
  apply random_facts.choices_elem in Hm8.
  eexists _, a2. cbn [transactions products].
  split; [reflexivity|]. split; [|split; [exact Hav|exact Hframe]].
  unfold txn_made_from.
  cbn [Transaction.user_id Transaction.billing_address
       Transaction.shipping_address Transaction.items
       Transaction.payment_method Transaction.status].
  split; [exists a, user; now repeat split|].
  split; [|split; [exact Hm7|exact Hm8]].
  exists a2. split; [exact Hnd|]. split; [lia|].
  rewrite Hnew. clear - Hall Hav.
  induction Hall as [|pi it sel items (p & Hp & Hid & Hprice) Hall IH];
    constructor.
  - destruct (Hav pi) as (p' & Hp' & Havail); [left|].
    exists p. assert (p' = p) by congruence. subst p'. now repeat split.
  - apply IH. intros pj Hpj. apply Hav. now right.
Qed.

Lemma same_product_fields p p' :
  same_product p p' ->
  Product.product_id p' = Product.product_id p
  /\ Product.is_active p' = Product.is_active p
  /\ Product.base_price p' = Product.base_price p.
Proof. unfold same_product. intros ->. now repeat split. Qed.

Lemma same_user_fields u u' :
  same_user u u' ->
  User.user_id u' = User.user_id u
  /\ User.account_status u' = User.account_status u
  /\ User.geo_data u' = User.geo_data u
  /\ User.preferences u' = User.preferences u
  /\ User.demographics u' = User.demographics u.
Proof. unfold same_user. intros ->. now repeat split. Qed.

Lemma same_products_ids ps ps' :
  Forall2 same_product ps ps' ->
  map Product.product_id ps' = map Product.product_id ps.
Proof.
  induction 1 as [|p p' ps ps' Hp _ IH]; [reflexivity|].
  simpl. rewrite IH. f_equal. apply same_product_fields, Hp.
Qed.

Lemma same_users_ids us us' :
  Forall2 same_user us us' ->
  map User.user_id us' = map User.user_id us.
Proof.
  induction 1 as [|u u' us us' Hu _ IH]; [reflexivity|].
  simpl. rewrite IH. f_equal. apply same_user_fields, Hu.
Qed.

Lemma txn_made_valid ps us t : txn_made_from ps us t -> txn_valid ps us t.
Proof.
  intros (Huser & (sel & Hnd & Hlen & Hall) & _). split; [exact Huser|].
  exists sel. split; [exact Hnd|]. split; [exact Hlen|].
  eapply Forall2_impl; [exact Hall|].
  intros pi it (p & Hp & Hav & Hid & Hprice). exists p.
  unfold is_available in Hav. apply andb_prop in Hav as [Hact _].
  now repeat split.
Qed.

(** A valid transaction stays valid when stocks and aggregates change. *)
Lemma txn_valid_keeps ps us ps' us' t :
  Forall2 same_product ps ps' -> Forall2 same_user us us' ->
  txn_valid ps us t -> txn_valid ps' us' t.
Proof.
  intros Hps Hus ((ui & user & Hu & Hact & Hid & Hbill & Hship)
                  & sel & Hnd & Hlen & Hall).
  split.
  - destruct (Forall2_lookup_l _ _ _ _ _ Hus Hu) as (user' & Hu' & Hsame).
    apply same_user_fields in Hsame as (Hi & Hs & Hg & _).
    exists ui, user'. unfold is_active_user in *.
    rewrite Hs, Hi, Hg. now repeat split.
  - exists sel. split; [exact Hnd|]. split; [exact Hlen|].
    eapply Forall2_impl; [exact Hall|].
    intros pi it (p & Hp & Hpact & Hpid & Hprice).
    destruct (Forall2_lookup_l _ _ _ _ _ Hps Hp) as (p' & Hp' & Hsame).
    apply same_product_fields in Hsame as (Hi & Ha & Hb).
    exists p'. rewrite Hi, Ha, Hb. now repeat split.
Qed.

Lemma transactions_valid s w s' w' :
  _generate_simple_transactions s w = Ok (s', w') ->
  exists new, transactions s' = transactions s ++ new
    /\ Forall (txn_valid (products s') (users s')) new.
Proof.
  intros Hrun. unfold _generate_simple_transactions in Hrun.
  eapply (for_each_inv
            (fun t => exists new, transactions t = transactions s ++ new
               /\ Forall (txn_valid (products t) (users t)) new));
    [| |exact Hrun].
  - intros n t v t' v' _ (new & Hnew & Hall) Hstep.
    pose proof (gen_transaction_inv _ _ _ _ _ Hstep) as Hkeep.
    apply txn_step_keeps in Hkeep as (_ & _ & _ & Hps & Hus).
    apply gen_transaction_made in Hstep
      as [->|(tx & sel & Htx & Hmade & _ & _)].
    + exists new. now split.
    + exists (new ++ [tx]). split.
      * rewrite Htx, Hnew. now rewrite app_assoc.
      * apply Forall_app. split.
        -- eapply Forall_impl; [exact Hall|].
           intros x. now apply txn_valid_keeps.
        -- constructor; [|constructor].
           eapply txn_valid_keeps; [exact Hps|exact Hus|].
           now apply txn_made_valid.
  - exists []. split; [now rewrite app_nil_r|constructor].
Qed.


(** ** Units sold *)

Lemma units_app pid items1 items2 :
  units pid (items1 ++ items2) = units pid items1 + units pid items2.
Proof.
  unfold units. rewrite List.filter_app, map_app.
  induction (map Item.quantity
               (List.filter (fun it => String.eqb (Item.product_id it) pid)
                  items1)) as [|x l IH]; simpl; lia.
Qed.

Lemma units_sold_app pid ts1 ts2 :
  units_sold pid (ts1 ++ ts2) = units_sold pid ts1 + units_sold pid ts2.
Proof.
  unfold units_sold. rewrite map_app.
  induction (map (fun t => units pid (Transaction.items t)) ts1)
    as [|x l IH]; simpl; lia.
Qed.

Lemma units_item_of pid p q :
  units pid [item_of p q]
  = if String.eqb (Product.product_id p) pid then q else 0.
Proof.
  unfold units. simpl. destruct (String.eqb _ _); simpl; lia.
Qed.

(** With distinct product ids, the items of one transaction take from each
    product exactly the units they hold of it. *)
Lemma purchases_units ps items ps' :
  purchases ps items ps' ->
  NoDup (map Product.product_id ps) ->
  forall j p p', ps !! j = Some p -> ps' !! j = Some p' ->
    Product.current_stock p'
    = Product.current_stock p - units (Product.product_id p) items.
Proof.
  induction 1 as [|items ps1 pi p0 q Hpur IH Hps Hps1 Hq];
    intros Hnd j p p' Hp Hp'.
  - assert (p' = p) by congruence. subst p'. unfold units. simpl. lia.
  - rewrite units_app, units_item_of.
    destruct (decide (j = pi)) as [->|Hne].
    + assert (p = p0) by congruence. subst p0.
      rewrite list_lookup_insert_eq in Hp' by (eapply lookup_lt_Some, Hps1).
      injection Hp' as <-. cbn [Product.current_stock Product.set_current_stock].
      rewrite String.eqb_refl.
      pose proof (IH Hnd pi p p Hp Hps1). lia.
    + rewrite list_lookup_insert_ne in Hp' by congruence.
      rewrite (IH Hnd j p p' Hp Hp').
      destruct (String.eqb_spec (Product.product_id p0) (Product.product_id p))
        as [Heq|_]; [|lia].
      exfalso. apply Hne. eapply NoDup_lookup; [exact Hnd| |].
      * rewrite list_lookup_fmap, Hp. reflexivity.
      * rewrite list_lookup_fmap, Hps. simpl. now rewrite Heq.
Qed.

Lemma stock_trace_same ps ts ps' :
  stock_trace ps ts ps' -> Forall2 same_product ps ps'.
Proof.
  induction 1 as [|ts ps1 t ps2 Htr IH Hpur].
  - apply Forall2_same_refl, same_product_refl.
  - eapply Forall2_same_trans; [apply same_product_trans|exact IH|].
    eapply purchases_same, Hpur.
Qed.

Lemma stock_trace_units ps ts ps' :
  stock_trace ps ts ps' ->
  NoDup (map Product.product_id ps) ->
  forall j p p', ps !! j = Some p -> ps' !! j = Some p' ->
    Product.current_stock p'
    = Product.current_stock p - units_sold (Product.product_id p) ts.
Proof.
  induction 1 as [|ts ps1 t ps2 Htr IH Hpur]; intros Hnd j p p' Hp Hp'.
  - assert (p' = p) by congruence. subst p'. unfold units_sold. simpl. lia.
  - pose proof (stock_trace_same _ _ _ Htr) as Hsame.
    destruct (Forall2_lookup_l _ _ _ _ _ Hsame Hp) as (p1 & Hp1 & Hpp1).
    rewrite units_sold_app. unfold units_sold at 2. simpl.
    rewrite (purchases_units _ _ _ Hpur) with (j := j) (p := p1) (p' := p');
      [|rewrite (same_products_ids _ _ Hsame); exact Hnd|exact Hp1|exact Hp'].
    rewrite (IH Hnd j p p1 Hp Hp1).
    apply same_product_fields in Hpp1 as (-> & _). lia.
Qed.

Lemma same_clock_refl w : same_clock w w.
Proof. now split. Qed.

Lemma same_clock_trans w1 w2 w3 :
  same_clock w1 w2 -> same_clock w2 w3 -> same_clock w1 w3.
Proof. intros [? ?] [? ?]. split; congruence. Qed.

Lemma for_each_world {A S} (Rw : World -> World -> Prop) (l : list A)
    (body : A -> S -> R S) :
  (forall w, Rw w w) -> (forall w1 w2 w3, Rw w1 w2 -> Rw w2 w3 -> Rw w1 w3) ->
  (forall x s w s' w', body x s w = Ok (s', w') -> Rw w w') ->
  forall s w s' w', for_each l body s w = Ok (s', w') -> Rw w w'.
Proof.
  intros Hrefl Htrans Hbody. induction l as [|x l IH]; intros s w s' w' Hrun.
  - apply ret_ok in Hrun as [_ <-]. apply Hrefl.
  - rewrite for_each_cons in Hrun.
    apply bind_ok in Hrun as (s1 & w1 & H1 & Hrun).
    eapply Htrans; [eapply Hbody, H1|eapply IH, Hrun].
Qed.

Lemma draw_clock w r w' : random.draw w = Ok (r, w') -> same_clock w w'.
Proof. unfold random.draw. intros [= _ <-]. now split. Qed.

Lemma random_clock w u w' : random.random w = Ok (u, w') -> same_clock w w'.
Proof.
  intros H. unfold random.random in H. bind_inv H. subst w'.
  eapply draw_clock, Hm.
Qed.

Lemma uniform_clock a b w u w' :
  random.uniform a b w = Ok (u, w') -> same_clock w w'.
Proof.
  intros H. unfold random.uniform in H. bind_inv H. subst w'.
  eapply random_clock, Hm.
Qed.

Lemma randbelow_clock n w r w' :
  random.randbelow n w = Ok (r, w') -> same_clock w w'.
Proof.
  intros H. unfold random.randbelow in H. bind_inv H. subst w'.
  eapply draw_clock, Hm.
Qed.

Lemma choice_clock {A} (l : list A) w x w' :
  random.choice l w = Ok (x, w') -> same_clock w w'.
Proof.
  unfold random.choice. destruct l as [|y l]; [discriminate|].
  intros H. bind_inv H. apply index_ok in H as [_ ->].
  eapply randbelow_clock, Hm.
Qed.

Lemma choices_clock {A} (population : list A) weights w x w' :
  random.choices population weights w = Ok (x, w') -> same_clock w w'.
Proof.
  unfold random.choices.
  destruct (negb _); [discriminate|].
  destruct (last _) as [total|]; [|discriminate].
  destruct (PrimFloat.leb total 0); [discriminate|].
  intros H. bind_inv H. apply index_ok in H as [_ ->].
  eapply random_clock, Hm.
Qed.

Lemma fake_next_clock w v w' : fake_next w = Ok (v, w') -> same_clock w w'.
Proof. intros [= _ <-]. now split. Qed.

Lemma fake_now_clock w t w' : fake_now w = Ok (t, w') -> same_clock w w'.
Proof.
  intros H. unfold fake_now in H. bind_inv H. subst w'.
  eapply fake_next_clock, Hm.
Qed.

Lemma lift_clock {A} (r : res A) w a w' :
  lift r w = Ok (a, w') -> same_clock w w'.
Proof. intros [_ ->]%lift_ok. apply same_clock_refl. Qed.

Lemma _parse_date_time_clock a w p w' :
  _parse_date_time a w = Ok (p, w') -> same_clock w w'.
Proof.
  destruct a as [s|t]; unfold _parse_date_time; intros H.
  - apply bind_ok in H as (t1 & w1 & H1 & H). apply fake_now_clock in H1.
    destruct (String.eqb s "now").
    + bind_inv H. subst w'. apply fake_now_clock in Hm.
      eauto using same_clock_trans.
    + bind_inv H. subst w'.
      apply lift_clock in Hm, Hm0, Hm1. eauto using same_clock_trans.
  - apply ret_ok in H as [_ <-]. apply same_clock_refl.
Qed.

Lemma fake_date_clock a b w t w' :
  fake_date_time_between a b w = Ok (t, w') -> same_clock w w'.
Proof.
  intros H. unfold fake_date_time_between in H.
  apply bind_ok in H as (p & w1 & Hp & H).
  apply bind_ok in H as (q & w2 & Hq & H).
  apply bind_ok in H as (r & w3 & Hr & H). cbv zeta in H.
  apply bind_ok in H as (d & w4 & Hd & H).
  apply _parse_date_time_clock in Hp, Hq. apply lift_clock in Hd, H.
  unfold fake_draw in Hr. bind_inv Hr. subst w3. apply fake_next_clock in Hm.
  eauto 8 using same_clock_trans.
Qed.

Lemma gen_subcategory_clock cat_id sub acc w subs w' :
  gen_subcategory cat_id sub acc w = Ok (subs, w') -> same_clock w w'.
Proof.
  intros H. unfold gen_subcategory in H. destruct sub as [sub_id name].
  bind_inv H. subst w'.
  apply uniform_clock in Hm, Hm0. apply choice_clock in Hm1.
  eauto using same_clock_trans.
Qed.

Lemma generate_categories_clock s w s' w' :
  generate_categories s w = Ok (s', w') -> same_clock w w'.
Proof.
  unfold generate_categories.
  apply (for_each_world same_clock);
    [apply same_clock_refl|apply same_clock_trans|].
  intros [cat_id [main_cat subcats]] t v t' v' H.
  unfold gen_category in H. bind_inv H. subst v'.
  apply choices_clock in Hm. apply fake_date_clock in Hm0.
  apply (for_each_world same_clock) in Hm1;
    [|apply same_clock_refl|apply same_clock_trans|].
  - eauto using same_clock_trans.
  - intros x acc u acc' u'. apply gen_subcategory_clock.
Qed.

(** ** The whole run, again *)

(** What a complete run from a fresh generator establishes, stage by
    stage. *)
Lemma generate_all_made cfg w g files w' :
  generate_all (init cfg) w = Ok ((g, files), w') ->
  exists start ps0 us0 w3 w4 w5,
    config g = cfg
    /\ start = clock w (cpos w)
               - timedelta_days (Config.TIMESPAN_DAYS cfg * 2)
    /\ len (categories g) = category_count (Config.NUM_CATEGORIES cfg)
    /\ (forall j c, categories g !! j = Some c ->
          exists entry, category_data !! j = Some entry
                        /\ category_facts j entry c)
    /\ length ps0 = Z.to_nat (Config.NUM_PRODUCTS cfg)
    /\ (forall j p, ps0 !! j = Some p ->
          product_made (categories g) start j p)
    /\ length us0 = Z.to_nat (Config.NUM_USERS cfg)
    /\ (forall j u, us0 !! j = Some u ->
          user_made (categories g) j u /\ user_facts (categories g) j u)
    /\ _generate_simple_transactions (mkGen cfg (categories g) ps0 us0 [] []) w3
       = Ok (mkGen cfg (categories g) (products g) (users g) []
               (transactions g), w4)
    /\ length (sessions g) = Z.to_nat (Config.NUM_SESSIONS cfg)
    /\ Forall (session_made (users g)) (sessions g)
    /\ Forall (session_facts (products g)) (sessions g)
    /\ save_data g w5 = Ok (files, w').
Proof.
  intros H.
  apply generate_all_stages in H
    as (s1 & s2 & s3 & s4 & w1 & w2 & w3 & w4 & w5 & H1 & H2 & H3 & H4 & H5 & H6).
  destruct (generate_categories_run (init cfg) w)
    as (s1' & w1' & cats & H1' & (Hc1 & Hp1 & Hu1 & Hse1 & Htr1) & Hcats
        & Hlen1 & Hfacts1).
  rewrite H1 in H1'. injection H1' as <- <-.
  pose proof (generate_products_made _ _ _ _ H2)
    as ((Hc2 & Hcat2 & Hu2 & Hse2 & Htr2) & start & ps0 & Hstart & Hps0 & Hlen2
        & Hfacts2).
  apply generate_categories_clock in H1 as [Hclock Hcpos].
  pose proof (generate_users_made _ _ _ _ H3) as (us0' & Hus0' & Hmade3).
  apply generate_users_facts in H3
    as ((Hc3 & Hcat3 & Hp3 & Hse3 & Htr3) & us0 & Hus0 & Hlen3 & Hfacts3).
  rewrite Hus0 in Hus0'. apply app_inv_head in Hus0'. subst us0'.
  pose proof (transactions_keep _ _ _ _ H4) as (Hc4 & Hcat4 & Hse4 & _ & _).
  pose proof (generate_sessions_made _ _ _ _ H5) as (ss' & Hss' & Hmade5).
  apply generate_sessions_facts in H5
    as ((Hc5 & Hcat5 & Hp5 & Hu5 & Htr5) & ss & Hss & Hlen5 & Hfacts5).
  rewrite Hss in Hss'. apply app_inv_head in Hss'. subst ss'.
  simpl in Hc1, Hp1, Hu1, Hse1, Htr1, Hcats, Hlen1.
  rewrite Hp1 in Hps0. rewrite Hu2, Hu1 in Hus0. simpl in Hps0, Hus0.
  assert (Hcg : categories g = cats) by congruence.
  assert (Hs3 : s3 = mkGen cfg (categories g) ps0 us0 [] []).
  { destruct s3 as [c3 cats3 ps3 us3 ss3 ts3]. simpl in *. f_equal; congruence. }
  assert (Hs4 : s4 = mkGen cfg (categories g) (products g) (users g) []
                      (transactions g)).
  { destruct s4 as [c4 cats4 ps4 us4 ss4 ts4]. simpl in *. f_equal; congruence. }
  assert (Hsess : sessions g = ss).
  { rewrite Hss, Hse4, Hse3, Hse2, Hse1. reflexivity. }
  exists start, ps0, us0, w3, w4, w5.
  split; [congruence|]. split.
  { rewrite Hstart, Hclock, Hcpos, Hc1. reflexivity. }
  split.
  { unfold len. rewrite Hcg, Hlen1.
    pose proof (category_count_range (Config.NUM_CATEGORIES cfg)). lia. }
  split; [now rewrite Hcg|]. split; [congruence|]. split.
  { intros j p Hj. replace (categories g) with (categories s1) by congruence.
    eapply Hfacts2, Hj. }
  split; [congruence|]. split.
  { intros j u Hj. replace (categories g) with (categories s2) by congruence.
    split; [eapply Hmade3, Hj|eapply Hfacts3, Hj]. }
  split; [now rewrite <- Hs3, <- Hs4|].
  split; [rewrite Hsess; congruence|].
  split; [rewrite Hsess; now rewrite Hu5|].
  split; [rewrite Hsess; now rewrite Hp5|exact H6].
Qed.

(** ** Stock only goes down *)

Lemma purchases_le ps items ps' :
  purchases ps items ps' ->
  Forall2 (fun p p' => Product.current_stock p' <= Product.current_stock p)
          ps ps'.
Proof.
  induction 1 as [|items ps1 pi p q Hpur IH Hps Hps1 Hq].
  - apply Forall2_same_refl. intros x. lia.
  - apply Forall2_same_length_lookup. split.
    + rewrite length_insert. eapply Forall2_length, IH.
    + intros j a b Ha Hb.
      destruct (Forall2_lookup_l _ _ _ _ _ IH Ha) as (a1 & Ha1 & Hle).
      destruct (decide (j = pi)) as [->|Hne].
      * rewrite list_lookup_insert_eq in Hb by (eapply lookup_lt_Some, Hps1).
        injection Hb as <-. simpl. assert (a = p) by congruence. subst a. lia.
      * rewrite list_lookup_insert_ne in Hb by congruence.
        assert (b = a1) by congruence. now subst b.
Qed.

Lemma stock_trace_le ps ts ps' :
  stock_trace ps ts ps' ->
  Forall2 (fun p p' => Product.current_stock p' <= Product.current_stock p)
          ps ps'.
Proof.
  induction 1 as [|ts ps1 t ps2 Htr IH Hpur].
  - apply Forall2_same_refl. intros x. lia.
  - eapply Forall2_same_trans; [|exact IH|eapply purchases_le, Hpur].
    intros x y z. simpl. lia.
Qed.

(** A product keeps what [generate_products] fixed when only its stock
    changes, within the same bounds. *)
Lemma product_made_keeps cats start j p p' :
  product_made cats start j p -> same_product p p' ->
  0 <= Product.current_stock p' <= 1000 ->
  product_made cats start j p'.
Proof.
  intros (Hid & Hrefs & Hdated & Hranges & Htagged) Hsame Hstock.
  unfold same_product in Hsame. rewrite Hsame.
  split; [exact Hid|]. split; [exact Hrefs|]. split; [exact Hdated|].
  split; [|exact Htagged].
  destruct Hranges as (_ & Hre & Hrev & Hsku).
  split; [exact Hstock|]. split; [exact Hre|]. split; [exact Hrev|exact Hsku].
Qed.

(** ** The summary needs a product *)

Lemma summary_no_products self w :
  products self = [] -> _generate_summary self w = Raise ZeroDivisionError.
Proof.
  intros Hnil.
  destruct (guarded_average (sum (map Transaction.total (transactions self)))
              (transactions self) w) as (a & Ha & _).
  destruct (guarded_rate (transactions self) (sessions self) w) as (c & Hc & _).
  destruct (now_total w) as (t & w1 & Ht).
  unfold _generate_summary.
  rewrite (bind_step _ _ _ _ _ Ha), (bind_step _ _ _ _ _ Hc),
    (bind_step _ _ _ _ _ Ht).
  rewrite Hnil. reflexivity.
Qed.

Lemma summary_with_products self w :
  products self <> [] -> exists sm w', _generate_summary self w = Ok (sm, w').
Proof.
  intros Hne.
  destruct (guarded_average (sum (map Transaction.total (transactions self)))
              (transactions self) w) as (a & Ha & _).
  destruct (guarded_rate (transactions self) (sessions self) w) as (c & Hc & _).
  destruct (now_total w) as (t & w1 & Ht).
  unfold _generate_summary.
  rewrite (bind_step _ _ _ _ _ Ha), (bind_step _ _ _ _ _ Hc),
    (bind_step _ _ _ _ _ Ht).
  unfold bind at 1. rewrite (truediv_by_len _ _ Hne). unfold lift, ret.
  eauto.
Qed.

(** ** The products, users and transactions of a complete run *)

Lemma run_products cfg w g files w' :
  generate_all (init cfg) w = Ok ((g, files), w') ->
  products_json files = products g
  /\ categories_json files = categories g
  /\ 1 <= Config.NUM_PRODUCTS cfg
  /\ len (products g) = Config.NUM_PRODUCTS cfg
  /\ forall j p, products g !! j = Some p ->
       product_made (categories g)
         (clock w (cpos w) - timedelta_days (Config.TIMESPAN_DAYS cfg * 2))
         j p.
Proof.
  intros H.
  apply generate_all_made in H
    as (start & ps0 & us0 & w3 & w4 & w5 & _ & -> & _ & _ & Hlen & Hmade & _
        & _ & Hrun & _ & _ & _ & Hsave).
  apply save_data_files in Hsave as (Hcats & Hps & _ & _ & v0 & v1 & Hsum).
  pose proof (transactions_trace _ _ _ _ Hrun) as (new & _ & Htrace & _).
  cbn [products] in Htrace.
  pose proof (stock_trace_same _ _ _ Htrace) as Hsame.
  pose proof (stock_trace_le _ _ _ Htrace) as Hle.
  assert (Hnn : stock_nonneg (products g)).
  { eapply stock_trace_nonneg; [exact Htrace|].
    apply Forall_lookup. intros j p Hj.
    destruct (Hmade j p Hj) as (_ & _ & _ & (Hst & _) & _). lia. }
  assert (Hne : products g <> []).
  { intros Hnil. rewrite (summary_no_products g v0 Hnil) in Hsum.
    discriminate. }
  assert (Hlen' : length (products g) = Z.to_nat (Config.NUM_PRODUCTS cfg)).
  { rewrite <- Hlen. symmetry. eapply Forall2_length, Hsame. }
  assert (Hpos : (0 < length (products g))%nat).
  { destruct (products g); [contradiction|simpl; lia]. }
  split; [exact Hps|]. split; [exact Hcats|]. split; [lia|].
  split; [unfold len; lia|].
  intros j p Hj.
  destruct (Forall2_lookup_r _ _ _ _ _ Hsame Hj) as (p0 & Hp0 & Hpp).
  destruct (Forall2_lookup_r _ _ _ _ _ Hle Hj) as (p0' & Hp0' & Hstock).
  assert (p0' = p0) by congruence. subst p0'.
  eapply product_made_keeps; [eapply Hmade, Hp0|exact Hpp|].
  destruct (Hmade j p0 Hp0) as (_ & _ & _ & (Hst & _) & _).
  unfold stock_nonneg in Hnn. rewrite Forall_forall in Hnn.
  pose proof (Hnn p (list_elem_of_lookup_2 _ _ _ Hj)). lia.
Qed.

Lemma append_inj_l (prefix a b : string) :
  (prefix +:+ a)%string = (prefix +:+ b)%string -> a = b.
Proof.
  induction prefix as [|c prefix IH]; simpl; intros H; [exact H|].
  injection H as H. now apply IH.
Qed.

(** Records whose id is a fixed prefix followed by their formatted rank have
    distinct ids. *)
Lemma made_NoDup {X} (f : X -> string) (width : nat) (prefix : string)
    (l : list X) :
  (forall j x, l !! j = Some x -> f x = (prefix +:+ fmt_d width j)%string) ->
  NoDup (map f l).
Proof.
  intros Hid. apply NoDup_alt. intros i j id Hi Hj.
  rewrite list_lookup_fmap in Hi, Hj.
  destruct (l !! i) as [x|] eqn:Hx; [|discriminate].
  destruct (l !! j) as [y|] eqn:Hy; [|discriminate].
  simpl in Hi, Hj. injection Hi as Hi. injection Hj as Hj.
  rewrite (Hid i x Hx) in Hi. rewrite (Hid j y Hy) in Hj.
  rewrite <- Hj in Hi. eapply fmt_d_inj, append_inj_l, Hi.
Qed.

Lemma run_products_NoDup cfg w g files w' :
  generate_all (init cfg) w = Ok ((g, files), w') ->
  NoDup (map Product.product_id (products g)).
Proof.
  intros H. apply run_products in H as (_ & _ & _ & _ & Hmade).
  apply (made_NoDup _ 5 "prod_"). intros j p Hj. apply (Hmade j p Hj).
Qed.

Lemma run_users cfg w g files w' :
  generate_all (init cfg) w = Ok ((g, files), w') ->
  users_json files = users g
  /\ transactions_json files = transactions g
  /\ len (users g) = Z.max 0 (Config.NUM_USERS cfg)
  /\ (forall j u, users g !! j = Some u ->
        exists u0, same_user u0 u /\ user_made (categories g) j u0
                   /\ user_facts (categories g) j u0)
  /\ Forall (aggregates_ok (transactions g)) (users g)
  /\ Forall (txn_valid (products g) (users g)) (transactions g)
  /\ (len (transactions g) <= Z.max 0 (Config.NUM_TRANSACTIONS cfg))
  /\ (transactions g <> [] \/ 0 < Config.NUM_TRANSACTIONS cfg ->
        exists u, u ∈ users g /\ is_active_user u = true).
Proof.
  intros H.
  apply generate_all_made in H
    as (start & ps0 & us0 & w3 & w4 & w5 & _ & _ & _ & _ & _ & _ & Hlen & Hmade
        & Hrun & _ & _ & _ & Hsave).
  apply save_data_files in Hsave as (_ & _ & Hus & Hts & _).
  pose proof (transactions_keep _ _ _ _ Hrun) as (_ & _ & _ & _ & Hsame).
  cbn [users] in Hsame.
  pose proof (transactions_valid _ _ _ _ Hrun) as (new & Hnew & Hvalid).
  cbn [transactions products users] in Hnew, Hvalid. simpl in Hnew. subst new.
  pose proof (transactions_count _ _ _ _ Hrun) as (new & Hnew & Hcount).
  cbn [transactions config] in Hnew, Hcount. simpl in Hnew. subst new.
  split; [exact Hus|]. split; [exact Hts|]. split.
  { unfold len. rewrite <- (Forall2_length _ _ _ Hsame), Hlen. lia. }
  split.
  { intros j u Hj.
    destruct (Forall2_lookup_r _ _ _ _ _ Hsame Hj) as (u0 & Hu0 & Huu).
    exists u0. split; [exact Huu|]. apply (Hmade j u0 Hu0). }
  split.
  { assert (Hinv : aggregates_inv (mkGen cfg (categories g) ps0 us0 [] [])).
    { split; cbn [users transactions].
      - eapply user_facts_NoDup. intros j u Hj. eapply Hmade, Hj.
      - apply Forall_lookup. intros j u Hj.
        destruct (Hmade j u Hj) as (_ & _ & Hn & Hv & _).
        split; [exact Hn|exact Hv]. }
    apply (transactions_aggregates _ _ _ _ Hinv Hrun). }
  split; [exact Hvalid|]. split; [unfold len; lia|].
  intros Hsome.
  destruct (transactions_outcome (mkGen cfg (categories g) ps0 us0 [] []) w3)
    as [(s' & w'' & new & Hrun' & Hnew & _)
       |[(Hraise & _)|[(Hraise & _)|(Hraise & _)]]].
  2-4: rewrite Hraise in Hrun; discriminate.
  - destruct Hsome as [Hne|Hpos].
    + destruct (transactions g) as [|t ts] eqn:Hts'; [contradiction|].
      apply Forall_cons in Hvalid as [((ui & user & Hu & Hact & _) & _) _].
      exists user. split; [eapply list_elem_of_lookup_2, Hu|exact Hact].
    + destruct (positions is_active_user us0) as [|ui rest] eqn:Hact.
      * exfalso. revert Hrun. unfold _generate_simple_transactions, range.
        cbn [config Config.NUM_TRANSACTIONS].
        destruct (Z.to_nat (Config.NUM_TRANSACTIONS cfg)) as [|n] eqn:Hn; [lia|].
        simpl seq. rewrite for_each_cons. unfold gen_transaction at 1.
        cbn [users]. rewrite Hact. discriminate.
      * assert (Hin : ui ∈ positions is_active_user us0) by (rewrite Hact; left).
        apply positions_spec in Hin as (u0 & Hu0 & Hact0).
        destruct (Forall2_lookup_l _ _ _ _ _ Hsame Hu0) as (u & Hu & Huu).
        exists u. split; [eapply list_elem_of_lookup_2, Hu|].
        apply same_user_fields in Huu as (_ & Hs & _).
        unfold is_active_user in *. now rewrite Hs.
Qed.

(** ** Ids *)

Lemma enumerate_lookup {A} (l : list A) j x :
  l !! j = Some x -> enumerate l !! j = Some (j, x).
Proof.
  intros Hj. unfold enumerate, zip. apply lookup_zip_with_Some.
  exists j, x. split; [reflexivity|]. split; [|exact Hj].
  apply lookup_seq. split; [reflexivity|]. eapply lookup_lt_Some, Hj.
Qed.

Lemma filter_ids_NoDup {A} (f : A -> string) (p : A -> bool) (l : list A) :
  NoDup (map f l) -> NoDup (map f (List.filter p l)).
Proof.
  induction l as [|x l IH]; simpl; intros Hnd; [constructor|].
  apply NoDup_cons in Hnd as [Hx Hnd].
  destruct (p x); [|now apply IH]. simpl. apply NoDup_cons. split; [|now apply IH].
  intros Hin. apply Hx.
  apply list_elem_of_fmap in Hin as (y & Hy & Hin).
  apply list_elem_of_fmap. exists y. split; [exact Hy|].
  apply elem_of_filter_bool in Hin. apply Hin.
Qed.

(** The ids of the subcategories of the first categories are a prefix of the
    ids of all fifty. *)
Lemma subcategory_ids_prefix (cats : list Category.t) :
  (forall j c, cats !! j = Some c ->
     exists entry, category_data !! j = Some entry
                   /\ category_facts j entry c) ->
  NoDup (subcategory_ids cats).
Proof.
  intros Hfacts.
  set (F := fun je : nat * (string * list string) =>
              map (fun k => ("sub_" +:+ fmt_d 3 (fst je) +:+ "_"
                             +:+ fmt_d 2 k)%string)
                  (seq 0 (length (snd (snd je))))).
  assert (Hall : NoDup (concat (map F (enumerate category_data)))).
  { apply (bool_decide_unpack (NoDup _)). vm_compute. reflexivity. }
  assert (Heq : map (fun c => map Subcategory.subcategory_id
                                (Category.subcategories c)) cats
                = take (length cats) (map F (enumerate category_data))).
  { apply list_eq. intros j. rewrite list_lookup_fmap.
    destruct (cats !! j) as [c|] eqn:Hc.
    - destruct (Hfacts j c Hc) as (entry & He & _ & _ & _ & _ & Hids).
      rewrite lookup_take_lt by (eapply lookup_lt_Some, Hc).
      rewrite list_lookup_fmap, (enumerate_lookup _ _ _ He). simpl.
      now rewrite Hids.
    - apply lookup_ge_None in Hc. simpl. symmetry.
      apply lookup_ge_None. rewrite length_take. lia. }
  unfold subcategory_ids. rewrite Heq.
  rewrite <- (take_drop (length cats) (map F (enumerate category_data))) in Hall.
  rewrite concat_app in Hall. now apply NoDup_app in Hall as [Hl _].
Qed.

Lemma run_categories_NoDup cfg w g files w' :
  generate_all (init cfg) w = Ok ((g, files), w') ->
  NoDup (map Category.category_id (categories g)).
Proof.
  intros H.
  apply generate_all_made in H
    as (start & ps0 & us0 & w3 & w4 & w5 & _ & _ & _ & Hfacts & _).
  apply (made_NoDup _ 3 "cat_"). intros j c Hj.
  destruct (Hfacts j c Hj) as (entry & _ & Hid & _). exact Hid.
Qed.

(** X2. In every complete run the ids written are keys: no two categories
    share a [category_id], no two subcategories, of the same or of different
    categories, share a [subcategory_id], no two products share a
    [product_id], and no two users share a [user_id], however many records
    the configuration asks for, the formatted rank being padded but never
    truncated. *)
Theorem X2_unique_ids cfg w g files w' :
  generate_all (init cfg) w = Ok ((g, files), w') ->
  NoDup (map Category.category_id (categories_json files))
  /\ NoDup (subcategory_ids (categories_json files))
  /\ NoDup (map Product.product_id (products_json files))
  /\ NoDup (map User.user_id (users_json files)).
Proof.
  intros H.
  pose proof (run_products _ _ _ _ _ H) as (Hps & Hcats & _ & _ & _).
  pose proof (run_products_NoDup _ _ _ _ _ H) as Hprod.
  pose proof (run_users _ _ _ _ _ H) as (Hus & _ & _ & Husers & _).
  apply generate_all_made in H
    as (start & ps0 & us0 & w3 & w4 & w5 & _ & _ & _ & Hfacts & _).
  rewrite Hps, Hcats, Hus.
  split; [|split; [|split]].
  - apply (made_NoDup _ 3 "cat_"). intros j c Hj.
    destruct (Hfacts j c Hj) as (entry & _ & Hid & _). exact Hid.
  - apply subcategory_ids_prefix, Hfacts.
  - exact Hprod.
  - apply (made_NoDup _ 6 "user_"). intros j u Hj.
    destruct (Husers j u Hj) as (u0 & Hsame & (Hid & _) & _).
    apply same_user_fields in Hsame as (-> & _). exact Hid.
Qed.

Lemma X2_unique_ids_witness :
  NoDup (map Category.category_id (categories_json (snd (fst demo_done))))
  /\ NoDup (subcategory_ids (categories_json (snd (fst demo_done))))
  /\ NoDup (map Product.product_id (products_json (snd (fst demo_done))))
  /\ NoDup (map User.user_id (users_json (snd (fst demo_done)))).
Proof.
  apply (X2_unique_ids demo_config demo_world (fst (fst demo_done))
           (snd (fst demo_done)) (demo_at (snd demo_done))).
  vm_compute. reflexivity.
Defined.

(** ** Products *)

(** X3. In every complete run each product of [products.json] refers to a
    category of [categories.json] by its [category_id] and to a subcategory
    of that very category by its [subcategory_id]; its brand is one of the
    brands of that category's name (the three generic brands for a category
    without its own list); its name is an adjective, the subcategory's name
    and a descriptor; and its cost is its price less the subcategory's
    profit margin, rounded to 2 decimals. *)
Theorem X3_product_references cfg w g files w' :
  generate_all (init cfg) w = Ok ((g, files), w') ->
  Forall (product_refs (categories_json files)) (products_json files).
Proof.
  intros H. apply run_products in H as (-> & -> & _ & _ & Hmade).
  apply Forall_lookup. intros j p Hj. apply (Hmade j p Hj).
Qed.

Lemma X3_product_references_witness :
  Forall (product_refs (categories_json (snd (fst demo_done))))
         (products_json (snd (fst demo_done))).
Proof.
  apply (X3_product_references demo_config demo_world (fst (fst demo_done))
           (snd (fst demo_done)) (demo_at (snd demo_done))).
  vm_compute. reflexivity.
Defined.

(** X4. In every complete run all products share one creation date, twice
    [TIMESPAN_DAYS] days before the first reading of the clock; each
    product's [creation_date] is the date of the first entry of its price
    history, its [last_updated] the date of the last entry, at most 180 days
    later, and its [base_price] the price of that last entry; the history
    holds between 1 and 5 entries. *)
Theorem X4_product_dates cfg w g files w' :
  generate_all (init cfg) w = Ok ((g, files), w') ->
  Forall (product_dated
            (clock w (cpos w)
             - timedelta_days (Config.TIMESPAN_DAYS cfg * 2)))
         (products_json files).
Proof.
  intros H. apply run_products in H as (-> & _ & _ & _ & Hmade).
  apply Forall_lookup. intros j p Hj. apply (Hmade j p Hj).
Qed.

Lemma X4_product_dates_witness :
  Forall (product_dated
            (clock demo_world (cpos demo_world)
             - timedelta_days (Config.TIMESPAN_DAYS demo_config * 2)))
         (products_json (snd (fst demo_done))).
Proof.
  apply (X4_product_dates demo_config demo_world (fst (fst demo_done))
           (snd (fst demo_done)) (demo_at (snd demo_done))).
  vm_compute. reflexivity.
Defined.

(** X5. A complete run writes exactly [NUM_PRODUCTS] products, at least
    one; the product of rank [j] has the id [prod_] followed by [j] on five
    digits, a stock between 0 and 1000 once all transactions are applied, a
    reorder level between 10 and 50, a review count between 0 and 500, and a
    SKU made of the upper-cased first three characters of its brand, a dash,
    and a number between 100000 and 999999. *)
Theorem X5_product_ranges cfg w g files w' :
  generate_all (init cfg) w = Ok ((g, files), w') ->
  (1 <= Config.NUM_PRODUCTS cfg)%Z
  /\ len (products_json files) = Config.NUM_PRODUCTS cfg
  /\ forall j p, products_json files !! j = Some p ->
       Product.product_id p = ("prod_" +:+ fmt_d 5 j)%string
       /\ product_ranges p.
Proof.
  intros H. apply run_products in H as (-> & _ & Hpos & Hlen & Hmade).
  split; [exact Hpos|]. split; [exact Hlen|].
  intros j p Hj. destruct (Hmade j p Hj) as (Hid & _ & _ & Hr & _).
  now split.
Qed.

Lemma X5_product_ranges_witness :
  (1 <= Config.NUM_PRODUCTS demo_config)%Z
  /\ len (products_json (snd (fst demo_done)))
     = Config.NUM_PRODUCTS demo_config
  /\ forall j p, products_json (snd (fst demo_done)) !! j = Some p ->
       Product.product_id p = ("prod_" +:+ fmt_d 5 j)%string
       /\ product_ranges p.
Proof.
  apply (X5_product_ranges demo_config demo_world (fst (fst demo_done))
           (snd (fst demo_done)) (demo_at (snd demo_done))).
  vm_compute. reflexivity.
Defined.

(** X6. In every complete run each product carries at most 4 tags, all
    taken from the sixteen tags of [_generate_product_tags], and no tag
    twice. *)
Theorem X6_product_tags cfg w g files w' :
  generate_all (init cfg) w = Ok ((g, files), w') ->
  Forall (fun p => (length (Product.tags p) <= 4)%nat
                   /\ Product.tags p ⊆ all_tags
                   /\ NoDup (Product.tags p))
         (products_json files).
Proof.
  intros H. apply run_products in H as (-> & _ & _ & _ & Hmade).
  apply Forall_lookup. intros j p Hj.
  destruct (Hmade j p Hj) as (_ & _ & _ & _ & Hsub & Hlen).
  split; [exact Hlen|]. split.
  - intros tag Htag. eapply elem_of_submseteq; [exact Htag|exact Hsub].
  - eapply submseteq_NoDup; [exact Hsub|].
    apply (bool_decide_unpack (NoDup _)). vm_compute. reflexivity.
Qed.

Lemma X6_product_tags_witness :
  Forall (fun p => (length (Product.tags p) <= 4)%nat
                   /\ Product.tags p ⊆ all_tags
                   /\ NoDup (Product.tags p))
         (products_json (snd (fst demo_done))).
Proof.
  apply (X6_product_tags demo_config demo_world (fst (fst demo_done))
           (snd (fst demo_done)) (demo_at (snd demo_done))).
  vm_compute. reflexivity.
Defined.

(** ** Users *)

Lemma active_category_ids_spec cats id :
  id ∈ active_category_ids cats <->
  exists c, c ∈ cats /\ Category.category_id c = id
            /\ Category.is_active c = true.
Proof.
  unfold active_category_ids. rewrite list_elem_of_fmap. split.
  - intros (c & -> & Hc). apply elem_of_filter_bool in Hc as [Hc Hact].
    exists c. now repeat split.
  - intros (c & Hc & <- & Hact). exists c. split; [reflexivity|].
    now apply elem_of_filter_bool.
Qed.

(** X7. In every complete run each user of [users.json] is between 18 and
    70 years old, has one of the three account statuses, and prefers
    categories that are pairwise distinct, each the id of a category of
    [categories.json] whose [is_active] flag is set. *)
Theorem X7_user_profiles cfg w g files w' :
  generate_all (init cfg) w = Ok ((g, files), w') ->
  Forall (fun u =>
            (18 <= Demographics.age (User.demographics u) <= 70)%Z
            /\ User.account_status u
                 ∈ ["active"; "inactive"; "suspended"]%string
            /\ NoDup (Preferences.preferred_categories (User.preferences u))
            /\ forall id,
                 id ∈ Preferences.preferred_categories (User.preferences u) ->
                 exists c, c ∈ categories_json files
                           /\ Category.category_id c = id
                           /\ Category.is_active c = true)
         (users_json files).
Proof.
  intros H.
  pose proof (run_categories_NoDup _ _ _ _ _ H) as Hcat.
  pose proof (run_products _ _ _ _ _ H) as (_ & Hcats & _).
  apply run_users in H as (-> & _ & _ & Husers & _).
  rewrite Hcats in *.
  apply Forall_lookup. intros j u Hj.
  destruct (Husers j u Hj)
    as (u0 & Hsame & (_ & Hage & Hsub & Hstatus & _) & _).
  apply same_user_fields in Hsame as (_ & -> & _ & -> & ->).
  split; [exact Hage|]. split; [exact Hstatus|]. split.
  - eapply submseteq_NoDup; [exact Hsub|].
    unfold active_category_ids. now apply filter_ids_NoDup.
  - intros id Hid. apply active_category_ids_spec.
    eapply elem_of_submseteq; [exact Hid|exact Hsub].
Qed.

Lemma X7_user_profiles_witness :
  Forall (fun u =>
            (18 <= Demographics.age (User.demographics u) <= 70)%Z
            /\ User.account_status u
                 ∈ ["active"; "inactive"; "suspended"]%string
            /\ NoDup (Preferences.preferred_categories (User.preferences u))
            /\ forall id,
                 id ∈ Preferences.preferred_categories (User.preferences u) ->
                 exists c, c ∈ categories_json (snd (fst demo_done))
                           /\ Category.category_id c = id
                           /\ Category.is_active c = true)
         (users_json (snd (fst demo_done))).
Proof.
  apply (X7_user_profiles demo_config demo_world (fst (fst demo_done))
           (snd (fst demo_done)) (demo_at (snd demo_done))).
  vm_compute. reflexivity.
Defined.

(** ** Transactions *)

Lemma items_NoDup ps (selected : list nat) items :
  NoDup (map Product.product_id ps) -> NoDup selected ->
  Forall2 (item_of_active ps) selected items ->
  NoDup (map Item.product_id items).
Proof.
  intros Hids Hsel Hall. apply NoDup_alt. intros i j id Hi Hj.
  rewrite list_lookup_fmap in Hi, Hj.
  destruct (items !! i) as [it|] eqn:Hit; [|discriminate].
  destruct (items !! j) as [it'|] eqn:Hit'; [|discriminate].
  simpl in Hi, Hj. injection Hi as Hi. injection Hj as Hj.
  destruct (Forall2_lookup_r _ _ _ _ _ Hall Hit)
    as (pi & Hpi & p & Hp & _ & Hid & _).
  destruct (Forall2_lookup_r _ _ _ _ _ Hall Hit')
    as (pj & Hpj & p' & Hp' & _ & Hid' & _).
  assert (pi = pj).
  { eapply NoDup_lookup; [exact Hids| |].
    - rewrite list_lookup_fmap, Hp. reflexivity.
    - rewrite list_lookup_fmap, Hp'. simpl. congruence. }
  subst pj. eapply NoDup_lookup; [exact Hsel|exact Hpi|exact Hpj].
Qed.

(** X8. In every complete run each transaction of [transactions.json]
    belongs to a user of [users.json] whose account status is ["active"],
    and bills and ships to that user's address; it holds between 1 and 5
    items, no two of them for the same product, and each item names a
    product of [products.json] that is active and carries that product's
    [base_price] as its unit price. *)
Theorem X8_transaction_references cfg w g files w' :
  generate_all (init cfg) w = Ok ((g, files), w') ->
  Forall (fun t =>
            (exists user, user ∈ users_json files
               /\ User.account_status user = "active"%string
               /\ Transaction.user_id t = User.user_id user
               /\ Transaction.billing_address t = User.geo_data user
               /\ Transaction.shipping_address t = User.geo_data user)
            /\ (1 <= length (Transaction.items t) <= 5)%nat
            /\ NoDup (map Item.product_id (Transaction.items t))
            /\ Forall (fun it =>
                         exists p, p ∈ products_json files
                           /\ Product.is_active p = true
                           /\ Item.product_id it = Product.product_id p
                           /\ Item.unit_price it = Product.base_price p)
                      (Transaction.items t))
         (transactions_json files).
Proof.
  intros H.
  pose proof (run_products_NoDup _ _ _ _ _ H) as Hids.
  pose proof (run_products _ _ _ _ _ H) as (-> & _).
  apply run_users in H as (-> & -> & _ & _ & _ & Hvalid & _).
  eapply Forall_impl; [exact Hvalid|].
  intros t ((ui & user & Hu & Hact & Hid & Hbill & Hship)
            & sel & Hnd & Hlen & Hall).
  split; [|split; [|split]].
  - exists user. split; [eapply list_elem_of_lookup_2, Hu|].
    split; [now apply String.eqb_eq|]. now repeat split.
  - now rewrite <- (Forall2_length _ _ _ Hall).
  - eapply items_NoDup; [exact Hids|exact Hnd|exact Hall].
  - apply Forall_lookup. intros i it Hit.
    destruct (Forall2_lookup_r _ _ _ _ _ Hall Hit)
      as (pi & _ & p & Hp & Hpact & Hpid & Hprice).
    exists p. split; [eapply list_elem_of_lookup_2, Hp|]. now repeat split.
Qed.

Lemma X8_transaction_references_witness :
  Forall (fun t =>
            (exists user, user ∈ users_json (snd (fst demo_done))
               /\ User.account_status user = "active"%string
               /\ Transaction.user_id t = User.user_id user
               /\ Transaction.billing_address t = User.geo_data user
               /\ Transaction.shipping_address t = User.geo_data user)
            /\ (1 <= length (Transaction.items t) <= 5)%nat
            /\ NoDup (map Item.product_id (Transaction.items t))
            /\ Forall (fun it =>
                         exists p, p ∈ products_json (snd (fst demo_done))
                           /\ Product.is_active p = true
                           /\ Item.product_id it = Product.product_id p
                           /\ Item.unit_price it = Product.base_price p)
                      (Transaction.items t))
         (transactions_json (snd (fst demo_done))).
Proof.
  apply (X8_transaction_references demo_config demo_world
           (fst (fst demo_done)) (snd (fst demo_done))
           (demo_at (snd demo_done))).
  vm_compute. reflexivity.
Defined.

(** X9. Transaction generation conserves units: when the product ids are
    distinct, each product ends with its stock at the start less the
    quantities of all items, of all new transactions, that carry its id; it
    is otherwise the same product. *)
Theorem X9_stock_conservation self w self' w' :
  NoDup (map Product.product_id (products self)) ->
  _generate_simple_transactions self w = Ok (self', w') ->
  exists new,
    transactions self' = transactions self ++ new
    /\ Forall2 (fun p p' =>
                  same_product p p'
                  /\ Product.current_stock p'
                     = (Product.current_stock p
                        - units_sold (Product.product_id p) new)%Z)
               (products self) (products self').
Proof.
  intros Hnd Hrun.
  apply transactions_trace in Hrun as (new & Hnew & Htrace & _).
  exists new. split; [exact Hnew|].
  pose proof (stock_trace_same _ _ _ Htrace) as Hsame.
  apply Forall2_same_length_lookup. split; [eapply Forall2_length, Hsame|].
  intros j p p' Hp Hp'. split.
  - destruct (Forall2_lookup_l _ _ _ _ _ Hsame Hp) as (q & Hq & Hpq).
    congruence.
  - eapply stock_trace_units; eassumption.
Qed.

Lemma X9_stock_conservation_witness :
  exists new,
    transactions (fst demo_sold) = transactions (fst demo_generated) ++ new
    /\ Forall2 (fun p p' =>
                  same_product p p'
                  /\ Product.current_stock p'
                     = (Product.current_stock p
                        - units_sold (Product.product_id p) new)%Z)
               (products (fst demo_generated)) (products (fst demo_sold)).
Proof.
  apply (X9_stock_conservation (fst demo_generated)
           (demo_at (snd demo_generated)) (fst demo_sold)
           (demo_at (snd demo_sold))).
  - apply (bool_decide_unpack (NoDup _)). vm_compute. reflexivity.
  - vm_compute. reflexivity.
Defined.

(** X10. Transaction generation never touches a product that is inactive or
    out of stock when it starts, nor a user whose account status is not
    ["active"]: such a product ends with the stock it had, such a user with
    the order count and lifetime value it had. *)
Theorem X10_unavailable_untouched s w s' w' :
  _generate_simple_transactions s w = Ok (s', w') ->
  Forall2 (fun p p' => is_available p = false -> p' = p)
          (products s) (products s')
  /\ Forall2 (fun u u' => is_active_user u = false -> u' = u)
             (users s) (users s').
Proof.
  intros Hrun. unfold _generate_simple_transactions in Hrun.
  eapply (for_each_inv
            (fun t =>
               Forall2 (fun p p' => is_available p = false -> p' = p)
                       (products s) (products t)
               /\ Forall2 (fun u u' => is_active_user u = false -> u' = u)
                          (users s) (users t)));
    [| |exact Hrun].
  - intros n t v t' v' _ (Hps & Hus) Hstep.
    pose proof (gen_transaction_inv _ _ _ _ _ Hstep) as Hkeep.
    apply gen_transaction_made in Hstep
      as [->|(tx & sel & _ & _ & Hav & Hframe)]; [now split|].
    split.
    + apply txn_step_keeps in Hkeep as (_ & _ & _ & Hsame & _).
      apply Forall2_same_length_lookup. split.
      * rewrite <- (Forall2_length _ _ _ Hsame). eapply Forall2_length, Hps.
      * intros j p p' Hp Hp' Hun.
        destruct (Forall2_lookup_l _ _ _ _ _ Hps Hp) as (p1 & Hp1 & Hp1eq).
        specialize (Hp1eq Hun). subst p1.
        rewrite Hframe in Hp'; [congruence|].
        intros Hin. destruct (Hav j Hin) as (p2 & Hp2 & Hav2). congruence.
    + inversion Hkeep as [Heq|ui user tx' ps' Hu Hact Hid Hpur Hprice Heq];
        [now rewrite <- Heq|].
      subst t'. cbn [users].
      apply Forall2_same_length_lookup. split.
      * rewrite length_insert. eapply Forall2_length, Hus.
      * intros j u u' Hu0 Hu' Hun.
        destruct (Forall2_lookup_l _ _ _ _ _ Hus Hu0) as (u1 & Hu1 & Hu1eq).
        specialize (Hu1eq Hun). subst u1.
        destruct (decide (j = ui)) as [->|Hne].
        -- congruence.
        -- rewrite list_lookup_insert_ne in Hu' by congruence. congruence.
  - split; apply Forall2_same_refl; auto.
Qed.

Lemma X10_unavailable_untouched_witness :
  Forall2 (fun p p' => is_available p = false -> p' = p)
          (products (fst demo_generated)) (products (fst demo_sold))
  /\ Forall2 (fun u u' => is_active_user u = false -> u' = u)
             (users (fst demo_generated)) (users (fst demo_sold)).
Proof.
  apply (X10_unavailable_untouched (fst demo_generated)
           (demo_at (snd demo_generated)) (fst demo_sold)
           (demo_at (snd demo_sold))).
  vm_compute. reflexivity.
Defined.

(** ** Sessions *)

(** X11. In every complete run each session belongs to a user of
    [users.json] and carries that user's address; it lasts between 30 and
    3600 seconds, its [end_time] being its [start_time] plus that duration,
    hence strictly later; it counts between 1 and 15 pages; and no product
    appears twice among the products it viewed. *)
Theorem X11_session_records cfg w g files w' :
  generate_all (init cfg) w = Ok ((g, files), w') ->
  Forall (fun s =>
            (exists user, user ∈ users_json files
               /\ Session.user_id s = User.user_id user
               /\ SessionGeo.base (Session.geo_data s) = User.geo_data user)
            /\ (30 <= Session.duration_seconds s <= 3600)%Z
            /\ Session.end_time s
               = (Session.start_time s
                  + Session.duration_seconds s * 1000000)%Z
            /\ (Session.start_time s < Session.end_time s)%Z
            /\ (1 <= Session.pages_viewed s <= 15)%Z
            /\ NoDup (Session.products_viewed s))
         (sessions g).
Proof.
  intros H.
  pose proof (run_products_NoDup _ _ _ _ _ H) as Hids.
  pose proof (run_users _ _ _ _ _ H) as (-> & _).
  apply generate_all_made in H
    as (start & ps0 & us0 & w3 & w4 & w5 & _ & _ & _ & _ & _ & _ & _ & _ & _
        & _ & Hmade & Hfacts & _).
  apply Forall_lookup. intros j s Hj.
  rewrite Forall_forall in Hmade, Hfacts.
  pose proof (list_elem_of_lookup_2 _ _ _ Hj) as Hs.
  destruct (Hmade s Hs) as (Huser & Hdur & Hend & Hpages).
  destruct (Hfacts s Hs) as (Hsub & _).
  split; [exact Huser|]. split; [exact Hdur|]. split; [exact Hend|].
  split; [lia|]. split; [exact Hpages|].
  eapply submseteq_NoDup; [exact Hsub|].
  eapply sublist_NoDup; [exact Hids|].
  apply (fmap_sublist Product.product_id), sublist_take.
Qed.

Lemma X11_session_records_witness :
  Forall (fun s =>
            (exists user, user ∈ users_json (snd (fst demo_done))
               /\ Session.user_id s = User.user_id user
               /\ SessionGeo.base (Session.geo_data s) = User.geo_data user)
            /\ (30 <= Session.duration_seconds s <= 3600)%Z
            /\ Session.end_time s
               = (Session.start_time s
                  + Session.duration_seconds s * 1000000)%Z
            /\ (Session.start_time s < Session.end_time s)%Z
            /\ (1 <= Session.pages_viewed s <= 15)%Z
            /\ NoDup (Session.products_viewed s))
         (sessions (fst (fst demo_done))).
Proof.
  apply (X11_session_records demo_config demo_world (fst (fst demo_done))
           (snd (fst demo_done)) (demo_at (snd demo_done))).
  vm_compute. reflexivity.
Defined.

(** ** Stages that return *)

Lemma last_item_some {A} (l : list A) x w :
  last l = Some x -> last_item l w = Ok (x, w).
Proof. intros H. apply last_item_ok. now split. Qed.

Lemma _generate_product_name_total category subcategory w :
  exists name w', _generate_product_name category subcategory w = Ok (name, w').
Proof.
  remember (_generate_product_name category subcategory w) as r eqn:E.
  unfold _generate_product_name in E. fwd E. unfold ret in E. eauto.
Qed.

Lemma _generate_product_tags_total w :
  exists tags w', _generate_product_tags w = Ok (tags, w').
Proof.
  unfold _generate_product_tags.
  destruct (random_facts.randint_total 0 4 w ltac:(lia)) as (k & w1 & Hk).
  rewrite (bind_step _ _ _ _ _ Hk).
  apply random_facts.randint_range in Hk.
  apply sample_facts.sample_total. change (length all_tags) with 16%nat. lia.
Qed.

Lemma brands_by_category_nonempty cat_name : brands_by_category cat_name <> [].
Proof.
  unfold brands_by_category.
  repeat (destruct (String.eqb cat_name _)); discriminate.
Qed.

(** One product is generated without raising as soon as there is a category
    to pick and every category has a subcategory. *)
Lemma gen_product_total start i s w :
  datetime_min <= start -> start + timedelta_days 180 <= datetime_max ->
  categories s <> [] ->
  Forall (fun c => Category.subcategories c <> []) (categories s) ->
  exists s' w', gen_product start i s w = Ok (s', w').
Proof.
  intros Hlo Hhi Hne Hsubs.
  remember (gen_product start i s w) as r eqn:E. unfold gen_product in E.
  destruct (random_facts.choice_total _ w Hne) as (c & w1 & Hc & Hin).
  rewrite (bind_step _ _ _ _ _ Hc) in E.
  rewrite Forall_forall in Hsubs.
  destruct (random_facts.choice_total _ w1 (Hsubs c Hin))
    as (sub & w2 & Hsub & _).
  rewrite (bind_step _ _ _ _ _ Hsub) in E. cbv beta zeta in E.
  destruct (price_ranges (Category.name c)) as [min_price max_price].
  fwd_step E.
  destruct (_generate_price_history_total (round x 2) start v Hlo Hhi)
    as (h & wv1 & Hh).
  rewrite (bind_step _ _ _ _ _ Hh) in E.
  pose proof (_generate_price_history_span _ _ _ _ _ Hh)
    as (_ & newest & Hnewest & _).
  pose proof (_generate_price_history_good _ _ _ _ _ Hh)
    as (_ & oldest & Holdest & _).
  rewrite (bind_step _ _ _ _ _ (last_item_some _ _ _ Hnewest)) in E.
  cbv beta zeta in E.
  destruct (random_facts.choice_total _ wv1
              (brands_by_category_nonempty (Category.name c)))
    as (brand & wv2 & Hbrand & _).
  rewrite (bind_step _ _ _ _ _ Hbrand) in E.
  fwd_step E.
  lazymatch type of E with
  | _ = bind (_generate_product_name ?a ?b) _ ?u =>
      destruct (_generate_product_name_total a b u) as (name & wv3 & Hname)
  end.
  rewrite (bind_step _ _ _ _ _ Hname) in E.
  fwd E.
  rewrite (bind_step _ _ _ _ _ (index_some _ _ _ _ Holdest)) in E.
  rewrite (bind_step _ _ _ _ _ (last_item_some _ _ _ Hnewest)) in E.
  lazymatch type of E with
  | _ = bind _generate_product_tags _ ?u =>
      destruct (_generate_product_tags_total u) as (tags & wv4 & Htags)
  end.
  rewrite (bind_step _ _ _ _ _ Htags) in E.
  fwd E. unfold ret in E. eauto.
Qed.

Lemma generate_products_total s w :
  timespan_fits (config s) -> reading_fits (clock w (cpos w)) ->
  categories s <> [] ->
  Forall (fun c => Category.subcategories c <> []) (categories s) ->
  exists s' w', generate_products s w = Ok (s', w').
Proof.
  intros Hspan Hclock Hne Hsubs. unfold generate_products.
  destruct (now_total w) as (t & w1 & Ht).
  assert (Hread : t = clock w (cpos w)).
  { unfold now in Ht. now injection Ht as <- _. }
  rewrite (bind_step _ _ _ _ _ Ht).
  unfold timespan_fits, reading_fits in *.
  rewrite (bind_step _ _ _ _ _
             (lift_some _ _ _
                (timedelta_ok
                   (timedelta_days (Config.TIMESPAN_DAYS (config s) * 2))
                   ltac:(unfold timedelta_days; lia)))).
  assert (Hstart : datetime_min
                   <= t + - timedelta_days (Config.TIMESPAN_DAYS (config s) * 2)
                   <= datetime_max - timedelta_days 180).
  { unfold datetime_min, datetime_max, timedelta_days in *. lia. }
  rewrite (bind_step _ _ _ _ _
             (lift_some _ _ _
                (datetime_add_ok t
                   (- timedelta_days (Config.TIMESPAN_DAYS (config s) * 2))
                   ltac:(unfold datetime_max, timedelta_days in *; lia)))).
  destruct (for_each_total (fun t => categories t = categories s)
              (range (Config.NUM_PRODUCTS (config s)))
              (gen_product
                 (t + - timedelta_days (Config.TIMESPAN_DAYS (config s) * 2))))
    with (s := s) (w := w1) as (s' & w' & Hrun & _); [|reflexivity|eauto].
  intros i u v _ Hcats.
  destruct (gen_product_total
              (t + - timedelta_days (Config.TIMESPAN_DAYS (config s) * 2))
              i u v) as (u' & v' & Hstep);
    [lia|unfold timedelta_days in *; lia|now rewrite Hcats..|].
  exists u', v'. split; [exact Hstep|].
  apply gen_product_made in Hstep as ((_ & Hc & _) & _). congruence.
Qed.

Lemma generate_users_total s w :
  timespan_fits (config s) ->
  5 <= len (active_category_ids (categories s)) ->
  exists s' w', generate_users s w = Ok (s', w').
Proof.
  intros Hspan Hfive. unfold generate_users.
  destruct (for_each_total
              (fun t => categories t = categories s /\ config t = config s)
              (range (Config.NUM_USERS (config s))) gen_user)
    with (s := s) (w := w) as (s' & w' & Hrun & _); [|now split|eauto].
  intros i u v _ [Hcats Hcfg].
  destruct (gen_user_outcome i u v)
    as (k & Hk & [(_ & u' & v' & x & Hstep & _)|(Hfew & _)]).
  - now rewrite Hcfg.
  - exists u', v'. split; [exact Hstep|].
    apply gen_user_facts in Hstep as ((Hcf & Hc & _) & _).
    split; congruence.
  - rewrite Hcats in Hfew. lia.
Qed.

Lemma gen_session_outcome i self w :
  (users self = [] -> gen_session i self w = Raise IndexError)
  /\ (users self <> [] ->
      timespan_fits (config self) -> clock_fits w ->
      exists k, (0 <= k <= 5)%Z
        /\ (((k <= len (take 100 (products self)))%Z
             /\ (exists self' w' s,
                   gen_session i self w = Ok (self', w')
                   /\ sessions self' = sessions self ++ [s]
                   /\ len (Session.products_viewed s) = k))
            \/ ((len (take 100 (products self)) < k)%Z
                /\ gen_session i self w = Raise ValueError))).
Proof.
  split.
  - intros Hnil. unfold gen_session. rewrite Hnil. reflexivity.
  - intros Hne Hspan Hfits.
    remember (gen_session i self w) as r eqn:E. unfold gen_session in E.
    destruct (random_facts.choice_total (users self) w Hne)
      as (user & w1 & Huser & _).
    rewrite (bind_step _ _ _ _ _ Huser) in E.
    fwd_step E.
    assert (Hfits1 : clock_fits v).
    { eapply clock_fits_kept; [|exact Hfits].
      eapply same_streams_trans;
        [eapply keeps_choice, Huser|eapply keeps_uuid4_hex, Hx]. }
    lazymatch type of E with
    | _ = bind (fake_date_time_between ?a ?b) _ ?u =>
        destruct (fake_date_time_between_fits a b u
                    ltac:(date_ok) ltac:(date_ok) Hfits1 I I)
          as (start & v1 & Hstart & Hrange)
    end.
    rewrite (bind_step _ _ _ _ _ Hstart) in E.
    fwd E.
    lazymatch type of E with
    | _ = bind (random.sample ?pop ?k) _ ?v =>
        match goal with
        | Hk : random.randint 0 5 _ = Ok (k, v) |- _ =>
            pose proof (random_facts.randint_range _ _ _ _ _ Hk) as Hviewed;
            exists k; split; [exact Hviewed|];
            assert (Hpop : len pop = len (take 100 (products self)))
              by (unfold len; now rewrite length_map);
            destruct (Z_le_gt_dec k (len pop)) as [Hle|Hgt]
        end
    end.
    + left. split; [lia|].
      lazymatch type of E with
      | _ = bind (random.sample ?pop ?k) _ ?v =>
          destruct (sample_facts.sample_total pop k v
                      ltac:(unfold len in Hle; lia))
            as (viewed & vs & Hs)
      end.
      rewrite (bind_step _ _ _ _ _ Hs) in E. cbv beta in E.
      apply sample_facts.sample_sub in Hs as (_ & Hlen & _).
      fwd E.
      lazymatch type of E with
      | _ = bind (lift (datetime_add ?t (timedelta_seconds ?d))) _ ?u =>
          match goal with
          | Hd : random.randint 30 3600 _ = Ok (d, _) |- _ =>
              apply random_facts.randint_range in Hd
          end;
          rewrite (bind_step _ _ _ _ _
                     (lift_some _ _ u
                        (datetime_add_ok t (timedelta_seconds d)
                           ltac:(unfold timedelta_seconds, timedelta_days,
                                   datetime_min, datetime_max in *; lia))))
            in E
      end.
      unfold ret in E.
      do 3 eexists. split; [exact E|]. split; [reflexivity|]. exact Hlen.
    + right. split; [lia|].
      rewrite E. unfold bind at 1.
      rewrite sample_facts.sample_too_large; [reflexivity|].
      unfold len in Hgt. lia.
Qed.

Lemma generate_sessions_total s w :
  timespan_fits (config s) -> clock_fits w ->
  users s <> [] -> 5 <= len (products s) ->
  exists s' w', _generate_simple_sessions s w = Ok (s', w').
Proof.
  intros Hspan Hfits Hne Hfive. unfold _generate_simple_sessions.
  destruct (for_each_total_world
              (fun t v => users t = users s /\ products t = products s
                          /\ config t = config s /\ clock_fits v)
              (range (Config.NUM_SESSIONS (config s))) gen_session)
    with (s := s) (w := w) as (s' & w' & Hrun & _);
    [|split; [|split; [|split]]; (reflexivity || exact Hfits)|eauto].
  intros i u v (Hus & Hps & Hcfg & Hv).
  destruct (proj2 (gen_session_outcome i u v))
    as (k & Hk & [(_ & u' & v' & x & Hstep & _)|(Hfew & _)]).
  - now rewrite Hus.
  - now rewrite Hcfg.
  - exact Hv.
  - exists u', v'. split; [exact Hstep|].
    pose proof (keeps_gen_session _ _ _ _ _ Hstep) as Hkept.
    apply gen_session_facts in Hstep as ((Hc & _ & Hp & Hu & _) & _).
    split; [congruence|]. split; [congruence|]. split; [congruence|].
    eapply clock_fits_kept; eassumption.
  - rewrite Hps in Hfew. unfold len in *. rewrite length_take in Hfew. lia.
Qed.

(** ** Session attempts *)



(** ** Session files *)

Lemma range_step_pos stop step :
  (0 < step)%Z -> (0 <= stop)%Z ->
  range_step stop step
  = Ok (map (fun j => (Z.of_nat j * step)%Z) (seq 0 (chunk_count stop step))).
Proof.
  intros Hstep Hstop. unfold range_step, chunk_count.
  destruct (Z.eqb_spec step 0) as [?|_]; [lia|].
  destruct (Z.ltb_spec step 0) as [?|_]; [lia|]. reflexivity.
Qed.

(** Cutting a list into [m] pieces of length [c] gives back its first
    [m * c] entries. *)
Lemma concat_pieces {A} (l : list A) (c m : nat) :
  concat (map (fun j => take c (drop (j * c) l)) (seq 0 m)) = take (m * c) l.
Proof.
  induction m as [|m IH]; [reflexivity|].
  rewrite seq_S, map_app, concat_app, IH. simpl.
  rewrite app_nil_r, take_take_drop. f_equal. lia.
Qed.

Lemma chunk_count_bounds n size :
  (0 < size)%Z -> (0 <= n)%Z ->
  (n <= Z.of_nat (chunk_count n size) * size < n + size)%Z.
Proof.
  intros Hsize Hn. unfold chunk_count.
  rewrite Z2Nat.id by (apply Z.div_pos; lia).
  pose proof (Z.div_mod (n + size - 1) size ltac:(lia)) as Hdm.
  pose proof (Z.mod_pos_bound (n + size - 1) size Hsize). nia.
Qed.

Lemma session_chunks_map self :
  (0 < Config.CHUNK_SIZE (config self))%Z ->
  map (session_chunk self)
      (map (fun j => (Z.of_nat j * Config.CHUNK_SIZE (config self))%Z)
           (seq 0 (chunk_count (len (sessions self))
                     (Config.CHUNK_SIZE (config self)))))
  = map (fun j =>
           (chunk_name j,
            take (Z.to_nat (Config.CHUNK_SIZE (config self)))
                 (drop (j * Z.to_nat (Config.CHUNK_SIZE (config self)))
                       (sessions self))))
        (seq 0 (chunk_count (len (sessions self))
                  (Config.CHUNK_SIZE (config self)))).
Proof.
  intros Hsize. rewrite map_map. apply map_ext. intros j.
  unfold session_chunk, chunk_name.
  rewrite Z.div_mul by lia. rewrite Nat2Z.id. do 3 f_equal. lia.
Qed.

Lemma length_append (s t : string) :
  String.length (s +:+ t) = (String.length s + String.length t)%nat.
Proof. induction s as [|c s IH]; simpl; [reflexivity|now rewrite IH]. Qed.

Lemma append_inj_r (s1 s2 t : string) :
  (s1 +:+ t)%string = (s2 +:+ t)%string -> s1 = s2.
Proof.
  revert s2. induction s1 as [|c s1 IH]; intros [|d s2] H; simpl in H.
  - reflexivity.
  - apply (f_equal String.length) in H.
    rewrite !length_append in H. simpl in H. lia.
  - apply (f_equal String.length) in H.
    rewrite !length_append in H. simpl in H. lia.
  - injection H as -> H. f_equal. now apply IH.
Qed.

Lemma chunk_name_inj i j : chunk_name i = chunk_name j -> i = j.
Proof.
  unfold chunk_name. intros H.
  apply append_inj_l in H.
  eapply fmt_d_inj, append_inj_r, H.
Qed.

(** X13. With a positive [CHUNK_SIZE], [save_data] splits the sessions over
    the files [sessions_000.json], [sessions_001.json], ..., as many as
    [CHUNK_SIZE] goes into the session count, rounded up: read back in file
    order the chunks are exactly the sessions, none lost, repeated or moved;
    no two files have the same name, so none overwrites another; no file is
    empty, none holds more than [CHUNK_SIZE] sessions, and every file but
    the last holds exactly [CHUNK_SIZE]. *)
Theorem X13_session_chunks self w files w' :
  (0 < Config.CHUNK_SIZE (config self))%Z ->
  save_data self w = Ok (files, w') ->
  concat (map snd (sessions_chunks files)) = sessions self
  /\ map fst (sessions_chunks files)
     = map chunk_name
         (seq 0 (chunk_count (len (sessions self))
                   (Config.CHUNK_SIZE (config self))))
  /\ NoDup (map fst (sessions_chunks files))
  /\ forall j c, sessions_chunks files !! j = Some c ->
       (1 <= len (snd c) <= Config.CHUNK_SIZE (config self))%Z
       /\ ((S j < length (sessions_chunks files))%nat ->
           len (snd c) = Config.CHUNK_SIZE (config self)).
Proof.
  intros Hsize H. unfold save_data in H.
  rewrite (range_step_pos _ _ Hsize) in H by (unfold len; lia).
  unfold bind at 1, lift in H.
  bind_inv H. subst files. cbn [sessions_chunks].
  rewrite (session_chunks_map self Hsize).
  set (size := Config.CHUNK_SIZE (config self)) in *.
  set (c := Z.to_nat size).
  set (m := chunk_count (len (sessions self)) size).
  pose proof (chunk_count_bounds (len (sessions self)) size Hsize
                ltac:(unfold len; lia)) as Hcount.
  fold m in Hcount. unfold len in Hcount.
  split; [|split; [|split]].
  - rewrite map_map. cbn [snd].
    rewrite (concat_pieces (sessions self) c m).
    apply take_ge. subst c. nia.
  - rewrite map_map. reflexivity.
  - rewrite map_map. cbn [fst].
    apply NoDup_fmap_2_strong; [|apply NoDup_seq].
    intros i j _ _. apply chunk_name_inj.
  - intros j ch Hj. rewrite list_lookup_fmap in Hj.
    destruct (seq 0 m !! j) as [j'|] eqn:Hseq; [|discriminate].
    apply lookup_seq in Hseq as [-> Hlt]. simpl in Hj. injection Hj as <-.
    cbn [snd]. unfold len. rewrite length_take, length_drop.
    rewrite length_map, length_seq. subst c. split; [nia|].
    intros Hnext. nia.
Qed.

Lemma X13_session_chunks_witness :
  concat (map snd (sessions_chunks (snd (fst demo_done))))
  = sessions (fst demo_browsed)
  /\ map fst (sessions_chunks (snd (fst demo_done)))
     = map chunk_name
         (seq 0 (chunk_count (len (sessions (fst demo_browsed)))
                   (Config.CHUNK_SIZE (config (fst demo_browsed)))))
  /\ NoDup (map fst (sessions_chunks (snd (fst demo_done))))
  /\ forall j c, sessions_chunks (snd (fst demo_done)) !! j = Some c ->
       (1 <= len (snd c) <= Config.CHUNK_SIZE (config (fst demo_browsed)))%Z
       /\ ((S j < length (sessions_chunks (snd (fst demo_done))))%nat ->
           len (snd c) = Config.CHUNK_SIZE (config (fst demo_browsed))).
Proof.
  apply (X13_session_chunks (fst demo_browsed) (demo_at (snd demo_browsed))
           (snd (fst demo_done)) (demo_at (snd demo_done))).
  - vm_compute. reflexivity.
  - vm_compute. reflexivity.
Defined.

(** What the summary counts. *)
Lemma summary_counts self w sm w' :
  _generate_summary self w = Ok (sm, w') ->
  Summary.data_volumes sm
  = {| DataVolumes.categories := len (categories self);
       DataVolumes.products := len (products self);
       DataVolumes.users := len (users self);
       DataVolumes.sessions := len (sessions self);
       DataVolumes.transactions := len (transactions self);
       DataVolumes.total_records :=
         len (categories self) + len (products self) + len (users self)
         + len (sessions self) + len (transactions self) |}
  /\ Summary.data_quality sm
     = {| DataQuality.products_with_reviews :=
            count (fun p => (0 <? Product.review_count p)%Z) (products self);
          DataQuality.users_with_preferences :=
            count (fun u =>
                     negb (is_nil (Preferences.preferred_categories
                                     (User.preferences u))))
                  (users self);
          DataQuality.transactions_with_discounts :=
            count (fun t => PrimFloat.ltb 0 (Transaction.discount t))
                  (transactions self) |}
  /\ Summary.time_range sm
     = {| TimeRange.start_date :=
            min_or_none (map Session.start_time (sessions self));
          TimeRange.end_date :=
            max_or_none (map Session.end_time (sessions self)) |}.
Proof.
  intros H. unfold _generate_summary in H. bind_inv H. subst sm.
  repeat split.
Qed.

(** X14. A [CHUNK_SIZE] of zero makes [save_data] raise [ValueError],
    whatever the sessions.  A negative [CHUNK_SIZE] is accepted in silence:
    with at least one product [save_data] returns, but it writes no session
    file at all, while the summary it writes still counts every session. *)
Theorem X14_chunk_size_not_positive self w :
  (Config.CHUNK_SIZE (config self) = 0 -> save_data self w = Raise ValueError)
  /\ (Config.CHUNK_SIZE (config self) < 0 -> products self <> [] ->
      exists files w',
        save_data self w = Ok (files, w')
        /\ sessions_chunks files = []
        /\ DataVolumes.sessions
             (Summary.data_volumes (dataset_summary_json files))
           = len (sessions self)).
Proof.
  split.
  - intros Hzero. unfold save_data, range_step. rewrite Hzero. reflexivity.
  - intros Hneg Hne. unfold save_data, range_step.
    destruct (Z.eqb_spec (Config.CHUNK_SIZE (config self)) 0) as [?|_]; [lia|].
    destruct (Z.ltb_spec (Config.CHUNK_SIZE (config self)) 0) as [_|?]; [|lia].
    unfold bind at 1, lift.
    destruct (summary_with_products self w Hne) as (sm & w' & Hsum).
    rewrite (bind_step _ _ _ _ _ Hsum). unfold ret.
    do 2 eexists. split; [reflexivity|]. split; [reflexivity|].
    cbn [dataset_summary_json].
    apply summary_counts in Hsum as (-> & _). reflexivity.
Qed.

Lemma X14_chunk_size_not_positive_witness :
  save_data (with_config zero_chunk_config (fst demo_browsed))
    (demo_at (snd demo_browsed)) = Raise ValueError
  /\ exists files w',
       save_data (with_config negative_chunk_config (fst demo_browsed))
         (demo_at (snd demo_browsed)) = Ok (files, w')
       /\ sessions_chunks files = []
       /\ DataVolumes.sessions
            (Summary.data_volumes (dataset_summary_json files))
          = len (sessions
                   (with_config negative_chunk_config (fst demo_browsed))).
Proof.
  split.
  - apply (proj1 (X14_chunk_size_not_positive
                    (with_config zero_chunk_config (fst demo_browsed))
                    (demo_at (snd demo_browsed)))).
    reflexivity.
  - apply (proj2 (X14_chunk_size_not_positive
                    (with_config negative_chunk_config (fst demo_browsed))
                    (demo_at (snd demo_browsed)))).
    + reflexivity.
    + vm_compute. discriminate.
Defined.

(** ** The summary *)

Lemma count_all {A} (p : A -> bool) (l : list A) :
  Forall (fun x => p x = true) l -> count p l = len l.
Proof.
  intros Hall. unfold count. f_equal.
  induction Hall as [|x l Hx _ IH]; [reflexivity|].
  simpl. rewrite Hx. now f_equal.
Qed.

(** X15. In every complete run the volumes written to
    [dataset_summary.json] are those of the configuration: as many
    categories as the table's prefix holds, [NUM_PRODUCTS] products,
    [NUM_USERS] users and [NUM_SESSIONS] sessions (none for a negative
    number), the transactions written, at most [NUM_TRANSACTIONS] of them,
    and the sum of the five as the total; and the quality metric
    [users_with_preferences] is the number of users, no user being without
    a preferred category. *)
Theorem X15_summary_volumes cfg w g files w' :
  generate_all (init cfg) w = Ok ((g, files), w') ->
  let v := Summary.data_volumes (dataset_summary_json files) in
  DataVolumes.categories v = category_count (Config.NUM_CATEGORIES cfg)
  /\ DataVolumes.products v = Config.NUM_PRODUCTS cfg
  /\ DataVolumes.users v = Z.max 0 (Config.NUM_USERS cfg)
  /\ DataVolumes.sessions v = Z.max 0 (Config.NUM_SESSIONS cfg)
  /\ (0 <= DataVolumes.transactions v
      <= Z.max 0 (Config.NUM_TRANSACTIONS cfg))%Z
  /\ DataVolumes.transactions v = len (transactions_json files)
  /\ DataVolumes.total_records v
     = (DataVolumes.categories v + DataVolumes.products v
        + DataVolumes.users v + DataVolumes.sessions v
        + DataVolumes.transactions v)%Z
  /\ DataQuality.users_with_preferences
       (Summary.data_quality (dataset_summary_json files))
     = DataVolumes.users v.
Proof.
  intros H v. subst v.
  pose proof (run_products _ _ _ _ _ H) as (_ & _ & _ & Hps & _).
  pose proof (run_users _ _ _ _ _ H)
    as (_ & Hts & Hus & Husers & _ & _ & Hcount & _).
  apply generate_all_made in H
    as (start & ps0 & us0 & w3 & w4 & w5 & _ & _ & Hcats & _ & _ & _ & _ & _
        & _ & Hss & _ & _ & Hsave).
  apply save_data_files in Hsave as (_ & _ & _ & _ & v0 & v1 & Hsum).
  apply summary_counts in Hsum as (-> & -> & _).
  cbn [DataVolumes.categories DataVolumes.products DataVolumes.users
       DataVolumes.sessions DataVolumes.transactions
       DataVolumes.total_records DataQuality.users_with_preferences].
  rewrite Hts.
  split; [exact Hcats|]. split; [exact Hps|]. split; [exact Hus|].
  split; [unfold len; lia|]. split; [unfold len in *; lia|].
  split; [reflexivity|]. split; [reflexivity|].
  apply count_all. apply Forall_lookup. intros j u Hj.
  destruct (Husers j u Hj) as (u0 & Hsame & _ & (_ & _ & _ & _ & Hlen)).
  apply same_user_fields in Hsame as (_ & _ & _ & -> & _).
  destruct (Preferences.preferred_categories (User.preferences u0));
    [simpl in Hlen; lia|reflexivity].
Qed.

Lemma X15_summary_volumes_witness :
  DataVolumes.categories
    (Summary.data_volumes (dataset_summary_json (snd (fst demo_done))))
  = category_count (Config.NUM_CATEGORIES demo_config)
  /\ DataVolumes.products
       (Summary.data_volumes (dataset_summary_json (snd (fst demo_done))))
     = Config.NUM_PRODUCTS demo_config
  /\ DataVolumes.users
       (Summary.data_volumes (dataset_summary_json (snd (fst demo_done))))
     = Z.max 0 (Config.NUM_USERS demo_config)
  /\ DataVolumes.sessions
       (Summary.data_volumes (dataset_summary_json (snd (fst demo_done))))
     = Z.max 0 (Config.NUM_SESSIONS demo_config)
  /\ (0 <= DataVolumes.transactions
             (Summary.data_volumes (dataset_summary_json (snd (fst demo_done))))
      <= Z.max 0 (Config.NUM_TRANSACTIONS demo_config))%Z
  /\ DataVolumes.transactions
       (Summary.data_volumes (dataset_summary_json (snd (fst demo_done))))
     = len (transactions_json (snd (fst demo_done)))
  /\ DataVolumes.total_records
       (Summary.data_volumes (dataset_summary_json (snd (fst demo_done))))
     = (DataVolumes.categories
          (Summary.data_volumes (dataset_summary_json (snd (fst demo_done))))
        + DataVolumes.products
            (Summary.data_volumes (dataset_summary_json (snd (fst demo_done))))
        + DataVolumes.users
            (Summary.data_volumes (dataset_summary_json (snd (fst demo_done))))
        + DataVolumes.sessions
            (Summary.data_volumes (dataset_summary_json (snd (fst demo_done))))
        + DataVolumes.transactions
            (Summary.data_volumes (dataset_summary_json (snd (fst demo_done)))))%Z
  /\ DataQuality.users_with_preferences
       (Summary.data_quality (dataset_summary_json (snd (fst demo_done))))
     = DataVolumes.users
         (Summary.data_volumes (dataset_summary_json (snd (fst demo_done)))).
Proof.
  apply (X15_summary_volumes demo_config demo_world (fst (fst demo_done))
           (snd (fst demo_done)) (demo_at (snd demo_done))).
  vm_compute. reflexivity.
Defined.

Lemma fold_min_spec l x :
  let m := fold_left Z.min l x in
  (m <= x)%Z /\ Forall (fun y => (m <= y)%Z) l /\ m ∈ x :: l.
Proof.
  revert x. induction l as [|y l IH]; intros x; simpl.
  - split; [lia|]. split; [constructor|left].
  - destruct (IH (Z.min x y)) as (Hle & Hall & Hin).
    split; [lia|]. split; [constructor; [lia|exact Hall]|].
    apply elem_of_cons in Hin as [Hm|Hin].
    + rewrite Hm. destruct (Z.min_spec x y) as [[_ ->]|[_ ->]];
        [left|right; left].
    + right. now right.
Qed.

Lemma fold_max_spec l x :
  let m := fold_left Z.max l x in
  (x <= m)%Z /\ Forall (fun y => (y <= m)%Z) l /\ m ∈ x :: l.
Proof.
  revert x. induction l as [|y l IH]; intros x; simpl.
  - split; [lia|]. split; [constructor|left].
  - destruct (IH (Z.max x y)) as (Hle & Hall & Hin).
    split; [lia|]. split; [constructor; [lia|exact Hall]|].
    apply elem_of_cons in Hin as [Hm|Hin].
    + rewrite Hm. destruct (Z.max_spec x y) as [[_ ->]|[_ ->]];
        [right; left|left].
    + right. now right.
Qed.

(** X16. The time range of the summary: with no session both dates are
    [None]; otherwise [start_date] is the earliest [start_time] of any
    session and [end_date] the latest [end_time], each one a date that some
    session carries (instants are compared, which order as their ISO
    strings do). *)
Theorem X16_summary_time_range self w sm w' :
  _generate_summary self w = Ok (sm, w') ->
  (sessions self = [] ->
   Summary.time_range sm = TimeRange.mk None None)
  /\ (sessions self <> [] ->
      exists a b,
        Summary.time_range sm = TimeRange.mk (Some a) (Some b)
        /\ Forall (fun s => (a <= Session.start_time s)%Z
                            /\ (Session.end_time s <= b)%Z) (sessions self)
        /\ a ∈ map Session.start_time (sessions self)
        /\ b ∈ map Session.end_time (sessions self)).
Proof.
  intros H. apply summary_counts in H as (_ & _ & ->).
  split; [intros ->; reflexivity|].
  intros Hne. destruct (sessions self) as [|s ss]; [contradiction|].
  cbn [map min_or_none max_or_none].
  pose proof (fold_min_spec (map Session.start_time ss) (Session.start_time s))
    as (Hmin & Hmins & Hminin).
  pose proof (fold_max_spec (map Session.end_time ss) (Session.end_time s))
    as (Hmax & Hmaxs & Hmaxin).
  cbv zeta in *.
  do 2 eexists. split; [reflexivity|]. split; [|split; assumption].
  constructor; [split; assumption|].
  rewrite Forall_fmap in Hmins, Hmaxs.
  apply Forall_lookup. intros j x Hj.
  rewrite Forall_forall in Hmins, Hmaxs.
  pose proof (list_elem_of_lookup_2 _ _ _ Hj) as Hx.
  split; [apply (Hmins x Hx)|apply (Hmaxs x Hx)].
Qed.

Lemma X16_summary_time_range_witness :
  exists a b,
    Summary.time_range (dataset_summary_json (snd (fst demo_done)))
    = TimeRange.mk (Some a) (Some b)
    /\ Forall (fun s => (a <= Session.start_time s)%Z
                        /\ (Session.end_time s <= b)%Z)
              (sessions (fst demo_browsed))
    /\ a ∈ map Session.start_time (sessions (fst demo_browsed))
    /\ b ∈ map Session.end_time (sessions (fst demo_browsed)).
Proof.
  refine (proj2 (X16_summary_time_range (fst demo_browsed)
                   (demo_at (snd demo_browsed))
                   (dataset_summary_json (snd (fst demo_done)))
                   (demo_at (snd demo_done)) _) _).
  - vm_compute. reflexivity.
  - vm_compute. discriminate.
Defined.

(** ** What a complete run needs *)

(** X17. A run completes only for a configuration with at least one
    product, at least one category kept from the table, a [CHUNK_SIZE]
    other than zero, and at least one user as soon as it asks for a
    transaction or a session; and then, if it has users, some category is
    active, and if it asks for a transaction, some user's account is
    active.  For any other configuration [generate_all] raises. *)
Theorem X17_complete_run_needs cfg w g files w' :
  generate_all (init cfg) w = Ok ((g, files), w') ->
  (1 <= Config.NUM_PRODUCTS cfg)%Z
  /\ (1 <= category_count (Config.NUM_CATEGORIES cfg))%Z
  /\ Config.CHUNK_SIZE cfg <> 0%Z
  /\ ((1 <= Config.NUM_TRANSACTIONS cfg)%Z \/ (1 <= Config.NUM_SESSIONS cfg)%Z ->
      (1 <= Config.NUM_USERS cfg)%Z)
  /\ ((1 <= Config.NUM_USERS cfg)%Z ->
      exists c, c ∈ categories_json files /\ Category.is_active c = true)
  /\ ((1 <= Config.NUM_TRANSACTIONS cfg)%Z ->
      exists u, u ∈ users_json files
                /\ User.account_status u = "active"%string).
Proof.
  intros H.
  pose proof (run_products _ _ _ _ _ H) as (_ & Hcj & Hpos & Hlen & Hmade).
  pose proof (run_users _ _ _ _ _ H)
    as (Huj & _ & Hus & Husers & _ & _ & _ & Hactive).
  apply generate_all_made in H
    as (start & ps0 & us0 & w3 & w4 & w5 & Hcfg & _ & Hcats & _ & _ & _ & _ & _
        & _ & Hss & Hsess & _ & Hsave).
  rewrite Hcj, Huj.
  assert (Hchunk : Config.CHUNK_SIZE cfg <> 0).
  { intros Hzero. unfold save_data, range_step in Hsave.
    rewrite Hcfg, Hzero in Hsave. discriminate. }
  assert (Huser : forall u, u ∈ users g -> 1 <= Config.NUM_USERS cfg).
  { intros u Hu. apply list_elem_of_lookup in Hu as [j Hj].
    apply lookup_lt_Some in Hj. unfold len in Hus. lia. }
  split; [exact Hpos|]. split; [|split; [exact Hchunk|split; [|split]]].
  - destruct (products g) as [|p ps] eqn:Hps; [unfold len in Hlen; simpl in Hlen; lia|].
    destruct (Hmade 0%nat p eq_refl) as (_ & (c & _ & Hc & _) & _).
    apply list_elem_of_lookup in Hc as [j Hj].
    apply lookup_lt_Some in Hj. unfold len in Hcats. lia.
  - intros [Htx|Hse].
    + destruct Hactive as (u & Hu & _); [right; lia|]. eapply Huser, Hu.
    + destruct (sessions g) as [|s ss] eqn:Hsg; [simpl in Hss; lia|].
      apply Forall_cons in Hsess as [((u & Hu & _) & _) _].
      eapply Huser, Hu.
  - intros Hn.
    destruct (users g) as [|u us] eqn:Hug; [unfold len in Hus; simpl in Hus; lia|].
    destruct (Husers 0%nat u eq_refl)
      as (u0 & _ & _ & (_ & _ & _ & Hsub & Hlen0)).
    destruct (Preferences.preferred_categories (User.preferences u0))
      as [|id ids] eqn:Hprefs; [simpl in Hlen0; lia|].
    assert (Hid : id ∈ active_category_ids (categories g)).
    { eapply elem_of_submseteq; [|exact Hsub]. left. }
    apply active_category_ids_spec in Hid as (c & Hc & _ & Hact).
    exists c. now split.
  - intros Hn. destruct Hactive as (u & Hu & Hact); [right; lia|].
    exists u. split; [exact Hu|]. now apply String.eqb_eq.
Qed.

Lemma X17_complete_run_needs_witness :
  (1 <= Config.NUM_PRODUCTS demo_config)%Z
  /\ (1 <= category_count (Config.NUM_CATEGORIES demo_config))%Z
  /\ Config.CHUNK_SIZE demo_config <> 0%Z
  /\ ((1 <= Config.NUM_TRANSACTIONS demo_config)%Z
      \/ (1 <= Config.NUM_SESSIONS demo_config)%Z ->
      (1 <= Config.NUM_USERS demo_config)%Z)
  /\ ((1 <= Config.NUM_USERS demo_config)%Z ->
      exists c, c ∈ categories_json (snd (fst demo_done))
                /\ Category.is_active c = true)
  /\ ((1 <= Config.NUM_TRANSACTIONS demo_config)%Z ->
      exists u, u ∈ users_json (snd (fst demo_done))
                /\ User.account_status u = "active"%string).
Proof.
  apply (X17_complete_run_needs demo_config demo_world (fst (fst demo_done))
           (snd (fst demo_done)) (demo_at (snd demo_done))).
  vm_compute. reflexivity.
Defined.

Lemma generate_products_no_category s w :
  timespan_fits (config s) -> reading_fits (clock w (cpos w)) ->
  categories s = [] ->
  (1 <= Config.NUM_PRODUCTS (config s) ->
   generate_products s w = Raise IndexError)
  /\ (Config.NUM_PRODUCTS (config s) <= 0 ->
      exists w', generate_products s w = Ok (s, w')).
Proof.
  intros Hspan Hclock Hnil. unfold generate_products.
  destruct (now_total w) as (t & w1 & Ht).
  assert (Hread : t = clock w (cpos w)).
  { unfold now in Ht. now injection Ht as <- _. }
  rewrite (bind_step _ _ _ _ _ Ht).
  unfold timespan_fits, reading_fits in *.
  rewrite (bind_step _ _ _ _ _
             (lift_some _ _ _
                (timedelta_ok
                   (timedelta_days (Config.TIMESPAN_DAYS (config s) * 2))
                   ltac:(unfold timedelta_days; lia)))).
  rewrite (bind_step _ _ _ _ _
             (lift_some _ _ _
                (datetime_add_ok t
                   (- timedelta_days (Config.TIMESPAN_DAYS (config s) * 2))
                   ltac:(unfold datetime_min, datetime_max, timedelta_days in *;
                         lia)))).
  unfold range. split; intros Hn.
  - destruct (Z.to_nat (Config.NUM_PRODUCTS (config s))) as [|n] eqn:Hk; [lia|].
    simpl seq. rewrite for_each_cons. unfold gen_product at 1.
    rewrite Hnil. reflexivity.
  - replace (Z.to_nat (Config.NUM_PRODUCTS (config s))) with 0%nat by lia.
    exists w1. reflexivity.
Qed.

(** X18. A configuration that keeps no category of the table and asks for
    at least one product makes [generate_all] raise [IndexError], when its
    time span is between 0 and 239720 days and the clocks read between the
    epoch and 180 days before the end of year 9999: the category stage
    returns with no category, the start of product creation is a date, and
    the first product picks its category from the empty list. *)
Theorem X18_no_category cfg w :
  timespan_fits cfg -> clock_fits w ->
  category_count (Config.NUM_CATEGORIES cfg) = 0%Z ->
  (1 <= Config.NUM_PRODUCTS cfg)%Z ->
  generate_all (init cfg) w = Raise IndexError.
Proof.
  intros Hspan Hfits Hnone Hpos.
  destruct (generate_categories_run (init cfg) w)
    as (s1 & w1 & new & Hrun & (Hcfg & _) & Hcats & Hlen & _).
  cbn [config init categories] in Hcfg, Hcats, Hlen.
  rewrite Hnone in Hlen. destruct new; [|discriminate]. simpl in Hcats.
  unfold generate_all. rewrite (bind_step _ _ _ _ _ Hrun).
  unfold bind at 1.
  assert (Hfits1 : clock_fits w1).
  { eapply clock_fits_kept; [eapply keeps_generate_categories, Hrun|exact Hfits]. }
  rewrite (proj1 (generate_products_no_category s1 w1
                    ltac:(now rewrite Hcfg) (proj1 Hfits1 _) Hcats));
    [reflexivity|now rewrite Hcfg].
Qed.

Lemma X18_no_category_witness :
  generate_all (init no_category_config) demo_world = Raise IndexError.
Proof.
  apply (X18_no_category no_category_config demo_world).
  - apply timespan_fits_check. reflexivity.
  - apply (clock_fits_demo (0, 0, 0, 0)%nat).
  - reflexivity.
  - vm_compute. discriminate.
Defined.


(** ** When the stages cannot raise *)

Lemma category_data_subcategories entry :
  entry ∈ category_data -> snd entry <> [].
Proof.
  assert (Hall : Forall (fun e : string * list string => snd e <> [])
                   category_data) by (repeat constructor; discriminate).
  rewrite Forall_forall in Hall. apply Hall.
Qed.

(** From a fresh generator, the catalogue stages return when a category is
    kept. *)
Lemma catalogue_total cfg w :
  timespan_fits cfg -> clock_fits w ->
  (1 <= category_count (Config.NUM_CATEGORIES cfg))%Z ->
  exists s1 w1 s2 w2,
    generate_categories (init cfg) w = Ok (s1, w1)
    /\ generate_products s1 w1 = Ok (s2, w2)
    /\ config s1 = cfg.
Proof.
  intros Hspan Hfits Hone.
  destruct (generate_categories_run (init cfg) w)
    as (s1 & w1 & new & Hrun & (Hcfg & _ & _) & Hcats & Hlen & Hfacts).
  cbn [config init categories products] in *. simpl in Hcats. subst new.
  assert (Hfits1 : clock_fits w1).
  { eapply clock_fits_kept; [eapply keeps_generate_categories, Hrun|exact Hfits]. }
  destruct (generate_products_total s1 w1) as (s2 & w2 & Hrun2).
  - now rewrite Hcfg.
  - apply Hfits1.
  - destruct (categories s1); [simpl in Hlen; lia|discriminate].
  - apply Forall_lookup. intros j c Hj.
    destruct (Hfacts j c Hj) as (entry & He & _ & _ & _ & Hnames & _).
    intros Hnil. rewrite Hnil in Hnames. simpl in Hnames.
    apply (category_data_subcategories entry);
      [eapply list_elem_of_lookup_2, He|now symmetry].
  - exists s1, w1, s2, w2. auto.
Qed.

(** X19. The catalogue stages cannot raise once a category is kept, when
    the time span is between 0 and 239720 days and the clocks read between
    the epoch and 180 days before the end of year 9999: from a fresh
    generator whose configuration keeps at least one category of the table,
    [generate_categories] and then [generate_products] both return, every
    pick being made from a non-empty list and every date staying in range,
    and leave exactly [NUM_PRODUCTS] products (none for a negative
    number). *)
Theorem X19_catalogue_never_raises cfg w :
  timespan_fits cfg -> clock_fits w ->
  (1 <= category_count (Config.NUM_CATEGORIES cfg))%Z ->
  exists s1 w1 s2 w2,
    generate_categories (init cfg) w = Ok (s1, w1)
    /\ generate_products s1 w1 = Ok (s2, w2)
    /\ len (products s2) = Z.max 0 (Config.NUM_PRODUCTS cfg).
Proof.
  intros Hspan Hfits Hone.
  destruct (catalogue_total cfg w Hspan Hfits Hone)
    as (s1 & w1 & s2 & w2 & Hrun & Hrun2 & Hcfg).
  exists s1, w1, s2, w2. split; [exact Hrun|]. split; [exact Hrun2|].
  apply generate_products_facts in Hrun2
    as ((_ & _) & ps & Hps & Hlen2 & _).
  pose proof (generate_categories_keeps _ _ _ _ Hrun) as (_ & Hp & _).
  simpl in Hp. rewrite Hcfg in Hlen2. rewrite Hps, Hp. simpl.
  unfold len. lia.
Qed.

Lemma X19_catalogue_never_raises_witness :
  exists s1 w1 s2 w2,
    generate_categories (init demo_config) demo_world = Ok (s1, w1)
    /\ generate_products s1 w1 = Ok (s2, w2)
    /\ len (products s2) = Z.max 0 (Config.NUM_PRODUCTS demo_config).
Proof.
  apply (X19_catalogue_never_raises demo_config demo_world).
  - apply timespan_fits_check. reflexivity.
  - apply (clock_fits_demo (0, 0, 0, 0)%nat).
  - vm_compute. discriminate.
Defined.

(** X20. [generate_users] cannot raise when the time span is between 0
    and 239720 days and at least five categories are active: every
    registration date is one that Faker computes, every sample of preferred
    categories fits, and the stage appends exactly [NUM_USERS] users. *)
Theorem X20_users_never_raise self w :
  timespan_fits (config self) ->
  (5 <= len (active_category_ids (categories self)))%Z ->
  exists self' w',
    generate_users self w = Ok (self', w')
    /\ len (users self')
       = (len (users self) + Z.max 0 (Config.NUM_USERS (config self)))%Z.
Proof.
  intros Hspan Hfive.
  destruct (generate_users_total self w Hspan Hfive) as (self' & w' & Hrun).
  exists self', w'. split; [exact Hrun|].
  apply generate_users_facts in Hrun as (_ & new & -> & Hlen & _).
  unfold len. rewrite length_app. lia.
Qed.

Lemma X20_users_never_raise_witness :
  exists self' w',
    generate_users (fst demo_catalogued) (demo_at (snd demo_catalogued))
    = Ok (self', w')
    /\ len (users self')
       = (len (users (fst demo_catalogued))
          + Z.max 0 (Config.NUM_USERS (config (fst demo_catalogued))))%Z.
Proof.
  apply (X20_users_never_raise (fst demo_catalogued)
           (demo_at (snd demo_catalogued))).
  - apply timespan_fits_check. vm_compute. reflexivity.
  - vm_compute. discriminate.
Defined.

(** X21. [_generate_simple_sessions] cannot raise when the time span is
    between 0 and 239720 days, the clocks read between the epoch and 180 days
    before the end of year 9999, and there is a user and at least five
    products: every session finds a user, a start and an end that are dates,
    and enough products to view, and the stage appends exactly
    [NUM_SESSIONS] sessions. *)
Theorem X21_sessions_never_raise self w :
  timespan_fits (config self) -> clock_fits w ->
  users self <> [] -> (5 <= len (products self))%Z ->
  exists self' w',
    _generate_simple_sessions self w = Ok (self', w')
    /\ len (sessions self')
       = (len (sessions self)
          + Z.max 0 (Config.NUM_SESSIONS (config self)))%Z.
Proof.
  intros Hspan Hfits Hne Hfive.
  destruct (generate_sessions_total self w Hspan Hfits Hne Hfive)
    as (self' & w' & Hrun).
  exists self', w'. split; [exact Hrun|].
  apply generate_sessions_facts in Hrun as (_ & new & -> & Hlen & _).
  unfold len. rewrite length_app. lia.
Qed.

Lemma X21_sessions_never_raise_witness :
  exists self' w',
    _generate_simple_sessions (fst demo_sold) (demo_at (snd demo_sold))
    = Ok (self', w')
    /\ len (sessions self')
       = (len (sessions (fst demo_sold))
          + Z.max 0 (Config.NUM_SESSIONS (config (fst demo_sold))))%Z.
Proof.
  apply (X21_sessions_never_raise (fst demo_sold) (demo_at (snd demo_sold))).
  - apply timespan_fits_check. vm_compute. reflexivity.
  - apply clock_fits_demo.
  - vm_compute. discriminate.
  - vm_compute. discriminate.
Defined.

(** ** How a run can fail *)

(** A loop whose every iteration returns, keeping [I], or raises [e0],
    returns or raises [e0]. *)
Lemma for_each_outcome {A S} (I : S -> Prop) (e0 : exn) (l : list A)
    (body : A -> S -> R S) :
  (forall x s w, I s ->
     (exists s' w', body x s w = Ok (s', w') /\ I s')
     \/ body x s w = Raise e0) ->
  forall s w, I s ->
    (exists s' w', for_each l body s w = Ok (s', w') /\ I s')
    \/ for_each l body s w = Raise e0.
Proof.
  intros Hbody. induction l as [|x l IH]; intros s w Hs.
  - left. exists s, w. now split.
  - rewrite for_each_cons.
    destruct (Hbody x s w Hs) as [(s1 & w1 & H1 & Hs1)|Hraise].
    + rewrite (bind_step _ _ _ _ _ H1). apply IH, Hs1.
    + right. unfold bind. now rewrite Hraise.
Qed.

Lemma generate_users_outcome s w :
  timespan_fits (config s) ->
  (exists s' w', generate_users s w = Ok (s', w'))
  \/ (generate_users s w = Raise ValueError
      /\ len (active_category_ids (categories s)) < 5
      /\ 1 <= Config.NUM_USERS (config s)).
Proof.
  intros Hspan.
  destruct (Z_le_gt_dec 5 (len (active_category_ids (categories s))))
    as [Hfive|Hfew].
  { left. now apply generate_users_total. }
  destruct (for_each_outcome
              (fun t => categories t = categories s /\ config t = config s)
              ValueError
              (range (Config.NUM_USERS (config s))) gen_user)
    with (s := s) (w := w) as [(s' & w' & Hrun & _)|Hraise].
  - intros i u v [Hcats Hcfg].
    destruct (gen_user_outcome i u v ltac:(now rewrite Hcfg))
      as (k & Hk & [(_ & u' & v' & x & Hstep & _)|(_ & Hraise)]).
    + left. exists u', v'. split; [exact Hstep|].
      apply gen_user_facts in Hstep as ((Hcf & Hc & _) & _).
      split; congruence.
    + now right.
  - now split.
  - left. eauto.
  - right. split; [exact Hraise|]. split; [lia|].
    unfold range in Hraise.
    destruct (Z.to_nat (Config.NUM_USERS (config s))) eqn:Hn;
      [discriminate|lia].
Qed.

Lemma generate_sessions_without_users s w :
  users s = [] ->
  (1 <= Config.NUM_SESSIONS (config s) ->
   _generate_simple_sessions s w = Raise IndexError)
  /\ (Config.NUM_SESSIONS (config s) <= 0 ->
      _generate_simple_sessions s w = Ok (s, w)).
Proof.
  intros Hnil. unfold _generate_simple_sessions, range. split; intros Hn.
  - destruct (Z.to_nat (Config.NUM_SESSIONS (config s))) eqn:Hk; [lia|].
    simpl seq. rewrite for_each_cons. unfold gen_session at 1.
    rewrite Hnil. reflexivity.
  - replace (Z.to_nat (Config.NUM_SESSIONS (config s))) with 0%nat by lia.
    reflexivity.
Qed.

Lemma save_data_total s w :
  Config.CHUNK_SIZE (config s) <> 0 -> products s <> [] ->
  exists files w', save_data s w = Ok (files, w').
Proof.
  intros Hchunk Hne. unfold save_data, range_step.
  destruct (Z.eqb_spec (Config.CHUNK_SIZE (config s)) 0) as [?|_];
    [contradiction|].
  destruct (summary_with_products s w Hne) as (sm & w' & Hsum).
  destruct (Config.CHUNK_SIZE (config s) <? 0);
    unfold bind at 1, lift; rewrite (bind_step _ _ _ _ _ Hsum);
    unfold ret; eauto.
Qed.

(** X22. How a run can fail.  For a configuration that keeps at least one
    category, asks for at least five products, has a [CHUNK_SIZE] other than
    zero and a time span between 0 and 239720 days, and with clocks that
    read between the epoch and 180 days before the end of year 9999, the
    catalogue stages always return, and [generate_all] then completes, or
    fails in one of two ways only: with [ValueError] raised by
    [generate_users], when fewer than five categories are active, or with
    [IndexError], when a transaction is asked for and no generated user is
    active, or a session is asked for and there is no user. *)
Theorem X22_failure_modes cfg w :
  timespan_fits cfg -> clock_fits w ->
  (1 <= category_count (Config.NUM_CATEGORIES cfg))%Z ->
  (5 <= Config.NUM_PRODUCTS cfg)%Z ->
  Config.CHUNK_SIZE cfg <> 0%Z ->
  exists s2 w2,
    (s1 <- generate_categories (init cfg) ;; generate_products s1) w
    = Ok (s2, w2)
    /\ ((exists g files w', generate_all (init cfg) w = Ok ((g, files), w'))
        \/ (generate_all (init cfg) w = Raise ValueError
            /\ generate_users s2 w2 = Raise ValueError
            /\ (len (active_category_ids (categories s2)) < 5)%Z
            /\ (1 <= Config.NUM_USERS cfg)%Z)
        \/ (generate_all (init cfg) w = Raise IndexError
            /\ exists s3 w3,
                 generate_users s2 w2 = Ok (s3, w3)
                 /\ ((positions is_active_user (users s3) = []
                      /\ (1 <= Config.NUM_TRANSACTIONS cfg)%Z)
                     \/ (users s3 = []
                         /\ (1 <= Config.NUM_SESSIONS cfg)%Z)))).
Proof.
  intros Hspan Hfits Hcat Hfive Hchunk.
  destruct (catalogue_total cfg w Hspan Hfits Hcat)
    as (s1 & w1 & s2 & w2 & H1 & H2 & Hc1).
  exists s2, w2. split; [now rewrite (bind_step _ _ _ _ _ H1)|].
  unfold generate_all.
  rewrite (bind_step _ _ _ _ _ H1), (bind_step _ _ _ _ _ H2).
  pose proof (generate_products_facts _ _ _ _ H2)
    as ((Hc2 & _ & _) & ps & Hps & Hlen2 & _).
  assert (Hcfg2 : config s2 = cfg) by congruence.
  assert (Hprod2 : (5 <= length (products s2))%nat).
  { rewrite Hps, length_app, Hlen2, Hc1. lia. }
  destruct (generate_users_outcome s2 w2 ltac:(now rewrite Hcfg2))
    as [(s3 & w3 & H3)|(Hraise & Hfew & Hn)].
  2:{ right. left. split; [|split; [exact Hraise|split; [exact Hfew|]]].
      - unfold bind at 1. now rewrite Hraise.
      - now rewrite Hcfg2 in Hn. }
  rewrite (bind_step _ _ _ _ _ H3).
  pose proof (generate_users_facts _ _ _ _ H3) as ((Hc3 & _ & Hp3 & _) & _).
  assert (Hcfg3 : config s3 = cfg) by congruence.
  destruct (transactions_outcome s3 w3)
    as [(s4 & w4 & new & H4 & _ & _)
       |[(Hraise & Hnone & Hpos)|[(_ & Hbad)|(_ & Hbad)]]].
  3,4: rewrite Hcfg3 in Hbad; unfold timespan_fits in Hspan; lia.
  2:{ right. right. split; [unfold bind at 1; now rewrite Hraise|].
      exists s3, w3. split; [exact H3|]. left.
      split; [exact Hnone|]. rewrite Hcfg3 in Hpos. lia. }
  rewrite (bind_step _ _ _ _ _ H4).
  pose proof (transactions_keep _ _ _ _ H4) as (Hc4 & _ & _ & Hp4 & Hu4).
  assert (Hcfg4 : config s4 = cfg) by congruence.
  assert (Hprod4 : (5 <= length (products s4))%nat).
  { rewrite <- (Forall2_length _ _ _ Hp4), Hp3. exact Hprod2. }
  assert (Hfits4 : clock_fits w4).
  { eapply clock_fits_kept; [|exact Hfits].
    eapply same_streams_trans; [eapply keeps_generate_categories, H1|].
    eapply same_streams_trans; [eapply keeps_generate_products, H2|].
    eapply same_streams_trans; [eapply keeps_generate_users, H3|].
    eapply keeps_generate_transactions, H4. }
  assert (Hsess : (exists s5 w5, _generate_simple_sessions s4 w4 = Ok (s5, w5))
                  \/ (_generate_simple_sessions s4 w4 = Raise IndexError
                      /\ users s3 = [] /\ 1 <= Config.NUM_SESSIONS cfg)).
  { destruct (users s4) as [|u us] eqn:Hus4.
    - destruct (generate_sessions_without_users s4 w4 Hus4) as [Hr Hok].
      rewrite Hcfg4 in Hr, Hok.
      destruct (Z_le_gt_dec 1 (Config.NUM_SESSIONS cfg)) as [Hn|Hn].
      + right. split; [now apply Hr|]. split; [|exact Hn].
        apply Forall2_length in Hu4.
        destruct (users s3); [reflexivity|discriminate].
      + left. exists s4, w4. apply Hok. lia.
    - left. apply generate_sessions_total.
      + now rewrite Hcfg4.
      + exact Hfits4.
      + rewrite Hus4. discriminate.
      + unfold len. lia. }
  destruct Hsess as [(s5 & w5 & H5)|(Hraise & Hnil & Hn)].
  2:{ right. right. split; [unfold bind at 1; now rewrite Hraise|].
      exists s3, w3. split; [exact H3|]. right. now split. }
  rewrite (bind_step _ _ _ _ _ H5).
  pose proof (generate_sessions_facts _ _ _ _ H5) as ((Hc5 & _ & Hp5 & _) & _).
  destruct (save_data_total s5 w5) as (files & w6 & H6).
  { rewrite Hc5, Hcfg4. exact Hchunk. }
  { rewrite Hp5. destruct (products s4); [simpl in Hprod4; lia|discriminate]. }
  left. exists s5, files, w6.
  rewrite (bind_step _ _ _ _ _ H6). reflexivity.
Qed.

Lemma X22_failure_modes_witness :
  exists s2 w2,
    (s1 <- generate_categories (init demo_config) ;; generate_products s1)
      demo_world = Ok (s2, w2)
    /\ ((exists g files w',
           generate_all (init demo_config) demo_world = Ok ((g, files), w'))
        \/ (generate_all (init demo_config) demo_world = Raise ValueError
            /\ generate_users s2 w2 = Raise ValueError
            /\ (len (active_category_ids (categories s2)) < 5)%Z
            /\ (1 <= Config.NUM_USERS demo_config)%Z)
        \/ (generate_all (init demo_config) demo_world = Raise IndexError
            /\ exists s3 w3,
                 generate_users s2 w2 = Ok (s3, w3)
                 /\ ((positions is_active_user (users s3) = []
                      /\ (1 <= Config.NUM_TRANSACTIONS demo_config)%Z)
                     \/ (users s3 = []
                         /\ (1 <= Config.NUM_SESSIONS demo_config)%Z)))).
Proof.
  apply (X22_failure_modes demo_config demo_world).
  - apply timespan_fits_check. reflexivity.
  - apply (clock_fits_demo (0, 0, 0, 0)%nat).
  - vm_compute. discriminate.
  - vm_compute. discriminate.
  - discriminate.
Defined.

(** ** The inventory manager *)

Lemma enumerate_snoc {A} (l : list A) x :
  enumerate (l ++ [x]) = enumerate l ++ [(length l, x)].
Proof.
  unfold enumerate. rewrite length_app. simpl.
  rewrite Nat.add_1_r, seq_S. simpl.
  rewrite zip_with_app by now rewrite length_seq. reflexivity.
Qed.

Lemma positions_snoc {A} (p : A -> bool) (l : list A) x :
  positions p (l ++ [x])
  = positions p l ++ (if p x then [length l] else []).
Proof.
  unfold positions. rewrite length_app. simpl.
  rewrite Nat.add_1_r, seq_S, List.filter_app. simpl. f_equal.
  - apply List.filter_ext_in. intros i Hi. apply in_seq in Hi.
    rewrite lookup_app_l by lia. reflexivity.
  - rewrite lookup_app_r by lia. rewrite Nat.sub_diag. simpl.
    destruct (p x); reflexivity.
Qed.

Module InventoryManager_facts.
Import InventoryManager.

(** The dict names, for each id, the last product of the list that has
    it. *)
Lemma init_lookup ps pid :
  products (__init__ ps) !! pid = last (positions (has_id pid) ps).
Proof.
  unfold __init__. cbn [products].
  induction ps as [|p ps IH] using rev_ind.
  - reflexivity.
  - rewrite enumerate_snoc, fold_left_app, positions_snoc. cbn [fold_left fst snd].
    unfold has_id at 2.
    destruct (String.eqb_spec (Product.product_id p) pid) as [->|Hne].
    + rewrite lookup_insert_eq. now rewrite last_snoc.
    + rewrite lookup_insert_ne by exact Hne. now rewrite app_nil_r.
Qed.

Lemma last_elem_of {A} (l : list A) x : last l = Some x -> x ∈ l.
Proof.
  intros H. destruct l as [|y l] using rev_ind; [discriminate|].
  rewrite last_snoc in H. injection H as ->.
  apply elem_of_app. right. left.
Qed.

(** The reference of a known id names an object of the heap, which has that
    id. *)
Lemma init_deref ps heap pid r :
  same_objects ps heap ->
  last (positions (has_id pid) ps) = Some r ->
  exists p0 p, ps !! r = Some p0 /\ heap !! r = Some p
               /\ same_product p0 p /\ Product.product_id p = pid.
Proof.
  intros Hsame Hr.
  apply last_elem_of, positions_spec in Hr as (p0 & Hp0 & Hid).
  destruct (Forall2_lookup_l _ _ _ _ _ Hsame Hp0) as (p & Hp & Hpp).
  exists p0, p. repeat split; try assumption.
  unfold has_id in Hid. apply String.eqb_eq in Hid.
  unfold same_product in Hpp. rewrite Hpp. exact Hid.
Qed.

Lemma same_objects_insert ps heap r p v :
  same_objects ps heap -> heap !! r = Some p ->
  same_objects ps (<[r := Product.set_current_stock p v]> heap).
Proof.
  intros Hsame Hp.
  eapply Forall2_same_trans; [apply same_product_trans|exact Hsame|].
  eapply Forall2_same_insert; [apply same_product_refl|exact Hp|].
  apply same_product_set.
Qed.

Lemma total_stock_insert heap r p v :
  heap !! r = Some p ->
  total_stock (<[r := Product.set_current_stock p v]> heap)
  = total_stock heap - Product.current_stock p + v.
Proof.
  unfold total_stock. revert r. induction heap as [|x heap IH]; intros r Hr.
  - discriminate.
  - destruct r as [|r]; simpl in *.
    + injection Hr as ->. lia.
    + rewrite (IH r Hr). lia.
Qed.

(** With distinct ids, the only product with the id of the product at
    position [j] is that one. *)
Lemma positions_unique ps j p :
  NoDup (map Product.product_id ps) -> ps !! j = Some p ->
  last (positions (has_id (Product.product_id p)) ps) = Some j.
Proof.
  intros Hnd Hj.
  assert (Hin : j ∈ positions (has_id (Product.product_id p)) ps).
  { apply positions_spec. exists p. split; [exact Hj|].
    unfold has_id. apply String.eqb_refl. }
  destruct (last (positions (has_id (Product.product_id p)) ps)) as [r|] eqn:Hr.
  - f_equal. apply last_elem_of, positions_spec in Hr as (p' & Hp' & Hid).
    unfold has_id in Hid. apply String.eqb_eq in Hid.
    eapply NoDup_lookup; [exact Hnd| |].
    + rewrite list_lookup_fmap, Hp'. simpl. rewrite Hid. reflexivity.
    + rewrite list_lookup_fmap, Hj. reflexivity.
  - apply last_None in Hr. rewrite Hr in Hin. inversion Hin.
Qed.

End InventoryManager_facts.

Section InventoryManager_properties.
Import InventoryManager InventoryManager_facts.

(** X23. [update_stock] on a manager built from the products [ps], whose
    objects now hold the stocks of [heap]: an id that no product has is
    refused and nothing changes; otherwise the call addresses the last
    product of the list with that id, and takes [quantity] units from it
    when it holds at least that many, leaving every other object as it was,
    or refuses and changes nothing. *)
Theorem X23_update_stock ps heap pid q :
  same_objects ps heap ->
  match last (positions (has_id pid) ps) with
  | None => update_stock (__init__ ps) pid q heap = Some (false, heap)
  | Some r =>
      exists p, heap !! r = Some p /\ Product.product_id p = pid
        /\ update_stock (__init__ ps) pid q heap
           = if (q <=? Product.current_stock p)%Z
             then Some (true,
                        <[r := Product.set_current_stock p
                                 (Product.current_stock p - q)]> heap)
             else Some (false, heap)
  end.
Proof.
  intros Hsame. unfold update_stock. rewrite init_lookup.
  destruct (last (positions (has_id pid) ps)) as [r|] eqn:Hr; [|reflexivity].
  destruct (init_deref ps heap pid r Hsame Hr) as (p0 & p & _ & Hp & _ & Hid).
  exists p. rewrite Hp. split; [reflexivity|]. split; [exact Hid|reflexivity].
Qed.

Lemma X23_update_stock_witness :
  exists p, twin_products !! 2%nat = Some p
    /\ Product.product_id p = "prod_00000"%string
    /\ update_stock (__init__ twin_products) "prod_00000" 1 twin_products
       = if (1 <=? Product.current_stock p)%Z
         then Some (true,
                    <[2%nat := Product.set_current_stock p
                                 (Product.current_stock p - 1)]> twin_products)
         else Some (false, twin_products).
Proof.
  apply (X23_update_stock twin_products twin_products "prod_00000" 1).
  apply Forall2_same_refl, same_product_refl.
Defined.

(** X24. [update_stock] with a non-negative quantity never drives a stock
    below zero: stocks that are non-negative stay so, the objects remain
    those of the list, and the units held altogether go down by exactly the
    quantity when the call returns [True] and not at all when it returns
    [False]. *)
Theorem X24_update_stock_never_oversells ps heap pid q b heap' :
  same_objects ps heap -> (0 <= q)%Z -> stock_nonneg heap ->
  update_stock (__init__ ps) pid q heap = Some (b, heap') ->
  stock_nonneg heap' /\ same_objects ps heap'
  /\ total_stock heap' = (total_stock heap - (if b then q else 0))%Z.
Proof.
  intros Hsame Hq Hnn H. unfold update_stock in H. rewrite init_lookup in H.
  destruct (last (positions (has_id pid) ps)) as [r|] eqn:Hr.
  2:{ injection H as <- <-. repeat split; [assumption..|lia]. }
  destruct (heap !! r) as [p|] eqn:Hp; [|discriminate].
  destruct (Z.leb_spec q (Product.current_stock p)) as [Hle|Hgt].
  - injection H as <- <-. split; [|split].
    + apply stock_nonneg_insert; [exact Hnn|]. simpl. lia.
    + now apply same_objects_insert.
    + rewrite (total_stock_insert _ _ _ _ Hp). lia.
  - injection H as <- <-. repeat split; [assumption..|lia].
Qed.

Lemma X24_update_stock_never_oversells_witness :
  stock_nonneg
    (<[2%nat := Product.set_current_stock (two_item_product 0 3.3) 0]>
       twin_products)
  /\ same_objects twin_products
       (<[2%nat := Product.set_current_stock (two_item_product 0 3.3) 0]>
          twin_products)
  /\ total_stock
       (<[2%nat := Product.set_current_stock (two_item_product 0 3.3) 0]>
          twin_products)
     = (total_stock twin_products - 1)%Z.
Proof.
  apply (X24_update_stock_never_oversells twin_products twin_products
           "prod_00000" 1 true).
  - apply Forall2_same_refl, same_product_refl.
  - lia.
  - apply stock_nonneg_check. vm_compute. reflexivity.
  - vm_compute. reflexivity.
Defined.

(** X25. [update_stock] does not check the sign of the quantity: a negative
    quantity for a known product whose stock is not negative is always
    accepted, and raises the stock by its absolute value. *)
Theorem X25_update_stock_negative_quantity ps heap pid q r :
  same_objects ps heap -> stock_nonneg heap -> (q < 0)%Z ->
  last (positions (has_id pid) ps) = Some r ->
  exists p, heap !! r = Some p
    /\ update_stock (__init__ ps) pid q heap
       = Some (true,
               <[r := Product.set_current_stock p
                        (Product.current_stock p + Z.abs q)]> heap).
Proof.
  intros Hsame Hnn Hq Hr. unfold update_stock. rewrite init_lookup, Hr.
  destruct (init_deref ps heap pid r Hsame Hr) as (p0 & p & _ & Hp & _ & _).
  exists p. split; [exact Hp|]. rewrite Hp.
  assert (Hp0 : (0 <= Product.current_stock p)%Z).
  { unfold stock_nonneg in Hnn. rewrite Forall_forall in Hnn.
    eapply Hnn, list_elem_of_lookup_2, Hp. }
  destruct (Z.leb_spec q (Product.current_stock p)) as [_|Hgt]; [|lia].
  do 3 f_equal. f_equal. lia.
Qed.

Lemma X25_update_stock_negative_quantity_witness :
  exists p, twin_products !! 1%nat = Some p
    /\ update_stock (__init__ twin_products) "prod_00001" (-5) twin_products
       = Some (true,
               <[1%nat := Product.set_current_stock p
                            (Product.current_stock p + Z.abs (-5))]>
                 twin_products).
Proof.
  apply (X25_update_stock_negative_quantity twin_products twin_products
           "prod_00001" (-5) 1%nat).
  - apply Forall2_same_refl, same_product_refl.
  - apply stock_nonneg_check. vm_compute. reflexivity.
  - lia.
  - vm_compute. reflexivity.
Defined.

(** X26. After an accepted [update_stock], [get_product] of the same id
    returns the product it returned before with the stock lowered by the
    quantity, and [get_product] of any other id returns what it returned
    before; an id that no product has gives the empty dict. *)
Theorem X26_get_product_after_update ps heap pid q heap' :
  same_objects ps heap ->
  update_stock (__init__ ps) pid q heap = Some (true, heap') ->
  (exists p,
     get_product (__init__ ps) pid heap = Some (Found p)
     /\ get_product (__init__ ps) pid heap'
        = Some (Found (Product.set_current_stock p
                         (Product.current_stock p - q))))
  /\ (forall pid', pid' <> pid ->
        get_product (__init__ ps) pid' heap'
        = get_product (__init__ ps) pid' heap)
  /\ (forall pid', last (positions (has_id pid') ps) = None ->
        get_product (__init__ ps) pid' heap' = Some Missing).
Proof.
  intros Hsame H. unfold update_stock in H. rewrite init_lookup in H.
  destruct (last (positions (has_id pid) ps)) as [r|] eqn:Hr; [|discriminate].
  destruct (heap !! r) as [p|] eqn:Hp; [|discriminate].
  destruct (q <=? Product.current_stock p)%Z; [|discriminate].
  injection H as <-.
  pose proof (lookup_lt_Some _ _ _ Hp) as Hlt.
  split; [|split].
  - exists p. unfold get_product. rewrite init_lookup, Hr, Hp.
    split; [reflexivity|]. now rewrite list_lookup_insert_eq.
  - intros pid' Hne. unfold get_product. rewrite init_lookup.
    destruct (last (positions (has_id pid') ps)) as [r'|] eqn:Hr';
      [|reflexivity].
    rewrite list_lookup_insert_ne; [reflexivity|].
    intros <-.
    destruct (init_deref ps heap pid r Hsame Hr) as (a & b & _ & Hb & _ & Hid).
    destruct (init_deref ps heap pid' r Hsame Hr')
      as (a' & b' & _ & Hb' & _ & Hid').
    congruence.
  - intros pid' Hnone. unfold get_product. now rewrite init_lookup, Hnone.
Qed.

Lemma X26_get_product_after_update_witness :
  (exists p,
     get_product (__init__ twin_products) "prod_00000" twin_products
     = Some (Found p)
     /\ get_product (__init__ twin_products) "prod_00000"
          (<[2%nat := Product.set_current_stock (two_item_product 0 3.3) 0]>
             twin_products)
        = Some (Found (Product.set_current_stock p
                         (Product.current_stock p - 1))))
  /\ (forall pid', pid' <> "prod_00000"%string ->
        get_product (__init__ twin_products) pid'
          (<[2%nat := Product.set_current_stock (two_item_product 0 3.3) 0]>
             twin_products)
        = get_product (__init__ twin_products) pid' twin_products)
  /\ (forall pid', last (positions (has_id pid') twin_products) = None ->
        get_product (__init__ twin_products) pid'
          (<[2%nat := Product.set_current_stock (two_item_product 0 3.3) 0]>
             twin_products)
        = Some Missing).
Proof.
  apply (X26_get_product_after_update twin_products twin_products
           "prod_00000" 1).
  - apply Forall2_same_refl, same_product_refl.
  - vm_compute. reflexivity.
Defined.

(** X27. Two accepted calls of [update_stock] for one product, one after the
    other, leave the products as one call for the sum of the two quantities
    does; and when that one call is accepted and the second quantity is not
    negative, the first call is accepted too. *)
Theorem X27_update_stock_composes ps heap pid q1 q2 :
  same_objects ps heap ->
  (forall h1 h2,
     update_stock (__init__ ps) pid q1 heap = Some (true, h1) ->
     update_stock (__init__ ps) pid q2 h1 = Some (true, h2) ->
     update_stock (__init__ ps) pid (q1 + q2) heap = Some (true, h2))
  /\ (forall h2,
        (0 <= q2)%Z ->
        update_stock (__init__ ps) pid (q1 + q2) heap = Some (true, h2) ->
        exists h1,
          update_stock (__init__ ps) pid q1 heap = Some (true, h1)
          /\ update_stock (__init__ ps) pid q2 h1 = Some (true, h2)).
Proof.
  intros Hsame. unfold update_stock. rewrite init_lookup.
  destruct (last (positions (has_id pid) ps)) as [r|] eqn:Hr.
  2:{ split; [intros h1 h2 H|intros h2 _ H]; discriminate. }
  destruct (heap !! r) as [p|] eqn:Hp.
  2:{ split; [intros h1 h2 H|intros h2 _ H]; discriminate. }
  pose proof (lookup_lt_Some _ _ _ Hp) as Hlt.
  assert (Hset : forall v,
            <[r := Product.set_current_stock (Product.set_current_stock p v)
                     (v - q2)]> (<[r := Product.set_current_stock p v]> heap)
            = <[r := Product.set_current_stock p (v - q2)]> heap).
  { intros v. now rewrite list_insert_insert_eq. }
  split.
  - intros h1 h2 H1 H2.
    destruct (Z.leb_spec q1 (Product.current_stock p)) as [Hle1|?];
      [|discriminate].
    injection H1 as <-. rewrite list_lookup_insert_eq in H2 by exact Hlt.
    cbn [Product.current_stock Product.set_current_stock] in H2.
    destruct (Z.leb_spec q2 (Product.current_stock p - q1)) as [Hle2|?];
      [|discriminate].
    injection H2 as <-.
    destruct (Z.leb_spec (q1 + q2) (Product.current_stock p)) as [_|?]; [|lia].
    rewrite (Hset (Product.current_stock p - q1)%Z).
    do 4 f_equal. lia.
  - intros h2 Hq2 H.
    destruct (Z.leb_spec (q1 + q2) (Product.current_stock p)) as [Hle|?];
      [|discriminate].
    injection H as <-.
    destruct (Z.leb_spec q1 (Product.current_stock p)) as [_|?]; [|lia].
    eexists. split; [reflexivity|].
    rewrite list_lookup_insert_eq by exact Hlt.
    cbn [Product.current_stock Product.set_current_stock].
    destruct (Z.leb_spec q2 (Product.current_stock p - q1)) as [_|?]; [|lia].
    rewrite (Hset (Product.current_stock p - q1)%Z).
    do 4 f_equal. lia.
Qed.

Lemma X27_update_stock_composes_witness :
  (forall h1 h2,
     update_stock (__init__ twin_products) "prod_00000" 1 twin_products
     = Some (true, h1) ->
     update_stock (__init__ twin_products) "prod_00000" 0 h1
     = Some (true, h2) ->
     update_stock (__init__ twin_products) "prod_00000" (1 + 0) twin_products
     = Some (true, h2))
  /\ (forall h2,
        (0 <= 0)%Z ->
        update_stock (__init__ twin_products) "prod_00000" (1 + 0)
          twin_products = Some (true, h2) ->
        exists h1,
          update_stock (__init__ twin_products) "prod_00000" 1 twin_products
          = Some (true, h1)
          /\ update_stock (__init__ twin_products) "prod_00000" 0 h1
             = Some (true, h2)).
Proof.
  apply (X27_update_stock_composes twin_products twin_products
           "prod_00000" 1 0).
  apply Forall2_same_refl, same_product_refl.
Defined.

End InventoryManager_properties.
(** ** The inventory of a complete run *)

Section Inventory_of_run.
Import InventoryManager_facts.

(** X28. An [InventoryManager] built from the products of a complete run
    finds every product under its id: [get_product] with the id [prod_]
    followed by [j] on five digits returns the product of rank [j],
    [get_product] with an id that no product has returns the empty dict,
    and [update_stock] with that id and a quantity up to the product's
    stock returns [True] and lowers the stock of that very product. *)
Theorem X28_inventory_of_run cfg w g files w' :
  generate_all (init cfg) w = Ok ((g, files), w') ->
  let ps := products_json files in
  let manager := InventoryManager.__init__ ps in
  (forall j p, ps !! j = Some p ->
     InventoryManager.get_product manager ("prod_" +:+ fmt_d 5 j) ps
     = Some (InventoryManager.Found p)
     /\ forall q, (q <= Product.current_stock p)%Z ->
          InventoryManager.update_stock manager ("prod_" +:+ fmt_d 5 j) q ps
          = Some (true,
                  <[j := Product.set_current_stock p
                           (Product.current_stock p - q)]> ps))
  /\ (forall pid, pid ∉ map Product.product_id ps ->
        InventoryManager.get_product manager pid ps
        = Some InventoryManager.Missing).
Proof.
  intros H ps manager. subst ps manager.
  pose proof (run_products_NoDup _ _ _ _ _ H) as Hnd.
  apply run_products in H as (-> & _ & _ & _ & Hmade).
  split.
  - intros j p Hj. destruct (Hmade j p Hj) as (Hid & _).
    pose proof (positions_unique _ _ _ Hnd Hj) as Hlast.
    rewrite Hid in Hlast.
    unfold InventoryManager.get_product, InventoryManager.update_stock.
    rewrite init_lookup, Hlast, Hj.
    split; [reflexivity|]. intros q Hq.
    destruct (Z.leb_spec q (Product.current_stock p)); [reflexivity|lia].
  - intros pid Hpid. unfold InventoryManager.get_product.
    rewrite init_lookup.
    destruct (last (positions (has_id pid) (products g))) as [r|] eqn:Hr;
      [|reflexivity].
    exfalso. apply Hpid.
    apply last_elem_of, positions_spec in Hr as (p & Hp & Hid).
    apply list_elem_of_fmap. exists p.
    split; [symmetry; now apply String.eqb_eq|eapply list_elem_of_lookup_2, Hp].
Qed.

Lemma X28_inventory_of_run_witness :
  (forall j p, products_json (snd (fst demo_done)) !! j = Some p ->
     InventoryManager.get_product demo_inventory ("prod_" +:+ fmt_d 5 j)
       (products_json (snd (fst demo_done)))
     = Some (InventoryManager.Found p)
     /\ forall q, (q <= Product.current_stock p)%Z ->
          InventoryManager.update_stock demo_inventory
            ("prod_" +:+ fmt_d 5 j) q (products_json (snd (fst demo_done)))
          = Some (true,
                  <[j := Product.set_current_stock p
                           (Product.current_stock p - q)]>
                    (products_json (snd (fst demo_done)))))
  /\ (forall pid,
        pid ∉ map Product.product_id (products_json (snd (fst demo_done))) ->
        InventoryManager.get_product demo_inventory pid
          (products_json (snd (fst demo_done)))
        = Some InventoryManager.Missing).
Proof.
  apply (X28_inventory_of_run demo_config demo_world (fst (fst demo_done))
           (snd (fst demo_done)) (demo_at (snd demo_done))).
  vm_compute. reflexivity.
Defined.

End Inventory_of_run.

(** ** How a run with fitting clocks can fail *)

Lemma summary_without_products self w :
  products self = [] -> _generate_summary self w = Raise ZeroDivisionError.
Proof.
  intros Hnil.
  destruct (guarded_average (sum (map Transaction.total (transactions self)))
              (transactions self) w) as (a & Ha & _).
  destruct (guarded_rate (transactions self) (sessions self) w) as (c & Hc & _).
  destruct (now_total w) as (t & w1 & Ht).
  unfold _generate_summary.
  rewrite (bind_step _ _ _ _ _ Ha), (bind_step _ _ _ _ _ Hc),
    (bind_step _ _ _ _ _ Ht).
  rewrite Hnil. reflexivity.
Qed.

Lemma save_data_raise s w e :
  save_data s w = Raise e -> e = ValueError \/ e = ZeroDivisionError.
Proof.
  unfold save_data, range_step.
  destruct (Config.CHUNK_SIZE (config s) =? 0).
  { intros [= <-]. now left. }
  assert (Hsum : forall starts : list Z,
            (summary <- _generate_summary s ;;
             ret (mkFiles (categories s) (products s) (users s)
                    (transactions s) (map (session_chunk s) starts) summary))
              w = Raise e -> e = ZeroDivisionError).
  { intros starts H. destruct (products s) as [|p ps] eqn:Hps.
    - unfold bind in H. rewrite summary_without_products in H by exact Hps.
      now injection H as <-.
    - destruct (summary_with_products s w) as (sm & w' & Hsm);
        [rewrite Hps; discriminate|].
      rewrite (bind_step _ _ _ _ _ Hsm) in H. discriminate. }
  destruct (Config.CHUNK_SIZE (config s) <? 0); unfold bind at 1, lift;
    intros H; right; eapply Hsum, H.
Qed.

Lemma generate_sessions_outcome s w :
  timespan_fits (config s) -> clock_fits w ->
  (exists s' w', _generate_simple_sessions s w = Ok (s', w'))
  \/ exists e, _generate_simple_sessions s w = Raise e
               /\ (e = IndexError \/ e = ValueError).
Proof.
  intros Hspan Hfits. unfold _generate_simple_sessions.
  destruct (for_each_raises_world
              (fun t v => config t = config s /\ clock_fits v)
              (fun e => e = IndexError \/ e = ValueError)
              (range (Config.NUM_SESSIONS (config s))) gen_session)
    with (s := s) (w := w) as [(s' & w' & Hrun & _)|Hraise];
    [|now split|left; eauto|now right].
  intros i u v [Hcfg Hv].
  destruct (gen_session_outcome i u v) as [Hnone Hsome].
  destruct (users u) as [|x us] eqn:Hus.
  - right. exists IndexError. split; [now apply Hnone|now left].
  - destruct Hsome as (k & Hk & [(_ & u' & v' & y & Hstep & _)|(_ & Hraise)]);
      [discriminate|now rewrite Hcfg|exact Hv| |].
    + left. exists u', v'. split; [exact Hstep|].
      pose proof (keeps_gen_session _ _ _ _ _ Hstep) as Hkept.
      apply gen_session_facts in Hstep as ((Hc & _) & _).
      split; [congruence|]. eapply clock_fits_kept; eassumption.
    + right. exists ValueError. split; [exact Hraise|now right].
Qed.

(** With a time span and clocks that fit, no date of a run leaves the range
    of [datetime] and every bound of Faker parses: a run from a fresh
    generator fails with [IndexError], [ValueError] or [ZeroDivisionError]
    only. *)
Lemma generate_all_raise cfg w e :
  timespan_fits cfg -> clock_fits w ->
  generate_all (init cfg) w = Raise e ->
  e = IndexError \/ e = ValueError \/ e = ZeroDivisionError.
Proof.
  intros Hspan Hfits H. unfold generate_all in H.
  destruct (generate_categories_run (init cfg) w)
    as (s1 & w1 & cats & H1 & (Hc1 & _) & Hcats & Hlen1 & Hfacts).
  cbn [config init categories] in Hc1, Hcats. simpl in Hcats. subst cats.
  rewrite (bind_step _ _ _ _ _ H1) in H.
  assert (Hfits1 : clock_fits w1).
  { eapply clock_fits_kept; [eapply keeps_generate_categories, H1|exact Hfits]. }
  assert (H2 : generate_products s1 w1 = Raise IndexError
               \/ exists s2 w2, generate_products s1 w1 = Ok (s2, w2)).
  { destruct (categories s1) as [|c cs] eqn:Hcs.
    - destruct (generate_products_no_category s1 w1
                  ltac:(now rewrite Hc1) (proj1 Hfits1 _) Hcs) as [Hr Hok].
      destruct (Z_le_gt_dec 1 (Config.NUM_PRODUCTS (config s1))) as [Hn|Hn].
      + left. now apply Hr.
      + right. destruct Hok as [w2 Hok]; [lia|]. eauto.
    - right. apply generate_products_total.
      + now rewrite Hc1.
      + apply Hfits1.
      + rewrite Hcs. discriminate.
      + rewrite Hcs. apply Forall_lookup. intros j c' Hj.
        destruct (Hfacts j c' Hj) as (entry & He & _ & _ & _ & Hnames & _).
        intros Hnil. rewrite Hnil in Hnames. simpl in Hnames.
        apply (category_data_subcategories entry);
          [eapply list_elem_of_lookup_2, He|now symmetry]. }
  destruct H2 as [H2|(s2 & w2 & H2)].
  { unfold bind at 1 in H. rewrite H2 in H. injection H as <-. now left. }
  rewrite (bind_step _ _ _ _ _ H2) in H.
  pose proof (generate_products_facts _ _ _ _ H2) as ((Hc2 & _) & _).
  assert (Hcfg2 : config s2 = cfg) by congruence.
  destruct (generate_users_outcome s2 w2 ltac:(now rewrite Hcfg2))
    as [(s3 & w3 & H3)|(H3 & _)].
  2:{ unfold bind at 1 in H. rewrite H3 in H. injection H as <-.
      right. now left. }
  rewrite (bind_step _ _ _ _ _ H3) in H.
  pose proof (generate_users_facts _ _ _ _ H3) as ((Hc3 & _) & _).
  assert (Hcfg3 : config s3 = cfg) by congruence.
  destruct (transactions_outcome s3 w3)
    as [(s4 & w4 & new & H4 & _ & _)
       |[(H4 & _)|[(_ & Hbad)|(_ & Hbad)]]].
  3,4: rewrite Hcfg3 in Hbad; unfold timespan_fits in Hspan; lia.
  2:{ unfold bind at 1 in H. rewrite H4 in H. injection H as <-. now left. }
  rewrite (bind_step _ _ _ _ _ H4) in H.
  pose proof (transactions_keep _ _ _ _ H4) as (Hc4 & _).
  assert (Hcfg4 : config s4 = cfg) by congruence.
  assert (Hfits4 : clock_fits w4).
  { eapply clock_fits_kept; [|exact Hfits1].
    eapply same_streams_trans; [eapply keeps_generate_products, H2|].
    eapply same_streams_trans; [eapply keeps_generate_users, H3|].
    eapply keeps_generate_transactions, H4. }
  destruct (generate_sessions_outcome s4 w4 ltac:(now rewrite Hcfg4) Hfits4)
    as [(s5 & w5 & H5)|(e5 & H5 & He5)].
  2:{ unfold bind at 1 in H. rewrite H5 in H. injection H as <-.
      destruct He5 as [->| ->]; auto. }
  rewrite (bind_step _ _ _ _ _ H5) in H.
  apply bind_raise in H as [H|(files & w6 & _ & H)]; [|discriminate].
  apply save_data_raise in H as [->| ->]; auto.
Qed.

(** ** Reproducibility *)

(** C6, as the spec states it, fails: the seeds fix the [random] stream and
    Faker's texts and draws, not the clock and not [uuid4].  Run an hour
    later with the same seeds, the concrete run writes another summary
    timestamp, other product dates and, from Faker, other registration
    dates; run with other [uuid4] values, it writes other transaction ids.
    With a time span of a million days a run can end by overflow in one
    clock and complete in another: the concrete world, in 2024, cannot date
    products two million days back, and the same seeds in the year 9000
    can. *)
Lemma C6_counterexample :
  same_seed demo_world demo_world_later
  /\ same_seed demo_world demo_world_other_uuid
  /\ same_seed demo_world demo_world_9000
  /\ generate_all (init demo_config) demo_world
     = Ok (fst demo_done, demo_at (snd demo_done))
  /\ (exists w, generate_all (init demo_config) demo_world_later
                = Ok (demo_done_later, w))
  /\ (exists w, generate_all (init demo_config) demo_world_other_uuid
                = Ok (demo_done_other_uuid, w))
  /\ GenerationMetadata.timestamp
       (Summary.generation_metadata
          (dataset_summary_json (snd (fst demo_done))))
     = 1730000360000000%Z
  /\ GenerationMetadata.timestamp
       (Summary.generation_metadata
          (dataset_summary_json (snd demo_done_later)))
     = 1730003960000000%Z
  /\ Product.creation_date <$> products_json (snd (fst demo_done)) !! 0%nat
     = Some 1724816000000000%Z
  /\ Product.creation_date <$> products_json (snd demo_done_later) !! 0%nat
     = Some 1724819600000000%Z
  /\ User.registration_date <$> users_json (snd (fst demo_done)) !! 0%nat
     = Some 1722572996932928%Z
  /\ User.registration_date <$> users_json (snd demo_done_later) !! 0%nat
     = Some 1722576596932928%Z
  /\ User.email <$> users_json (snd (fst demo_done)) !! 0%nat
     = User.email <$> users_json (snd demo_done_later) !! 0%nat
  /\ Transaction.transaction_id
       <$> transactions_json (snd (fst demo_done)) !! 0%nat
     = Some "txn_001122334455"%string
  /\ Transaction.transaction_id
       <$> transactions_json (snd demo_done_other_uuid) !! 0%nat
     = Some "txn_a0b1c2d3e4f5"%string
  /\ generate_all (init long_span_config) demo_world = Raise OverflowError
  /\ (exists w, generate_all (init long_span_config) demo_world_9000
                = Ok (long_span_done, w)).
Proof.
  split; [repeat split|]. split; [repeat split|]. split; [repeat split|].
  split; [vm_compute; reflexivity|].
  split; [eexists; vm_compute; reflexivity|].
  split; [eexists; vm_compute; reflexivity|].
  do 10 (split; [vm_compute; reflexivity|]).
  eexists. vm_compute. reflexivity.
Qed.

(** C6, amended. Two runs with the same configuration and the same seeds,
    that is the same [random] stream and the same texts and draws of Faker,
    whatever their clocks and [uuid4] return, end alike unless one of them
    ends by overflow: both raise the same exception, or both write files
    that agree on every field but the dates and the ids cut from [uuid4],
    split into the same session chunks.  When the time span is between 0 and
    239720 days and both clocks read between the epoch and 180 days before
    the end of year 9999, no run ends by overflow, and the two end alike. *)
Theorem C6_seeded_reproducible cfg w1 w2 :
  same_seed w1 w2 ->
  (generate_all (init cfg) w1 = Raise OverflowError
   \/ generate_all (init cfg) w2 = Raise OverflowError
   \/ match generate_all (init cfg) w1, generate_all (init cfg) w2 with
      | Ok ((g1, f1), _), Ok ((g2, f2), _) =>
          seeded_files f1 = seeded_files f2 /\ seeded_gen g1 = seeded_gen g2
      | Raise e1, Raise e2 => e1 = e2
      | _, _ => False
      end)
  /\ (timespan_fits cfg -> clock_fits w1 -> clock_fits w2 ->
      match generate_all (init cfg) w1, generate_all (init cfg) w2 with
      | Ok ((g1, f1), _), Ok ((g2, f2), _) =>
          seeded_files f1 = seeded_files f2 /\ seeded_gen g1 = seeded_gen g2
      | Raise e1, Raise e2 => e1 = e2 /\ e1 <> OverflowError
      | _, _ => False
      end).
Proof.
  intros Hw.
  pose proof (sim_generate_all (init cfg) (init cfg) eq_refl w1 w2 Hw) as H.
  unfold overflows in H.
  assert (Hmatch :
    forall r1 r2 : res (Gen * Files * World),
      match r1, r2 with
      | Ok (a1, w1'), Ok (a2, w2') =>
          (same_seeded (fst a1) (fst a2)
           /\ seeded_files (snd a1) = seeded_files (snd a2))
          /\ same_seed w1' w2'
      | Raise e1, Raise e2 => e1 = e2
      | _, _ => False
      end ->
      match r1, r2 with
      | Ok ((g1, f1), _), Ok ((g2, f2), _) =>
          seeded_files f1 = seeded_files f2 /\ seeded_gen g1 = seeded_gen g2
      | Raise e1, Raise e2 => e1 = e2
      | _, _ => False
      end).
  { intros [[[g1 f1] v1]|e1] [[[g2 f2] v2]|e2]; try contradiction.
    - intros [[Hg Hf] _]. split; [exact Hf|exact Hg].
    - auto. }
  split.
  - destruct H as [H|[H|H]]; [now left|now right; left|].
    right. right. apply Hmatch, H.
  - intros Hspan Hfits1 Hfits2.
    pose proof (fun e => generate_all_raise cfg w1 e Hspan Hfits1) as Hr1.
    pose proof (fun e => generate_all_raise cfg w2 e Hspan Hfits2) as Hr2.
    destruct H as [H|[H|H]].
    + destruct (Hr1 _ H) as [?|[?|?]]; discriminate.
    + destruct (Hr2 _ H) as [?|[?|?]]; discriminate.
    + apply Hmatch in H.
      destruct (generate_all (init cfg) w1) as [[[g1 f1] v1]|e1],
               (generate_all (init cfg) w2) as [[[g2 f2] v2]|e2];
        try contradiction; [exact H|].
      split; [exact H|].
      destruct (Hr1 e1 eq_refl) as [->|[->| ->]]; discriminate.
Qed.

Lemma C6_seeded_reproducible_witness :
  match generate_all (init demo_config) demo_world,
        generate_all (init demo_config) demo_world_later with
  | Ok ((g1, f1), _), Ok ((g2, f2), _) =>
      seeded_files f1 = seeded_files f2 /\ seeded_gen g1 = seeded_gen g2
  | Raise e1, Raise e2 => e1 = e2 /\ e1 <> OverflowError
  | _, _ => False
  end.
Proof.
  apply (proj2 (C6_seeded_reproducible demo_config demo_world demo_world_later
                  ltac:(repeat split))).
  - apply timespan_fits_check. reflexivity.
  - apply (clock_fits_demo (0, 0, 0, 0)%nat).
  - split; intros i; cbn [demo_world_later clock fake Fake.clock].
    + apply stream_of_Forall; [now apply reading_fits_check|].
      repeat constructor; now apply reading_fits_check.
    + unfold demo_fake.
      apply (stream_of_Forall
               (fun v => reading_fits (Fake.clock v + 3600000000)));
        [now apply reading_fits_check|].
      apply Forall_forall. intros v Hv.
      apply list_elem_of_fmap in Hv as (j & -> & Hj). apply elem_of_seq in Hj.
      cbn [Fake.clock]. unfold reading_fits, datetime_max, timedelta_days. lia.
Defined.
